(** * A shallow embedding of the request-binding framework

    The development follows the Go sources of the repository:
    - the framework package (groups, registration, parse plan, executor,
      response writer),
    - the handler package (GET / POST / PUT / PATCH / DELETE helpers),
    - the openapi package (schema generation),
    - the request types of the example application.

    Go values that live behind the standard library (the response writer,
    the validator, the multipart reader, the mux) are modelled at their
    interface: every call the framework makes on them is recorded in a
    trace, and what they answer is part of the request or a parameter of
    the development ([GoLib]).  [fmt.Sscanf] with the verb %d and the
    scanner of [json.Decoder] are modelled on bytes.  Strings are strings
    of bytes; a [range] over a string decodes its runes as the Go runtime
    does ([utf8]).  Middleware lists are Go slices: windows on backing
    arrays that live in a heap, so that what [append] shares or copies is
    visible. *)

From Stdlib Require Import ZArith String Ascii List Bool Lia DecimalString.
From stdpp Require Import base option list strings gmap.

Set Warnings "-register-all,-clear-no-such-hyp".

Local Open Scope string_scope.
Local Open Scope list_scope.
Local Open Scope Z_scope.

(* ===================================================================== *)
(** ** reflect: kinds *)
(* ===================================================================== *)

Module reflect.

(** [reflect.Kind], in the order of the Go declaration. *)
Inductive Kind :=
| Invalid | Bool
| Int | Int8 | Int16 | Int32 | Int64
| Uint | Uint8 | Uint16 | Uint32 | Uint64 | Uintptr
| Float32 | Float64 | Complex64 | Complex128
| Array | Chan | Func | Interface | Map | Pointer | Slice
| String | Struct | UnsafePointer.

#[global] Instance Kind_eq_dec : EqDecision Kind.
Proof. solve_decision. Defined.

(** [reflect.Type], as far as the framework looks into it: the kind, the
    element type of containers, the method set and, for structs, the
    fields.  A struct tag is kept in its conventional form, as the
    key/value pairs that [StructTag.Lookup] scans.  Embedded fields are
    not modelled: every field is a named field. *)
Inductive Type_ :=
| Basic (k : Kind)
| InterfaceOf (methods : list string)
| SliceOf (elem : Type_)
| ArrayOf (len : nat) (elem : Type_)
| PtrTo (elem : Type_)
| MapOf (key elem : Type_)
| StructOf (name : string) (methods : list string)
           (fields : list StructField)
with StructField :=
| mkField (Name PkgPath : string) (Typ : Type_)
          (Tag : list (string * string)).

Definition Name (f : StructField) : string :=
  let '(mkField n _ _ _) := f in n.
Definition PkgPath (f : StructField) : string :=
  let '(mkField _ p _ _) := f in p.
Definition Typ (f : StructField) : Type_ :=
  let '(mkField _ _ t _) := f in t.
Definition Tag (f : StructField) : list (string * string) :=
  let '(mkField _ _ _ t) := f in t.

(** [Type.Kind()] *)
Definition KindOf (t : Type_) : Kind :=
  match t with
  | Basic k => k
  | InterfaceOf _ => Interface
  | SliceOf _ => Slice
  | ArrayOf _ _ => Array
  | PtrTo _ => Pointer
  | MapOf _ _ => Map
  | StructOf _ _ _ => Struct
  end.

(** [Type.Elem()]; [None] where Go panics *)
Definition Elem (t : Type_) : option Type_ :=
  match t with
  | SliceOf e | ArrayOf _ e | PtrTo e | MapOf _ e => Some e
  | _ => None
  end.

(** the fields of a struct type; [None] where [NumField] panics *)
Definition Fields (t : Type_) : option (list StructField) :=
  match t with
  | StructOf _ _ fs => Some fs
  | _ => None
  end.

(** [StructField.IsExported()] *)
Definition IsExported (f : StructField) : bool :=
  bool_decide (PkgPath f = EmptyString).

(** [StructTag.Lookup] and [StructTag.Get] *)
Fixpoint Lookup (tag : list (string * string)) (key : string)
  : option string :=
  match tag with
  | [] => None
  | (k, v) :: tag' => if bool_decide (k = key) then Some v
                      else Lookup tag' key
  end.

Definition Get (tag : list (string * string)) (key : string) : string :=
  default EmptyString (Lookup tag key).

(** the method set of a type: value methods of a struct are also methods
    of the pointer to it *)
Definition Methods (t : Type_) : list string :=
  match t with
  | StructOf _ ms _ | InterfaceOf ms => ms
  | PtrTo (StructOf _ ms _) => ms
  | _ => []
  end.

(** [t.Implements(i)] for an interface with the methods [ms] *)
Definition Implements (t : Type_) (ms : list string) : bool :=
  forallb (fun m => bool_decide (m ∈ Methods t)) ms.

(** the name of a defined type (empty for type literals) *)
Definition NameOf (t : Type_) : string :=
  match t with
  | StructOf n _ _ => n
  | _ => EmptyString
  end.

(** [reflect.TypeOf] of the zero value of a variable of the static type
    [t]: the zero value of an interface type is the nil interface, and
    [TypeOf] gives nil ([None]) for it. *)
Definition TypeOfZero (t : Type_) : option Type_ :=
  match t with
  | InterfaceOf _ => None
  | _ => Some t
  end.

End reflect.

(** [Kind.String()] *)
Definition Kind_String (k : reflect.Kind) : string :=
  match k with
  | reflect.Invalid => "invalid" | reflect.Bool => "bool"
  | reflect.Int => "int" | reflect.Int8 => "int8" | reflect.Int16 => "int16"
  | reflect.Int32 => "int32" | reflect.Int64 => "int64"
  | reflect.Uint => "uint" | reflect.Uint8 => "uint8"
  | reflect.Uint16 => "uint16" | reflect.Uint32 => "uint32"
  | reflect.Uint64 => "uint64" | reflect.Uintptr => "uintptr"
  | reflect.Float32 => "float32" | reflect.Float64 => "float64"
  | reflect.Complex64 => "complex64" | reflect.Complex128 => "complex128"
  | reflect.Array => "array" | reflect.Chan => "chan" | reflect.Func => "func"
  | reflect.Interface => "interface" | reflect.Map => "map"
  | reflect.Pointer => "ptr" | reflect.Slice => "slice"
  | reflect.String => "string" | reflect.Struct => "struct"
  | reflect.UnsafePointer => "unsafe.Pointer"
  end.

(** Width in bits of the integer kinds ([int] and [uint] are 64 bits wide
    on the 64-bit platforms the servers run on). *)
Definition intBits (k : reflect.Kind) : option Z :=
  match k with
  | reflect.Int | reflect.Int64 => Some 64
  | reflect.Int32 => Some 32 | reflect.Int16 => Some 16
  | reflect.Int8 => Some 8
  | _ => None
  end.

Definition uintBits (k : reflect.Kind) : option Z :=
  match k with
  | reflect.Uint | reflect.Uint64 | reflect.Uintptr => Some 64
  | reflect.Uint32 => Some 32 | reflect.Uint16 => Some 16
  | reflect.Uint8 => Some 8
  | _ => None
  end.

(** Conversion of an [int64] to a [w]-bit signed integer: the low [w] bits,
    read in two's complement. *)
Definition wrapSigned (w x : Z) : Z :=
  (x + 2 ^ (w - 1)) mod 2 ^ w - 2 ^ (w - 1).

Definition wrapUnsigned (w x : Z) : Z := x mod 2 ^ w.

(* ===================================================================== *)
(** ** fmt.Sscanf with the verb %d *)
(* ===================================================================== *)

Module fmt.

Definition bytes (s : string) : list N :=
  List.map N_of_ascii (list_ascii_of_string s).

(** [SkipSpace] of the scanner that [Sscanf] builds (newlines are not
    spaces there): [None] is the "unexpected newline" failure.  The runes
    of fmt's space table are matched in their UTF-8 encoding. *)
Fixpoint SkipSpace (l : list N) : option (list N) :=
  match l with
  | 10%N :: _ => None
  | 9%N :: r | 11%N :: r | 12%N :: r | 13%N :: r | 32%N :: r => SkipSpace r
  | 194%N :: 133%N :: r | 194%N :: 160%N :: r => SkipSpace r
  | 225%N :: 154%N :: 128%N :: r => SkipSpace r
  | 226%N :: 128%N :: x :: r =>
      if ((128 <=? x) && (x <=? 138))%N || (x =? 168)%N || (x =? 169)%N
         || (x =? 175)%N
      then SkipSpace r else Some l
  | 226%N :: 129%N :: 159%N :: r => SkipSpace r
  | 227%N :: 128%N :: 128%N :: r => SkipSpace r
  | _ => Some l
  end.

Definition isDigit (b : N) : bool := ((48 <=? b) && (b <=? 57))%N.

(** the run of decimal digits at the head of the input *)
Fixpoint digits (l : list N) : list N :=
  match l with
  | b :: r => if isDigit b then b :: digits r else []
  | [] => []
  end.

Definition digitsValue (ds : list N) : Z :=
  fold_left (fun acc d => 10 * acc + (Z.of_N d - 48)) ds 0.

(** [scanInt 'd' 64]: skip space, fail at the end of the input, accept
    one sign, require a digit, take the digits and hand the token to
    [strconv.ParseInt(tok, 10, 64)], which fails out of range.  Input left
    after the token is not looked at. *)
Definition scanInt (input : list N) : option Z :=
  l ← SkipSpace input;
  match l with
  | [] => None
  | b :: r =>
      let '(neg, l') :=
        if (b =? 45)%N then (true, r)
        else if (b =? 43)%N then (false, r) else (false, l) in
      match digits l' with
      | [] => None
      | ds =>
          let n := digitsValue ds in
          if neg then (if n <=? 2 ^ 63 then Some (- n) else None)
          else (if n <=? 2 ^ 63 - 1 then Some n else None)
      end
  end.

(** [scanUint 'd' 64]: as [scanInt], without a sign, through
    [strconv.ParseUint(tok, 10, 64)]. *)
Definition scanUint (input : list N) : option Z :=
  l ← SkipSpace input;
  match digits l with
  | [] => None
  | ds =>
      let n := digitsValue ds in
      if n <=? 2 ^ 64 - 1 then Some n else None
  end.

(** [fmt.Sscanf(value, "%d", &intVal)] with [intVal] an [int64]:
    [Some n] when err is nil. *)
Definition Sscanf_d_int64 (value : string) : option Z :=
  scanInt (bytes value).

(** [fmt.Sscanf(value, "%d", &uintVal)] with [uintVal] a [uint64]. *)
Definition Sscanf_d_uint64 (value : string) : option Z :=
  scanUint (bytes value).

(** [%d] of a non-negative int *)
Definition Sprint_d (n : nat) : string :=
  NilEmpty.string_of_uint (Nat.to_uint n).

End fmt.


(* ===================================================================== *)
(** ** unicode/utf8: the runes of a string *)
(* ===================================================================== *)

Module utf8.

(** [utf8.RuneError], the rune U+FFFD *)
Definition RuneError : N := 65533.

(** a continuation byte, 0x80 to 0xBF *)
Definition continuation (b : N) : bool := ((128 <=? b) && (b <=? 191))%N.

(** the second bytes that the decoder accepts after the lead byte [b0]:
    0xE0 wants 0xA0 to 0xBF, 0xED wants 0x80 to 0x9F, 0xF0 wants 0x90 to
    0xBF, 0xF4 wants 0x80 to 0x8F, the other lead bytes a continuation
    byte *)
Definition accepts (b0 b1 : N) : bool :=
  (if b0 =? 224 then (160 <=? b1) && (b1 <=? 191)
   else if b0 =? 237 then (128 <=? b1) && (b1 <=? 159)
   else if b0 =? 240 then (144 <=? b1) && (b1 <=? 191)
   else if b0 =? 244 then (128 <=? b1) && (b1 <=? 143)
   else continuation b1)%N.

(** [utf8.DecodeRuneInString]: the first rune of [s] and its width in
    bytes; an encoding that is invalid or cut short gives [RuneError] and
    the width 1, the empty string [RuneError] and the width 0.  The lead
    bytes 0xC2 to 0xDF open two bytes, 0xE0 to 0xEF three, 0xF0 to 0xF4
    four. *)
Definition DecodeRuneInString (s : string) : N * nat :=
  match s with
  | EmptyString => (RuneError, 0%nat)
  | String c0 rest =>
      let b0 := N_of_ascii c0 in
      (if b0 <? 128 then (b0, 1%nat)
       else if (194 <=? b0) && (b0 <=? 223) then
         match rest with
         | String c1 _ =>
             let b1 := N_of_ascii c1 in
             if continuation b1
             then ((b0 - 192) * 64 + (b1 - 128), 2%nat)
             else (RuneError, 1%nat)
         | _ => (RuneError, 1%nat)
         end
       else if (224 <=? b0) && (b0 <=? 239) then
         match rest with
         | String c1 (String c2 _) =>
             let b1 := N_of_ascii c1 in
             let b2 := N_of_ascii c2 in
             if accepts b0 b1 && continuation b2
             then ((b0 - 224) * 4096 + (b1 - 128) * 64 + (b2 - 128), 3%nat)
             else (RuneError, 1%nat)
         | _ => (RuneError, 1%nat)
         end
       else if (240 <=? b0) && (b0 <=? 244) then
         match rest with
         | String c1 (String c2 (String c3 _)) =>
             let b1 := N_of_ascii c1 in
             let b2 := N_of_ascii c2 in
             let b3 := N_of_ascii c3 in
             if accepts b0 b1 && continuation b2 && continuation b3
             then ((b0 - 240) * 262144 + (b1 - 128) * 4096
                   + (b2 - 128) * 64 + (b3 - 128), 4%nat)
             else (RuneError, 1%nat)
         | _ => (RuneError, 1%nat)
         end
       else (RuneError, 1%nat))%N
  end.

(** The runes that [for _, char := range s] yields: the rune decoded at
    each position where a rune starts; after a rune of the width [w] the
    loop goes on [w] bytes further, so [skip] bytes are passed over. *)
Fixpoint range_from (skip : nat) (s : string) : list N :=
  match s with
  | EmptyString => []
  | String _ rest =>
      match skip with
      | S skip' => range_from skip' rest
      | O =>
          let '(char, width) := DecodeRuneInString s in
          char :: range_from (width - 1) rest
      end
  end.

Definition range (s : string) : list N := range_from 0 s.

(** the UTF-8 encoding of a rune; a surrogate or a rune above U+10FFFF is
    encoded as [RuneError] *)
Definition encode (r : N) : list N :=
  (if r <? 128 then [r]
   else if r <? 2048 then [192 + r / 64; 128 + r mod 64]
   else if ((55296 <=? r) && (r <=? 57343)) || (1114111 <? r)
   then [239; 191; 189]
   else if r <? 65536
   then [224 + r / 4096; 128 + (r / 64) mod 64; 128 + r mod 64]
   else [240 + r / 262144; 128 + (r / 4096) mod 64; 128 + (r / 64) mod 64;
         128 + r mod 64])%N.

(** [string(r)] for a rune *)
Definition string_of_rune (r : N) : string :=
  string_of_list_ascii (ascii_of_N <$> encode r).

(** [utf8.ValidString]: no position where a rune starts holds an invalid
    encoding *)
Fixpoint valid_from (skip : nat) (s : string) : bool :=
  match s with
  | EmptyString => true
  | String _ rest =>
      match skip with
      | S skip' => valid_from skip' rest
      | O =>
          let '(char, width) := DecodeRuneInString s in
          negb ((char =? RuneError)%N && (width =? 1)%nat)
          && valid_from (width - 1) rest
      end
  end.

Definition ValidString (s : string) : bool := valid_from 0 s.

End utf8.


(* ===================================================================== *)
(** ** encoding/json: the scanner of [Decoder.Decode] *)
(* ===================================================================== *)

Module json.

(** A JSON value as the decoder's scanner delimits it.  String tokens
    (keys and string values) and numbers keep their literal bytes. *)
Inductive Value :=
| JNull
| JBool (b : bool)
| JNumber (lit : list N)
| JString (raw : list N)
| JArray (elems : list Value)
| JObject (members : list (list N * Value)).

Inductive ScanError :=
| EOF                 (* io.EOF: nothing but white space in the stream *)
| UnexpectedEOF       (* io.ErrUnexpectedEOF: the value is cut short *)
| SyntaxError (at_ : list N)   (* a *json.SyntaxError, at this input *)
| OutOfFuel.

Definition Scan (A : Type) : Type := (A * list N) + ScanError.

Definition isSpace (b : N) : bool :=
  ((b =? 32) || (b =? 9) || (b =? 13) || (b =? 10))%N.

Fixpoint skip (l : list N) : list N :=
  match l with
  | b :: r => if isSpace b then skip r else l
  | [] => []
  end.

Definition isHex (b : N) : bool :=
  (((48 <=? b) && (b <=? 57)) || ((97 <=? b) && (b <=? 102))
   || ((65 <=? b) && (b <=? 70)))%N.

Definition isEscape (b : N) : bool :=
  ((b =? 98) || (b =? 102) || (b =? 110) || (b =? 114) || (b =? 116)
   || (b =? 92) || (b =? 47) || (b =? 34))%N.

Definition push (pre : list N) (r : Scan (list N)) : Scan (list N) :=
  match r with
  | inl (s, rest) => inl (pre ++ s, rest)
  | inr e => inr e
  end.

(** The input after an opening quote: the literal up to the closing
    quote.  Control bytes and unknown escapes are syntax errors. *)
Fixpoint scanString (l : list N) : Scan (list N) :=
  match l with
  | [] => inr UnexpectedEOF
  | b :: r =>
      if (b =? 34)%N then inl ([], r)
      else if (b =? 92)%N then
        match r with
        | [] => inr UnexpectedEOF
        | e :: r1 =>
            if (e =? 117)%N then
              match r1 with
              | h1 :: h2 :: h3 :: h4 :: r2 =>
                  if isHex h1 && isHex h2 && isHex h3 && isHex h4
                  then push [92; 117; h1; h2; h3; h4]%N (scanString r2)
                  else inr (SyntaxError r1)
              | _ => if forallb isHex r1 then inr UnexpectedEOF
                     else inr (SyntaxError r1)
              end
            else if isEscape e then push [92%N; e] (scanString r1)
            else inr (SyntaxError r)
        end
      else if (b <? 32)%N then inr (SyntaxError l)
      else push [b] (scanString r)
  end.

Definition isDigit (b : N) : bool := ((48 <=? b) && (b <=? 57))%N.

Fixpoint digits (l : list N) : list N * list N :=
  match l with
  | b :: r => if isDigit b then let '(ds, r') := digits r in (b :: ds, r')
              else ([], l)
  | [] => ([], [])
  end.

(** at least one digit *)
Definition digits1 (l : list N) : Scan (list N) :=
  match l with
  | [] => inr UnexpectedEOF
  | b :: _ => if isDigit b then inl (digits l) else inr (SyntaxError l)
  end.

(** integer part: [0] or a digit [1-9] followed by digits *)
Definition scanInt (l : list N) : Scan (list N) :=
  match l with
  | [] => inr UnexpectedEOF
  | b :: r =>
      if (b =? 48)%N then inl ([48%N], r)
      else if isDigit b then inl (digits l) else inr (SyntaxError l)
  end.

Definition scanFrac (l : list N) : Scan (list N) :=
  match l with
  | b :: r => if (b =? 46)%N then push [46%N] (digits1 r) else inl ([], l)
  | [] => inl ([], l)
  end.

Definition scanExp (l : list N) : Scan (list N) :=
  match l with
  | e :: r =>
      if ((e =? 101) || (e =? 69))%N then
        match r with
        | s :: r' =>
            if ((s =? 43) || (s =? 45))%N then push [e; s] (digits1 r')
            else push [e] (digits1 r)
        | [] => inr UnexpectedEOF
        end
      else inl ([], l)
  | [] => inl ([], l)
  end.

Definition scanNumber (l : list N) : Scan (list N) :=
  let '(sign, l1) :=
    match l with
    | b :: r => if (b =? 45)%N then ([45%N], r) else ([], l)
    | [] => ([], l)
    end in
  match scanInt l1 with
  | inr e => inr e
  | inl (i, l2) =>
      match scanFrac l2 with
      | inr e => inr e
      | inl (f, l3) => push (sign ++ i ++ f) (scanExp l3)
      end
  end.

(** the rest of a literal name ([rue], [alse], [ull]) *)
Fixpoint scanLiteral (name l : list N) : Scan unit :=
  match name, l with
  | [], _ => inl (tt, l)
  | _ :: _, [] => inr UnexpectedEOF
  | c :: name', b :: r =>
      if (b =? c)%N then scanLiteral name' r else inr (SyntaxError l)
  end.

(** a literal name whose first byte has been read *)
Definition literal (name : list N) (v : Value) (l : list N) : Scan Value :=
  match scanLiteral name l with
  | inl (_, r) => inl (v, r)
  | inr e => inr e
  end.

(** One value, the members of an object after its brace, the elements of
    an array after its bracket.  [fuel] bounds the depth of the calls; see
    [readValue]. *)
Fixpoint scanValue (fuel : nat) (l : list N) : Scan Value :=
  match fuel with
  | O => inr OutOfFuel
  | S fuel =>
      match skip l with
      | [] => inr UnexpectedEOF
      | b :: r =>
          if (b =? 123)%N then               (* an object *)
            match skip r with
            | [] => scanMembers fuel r []
            | c :: r' => if (c =? 125)%N then inl (JObject [], r')
                         else scanMembers fuel r []
            end
          else if (b =? 91)%N then           (* an array *)
            match skip r with
            | [] => scanElements fuel r []
            | c :: r' => if (c =? 93)%N then inl (JArray [], r')
                         else scanElements fuel r []
            end
          else if (b =? 34)%N then           (* a string *)
            match scanString r with
            | inl (s, r') => inl (JString s, r')
            | inr e => inr e
            end
          else if (b =? 116)%N then literal [114; 117; 101]%N (JBool true) r
          else if (b =? 102)%N
          then literal [97; 108; 115; 101]%N (JBool false) r
          else if (b =? 110)%N then literal [117; 108; 108]%N JNull r
          else if isDigit b || (b =? 45)%N then
            match scanNumber (b :: r) with
            | inl (n, r') => inl (JNumber n, r')
            | inr e => inr e
            end
          else inr (SyntaxError (b :: r))
      end
  end
with scanMembers (fuel : nat) (l : list N) (acc : list (list N * Value))
  : Scan Value :=
  match fuel with
  | O => inr OutOfFuel
  | S fuel =>
      match skip l with
      | [] => inr UnexpectedEOF
      | q :: r =>
          if negb (q =? 34)%N then inr (SyntaxError (q :: r))
          else
            match scanString r with
            | inr e => inr e
            | inl (k, r1) =>
                match skip r1 with
                | [] => inr UnexpectedEOF
                | c :: r2 =>
                    if negb (c =? 58)%N then inr (SyntaxError (c :: r2))
                    else
                      match scanValue fuel r2 with
                      | inr e => inr e
                      | inl (v, r3) =>
                          match skip r3 with
                          | [] => inr UnexpectedEOF
                          | d :: r4 =>
                              if (d =? 44)%N
                              then scanMembers fuel r4 (acc ++ [(k, v)])
                              else if (d =? 125)%N
                              then inl (JObject (acc ++ [(k, v)]), r4)
                              else inr (SyntaxError (d :: r4))
                          end
                      end
                end
            end
      end
  end
with scanElements (fuel : nat) (l : list N) (acc : list Value)
  : Scan Value :=
  match fuel with
  | O => inr OutOfFuel
  | S fuel =>
      match scanValue fuel l with
      | inr e => inr e
      | inl (v, r1) =>
          match skip r1 with
          | [] => inr UnexpectedEOF
          | d :: r2 =>
              if (d =? 44)%N then scanElements fuel r2 (acc ++ [v])
              else if (d =? 93)%N then inl (JArray (acc ++ [v]), r2)
              else inr (SyntaxError (d :: r2))
          end
      end
  end.

(** [readValue]: the first JSON value of the stream and the bytes that
    follow it.  The bytes after the end of the value are not looked at
    (the next call of Decode would start there).  The fuel is enough for
    every input ([readValue_fuel]). *)
Definition readValue (body : list N) : Scan Value :=
  match skip body with
  | [] => inr EOF
  | _ => scanValue (S (2 * List.length body)) body
  end.

(** *** Storing the value into a Go target *)

Inductive DecodeError :=
| ScanFailed (e : ScanError)
| UnknownField (key : string)          (* json: unknown field "key" *)
| UnmarshalTypeError (t : reflect.Type_) (v : Value).

Section Unmarshal.

(** What encoding/json does below the level of this model: [unquote]
    turns the literal of a string token into the string (escapes
    resolved, coerced to UTF-8), [foldName] is the case folding of the
    second, case-insensitive round of field matching, and [storeScalar]
    says whether a string, number or boolean can be stored in a target
    type that is neither struct, map, slice, array nor pointer. *)
Variable unquote : list N -> string.
Variable foldName : string -> string.
Variable storeScalar : reflect.Type_ -> Value -> bool.

(** [d.disallowUnknownFields] *)
Variable disallowUnknownFields : bool.

Definition isValidTagByte (b : N) : bool :=
  ((128 <=? b) || ((48 <=? b) && (b <=? 57)) || ((65 <=? b) && (b <=? 90))
   || ((97 <=? b) && (b <=? 122))
   || bool_decide (b ∈ fmt.bytes "!#$%&()*+-./:;<=>?@[]^_{|}~ "))%N.

Definition isValidTag (s : string) : bool :=
  negb (bool_decide (s = EmptyString))
  && forallb isValidTagByte (fmt.bytes s).

(** the part of the json tag before the first comma *)
Fixpoint tagName (s : string) : string :=
  match s with
  | EmptyString => EmptyString
  | String c s' => if bool_decide (c = ","%char) then EmptyString
                   else String c (tagName s')
  end.

(** The JSON name of a field, [None] for a field the codec skips. *)
Definition fieldName (f : reflect.StructField) : option string :=
  if negb (reflect.IsExported f) then None
  else
    let tag := reflect.Get (reflect.Tag f) "json" in
    if bool_decide (tag = "-") then None
    else
      let name := tagName tag in
      Some (if isValidTag name then name else reflect.Name f).

Definition matches (p : string -> bool) (f : reflect.StructField) : bool :=
  match fieldName f with
  | Some n => p n
  | None => false
  end.

(** the field a key denotes: exact match first, folded match second *)
Definition lookupField (fields : list reflect.StructField) (key : string)
  : option reflect.StructField :=
  match List.find (matches (fun n => bool_decide (n = key))) fields with
  | Some f => Some f
  | None =>
      List.find
        (matches (fun n => bool_decide (foldName n = foldName key)))
        fields
  end.

Fixpoint indirect (t : reflect.Type_) : reflect.Type_ :=
  match t with
  | reflect.PtrTo t' => indirect t'
  | _ => t
  end.

(** The errors that storing [v] into a target of type [t] saves, in
    order.  A null never fails; an object goes into a struct field by
    field, and a key without a field is an error when unknown fields
    are disallowed. *)
Fixpoint store (t : reflect.Type_) (v : Value) {struct v}
  : list DecodeError :=
  match v with
  | JNull => []
  | JObject members =>
      match indirect t with
      | reflect.StructOf _ _ fields =>
          List.flat_map
            (fun kv =>
               match kv with
               | (k, v') =>
                   match lookupField fields (unquote k) with
                   | Some f => store (reflect.Typ f) v'
                   | None => if disallowUnknownFields
                             then [UnknownField (unquote k)] else []
                   end
               end) members
      | reflect.MapOf kt et =>
          List.flat_map
            (fun kv =>
               match kv with
               | (k, v') =>
                   (if storeScalar kt (JString k) then []
                    else [UnmarshalTypeError kt (JString k)])
                     ++ store et v'
               end) members
      | reflect.InterfaceOf [] => []
      | t' => [UnmarshalTypeError t' v]
      end
  | JArray elems =>
      match indirect t with
      | reflect.SliceOf et => List.flat_map (store et) elems
      | reflect.ArrayOf n et =>
          (fix firstn (l : list Value) (n : nat) {struct l}
             : list DecodeError :=
             match l, n with
             | x :: l', S n' => store et x ++ firstn l' n'
             | _, _ => []
             end) elems n
      | reflect.InterfaceOf [] => []
      | t' => [UnmarshalTypeError t' v]
      end
  | _ =>
      match indirect t with
      | reflect.InterfaceOf [] => []
      | t' => if storeScalar t' v then [] else [UnmarshalTypeError t' v]
      end
  end.

(** [Decoder.Decode] into a pointer to a fresh value of type [t]: the
    first value of the stream is read, then stored; the first saved
    error is the result. *)
Definition Decode (t : reflect.Type_) (body : list N)
  : Value + DecodeError :=
  match readValue body with
  | inr e => inr (ScanFailed e)
  | inl (v, _) =>
      match store t v with
      | [] => inl v
      | e :: _ => inr e
      end
  end.

End Unmarshal.

End json.


(* ===================================================================== *)
(** ** The Go runtime and standard library *)
(* ===================================================================== *)

(** What the Go runtime and standard library do below the level of this
    model: float64 with the scanning and narrowing of floats, the internals
    of encoding/json (see [json.store]) with the text of its errors, the
    growth of slices and the patterns that a ServeMux refuses. *)
Class GoLib := {
  float64 : Type;
  Sscanf_f : string -> option float64;     (* Sscanf(value, "%f", _) *)
  toFloat32 : float64 -> float64;          (* float32(x) *)
  unquote : list N -> string;
  foldName : string -> string;
  storeScalar : reflect.Type_ -> json.Value -> bool;
  json_Error : json.DecodeError -> string;
  float64_zero : float64;                  (* the zero value of float64 *)
  growslice : nat -> nat -> nat;
    (* the capacity that append adds beyond the needed length when it
       allocates: a function of the old capacity and the needed length *)
  mux_rejects : list string -> string -> bool;
    (* whether ServeMux.Handle panics on a pattern, given the patterns
       registered before: the pattern is invalid or conflicts with one *)
}.

(* ===================================================================== *)
(** ** Slices *)
(* ===================================================================== *)

(** A slice is a window on a backing array: the address of the array, the
    length and the capacity.  The framework never re-slices, so a window
    always starts at the first cell.  The nil slice has capacity 0. *)
Record slice := {
  array : nat;
  len : nat;
  cap : nat;
}.

Definition nilSlice : slice := {| array := 0; len := 0; cap := 0 |}.

Section Slices.

Context `{GoLib} {A : Type}.

(** the elements of a slice *)
Definition read (arrays : list (list A)) (s : slice) : list A :=
  take (len s) (default [] (arrays !! array s)).

(** [append(s, xs...)]: without values the slice comes back as it is;
    otherwise the values are written in place when the capacity allows
    it, and in a new array when it does not.  [zero] fills the cells of a
    new array past the length. *)
Definition append (zero : A) (arrays : list (list A)) (s : slice)
    (xs : list A) : list (list A) * slice :=
  let n := (len s + length xs)%nat in
  match xs with
  | [] => (arrays, s)
  | _ =>
      if (n <=? cap s)%nat then
        (alter (fun a => take (len s) a ++ xs ++ drop n a) (array s) arrays,
         {| array := array s; len := n; cap := cap s |})
      else
        let c := (n + growslice (cap s) n)%nat in
        (arrays ++ [read arrays s ++ xs ++ replicate (c - n) zero],
         {| array := length arrays; len := n; cap := c |})
  end.

(** A slice is sound in a heap when its length is within its capacity
    and, unless the capacity is 0, its array exists and has the size of
    the capacity. *)
Definition sliceOK (arrays : list (list A)) (s : slice) : Prop :=
  (len s <= cap s)%nat
  /\ ((0 < cap s)%nat ->
      exists a, arrays !! array s = Some a /\ length a = cap s).

End Slices.

(* ===================================================================== *)
(** ** The framework package: data *)
(* ===================================================================== *)

Module framework.

(** [ValidationError] *)
Record ValidationError := {
  Field : string;
  SourceType : string;
  Errors : list string;
}.

(** Go errors as the framework builds them.  [wrapError msg err] is
    [fmt.Errorf(msg ++ "%w", err)]: its text is [msg] followed by the text
    of [err], and it is not a validationErrorWrapper. *)
Inductive error :=
| errorString (s : string)
| wrapError (msg : string) (err : error)
| jsonError (e : json.DecodeError)
| validationErrorWrapper (validationErrors : list ValidationError).

(** The outcome of a Go call that returns an error or panics. *)
Inductive Res (A : Type) :=
| Ok (a : A)
| Err (e : error)
| Panic (why : string).
Arguments Ok {A} a.
Arguments Err {A} e.
Arguments Panic {A} why.

(** [multipart.FileHeader]: [Open] yields the content or fails. *)
Record FileHeader := {
  fh_Filename : string;
  fh_Size : Z;
  fh_Open : string + error;
}.

(** [FileField] *)
Record FileField := {
  Filename : string;
  Size : Z;
  Header : FileHeader;
  Content : string;
}.

(** [StatusResponse[Resp]] as a type *)
Definition StatusResponse (Resp : reflect.Type_) : reflect.Type_ :=
  reflect.StructOf "framework.StatusResponse" []
    [reflect.mkField "Code" "" (reflect.Basic reflect.Int) [];
     reflect.mkField "Body" "" Resp []].

(** the type [FileField], with its marker method *)
Definition FileFieldType : reflect.Type_ :=
  reflect.StructOf "framework.FileField" ["isFileUpload"]
    [reflect.mkField "Filename" "" (reflect.Basic reflect.String) [];
     reflect.mkField "Size" "" (reflect.Basic reflect.Int64) [];
     reflect.mkField "Header" ""
       (reflect.PtrTo (reflect.StructOf "multipart.FileHeader" [] [])) [];
     reflect.mkField "Content" "" (reflect.InterfaceOf ["Read"; "Close"]) []].

(** the interfaces [FileUpload] and [Responder], by their method sets *)
Definition FileUpload : list string := ["isFileUpload"].
Definition Responder : list string := ["WriteResponse"].

(** What a response value looks like to the JSON encoder. *)
Inductive Data :=
| DNil
| DValue (repr : string)
| DStatusResponse (Code : Z) (Body : Data).

(** The value handed to [json.NewEncoder(w).Encode]. *)
Inductive Payload :=
| ErrorResponse (Error : string) (Details : list (string * string))
| ValidationErrorResponse (Error : string) (Fields : list ValidationError)
| Response (d : Data).

(** [validator.FieldError], as far as the framework reads it *)
Record FieldError := {
  fe_Tag : string;
  fe_StructNamespace : string;
  fe_Field : string;
}.

Section Framework.

Context `{GoLib}.

(** The value of a field of the request struct.  [VZero] is the zero
    value of the field's type: a field that was never set (for a slice,
    the nil slice). *)
Inductive Value :=
| VZero
| VBool (b : bool)
| VInt (n : Z)
| VUint (n : Z)
| VFloat (x : float64)
| VString (s : string)
| VSlice (elems : list Value)
| VFile (f : FileField)
| VBody (t : reflect.Type_) (j : json.Value).

(** the elements of a slice-typed field *)
Definition elements (v : Value) : list Value :=
  match v with
  | VSlice l => l
  | _ => []
  end.

(** The request struct under construction.  [(i, Some j)] is field [j]
    of the group struct at field [i]; [(i, None)] is field [i] itself. *)
Definition Addr : Type := nat * option nat.
Definition ReqValue : Type := gmap Addr Value.

Definition Field_ (reqValue : ReqValue) (a : Addr) : Value :=
  default VZero (reqValue !! a).

(** [err.Error()] *)
Fixpoint Error (e : error) : string :=
  match e with
  | errorString s => s
  | wrapError msg err => msg +:+ Error err
  | jsonError e => json_Error e
  | validationErrorWrapper _ => "validation failed"
  end.

(** *** The request, as the transport hands it over *)

Record Request := {
  Header_Get : string -> string;          (* r.Header.Get(name) *)
  PathValue : string -> string;           (* r.PathValue(name) *)
  URL_Query : string -> list string;      (* r.URL.Query()[name] *)
  Body : option string;                   (* r.Body: nil, or its bytes *)
  ParseMultipartForm : option error;      (* r.ParseMultipartForm(32 << 20) *)
  MultipartForm_File : string -> list FileHeader;
                                          (* r.MultipartForm.File[name] *)
}.

(** [r.URL.Query().Get(name)]: the first value, or the empty string *)
Definition Query_Get (r : Request) (name : string) : string :=
  match URL_Query r name with
  | v :: _ => v
  | [] => ""
  end.

Inductive FormFileError :=
| ErrMissingFile
| OpenError (err : error).

(** [r.FormFile(key)] on a request whose form has been parsed *)
Definition FormFile (r : Request) (key : string)
  : (string * FileHeader) + FormFileError :=
  match MultipartForm_File r key with
  | fh :: _ =>
      match fh_Open fh with
      | inl f => inl (f, fh)
      | inr err => inr (OpenError err)
      end
  | [] => inr ErrMissingFile
  end.

(** *** The trace of calls on the collaborators *)

Inductive Event :=
| HeaderSet (key value : string)      (* w.Header().Set(key, value) *)
| WriteHeader (code : Z)              (* w.WriteHeader(code) *)
| Encode (p : Payload)                (* json.NewEncoder(w).Encode(p) *)
| ValidatorStruct (v : ReqValue)      (* f.validator.Struct(v) *)
| HandlerCall (v : ReqValue)          (* handler(ctx, v) *)
| Note (s : string).                  (* anything else a middleware does *)

Definition Trace : Type := list Event.

(** Computations that call collaborators and may fail. *)
Definition M (A : Type) : Type := Trace -> Res A * Trace.

Definition ret {A} (a : A) : M A := fun tr => (Ok a, tr).

Definition bind {A B} (m : M A) (k : A -> M B) : M B :=
  fun tr =>
    match m tr with
    | (Ok a, tr') => k a tr'
    | (Err e, tr') => (Err e, tr')
    | (Panic why, tr') => (Panic why, tr')
    end.

Definition lift {A} (r : Res A) : M A := fun tr => (r, tr).

Definition emit (e : Event) : M unit := fun tr => (Ok tt, tr ++ [e]).

Notation "x <- m ;; k" := (bind m (fun x => k))
  (at level 100, m at next level, right associativity).

(** *** Field setters *)

(** A setter acts on a [reflect.Value]; the model hands it the kind of
    that value and gets the value to store. *)
Definition Setter : Type := reflect.Kind -> string -> Res Value.

Definition SetString (field : reflect.Kind) (x : string) : Res Value :=
  match field with
  | reflect.String => Ok (VString x)
  | _ => Panic "reflect: call of reflect.Value.SetString on non-string Value"
  end.

Definition SetInt (field : reflect.Kind) (x : Z) : Res Value :=
  match intBits field with
  | Some w => Ok (VInt (wrapSigned w x))
  | None => Panic "reflect: call of reflect.Value.SetInt on non-int Value"
  end.

Definition SetUint (field : reflect.Kind) (x : Z) : Res Value :=
  match uintBits field with
  | Some w => Ok (VUint (wrapUnsigned w x))
  | None => Panic "reflect: call of reflect.Value.SetUint on non-uint Value"
  end.

Definition SetBool (field : reflect.Kind) (x : bool) : Res Value :=
  match field with
  | reflect.Bool => Ok (VBool x)
  | _ => Panic "reflect: call of reflect.Value.SetBool on non-bool Value"
  end.

Definition SetFloat (field : reflect.Kind) (x : float64) : Res Value :=
  match field with
  | reflect.Float32 => Ok (VFloat (toFloat32 x))
  | reflect.Float64 => Ok (VFloat x)
  | _ => Panic "reflect: call of reflect.Value.SetFloat on non-float Value"
  end.

(** the boolean that the bool setter stores *)
Definition parseBool (value : string) : bool :=
  bool_decide (value = "true") || bool_decide (value = "1").

(** [createFieldSetter] *)
Definition createFieldSetter (kind : reflect.Kind) : Setter :=
  match kind with
  | reflect.String =>
      fun field value => SetString field value
  | reflect.Int | reflect.Int8 | reflect.Int16 | reflect.Int32
  | reflect.Int64 =>
      fun field value =>
        match fmt.Sscanf_d_int64 value with
        | None => Err (errorString "invalid integer value")
        | Some intVal => SetInt field intVal
        end
  | reflect.Uint | reflect.Uint8 | reflect.Uint16 | reflect.Uint32
  | reflect.Uint64 =>
      fun field value =>
        match fmt.Sscanf_d_uint64 value with
        | None => Err (errorString "invalid unsigned integer value")
        | Some uintVal => SetUint field uintVal
        end
  | reflect.Bool =>
      fun field value => SetBool field (parseBool value)
  | reflect.Float32 | reflect.Float64 =>
      fun field value =>
        match Sscanf_f value with
        | None => Err (errorString "invalid float value")
        | Some floatVal => SetFloat field floatVal
        end
  | _ =>
      fun _ _ =>
        Err (errorString ("unsupported field type: " +:+ Kind_String kind))
  end.

(** *** The parse plan *)

(** [fieldParser]; a nil [setter] is [None] *)
Record fieldParser := {
  fieldIndex : nat;
  nestedFieldIndex : nat;
  isNested : bool;
  fieldType : reflect.Type_;
  fieldKind : reflect.Kind;
  sourceType : string;
  sourceName : string;
  setter : option Setter;
  isSlice : bool;
  isFileField : bool;
}.

(** [requestParser] *)
Record requestParser := {
  requestType : reflect.Type_;
  fieldParsers : list fieldParser;
  hasBodyField : bool;
  bodyFieldIdx : nat;
}.

(** the name a nested field is bound under: its json tag, or its name *)
Definition jsonTagOrName (nestedField : reflect.StructField) : string :=
  let jsonTag := reflect.Get (reflect.Tag nestedField) "json" in
  if bool_decide (jsonTag = "") then reflect.Name nestedField else jsonTag.

(** the plan entry that [parseNestedStruct] makes for the exported field
    [j] of a group *)
Definition nestedFieldParser (j : nat) (parentIndex : nat)
    (sourceType : string) (nestedField : reflect.StructField) : fieldParser :=
  let fieldType := reflect.Typ nestedField in
  let isSlice := bool_decide (reflect.KindOf fieldType = reflect.Slice) in
  let fieldKind :=
    match fieldType with
    | reflect.SliceOf elem => reflect.KindOf elem
    | _ => reflect.KindOf fieldType
    end in
  {| fieldIndex := parentIndex;
     nestedFieldIndex := j;
     fieldType := fieldType;
     fieldKind := fieldKind;
     sourceType := sourceType;
     sourceName := jsonTagOrName nestedField;
     setter := Some (createFieldSetter fieldKind);
     isSlice := isSlice;
     isFileField := false;
     isNested := true |}.

(** [parseNestedStruct]: the loop over the fields [j], [j+1], ... of the
    group struct; the result is what the loop appends to the plan. *)
Fixpoint parseNestedStruct (fields : list reflect.StructField) (j : nat)
    (parentIndex : nat) (sourceType : string) : list fieldParser :=
  match fields with
  | [] => []
  | nestedField :: fields' =>
      let rest := parseNestedStruct fields' (S j) parentIndex sourceType in
      if negb (reflect.IsExported nestedField) then rest
      else nestedFieldParser j parentIndex sourceType nestedField :: rest
  end.

(** the plan entry that [parseNestedStructForForm] makes for the exported
    field [j] of the Form group *)
Definition formFieldParser (j : nat) (parentIndex : nat)
    (nestedField : reflect.StructField) : fieldParser :=
  {| fieldIndex := parentIndex;
     nestedFieldIndex := j;
     fieldType := reflect.Typ nestedField;
     fieldKind := reflect.KindOf (reflect.Typ nestedField);
     sourceType := "form";
     sourceName := jsonTagOrName nestedField;
     setter := None;
     isSlice := false;
     isFileField := reflect.Implements (reflect.Typ nestedField) FileUpload;
     isNested := true |}.

(** [parseNestedStructForForm] *)
Fixpoint parseNestedStructForForm (fields : list reflect.StructField)
    (j : nat) (parentIndex : nat) : list fieldParser :=
  match fields with
  | [] => []
  | nestedField :: fields' =>
      let rest := parseNestedStructForForm fields' (S j) parentIndex in
      if negb (reflect.IsExported nestedField) then rest
      else formFieldParser j parentIndex nestedField :: rest
  end.

(** one round of the loop of [buildRequestParser], on field [i] *)
Definition buildRequestParser_step (parser : requestParser) (i : nat)
    (field : reflect.StructField) : requestParser :=
  if negb (reflect.IsExported field) then parser
  else
    match reflect.Typ field with
    | reflect.StructOf _ _ nested =>
        let add fps :=
          {| requestType := requestType parser;
             fieldParsers := fieldParsers parser ++ fps;
             hasBodyField := hasBodyField parser;
             bodyFieldIdx := bodyFieldIdx parser |} in
        let fieldName := reflect.Name field in
        if bool_decide (fieldName = "Route")
        then add (parseNestedStruct nested 0 i "route")
        else if bool_decide (fieldName = "Header")
        then add (parseNestedStruct nested 0 i "header")
        else if bool_decide (fieldName = "Query")
        then add (parseNestedStruct nested 0 i "query")
        else if bool_decide (fieldName = "Form")
        then add (parseNestedStructForForm nested 0 i)
        else if bool_decide (fieldName = "Body")
        then {| requestType := requestType parser;
                fieldParsers := fieldParsers parser;
                hasBodyField := true;
                bodyFieldIdx := i |}
        else parser
    | _ => parser
    end.

Fixpoint buildRequestParser_loop (parser : requestParser) (i : nat)
    (fields : list reflect.StructField) : requestParser :=
  match fields with
  | [] => parser
  | field :: fields' =>
      buildRequestParser_loop (buildRequestParser_step parser i field)
        (S i) fields'
  end.

(** [buildRequestParser]; [None] where [NumField] panics (the request
    type is not a struct) *)
Definition buildRequestParser (reqType : reflect.Type_)
  : option requestParser :=
  fields ← reflect.Fields reqType;
  Some (buildRequestParser_loop
          {| requestType := reqType; fieldParsers := [];
             hasBodyField := false; bodyFieldIdx := 0 |} 0%nat fields).

(** *** The executor *)

(** [reflect.ValueOf(fileField)] can be stored in a field of type
    [FileField], or of an interface type that [FileField] implements. *)
Definition assignableFromFileField (t : reflect.Type_) : bool :=
  match t with
  | reflect.StructOf n _ _ => bool_decide (n = "framework.FileField")
  | reflect.InterfaceOf ms => reflect.Implements FileFieldType ms
  | _ => false
  end.

(** [parseFileField]: [Ok None] leaves the field as it is. *)
Definition parseFileField (r : Request) (fieldType : reflect.Type_)
    (formName : string) : Res (option Value) :=
  match ParseMultipartForm r with
  | Some err => Err (wrapError "failed to parse multipart form: " err)
  | None =>
      match FormFile r formName with
      | inr ErrMissingFile => Ok None
      | inr (OpenError err) =>
          Err (wrapError "failed to get form file: " err)
      | inl (file, header) =>
          if assignableFromFileField fieldType then
            Ok (Some (VFile {| Filename := fh_Filename header;
                               Size := fh_Size header;
                               Header := header;
                               Content := file |}))
          else Panic "reflect.Set: value of type framework.FileField"
      end
  end.

(** the loop of [setSliceField], from element [i] on *)
Fixpoint setSliceField_loop (elemKind : reflect.Kind) (setter : Setter)
    (i : nat) (values : list string) : Res (list Value) :=
  match values with
  | [] => Ok []
  | val :: values' =>
      match setter elemKind val with
      | Err err =>
          Err (wrapError
                 ("failed to parse element " +:+ fmt.Sprint_d i +:+ ": ")
                 err)
      | Panic why => Panic why
      | Ok v =>
          match setSliceField_loop elemKind setter (S i) values' with
          | Ok vs => Ok (v :: vs)
          | Err e => Err e
          | Panic why => Panic why
          end
      end
  end.

(** [setSliceField]: the new value of the field *)
Definition setSliceField (sliceType : reflect.Type_) (values : list string)
    (setter : option Setter) : Res Value :=
  match sliceType, setter with
  | reflect.SliceOf elem, Some setter =>
      match setSliceField_loop (reflect.KindOf elem) setter 0 values with
      | Ok vs => Ok (VSlice vs)
      | Err e => Err e
      | Panic why => Panic why
      end
  | reflect.SliceOf _, None => Panic "nil func"
  | _, _ => Panic "reflect.MakeSlice of non-slice type"
  end.

Definition fieldAddr (fp : fieldParser) : Addr :=
  if isNested fp then (fieldIndex fp, Some (nestedFieldIndex fp))
  else (fieldIndex fp, None).

(** the text of [fmt.Errorf("%s '%s': %w", sourceType, sourceName, err)]
    before the wrapped error *)
Definition sourcePrefix (sourceType sourceName : string) : string :=
  sourceType +:+ " '" +:+ sourceName +:+ "': ".

(** the value that the switch on [fp.sourceType] fetches *)
Definition sourceValue (r : Request) (fp : fieldParser) : string :=
  if bool_decide (sourceType fp = "header")
  then Header_Get r (sourceName fp)
  else if bool_decide (sourceType fp = "route")
  then PathValue r (sourceName fp)
  else if bool_decide (sourceType fp = "query")
  then Query_Get r (sourceName fp)
  else "".

(** One round of the loop of [parseWithPlan]: what the binding [fp] does
    to the request struct. *)
Definition bindField (r : Request) (fp : fieldParser) (reqValue : ReqValue)
  : Res ReqValue :=
  if bool_decide (sourceType fp = "form") && isFileField fp then
    match parseFileField r (fieldType fp) (sourceName fp) with
    | Err err => Err (wrapError (sourcePrefix "form" (sourceName fp)) err)
    | Panic why => Panic why
    | Ok None => Ok reqValue
    | Ok (Some v) => Ok (<[fieldAddr fp := v]> reqValue)
    end
  else if isSlice fp && bool_decide (sourceType fp = "query") then
    let values := URL_Query r (sourceName fp) in
    if (0 <? length values)%nat then
      match setSliceField (fieldType fp) values (setter fp) with
      | Err err =>
          Err (wrapError (sourcePrefix (sourceType fp) (sourceName fp)) err)
      | Panic why => Panic why
      | Ok v => Ok (<[fieldAddr fp := v]> reqValue)
      end
    else Ok reqValue
  else
    let value := sourceValue r fp in
    let found := negb (bool_decide (value = "")) in
    if found && negb (bool_decide (value = "")) then
      match setter fp with
      | None => Panic "nil func"
      | Some set =>
          match set (reflect.KindOf (fieldType fp)) value with
          | Err err =>
              Err (wrapError (sourcePrefix (sourceType fp) (sourceName fp))
                     err)
          | Panic why => Panic why
          | Ok v => Ok (<[fieldAddr fp := v]> reqValue)
          end
      end
    else Ok reqValue.

(** the loop over [parser.fieldParsers], which returns at the first
    error *)
Fixpoint bindFields (r : Request) (fps : list fieldParser)
    (reqValue : ReqValue) : Res ReqValue :=
  match fps with
  | [] => Ok reqValue
  | fp :: fps' =>
      match bindField r fp reqValue with
      | Ok reqValue' => bindFields r fps' reqValue'
      | Err e => Err e
      | Panic why => Panic why
      end
  end.

(** [parseBody]: the new value of the body field.  The field is a field
    of the addressable request struct and exported, so [CanSet] holds. *)
Definition parseBody (r : Request) (fieldType : reflect.Type_) : Res Value :=
  match Body r with
  | None => Err (errorString "request body is empty")
  | Some body =>
      match json.Decode unquote foldName storeScalar true fieldType
              (fmt.bytes body) with
      | inr err => Err (wrapError "invalid JSON: " (jsonError err))
      | inl j => Ok (VBody fieldType j)
      end
  end.

(** *** Validation *)

(** what [f.validator.Struct] returns *)
Inductive ValidatorResult :=
| Valid
| ValidationErrors (validationErrs : list FieldError)
| InvalidValidationError (msg : string).

(** [splitFieldPath]: the loop over the runes of the namespace.  A rune
    that is not the dot is appended in its UTF-8 encoding, so a byte that
    is not valid UTF-8 comes out as the encoding of U+FFFD. *)
Fixpoint splitFieldPath_loop (chars : list N) (parts : list string)
    (current : string) : list string :=
  match chars with
  | [] => if bool_decide (current = "") then parts else parts ++ [current]
  | char :: rest =>
      if (char =? 46)%N then
        if bool_decide (current = "")
        then splitFieldPath_loop rest parts current
        else splitFieldPath_loop rest (parts ++ [current]) ""
      else splitFieldPath_loop rest parts
             (current +:+ utf8.string_of_rune char)
  end.

Definition splitFieldPath (namespace : string) : list string :=
  splitFieldPath_loop (utf8.range namespace) [] "".

(** [t.Field(i)] *)
Definition FieldAt (t : reflect.Type_) (i : nat) : Res reflect.StructField :=
  match reflect.Fields t with
  | None => Panic "reflect: Field of non-struct type"
  | Some fs =>
      match fs !! i with
      | Some f => Ok f
      | None => Panic "reflect: Field index out of bounds"
      end
  end.

(** the map from struct paths to (tag name, source type) *)
Fixpoint fieldTagMap_loop (requestType : reflect.Type_)
    (fps : list fieldParser) (m : gmap string (string * string))
  : Res (gmap string (string * string)) :=
  match fps with
  | [] => Ok m
  | fp :: fps' =>
      match FieldAt requestType (fieldIndex fp) with
      | Ok parent =>
          if isNested fp then
            match FieldAt (reflect.Typ parent) (nestedFieldIndex fp) with
            | Ok nested =>
                let structPath :=
                  reflect.Name parent +:+ "." +:+ reflect.Name nested in
                fieldTagMap_loop requestType fps'
                  (<[structPath := (sourceName fp, sourceType fp)]> m)
            | Err e => Err e
            | Panic why => Panic why
            end
          else fieldTagMap_loop requestType fps' m
      | Err e => Err e
      | Panic why => Panic why
      end
  end.

(** where one violation is reported: (field name, source type) *)
Definition classify (parser : requestParser) (bodyFieldName : option string)
    (fieldTagMap : gmap string (string * string)) (e : FieldError)
  : string * string :=
  match splitFieldPath (fe_StructNamespace e) with
  | _ :: parentFieldName :: nestedFieldName :: _ =>
      let structPath := parentFieldName +:+ "." +:+ nestedFieldName in
      let byTag :=
        match fieldTagMap !! structPath with
        | Some tagInfo => tagInfo
        | None => (fe_Field e, "")
        end in
      match bodyFieldName with
      | Some bodyFieldName =>
          if bool_decide (parentFieldName = bodyFieldName)
          then (fe_Field e, "body")
          else byTag
      | None => byTag
      end
  | _ => (fe_Field e, "")
  end.

(** [formatValidationError]: [Ok None] is the nil slice.  The result is
    listed from a Go map, in no particular order; here it is the order
    of [map_to_list]. *)
Definition formatValidationError (err : ValidatorResult)
    (parser : requestParser) : Res (option (list ValidationError)) :=
  match err with
  | ValidationErrors validationErrs =>
      match fieldTagMap_loop (requestType parser) (fieldParsers parser) ∅ with
      | Err e => Err e
      | Panic why => Panic why
      | Ok fieldTagMap =>
          let finish bodyFieldName fieldTagMap :=
            let fieldErrorMap : gmap (string * string) (list string) :=
              fold_left
                (fun m e =>
                   let key := classify parser bodyFieldName fieldTagMap e in
                   <[key := default [] (m !! key)
                              ++ ["failed validation: " +:+ fe_Tag e]]> m)
                validationErrs ∅ in
            Ok (Some ((fun kv =>
                         {| Field := kv.1.1; SourceType := kv.1.2;
                            Errors := kv.2 |})
                        <$> map_to_list fieldErrorMap)) in
          if hasBodyField parser then
            match FieldAt (requestType parser) (bodyFieldIdx parser) with
            | Ok body =>
                let bodyFieldName := reflect.Name body in
                finish (Some bodyFieldName)
                  (<[bodyFieldName := (bodyFieldName, "body")]> fieldTagMap)
            | Err e => Err e
            | Panic why => Panic why
            end
          else finish None fieldTagMap
      end
  | _ => Ok None
  end.

(** the validator's answer as an error value *)
Definition validatorError (err : ValidatorResult) : error :=
  match err with
  | InvalidValidationError msg => errorString msg
  | _ => errorString "validator.ValidationErrors"
  end.

(** the block of [parseWithPlan] that handles the body field *)
Definition bindBody (r : Request) (parser : requestParser)
    (reqValue : ReqValue) : Res ReqValue :=
  if hasBodyField parser then
    match FieldAt (requestType parser) (bodyFieldIdx parser) with
    | Ok bodyField =>
        match parseBody r (reflect.Typ bodyField) with
        | Err err => Err (wrapError "body: " err)
        | Panic why => Panic why
        | Ok v => Ok (<[(bodyFieldIdx parser, None) := v]> reqValue)
        end
    | Err e => Err e
    | Panic why => Panic why
    end
  else Ok reqValue.

(** [parseWithPlan], with the validator of the framework [f] *)
Definition parseWithPlan (validator_Struct : ReqValue -> ValidatorResult)
    (r : Request) (reqValue : ReqValue) (parser : requestParser)
  : M ReqValue :=
  reqValue <- lift (bindFields r (fieldParsers parser) reqValue) ;;
  reqValue <- lift (bindBody r parser reqValue) ;;
  _ <- emit (ValidatorStruct reqValue) ;;
  match validator_Struct reqValue with
  | Valid => ret reqValue
  | err =>
      validationErrors <- lift (formatValidationError err parser) ;;
      match validationErrors with
      | Some validationErrors =>
          lift (Err (validationErrorWrapper validationErrors))
      | None => lift (Err (validatorError err))
      end
  end.

(** *** The response writer *)

(** [writeError] *)
Definition writeError (statusCode : Z) (message : string)
    (details : list (string * string)) (w : Trace) : Trace :=
  w ++ [HeaderSet "Content-Type" "application/json";
        WriteHeader statusCode;
        Encode (ErrorResponse message details)].

(** [writeValidationError] *)
Definition writeValidationError (statusCode : Z)
    (validationErrors : list ValidationError) (w : Trace) : Trace :=
  w ++ [HeaderSet "Content-Type" "application/json";
        WriteHeader statusCode;
        Encode (ValidationErrorResponse "validation failed"
                  validationErrors)].

(** A value that a handler returns: the nil interface, a value of a
    type [t] (with the method [WriteResponse] that is called when [t] has
    one), or a value of type [StatusResponse[Resp']]. *)
Inductive RespValue :=
| RNil
| RValue (t : reflect.Type_) (d : Data) (WriteResponse : Trace -> Trace)
| RStatus (Resp' : reflect.Type_) (Code : Z) (Body : RespValue).

(** the dynamic type *)
Definition TypeOf (v : RespValue) : option reflect.Type_ :=
  match v with
  | RNil => None
  | RValue t _ _ => Some t
  | RStatus Resp' _ _ => Some (StatusResponse Resp')
  end.

Fixpoint toData (v : RespValue) : Data :=
  match v with
  | RNil => DNil
  | RValue _ d _ => d
  | RStatus _ code body => DStatusResponse code (toData body)
  end.

End Framework.

(** Identity of types *)
Fixpoint type_eqb (a b : reflect.Type_) {struct a} : bool :=
  match a, b with
  | reflect.Basic k, reflect.Basic k' => bool_decide (k = k')
  | reflect.InterfaceOf ms, reflect.InterfaceOf ms' => bool_decide (ms = ms')
  | reflect.SliceOf e, reflect.SliceOf e' => type_eqb e e'
  | reflect.ArrayOf n e, reflect.ArrayOf n' e' =>
      bool_decide (n = n') && type_eqb e e'
  | reflect.PtrTo e, reflect.PtrTo e' => type_eqb e e'
  | reflect.MapOf k e, reflect.MapOf k' e' => type_eqb k k' && type_eqb e e'
  | reflect.StructOf n ms fs, reflect.StructOf n' ms' fs' =>
      bool_decide (n = n') && bool_decide (ms = ms')
      && (fix fields_eqb (l l' : list reflect.StructField) {struct l} : bool :=
            match l, l' with
            | [], [] => true
            | f :: l, f' :: l' => field_eqb f f' && fields_eqb l l'
            | _, _ => false
            end) fs fs'
  | _, _ => false
  end
with field_eqb (f f' : reflect.StructField) {struct f} : bool :=
  match f, f' with
  | reflect.mkField n p t tag, reflect.mkField n' p' t' tag' =>
      bool_decide (n = n') && bool_decide (p = p') && type_eqb t t'
      && bool_decide (tag = tag')
  end.

Section Handler.

Context `{GoLib}.

(** [any(response).(Responder)] *)
Definition asResponder (response : RespValue) : option (Trace -> Trace) :=
  match response with
  | RValue t _ WriteResponse =>
      if reflect.Implements t Responder then Some WriteResponse else None
  | _ => None
  end.

(** [any(response).(StatusResponse[Resp])]: the dynamic type of the
    value is identical to [StatusResponse[Resp]]. *)
Definition asStatusResponse (Resp : reflect.Type_) (response : RespValue)
  : option (Z * RespValue) :=
  match response with
  | RStatus Resp' Code Body =>
      if type_eqb (StatusResponse Resp') (StatusResponse Resp)
      then Some (Code, Body) else None
  | _ => None
  end.

(** [writeResponse[Resp]] *)
Definition writeResponse (Resp : reflect.Type_) (response : RespValue)
    (w : Trace) : Trace :=
  match asResponder response with
  | Some responder => responder w
  | None =>
      match asStatusResponse Resp response with
      | Some (Code, Body) =>
          w ++ [HeaderSet "Content-Type" "application/json";
                WriteHeader Code;
                Encode (Response (toData Body))]
      | None =>
          w ++ [HeaderSet "Content-Type" "application/json";
                WriteHeader 200;
                Encode (Response (toData response))]
      end
  end.

(** [createTypeSafeHandler[Req, Resp]]: the handler that the endpoint
    serves requests with. *)
Definition createTypeSafeHandler
    (validator_Struct : ReqValue -> ValidatorResult)
    (Resp : reflect.Type_)
    (handler : ReqValue -> RespValue * option error)
    (parser : requestParser) (r : Request) : Trace -> Res unit * Trace :=
  fun w =>
    match parseWithPlan validator_Struct r ∅ parser w with
    | (Err err, w) =>
        match err with
        | validationErrorWrapper validationErrors =>
            (Ok tt, writeValidationError 400 validationErrors w)
        | _ => (Ok tt, writeError 400 (Error err) [] w)
        end
    | (Panic why, w) => (Panic why, w)
    | (Ok req, w) =>
        let w := w ++ [HandlerCall req] in
        match handler req with
        | (_, Some err) => (Ok tt, writeError 500 (Error err) [] w)
        | (response, None) => (Ok tt, writeResponse Resp response w)
        end
    end.

End Handler.

(* --------------------------------------------------------------------- *)
(** *** Groups and registration *)
(* --------------------------------------------------------------------- *)

Section Registry.

Context `{GoLib}.

(** [http.Handler]: serving a request extends the trace, or panics. *)
Definition http_Handler : Type := Request -> Trace -> Res unit * Trace.

(** [Middleware] *)
Definition Middleware : Type := http_Handler -> http_Handler.

(** [Group]; the framework pointer is the one framework of the world *)
Record Group := {
  prefix : string;
  middlewares : slice;
}.

(** [EndpointSpec] *)
Record EndpointSpec := {
  Method : string;
  RelativePath : string;
  FullPath : string;
  Summary : string;
  Description : string;
  Tags : list string;
  RequestType : reflect.Type_;
  ResponseType : option reflect.Type_;
  Middlewares : slice;
  AllMiddlewares : slice;
  handlerPrepFn : (ReqValue -> ValidatorResult) -> http_Handler;
}.

(** The framework with everything its pointers reach: the backing arrays
    of the middleware slices (a nil cell is [None]), the groups, and the
    fields of [Framework].  The mux is the list of the registrations made
    with [mux.Handle]. *)
Record World := {
  arrays : list (list (option Middleware));
  groups : list Group;
  validator : ReqValue -> ValidatorResult;
  endpoints : list EndpointSpec;
  mux : list (string * http_Handler);
}.

(** [New] *)
Definition New (validator : ReqValue -> ValidatorResult) : World :=
  {| arrays := []; groups := []; validator := validator;
     endpoints := []; mux := [] |}.

(** [Router]: the framework or a group (by its address) *)
Inductive Router :=
| RFramework
| RGroup (g : nat).

Definition getPrefix (w : World) (router : Router) : string :=
  match router with
  | RFramework => ""
  | RGroup g => default "" (prefix <$> groups w !! g)
  end.

Definition getMiddlewares (w : World) (router : Router) : slice :=
  match router with
  | RFramework => nilSlice
  | RGroup g => default nilSlice (middlewares <$> groups w !! g)
  end.

(** the middleware list of a router, as a list of cells *)
Definition middlewaresOf (w : World) (router : Router)
  : list (option Middleware) :=
  read (arrays w) (getMiddlewares w router).

Definition withArraysGroups (w : World)
    (arrays : list (list (option Middleware))) (groups : list Group)
  : World :=
  {| arrays := arrays; groups := groups; validator := validator w;
     endpoints := endpoints w; mux := mux w |}.

(** [Framework.Group]: the address of the new group and the world *)
Definition Framework_Group (prefix : string) (w : World) : nat * World :=
  (length (groups w),
   withArraysGroups w (arrays w)
     (groups w ++ [{| prefix := prefix;
                      middlewares := {| array := 0; len := 0; cap := 0 |} |}])).

(** [Group.Use] *)
Definition Group_Use (g : nat) (middleware : list Middleware) (w : World)
  : World :=
  match groups w !! g with
  | None => w
  | Some gr =>
      let '(arrays', s) :=
        append None (arrays w) (middlewares gr) (Some <$> middleware) in
      withArraysGroups w arrays'
        (<[g := {| prefix := prefix gr; middlewares := s |}]> (groups w))
  end.

(** [Group.Group]: the sub-group copies the list of its parent into the
    empty slice literal. *)
Definition Group_Group (g : nat) (prefix' : string) (w : World)
  : nat * World :=
  match groups w !! g with
  | None => (length (groups w), w)
  | Some gr =>
      let '(arrays', s) :=
        append None (arrays w) {| array := 0; len := 0; cap := 0 |}
          (read (arrays w) (middlewares gr)) in
      (length (groups w),
       withArraysGroups w arrays'
         (groups w ++ [{| prefix := prefix gr +:+ prefix';
                          middlewares := s |}]))
  end.

(** [EndpointSpec.Use], on an endpoint that is not yet registered *)
Definition EndpointSpec_Use (middleware : list Middleware)
    (arrays : list (list (option Middleware))) (b : EndpointSpec)
  : list (list (option Middleware)) * EndpointSpec :=
  let '(arrays', s) :=
    append None arrays (Middlewares b) (Some <$> middleware) in
  (arrays',
   {| Method := Method b; RelativePath := RelativePath b;
      FullPath := FullPath b; Summary := Summary b;
      Description := Description b; Tags := Tags b;
      RequestType := RequestType b; ResponseType := ResponseType b;
      Middlewares := s; AllMiddlewares := AllMiddlewares b;
      handlerPrepFn := handlerPrepFn b |}).

Definition SetSummary (summary : string) (b : EndpointSpec) : EndpointSpec :=
  {| Method := Method b; RelativePath := RelativePath b;
     FullPath := FullPath b; Summary := summary;
     Description := Description b; Tags := Tags b;
     RequestType := RequestType b; ResponseType := ResponseType b;
     Middlewares := Middlewares b; AllMiddlewares := AllMiddlewares b;
     handlerPrepFn := handlerPrepFn b |}.

Definition SetDescription (description : string) (b : EndpointSpec)
  : EndpointSpec :=
  {| Method := Method b; RelativePath := RelativePath b;
     FullPath := FullPath b; Summary := Summary b;
     Description := description; Tags := Tags b;
     RequestType := RequestType b; ResponseType := ResponseType b;
     Middlewares := Middlewares b; AllMiddlewares := AllMiddlewares b;
     handlerPrepFn := handlerPrepFn b |}.

Definition SetTags (tags : list string) (b : EndpointSpec) : EndpointSpec :=
  {| Method := Method b; RelativePath := RelativePath b;
     FullPath := FullPath b; Summary := Summary b;
     Description := Description b; Tags := tags;
     RequestType := RequestType b; ResponseType := ResponseType b;
     Middlewares := Middlewares b; AllMiddlewares := AllMiddlewares b;
     handlerPrepFn := handlerPrepFn b |}.

(** [CreateEndpoint[TReq, TResp]].  The two types are those of the zero
    values [reqExample] and [respExample].  [buildRequestParser] panics
    when the request type is not a struct: on the nil type of an interface
    [TReq] in the method call, on another type in [NumField].  So an
    endpoint that is returned has a struct as its request type; its
    response type is nil ([None]) when [TResp] is an interface. *)
Definition CreateEndpoint (TReq TResp : reflect.Type_) (method path : string)
    (handler : ReqValue -> RespValue * option error) : Res EndpointSpec :=
  match buildRequestParser TReq with
  | None =>
      Panic match reflect.TypeOfZero TReq with
            | None => "invalid memory address or nil pointer dereference"
            | Some _ => "reflect: NumField of non-struct type"
            end
  | Some parser =>
      Ok {| Method := method; RelativePath := path; FullPath := "";
            Summary := ""; Description := ""; Tags := [];
            RequestType := TReq;
            ResponseType := reflect.TypeOfZero TResp;
            Middlewares := nilSlice; AllMiddlewares := nilSlice;
            handlerPrepFn := fun validator_Struct =>
              createTypeSafeHandler validator_Struct TResp handler parser |}
  end.

(** the loop of [RegisterEndpoint] that wraps the handler, from index
    [i - 1] down to 0 *)
Fixpoint applyMiddlewares (all : list (option Middleware)) (i : nat)
    (finalHandler : http_Handler) : option http_Handler :=
  match i with
  | O => Some finalHandler
  | S i' =>
      match all !! i' with
      | Some (Some m) => applyMiddlewares all i' (m finalHandler)
      | _ => None
      end
  end.

(** [RegisterEndpoint].  The endpoint is stored as it is at
    registration; [mux.Handle] panics on a pattern that the mux refuses. *)
Definition RegisterEndpoint (router : Router) (route : EndpointSpec)
    (w : World) : Res World :=
  let '(arrays', all) :=
    append None (arrays w) (getMiddlewares w router)
      (read (arrays w) (Middlewares route)) in
  let route :=
    {| Method := Method route; RelativePath := RelativePath route;
       FullPath := getPrefix w router +:+ RelativePath route;
       Summary := Summary route; Description := Description route;
       Tags := Tags route;
       RequestType := RequestType route; ResponseType := ResponseType route;
       Middlewares := Middlewares route; AllMiddlewares := all;
       handlerPrepFn := handlerPrepFn route |} in
  match applyMiddlewares (read arrays' all) (len all)
          (handlerPrepFn route (validator w)) with
  | None => Panic "invalid memory address or nil pointer dereference"
  | Some finalHandler =>
      let pattern := Method route +:+ " " +:+ FullPath route in
      if mux_rejects (mux w).*1 pattern
      then Panic "http: the pattern is invalid or conflicts with another"
      else Ok {| arrays := arrays'; groups := groups w;
                 validator := validator w;
                 endpoints := endpoints w ++ [route];
                 mux := mux w ++ [(pattern, finalHandler)] |}
  end.

(** A call that the callback of [RegisterHandlerRoute] makes on the
    [Endpoint] it receives. *)
Inductive EndpointCall :=
| CallSetSummary (summary : string)
| CallSetDescription (description : string)
| CallUse (middleware : list Middleware)
| CallSetTags (tags : list string).

Definition applyCall (st : list (list (option Middleware)) * EndpointSpec)
    (c : EndpointCall) : list (list (option Middleware)) * EndpointSpec :=
  match c with
  | CallSetSummary summary => (st.1, SetSummary summary st.2)
  | CallSetDescription description => (st.1, SetDescription description st.2)
  | CallUse middleware => EndpointSpec_Use middleware st.1 st.2
  | CallSetTags tags => (st.1, SetTags tags st.2)
  end.

(** the middleware that the callback adds to the endpoint with [Use] *)
Fixpoint usesOfCalls (calls : list EndpointCall) : list Middleware :=
  match calls with
  | [] => []
  | CallUse middleware :: calls' => middleware ++ usesOfCalls calls'
  | _ :: calls' => usesOfCalls calls'
  end.

(** [RegisterHandlerRoute] *)
Definition RegisterHandlerRoute (TReq TResp : reflect.Type_)
    (router : Router) (method path : string)
    (handler : ReqValue -> RespValue * option error)
    (callBackFn : list EndpointCall) (w : World) : Res World :=
  match CreateEndpoint TReq TResp method path handler with
  | Ok ep =>
      let '(arrays', ep) := fold_left applyCall callBackFn (arrays w, ep) in
      RegisterEndpoint router ep
        {| arrays := arrays'; groups := groups w; validator := validator w;
           endpoints := endpoints w; mux := mux w |}
  | Err e => Err e
  | Panic why => Panic why
  end.

(** The invariant of the worlds that programs build: the middleware
    slice of every group is sound and holds no nil, and two groups do not
    share a backing array. *)
Definition heapOK (arrays : list (list (option Middleware)))
    (groups : list Group) : Prop :=
  (forall g gr,
     groups !! g = Some gr ->
     sliceOK arrays (middlewares gr)
     /\ exists ms : list Middleware,
         read arrays (middlewares gr) = Some <$> ms)
  /\ (forall g g' gr gr',
        g <> g' ->
        groups !! g = Some gr -> groups !! g' = Some gr' ->
        (0 < cap (middlewares gr))%nat -> (0 < cap (middlewares gr'))%nat ->
        array (middlewares gr) <> array (middlewares gr')).

Definition worldOK (w : World) : Prop := heapOK (arrays w) (groups w).

(** a slice that shares no array with a group *)
Definition private (groups : list Group) (s : slice) : Prop :=
  forall g gr, groups !! g = Some gr ->
    (0 < cap (middlewares gr))%nat -> (0 < cap s)%nat ->
    array (middlewares gr) <> array s.

(** *** Programs that set a framework up *)

Inductive Op :=
| OpFrameworkGroup (prefix : string)
| OpGroupUse (g : nat) (middleware : list Middleware)
| OpGroupGroup (g : nat) (prefix : string)
| OpRegisterHandlerRoute (TReq TResp : reflect.Type_) (router : Router)
    (method path : string)
    (handler : ReqValue -> RespValue * option error)
    (callBackFn : list EndpointCall).

Definition step (op : Op) (w : World) : Res World :=
  match op with
  | OpFrameworkGroup prefix => Ok (Framework_Group prefix w).2
  | OpGroupUse g middleware => Ok (Group_Use g middleware w)
  | OpGroupGroup g prefix => Ok (Group_Group g prefix w).2
  | OpRegisterHandlerRoute TReq TResp router method path handler cb =>
      RegisterHandlerRoute TReq TResp router method path handler cb w
  end.

Fixpoint run (ops : list Op) (w : World) : Res World :=
  match ops with
  | [] => Ok w
  | op :: ops' =>
      match step op w with
      | Ok w' => run ops' w'
      | Err e => Err e
      | Panic why => Panic why
      end
  end.

(** the middleware that the program adds to the group [g] with [Use] *)
Fixpoint usesOf (g : nat) (ops : list Op) : list Middleware :=
  match ops with
  | [] => []
  | OpGroupUse g' middleware :: ops' =>
      if bool_decide (g' = g) then middleware ++ usesOf g ops'
      else usesOf g ops'
  | _ :: ops' => usesOf g ops'
  end.

(** A middleware that only leaves a note when the request enters and
    when the response leaves. *)
Definition tracing (name : string) : Middleware :=
  fun next r w =>
    match next r (w ++ [Note ("enter " +:+ name)]) with
    | (Ok tt, w') => (Ok tt, w' ++ [Note ("exit " +:+ name)])
    | other => other
    end.

(** the notes of a chain of tracing middleware, on the way in and on the
    way out *)
Definition entries (names : list string) : Trace :=
  (fun n => Note ("enter " +:+ n)) <$> names.

Definition exits (names : list string) : Trace :=
  (fun n => Note ("exit " +:+ n)) <$> rev names.

End Registry.

End framework.

(* ===================================================================== *)
(** ** The handler package *)
(* ===================================================================== *)

Module handler.

Import framework.

Section Helpers.

Context `{GoLib}.

(** A call that [optFn] makes on the [EndpointOptions] it receives.  The
    value behind the interface is the [*EndpointBuilder]: beside the three
    methods of the interface, its exported method [Use] is within reach of
    [optFn] through a type assertion. *)
Inductive EndpointOptions :=
| SetSummary (summary : string)
| SetDescription (description : string)
| SetTags (tags : list string)
| Use (middleware : list Middleware).

(** the methods of [EndpointBuilder], which hand the call on to the
    endpoint *)
Definition applyOption (st : list (list (option Middleware)) * EndpointSpec)
    (o : EndpointOptions) : list (list (option Middleware)) * EndpointSpec :=
  match o with
  | SetSummary summary => (st.1, framework.SetSummary summary st.2)
  | SetDescription description =>
      (st.1, framework.SetDescription description st.2)
  | SetTags tags => (st.1, framework.SetTags tags st.2)
  | Use middleware => EndpointSpec_Use middleware st.1 st.2
  end.

(** the middleware that [optFn] adds to the endpoint with [Use] *)
Fixpoint usesOfOptions (calls : list EndpointOptions) : list Middleware :=
  match calls with
  | [] => []
  | Use middleware :: calls' => middleware ++ usesOfOptions calls'
  | _ :: calls' => usesOfOptions calls'
  end.

(** [optFn(hRoute)] followed by [framework.RegisterEndpoint(r,
    hRoute.endpoint)]; a nil [optFn] is [None] *)
Definition configureAndRegister (r : Router) (endpoint : Res EndpointSpec)
    (optFn : option (list EndpointOptions)) (w : World) : Res World :=
  match endpoint with
  | Ok endpoint =>
      match optFn with
      | None => Panic "invalid memory address or nil pointer dereference"
      | Some calls =>
          let '(arrays', endpoint) :=
            fold_left applyOption calls (arrays w, endpoint) in
          RegisterEndpoint r endpoint
            {| arrays := arrays'; groups := groups w;
               validator := validator w; endpoints := endpoints w;
               mux := mux w |}
      end
  | Err e => Err e
  | Panic why => Panic why
  end.

Definition GET (Req Resp : reflect.Type_) (r : Router) (path : string)
    (handler : ReqValue -> RespValue * option error)
    (optFn : option (list EndpointOptions)) : World -> Res World :=
  configureAndRegister r (CreateEndpoint Req Resp "GET" path handler) optFn.

Definition POST (Req Resp : reflect.Type_) (r : Router) (path : string)
    (handler : ReqValue -> RespValue * option error)
    (optFn : option (list EndpointOptions)) : World -> Res World :=
  configureAndRegister r (CreateEndpoint Req Resp "POST" path handler) optFn.

Definition PUT (Req Resp : reflect.Type_) (r : Router) (path : string)
    (handler : ReqValue -> RespValue * option error)
    (optFn : option (list EndpointOptions)) : World -> Res World :=
  configureAndRegister r (CreateEndpoint Req Resp "PUT" path handler) optFn.

Definition PATCH (Req Resp : reflect.Type_) (r : Router) (path : string)
    (handler : ReqValue -> RespValue * option error)
    (optFn : option (list EndpointOptions)) : World -> Res World :=
  configureAndRegister r (CreateEndpoint Req Resp "PATH" path handler) optFn.

Definition DELETE (Req Resp : reflect.Type_) (r : Router) (path : string)
    (handler : ReqValue -> RespValue * option error)
    (optFn : option (list EndpointOptions)) : World -> Res World :=
  configureAndRegister r (CreateEndpoint Req Resp "DELETE" path handler)
    optFn.

End Helpers.

End handler.

(* ===================================================================== *)
(** ** strings *)
(* ===================================================================== *)

Module strings.

(** [strings.Contains] *)
Fixpoint Contains (s substr : string) : bool :=
  String.prefix substr s
  || match s with
     | EmptyString => false
     | String _ s' => Contains s' substr
     end.

(** [strings.Split(s, sep)] for a separator of one byte *)
Fixpoint Split_loop (s : string) (sep : ascii) (current : string)
  : list string :=
  match s with
  | EmptyString => [current]
  | String c s' =>
      if bool_decide (c = sep) then current :: Split_loop s' sep ""
      else Split_loop s' sep (current +:+ String c "")
  end.

Definition Split (s : string) (sep : ascii) : list string :=
  Split_loop s sep "".

(** the white space of [unicode.IsSpace] at the head of the input, in
    UTF-8 *)
Fixpoint trimLeft (l : list N) : list N :=
  match l with
  | 9%N :: r | 10%N :: r | 11%N :: r | 12%N :: r | 13%N :: r
  | 32%N :: r => trimLeft r
  | 194%N :: 133%N :: r | 194%N :: 160%N :: r => trimLeft r
  | 225%N :: 154%N :: 128%N :: r => trimLeft r
  | 226%N :: 128%N :: x :: r =>
      if ((128 <=? x) && (x <=? 138))%N || (x =? 168)%N || (x =? 169)%N
         || (x =? 175)%N
      then trimLeft r else l
  | 226%N :: 129%N :: 159%N :: r => trimLeft r
  | 227%N :: 128%N :: 128%N :: r => trimLeft r
  | _ => l
  end.

(** the same at the end of the input, on the reversed bytes *)
Fixpoint trimRight (l : list N) : list N :=
  match l with
  | 9%N :: r | 10%N :: r | 11%N :: r | 12%N :: r | 13%N :: r
  | 32%N :: r => trimRight r
  | 133%N :: 194%N :: r | 160%N :: 194%N :: r => trimRight r
  | 128%N :: 154%N :: 225%N :: r => trimRight r
  | x :: 128%N :: 226%N :: r =>
      if ((128 <=? x) && (x <=? 138))%N || (x =? 168)%N || (x =? 169)%N
         || (x =? 175)%N
      then trimRight r else l
  | 159%N :: 129%N :: 226%N :: r => trimRight r
  | 128%N :: 128%N :: 227%N :: r => trimRight r
  | _ => l
  end.

Definition ofBytes (l : list N) : string :=
  string_of_list_ascii (List.map ascii_of_N l).

(** [strings.TrimSpace] *)
Definition TrimSpace (s : string) : string :=
  ofBytes (rev (trimRight (rev (trimLeft (fmt.bytes s))))).

End strings.


(* ===================================================================== *)
(** ** The openapi package *)
(* ===================================================================== *)

Module openapi.

Section Generator.

Context `{GoLib}.

(** [Schema], without the fields that the generator never sets ([Ref],
    [Enum], [Pattern]).  [Properties] lists the entries of the Go map by
    insertion. *)
Inductive Schema := mkSchema {
  Type_ : string;
  Format : string;
  Properties : list (string * Schema);
  Required : list string;
  Items : option Schema;
  Minimum : option float64;
  Maximum : option float64;
  MinLength : option Z;
  MaxLength : option Z;
}.

Definition typed (type format : string) : Schema :=
  mkSchema type format [] [] None None None None None.

(** [m[key] = value] on the entries of a map *)
Fixpoint mapSet {V : Type} (m : list (string * V)) (key : string)
    (value : V) : list (string * V) :=
  match m with
  | [] => [(key, value)]
  | (k, v) :: m' =>
      if bool_decide (k = key) then (k, value) :: m'
      else (k, v) :: mapSet m' key value
  end.

(** [Parameter] *)
Record Parameter_ := {
  Name : string;
  In : string;
  Description : string;
  Required_ : bool;
  Schema_ : Schema;
}.

(** [RequestBody]; [Content] maps a media type to its schema *)
Record RequestBody := {
  rb_Description : string;
  rb_Required : bool;
  rb_Content : list (string * Schema);
}.

(** [OpenAPIResponse] *)
Record OpenAPIResponse := {
  resp_Description : string;
  resp_Content : list (string * Schema);
}.

(** [Operation] *)
Record Operation := {
  Summary : string;
  op_Description : string;
  Tags : list string;
  Parameters : list Parameter_;
  RequestBody_ : option RequestBody;
  Responses : list (string * OpenAPIResponse);
}.

(** [applyValidationToSchema]: the schema after the rules of the tag.
    A bound that does not scan leaves the zero value. *)
Definition applyRule (schema : Schema) (rule : string) : Schema :=
  let parts := strings.Split rule "="%char in
  let ruleName := strings.TrimSpace (default "" (head parts)) in
  let isNumber :=
    bool_decide (Type_ schema = "number")
    || bool_decide (Type_ schema = "integer") in
  let int_ (s : string) : Z := default 0 (fmt.Sscanf_d_int64 s) in
  let float_ (s : string) : float64 := default float64_zero (Sscanf_f s) in
  match parts with
  | _ :: arg :: _ =>
      if bool_decide (ruleName = "min") then
        if bool_decide (Type_ schema = "string") then
          mkSchema (Type_ schema) (Format schema) (Properties schema)
            (Required schema) (Items schema) (Minimum schema)
            (Maximum schema) (Some (int_ arg)) (MaxLength schema)
        else if isNumber then
          mkSchema (Type_ schema) (Format schema) (Properties schema)
            (Required schema) (Items schema) (Some (float_ arg))
            (Maximum schema) (MinLength schema) (MaxLength schema)
        else schema
      else if bool_decide (ruleName = "max") then
        if bool_decide (Type_ schema = "string") then
          mkSchema (Type_ schema) (Format schema) (Properties schema)
            (Required schema) (Items schema) (Minimum schema)
            (Maximum schema) (MinLength schema) (Some (int_ arg))
        else if isNumber then
          mkSchema (Type_ schema) (Format schema) (Properties schema)
            (Required schema) (Items schema) (Minimum schema)
            (Some (float_ arg)) (MinLength schema) (MaxLength schema)
        else schema
      else if bool_decide (ruleName = "email") then
        mkSchema (Type_ schema) "email" (Properties schema)
          (Required schema) (Items schema) (Minimum schema)
          (Maximum schema) (MinLength schema) (MaxLength schema)
      else if bool_decide (ruleName = "url") then
        mkSchema (Type_ schema) "uri" (Properties schema)
          (Required schema) (Items schema) (Minimum schema)
          (Maximum schema) (MinLength schema) (MaxLength schema)
      else schema
  | _ =>
      if bool_decide (ruleName = "email") then
        mkSchema (Type_ schema) "email" (Properties schema)
          (Required schema) (Items schema) (Minimum schema)
          (Maximum schema) (MinLength schema) (MaxLength schema)
      else if bool_decide (ruleName = "url") then
        mkSchema (Type_ schema) "uri" (Properties schema)
          (Required schema) (Items schema) (Minimum schema)
          (Maximum schema) (MinLength schema) (MaxLength schema)
      else schema
  end.

Definition applyValidationToSchema (schema : Schema) (validateTag : string)
  : Schema :=
  fold_left applyRule (strings.Split validateTag ","%char) schema.

(** the schema of a type that is neither struct nor container *)
Definition kindSchema (k : reflect.Kind) : Schema :=
  match k with
  | reflect.String => typed "string" ""
  | reflect.Int | reflect.Int8 | reflect.Int16 | reflect.Int32 =>
      typed "integer" "int32"
  | reflect.Int64 => typed "integer" "int64"
  | reflect.Uint | reflect.Uint8 | reflect.Uint16 | reflect.Uint32
  | reflect.Uint64 =>
      mkSchema "integer" "" [] [] None (Some float64_zero) None None None
  | reflect.Bool => typed "boolean" ""
  | reflect.Float32 => typed "number" "float"
  | reflect.Float64 => typed "number" "double"
  | reflect.Struct => typed "object" ""
  | _ => typed "string" ""
  end.

(** the property name of a struct field: [None] when the field is
    skipped *)
Definition propertyName (field : reflect.StructField) : option string :=
  if negb (reflect.IsExported field) then None
  else
    let jsonTag := reflect.Get (reflect.Tag field) "json" in
    if bool_decide (jsonTag = "-") then None
    else
      let first := default "" (head (strings.Split jsonTag ","%char)) in
      Some (if bool_decide (jsonTag = "") || bool_decide (first = "")
            then reflect.Name field else first).

(** one round of the loops of [structToSchemaInternal] and
    [structToSchema], given the schema of the field's type *)
Definition addProperty (schema : Schema) (field : reflect.StructField)
    (fieldSchema : Schema) : Schema :=
  match propertyName field with
  | None => schema
  | Some fieldName =>
      let validateTag := reflect.Get (reflect.Tag field) "validate" in
      let fieldSchema :=
        if bool_decide (validateTag = "") then fieldSchema
        else applyValidationToSchema fieldSchema validateTag in
      let required :=
        if negb (bool_decide (validateTag = ""))
           && strings.Contains validateTag "required"
        then Required schema ++ [fieldName] else Required schema in
      mkSchema (Type_ schema) (Format schema)
        (mapSet (Properties schema) fieldName fieldSchema) required
        (Items schema) (Minimum schema) (Maximum schema)
        (MinLength schema) (MaxLength schema)
  end.

(** [reflectTypeToSchema] ([expanded = false]) together with
    [reflectTypeToSchemaExpanded] and [structToSchemaInternal]
    ([expanded = true]), which call each other on the same type. *)
Fixpoint toSchema (expanded : bool) (t : reflect.Type_) {struct t}
  : Schema :=
  match t with
  | reflect.Basic k => kindSchema k
  | reflect.SliceOf elem | reflect.ArrayOf _ elem =>
      mkSchema "array" "" [] [] (Some (toSchema true elem))
        None None None None
  | reflect.StructOf _ _ fields =>
      if expanded then
        (fix loop (fields : list reflect.StructField) (schema : Schema)
           {struct fields} : Schema :=
           match fields with
           | [] => schema
           | field :: fields' =>
               let fieldSchema :=
                 match field with
                 | reflect.mkField _ _ ft _ =>
                     match ft with
                     | reflect.StructOf _ _ _ => toSchema true ft
                     | reflect.PtrTo (reflect.StructOf _ _ _) =>
                         toSchema true ft
                     | reflect.MapOf _ _ => typed "object" ""
                     | _ => toSchema false ft
                     end
                 end in
               loop fields' (addProperty schema field fieldSchema)
           end) fields (typed "object" "")
      else typed "object" ""
  | reflect.PtrTo elem =>
      if expanded then
        match elem with
        | reflect.StructOf _ _ _ => toSchema true elem
        | _ => toSchema false elem
        end
      else typed "string" ""
  | _ => typed "string" ""
  end.

Definition reflectTypeToSchema : reflect.Type_ -> Schema := toSchema false.
Definition reflectTypeToSchemaExpanded : reflect.Type_ -> Schema :=
  toSchema true.

(** [structToSchema] *)
Definition structToSchema (t : reflect.Type_) : Schema :=
  let t := match t with reflect.PtrTo elem => elem | _ => t end in
  match t with
  | reflect.StructOf _ _ fields =>
      fold_left
        (fun schema field =>
           addProperty schema field
             (reflectTypeToSchema (reflect.Typ field)))
        fields (typed "object" "")
  | _ => reflectTypeToSchema t
  end.

(** [getErrorSchema] *)
Definition getErrorSchema : Schema :=
  mkSchema "object" ""
    [("error", typed "string" "");
     ("details",
      mkSchema "object" "" [("*", typed "string" "")] [] None
        None None None None)]
    ["error"] None None None None None.

(** the state of the loop of [generateOperation] *)
Record loopState := {
  parameters : list Parameter_;
  requestBody : option RequestBody;
  formFields : list (string * Schema);
  formFieldsRequired : list string;
  hasFormFields : bool;
}.

Definition isRequired (field : reflect.StructField) : bool :=
  strings.Contains (reflect.Get (reflect.Tag field) "validate") "required".

(** one round of the loop of [generateOperation] over the fields of
    the request type *)
Definition generateOperation_step (st : loopState)
    (field : reflect.StructField) : loopState :=
  let tag := reflect.Tag field in
  let doc := reflect.Get tag "doc" in
  let params := parameters st in
  let params :=
    let headerTag := reflect.Get tag "header" in
    if bool_decide (headerTag = "") then params
    else params ++ [{| Name := headerTag; In := "header";
                       Description := doc;
                       Required_ := isRequired field;
                       Schema_ := reflectTypeToSchema (reflect.Typ field) |}] in
  let params :=
    let routeTag := reflect.Get tag "route" in
    if bool_decide (routeTag = "") then params
    else params ++ [{| Name := routeTag; In := "path";
                       Description := doc;
                       Required_ := true;
                       Schema_ := reflectTypeToSchema (reflect.Typ field) |}] in
  let params :=
    let queryTag := reflect.Get tag "query" in
    if bool_decide (queryTag = "") then params
    else params ++ [{| Name := queryTag; In := "query";
                       Description := doc;
                       Required_ := isRequired field;
                       Schema_ := reflectTypeToSchema (reflect.Typ field) |}] in
  let formTag := reflect.Get tag "form" in
  let hasForm := negb (bool_decide (formTag = "")) in
  let fieldSchema :=
    if reflect.Implements (reflect.Typ field) framework.FileUpload
    then typed "string" "binary"
    else reflectTypeToSchema (reflect.Typ field) in
  let body :=
    match reflect.Lookup tag "body" with
    | Some _ =>
        Some {| rb_Description := doc;
                rb_Required := isRequired field;
                rb_Content :=
                  [("application/json",
                    structToSchema (reflect.Typ field))] |}
    | None => requestBody st
    end in
  {| parameters := params;
     requestBody := body;
     formFields :=
       if hasForm then mapSet (formFields st) formTag fieldSchema
       else formFields st;
     formFieldsRequired :=
       if hasForm && isRequired field
       then formFieldsRequired st ++ [formTag]
       else formFieldsRequired st;
     hasFormFields := hasForm || hasFormFields st |}.

(** [generateOperation]; it panics when the response type is nil, in
    [t.Kind()] of [reflectTypeToSchemaExpanded], and when the request type
    is not a struct *)
Definition generateOperation (endpoint : framework.EndpointSpec)
  : framework.Res Operation :=
  match framework.ResponseType endpoint with
  | None =>
      framework.Panic "invalid memory address or nil pointer dereference"
  | Some responseType =>
  let responseSchema := reflectTypeToSchemaExpanded responseType in
  match reflect.Fields (framework.RequestType endpoint) with
  | None => framework.Panic "reflect: NumField of non-struct type"
  | Some fields =>
      let st :=
        fold_left generateOperation_step fields
          {| parameters := []; requestBody := None; formFields := [];
             formFieldsRequired := []; hasFormFields := false |} in
      framework.Ok {| Summary := framework.Summary endpoint;
            op_Description := framework.Description endpoint;
            Tags := framework.Tags endpoint;
            Parameters := parameters st;
            RequestBody_ :=
              if hasFormFields st then
                Some {| rb_Description := "Multipart form data";
                        rb_Required :=
                          (0 <? length (formFieldsRequired st))%nat;
                        rb_Content :=
                          [("multipart/form-data",
                            mkSchema "object" "" (formFields st)
                              (formFieldsRequired st) None
                              None None None None)] |}
              else requestBody st;
            Responses :=
              [("200", {| resp_Description := "Successful response";
                          resp_Content :=
                            [("application/json", responseSchema)] |});
               ("400", {| resp_Description :=
                            "Bad request - validation error";
                          resp_Content :=
                            [("application/json", getErrorSchema)] |});
               ("500", {| resp_Description := "Internal server error";
                          resp_Content :=
                            [("application/json", getErrorSchema)] |})] |}
  end
  end.

End Generator.

End openapi.

(* ===================================================================== *)
(** ** The example application *)
(* ===================================================================== *)

(** [strconv.Quote] of a text without a character to escape *)
Definition quoted (s : string) : string :=
  String "034" (s +:+ String "034" "").

(** An instance of the library for the examples: floats are not used in
    them, string literals have no escapes, field names fold by ASCII case,
    a scalar is stored in a field of the matching kind, and [append]
    doubles the capacity. *)
Definition lowerByte (b : N) : N :=
  if ((65 <=? b) && (b <=? 90))%N then (b + 32)%N else b.

Definition exampleLib : GoLib := {|
  float64 := Z;
  Sscanf_f := fun _ => None;
  toFloat32 := fun x => x;
  unquote := strings.ofBytes;
  foldName := fun s => strings.ofBytes (List.map lowerByte (fmt.bytes s));
  storeScalar := fun t v =>
    match v, t with
    | json.JString _, reflect.Basic reflect.String => true
    | json.JBool _, reflect.Basic reflect.Bool => true
    | json.JNumber _, reflect.Basic k =>
        bool_decide (is_Some (intBits k)) || bool_decide (is_Some (uintBits k))
        || bool_decide (k = reflect.Float32) || bool_decide (k = reflect.Float64)
    | _, _ => false
    end;
  json_Error := fun e =>
    match e with
    | json.UnknownField key => "json: unknown field " +:+ quoted key
    | json.ScanFailed json.EOF => "EOF"
    | json.ScanFailed json.UnexpectedEOF => "unexpected EOF"
    | json.ScanFailed _ => "invalid character"
    | json.UnmarshalTypeError _ _ => "json: cannot unmarshal"
    end;
  float64_zero := 0;
  growslice := fun oldCap needed => (2 * oldCap - needed)%nat;
  mux_rejects := fun registered pattern => bool_decide (pattern ∈ registered);
|}.

Module example.

Definition exported (name : string) (t : reflect.Type_)
    (tag : list (string * string)) : reflect.StructField :=
  reflect.mkField name "" t tag.

Definition group (fields : list reflect.StructField) : reflect.Type_ :=
  reflect.StructOf "" [] fields.

Definition string_ : reflect.Type_ := reflect.Basic reflect.String.
Definition int_ : reflect.Type_ := reflect.Basic reflect.Int.
Definition bool_ : reflect.Type_ := reflect.Basic reflect.Bool.

Definition APIKey : reflect.StructField :=
  exported "APIKey" string_
    [("json", "X-API-Key"); ("validate", "required");
     ("doc", "API authentication key")].

Definition UserID : reflect.StructField :=
  exported "UserID" string_
    [("json", "id"); ("validate", "required"); ("doc", "User ID")].

(** [GetUserRequest] *)
Definition GetUserRequest : reflect.Type_ :=
  reflect.StructOf "main.GetUserRequest" []
    [exported "Route" (group [UserID]) [];
     exported "Header" (group [APIKey]) [];
     exported "Query"
       (group [exported "IncludeDetails" bool_
                 [("json", "include_details");
                  ("doc", "Include detailed user information")]]) []].

Definition Page : reflect.StructField :=
  exported "Page" int_ [("json", "page"); ("validate", "omitempty,min=1")].

Definition PageSize : reflect.StructField :=
  exported "PageSize" int_
    [("json", "page_size"); ("validate", "omitempty,min=1,max=100")].

Definition SortBy : reflect.StructField :=
  exported "SortBy" string_
    [("json", "sort_by");
     ("validate", "omitempty,oneof=name email age created_at")].

Definition Order : reflect.StructField :=
  exported "Order" string_
    [("json", "order"); ("validate", "omitempty,oneof=asc desc")].

Definition Tags : reflect.StructField :=
  exported "Tags" (reflect.SliceOf string_) [("json", "tags")].

(** [ListUsersRequest] *)
Definition ListUsersRequest : reflect.Type_ :=
  reflect.StructOf "main.ListUsersRequest" []
    [exported "Header" (group [APIKey]) [];
     exported "Query" (group [Page; PageSize; SortBy; Order; Tags]) []].

Definition Avatar : reflect.StructField :=
  exported "Avatar" framework.FileFieldType
    [("json", "avatar"); ("validate", "required");
     ("doc", "Avatar image file")].

(** [UploadAvatarRequest] *)
Definition UploadAvatarRequest : reflect.Type_ :=
  reflect.StructOf "main.UploadAvatarRequest" []
    [exported "Route" (group [UserID]) [];
     exported "Header" (group [APIKey]) [];
     exported "Form" (group [Avatar]) []].

(** the body of [CreateUserRequest] *)
Definition CreateUserBody : reflect.Type_ :=
  group
    [exported "Name" string_
       [("json", "name"); ("validate", "required,min=3,max=50")];
     exported "Email" string_
       [("json", "email"); ("validate", "required,email")];
     exported "Age" int_
       [("json", "age"); ("validate", "required,min=18,max=120")]].

(** [CreateUserRequest] *)
Definition CreateUserRequest : reflect.Type_ :=
  reflect.StructOf "main.CreateUserRequest" []
    [exported "Header"
       (group
          [APIKey;
           exported "ContentType" string_
             [("json", "Content-Type");
              ("validate", "required,eq=application/json")]]) [];
     exported "Body" CreateUserBody []].

(** [User], as a response type *)
Definition User : reflect.Type_ :=
  reflect.StructOf "main.User" []
    [exported "ID" string_ [("json", "id")];
     exported "Name" string_ [("json", "name")];
     exported "Email" string_ [("json", "email")];
     exported "Age" int_ [("json", "age")]].

(** a request shape annotated field by field, in the manner of the
    README; its route parameter carries no validation rule *)
Definition TaggedGetUserRequest : reflect.Type_ :=
  reflect.StructOf "main.GetUserRequest" []
    [exported "UserID" string_ [("route", "id"); ("doc", "User ID")];
     exported "APIKey" string_
       [("header", "X-API-Key"); ("validate", "required")]].

(** the plan of a request type (empty where registration panics) *)
Definition planOf `{GoLib} (T : reflect.Type_) : framework.requestParser :=
  default {| framework.requestType := T; framework.fieldParsers := [];
             framework.hasBodyField := false; framework.bodyFieldIdx := 0 |}
    (framework.buildRequestParser T).

(** a request without headers, path values, query, body or form *)
Definition emptyRequest `{GoLib} : framework.Request :=
  {| framework.Header_Get := fun _ => "";
     framework.PathValue := fun _ => "";
     framework.URL_Query := fun _ => [];
     framework.Body := None;
     framework.ParseMultipartForm :=
       Some (framework.errorString
               "request Content-Type isn't multipart/form-data");
     framework.MultipartForm_File := fun _ => [] |}.

(** a request with one query key, sent once for each of the values *)
Definition queryRequest `{GoLib} (key : string) (values : list string)
  : framework.Request :=
  {| framework.Header_Get := fun _ => "";
     framework.PathValue := fun _ => "";
     framework.URL_Query :=
       fun name => if bool_decide (name = key) then values else [];
     framework.Body := None;
     framework.ParseMultipartForm :=
       Some (framework.errorString
               "request Content-Type isn't multipart/form-data");
     framework.MultipartForm_File := fun _ => [] |}.

(** a multipart request that carries no file part *)
Definition emptyFormRequest `{GoLib} : framework.Request :=
  {| framework.Header_Get := fun _ => "";
     framework.PathValue := fun _ => "";
     framework.URL_Query := fun _ => [];
     framework.Body := None;
     framework.ParseMultipartForm := None;
     framework.MultipartForm_File := fun _ => [] |}.

(** a request with the given bytes as its body *)
Definition bodyRequest `{GoLib} (body : string) : framework.Request :=
  {| framework.Header_Get := fun _ => "";
     framework.PathValue := fun _ => "";
     framework.URL_Query := fun _ => [];
     framework.Body := Some body;
     framework.ParseMultipartForm :=
       Some (framework.errorString
               "request Content-Type isn't multipart/form-data");
     framework.MultipartForm_File := fun _ => [] |}.

(** a handler that returns the nil value and no error *)
Definition accept `{GoLib}
  : framework.ReqValue -> framework.RespValue * option framework.error :=
  fun _ => (framework.RNil, None).

(** a body with the property "role", which [CreateUserBody] does not
    declare: {"name":"abc","role":"admin"} *)
Definition bodyWithRole : string :=
  "{" +:+ quoted "name" +:+ ":" +:+ quoted "abc" +:+ ","
  +:+ quoted "role" +:+ ":" +:+ quoted "admin" +:+ "}".

(** a JSON object followed by more bytes:
    {"name":"abc","email":"abc@example.com","age":30} trailing *)
Definition bodyWithTrailingBytes : string :=
  "{" +:+ quoted "name" +:+ ":" +:+ quoted "abc" +:+ ","
  +:+ quoted "email" +:+ ":" +:+ quoted "abc@example.com" +:+ ","
  +:+ quoted "age" +:+ ":30} trailing".

(** the request [r] with one more header *)
Definition withHeader `{GoLib} (name value : string) (r : framework.Request)
  : framework.Request :=
  {| framework.Header_Get :=
       fun key => if bool_decide (key = name) then value
                  else framework.Header_Get r key;
     framework.PathValue := framework.PathValue r;
     framework.URL_Query := framework.URL_Query r;
     framework.Body := framework.Body r;
     framework.ParseMultipartForm := framework.ParseMultipartForm r;
     framework.MultipartForm_File := framework.MultipartForm_File r |}.

(** a framework with the group /api, which uses the middleware A and B *)
Definition apiWorld `{GoLib} : framework.World :=
  framework.Group_Use 0 [framework.tracing "A"; framework.tracing "B"]
    (framework.Framework_Group "/api"
       (framework.New (fun _ => framework.Valid))).2.

(** what the validator says when the required avatar is missing *)
Definition avatarRequired : framework.FieldError :=
  {| framework.fe_Tag := "required";
     framework.fe_StructNamespace := "UploadAvatarRequest.Form.Avatar";
     framework.fe_Field := "Avatar" |}.

End example.

(* ===================================================================== *)
(** ** The words of the specification *)
(* ===================================================================== *)

(** "A decimal integer": an optional sign and one or more decimal digits,
    and nothing else. *)
Definition isDecimalInteger (s : string) : bool :=
  let l := fmt.bytes s in
  let l :=
    match l with
    | b :: r => if ((b =? 45) || (b =? 43))%N then r else l
    | [] => l
    end in
  negb (bool_decide (l = [])) && forallb fmt.isDigit l.

(** "Starts with a decimal integer": a run of decimal digits, and text
    after it that does not go on with a digit. *)
Definition isDigits (s : string) : bool :=
  negb (bool_decide (s = "")) && forallb fmt.isDigit (fmt.bytes s).

Definition startsWithDigit (s : string) : bool :=
  match fmt.bytes s with
  | b :: _ => fmt.isDigit b
  | [] => false
  end.

(** "Well-formed input": the whole body is one JSON value, with nothing
    but white space around it. *)
Definition isJSONDocument (body : string) : bool :=
  match json.readValue (fmt.bytes body) with
  | inl (_, rest) => bool_decide (json.skip rest = [])
  | inr _ => false
  end.

(** "A property not declared in the body shape": an object stored into a
    struct has a key that denotes no field of the struct, at the top or
    in a value that is itself stored into a field, a slice element or a
    map value. *)
Fixpoint hasUndeclared `{GoLib} (t : reflect.Type_) (v : json.Value)
    {struct v} : bool :=
  match v with
  | json.JObject members =>
      match json.indirect t with
      | reflect.StructOf _ _ fields =>
          existsb
            (fun kv =>
               match kv with
               | (k, v') =>
                   match json.lookupField foldName fields (unquote k) with
                   | None => true
                   | Some f => hasUndeclared (reflect.Typ f) v'
                   end
               end) members
      | reflect.MapOf _ et =>
          existsb (fun kv => match kv with (_, v') => hasUndeclared et v' end)
            members
      | _ => false
      end
  | json.JArray elems =>
      match json.indirect t with
      | reflect.SliceOf et => existsb (hasUndeclared et) elems
      | _ => false
      end
  | _ => false
  end.

(** "An integer-kind binding": the scan that the converter of the kind
    applies to the input, and the reason it gives when the scan fails. *)
Definition integerScan (k : reflect.Kind)
  : option ((string -> option Z) * string) :=
  match k with
  | reflect.Int | reflect.Int8 | reflect.Int16 | reflect.Int32
  | reflect.Int64 =>
      Some (fmt.Sscanf_d_int64, "invalid integer value")
  | reflect.Uint | reflect.Uint8 | reflect.Uint16 | reflect.Uint32
  | reflect.Uint64 =>
      Some (fmt.Sscanf_d_uint64, "invalid unsigned integer value")
  | _ => None
  end.

(* ===================================================================== *)
(** ** Notions of the proofs *)
(* ===================================================================== *)

(** A scan of [l] fits when it does not stop for lack of fuel and leaves
    no more than it was given. *)
Definition fits {A : Type} (l : list N) (r : json.Scan A) : Prop :=
  r <> inr json.OutOfFuel
  /\ forall a rest, r = inl (a, rest) -> (length rest <= length l)%nat.

(** Induction on types, with the fields of a struct. *)
Section TypeInduction.

Variable P : reflect.Type_ -> Prop.
Hypothesis HBasic : forall k, P (reflect.Basic k).
Hypothesis HInterface : forall ms, P (reflect.InterfaceOf ms).
Hypothesis HSlice : forall e, P e -> P (reflect.SliceOf e).
Hypothesis HArray : forall n e, P e -> P (reflect.ArrayOf n e).
Hypothesis HPtr : forall e, P e -> P (reflect.PtrTo e).
Hypothesis HMap : forall k e, P k -> P e -> P (reflect.MapOf k e).
Hypothesis HStruct : forall n ms fs,
    Forall (fun f => P (reflect.Typ f)) fs -> P (reflect.StructOf n ms fs).

Fixpoint Type_induction (t : reflect.Type_) : P t :=
  match t with
  | reflect.Basic k => HBasic k
  | reflect.InterfaceOf ms => HInterface ms
  | reflect.SliceOf e => HSlice e (Type_induction e)
  | reflect.ArrayOf n e => HArray n e (Type_induction e)
  | reflect.PtrTo e => HPtr e (Type_induction e)
  | reflect.MapOf k e => HMap k e (Type_induction k) (Type_induction e)
  | reflect.StructOf n ms fs =>
      HStruct n ms fs
        ((fix fields (l : list reflect.StructField)
            : Forall (fun f => P (reflect.Typ f)) l :=
            match l with
            | [] => List.Forall_nil _
            | f :: l' =>
                @List.Forall_cons _ (fun f => P (reflect.Typ f)) f l'
                  (match f return P (reflect.Typ f) with
                   | reflect.mkField _ _ ty _ => Type_induction ty
                   end)
                  (fields l')
            end) fs)
  end.

End TypeInduction.

(** Induction on JSON values, with the elements and members. *)
Section ValueInduction.

Variable P : json.Value -> Prop.
Hypothesis HNull : P json.JNull.
Hypothesis HBool : forall b, P (json.JBool b).
Hypothesis HNumber : forall lit, P (json.JNumber lit).
Hypothesis HString : forall raw, P (json.JString raw).
Hypothesis HArray : forall elems, Forall P elems -> P (json.JArray elems).
Hypothesis HObject : forall members,
    Forall (fun kv => P kv.2) members -> P (json.JObject members).

Fixpoint Value_induction (v : json.Value) : P v :=
  match v with
  | json.JNull => HNull
  | json.JBool b => HBool b
  | json.JNumber lit => HNumber lit
  | json.JString raw => HString raw
  | json.JArray elems =>
      HArray elems
        ((fix all (l : list json.Value) : Forall P l :=
            match l with
            | [] => List.Forall_nil _
            | x :: l' => @List.Forall_cons _ P x l' (Value_induction x) (all l')
            end) elems)
  | json.JObject members =>
      HObject members
        ((fix all (l : list (list N * json.Value))
            : Forall (fun kv => P kv.2) l :=
            match l with
            | [] => List.Forall_nil _
            | kv :: l' =>
                @List.Forall_cons _ (fun kv => P kv.2) kv l'
                  (match kv return P kv.2 with
                   | (_, x) => Value_induction x
                   end)
                  (all l')
            end) members)
  end.

End ValueInduction.

(* ===================================================================== *)
(** ** Notions of the plan, the report, the registry and the schemas *)
(* ===================================================================== *)

Import framework.

(** the bindings that the walker makes for the top-level field [i] *)
Definition bindingsOf `{GoLib} (i : nat) (field : reflect.StructField)
  : list fieldParser :=
  if negb (reflect.IsExported field) then []
  else
    match reflect.Typ field with
    | reflect.StructOf _ _ nested =>
        if bool_decide (reflect.Name field = "Route")
        then parseNestedStruct nested 0 i "route"
        else if bool_decide (reflect.Name field = "Header")
        then parseNestedStruct nested 0 i "header"
        else if bool_decide (reflect.Name field = "Query")
        then parseNestedStruct nested 0 i "query"
        else if bool_decide (reflect.Name field = "Form")
        then parseNestedStructForForm nested 0 i
        else []
    | _ => []
    end.

(** "A binding of the request type [T]": the exported field [j] of the
    group at the exported top-level field [i], in the category of the
    group's name. *)
Definition isBinding `{GoLib} (T : reflect.Type_) (fp : fieldParser) : Prop :=
  exists fields i field name methods nested j nestedField,
    reflect.Fields T = Some fields
    /\ fields !! i = Some field
    /\ reflect.IsExported field = true
    /\ reflect.Typ field = reflect.StructOf name methods nested
    /\ nested !! j = Some nestedField
    /\ reflect.IsExported nestedField = true
    /\ ((reflect.Name field = "Route"
         /\ fp = nestedFieldParser j i "route" nestedField)
        \/ (reflect.Name field = "Header"
            /\ fp = nestedFieldParser j i "header" nestedField)
        \/ (reflect.Name field = "Query"
            /\ fp = nestedFieldParser j i "query" nestedField)
        \/ (reflect.Name field = "Form"
            /\ fp = formFieldParser j i nestedField)).

(** a binding that the executor can run without a reflect panic: a slice
    is bound from the query and has a slice type, and a file field can
    hold a [FileField] *)
Definition safeBinding `{GoLib} (fp : fieldParser) : bool :=
  (negb (isSlice fp)
   || (bool_decide (sourceType fp = "query")
       && match fieldType fp with
          | reflect.SliceOf _ => true
          | _ => false
          end))
  && (negb (isFileField fp) || assignableFromFileField (fieldType fp)).

Definition isPanic {A : Type} (r : Res A) : bool :=
  match r with
  | Panic _ => true
  | _ => false
  end.

(** the field that the walker takes for the body: an exported field of
    struct type with the name Body *)
Definition isBodyGroup (field : reflect.StructField) : bool :=
  reflect.IsExported field
  && match reflect.Typ field with
     | reflect.StructOf _ _ _ => true
     | _ => false
     end
  && bool_decide (reflect.Name field = "Body").

(** a request that carries no header, path value or query value *)
Definition carriesNothing `{GoLib} (r : Request) : Prop :=
  (forall name, Header_Get r name = "")
  /\ (forall name, PathValue r name = "")
  /\ (forall name, URL_Query r name = []).

(** a name without a dot, as the names of struct fields are *)
Fixpoint dotFree (s : string) : bool :=
  match s with
  | EmptyString => true
  | String c s' => negb (bool_decide (c = "."%char)) && dotFree s'
  end.


(** the path of the field that a binding writes, as the validator names
    it below the request type: "Query.Page" *)
Definition structPath `{GoLib} (T : reflect.Type_) (fp : fieldParser)
  : string :=
  match FieldAt T (fieldIndex fp) with
  | Ok parent =>
      match FieldAt (reflect.Typ parent) (nestedFieldIndex fp) with
      | Ok nested => reflect.Name parent +:+ "." +:+ reflect.Name nested
      | _ => ""
      end
  | _ => ""
  end.

(** the names of the fields of a struct type are distinct, and so are
    those of its fields of struct type, as Go requires of a struct *)
Definition distinctNames (T : reflect.Type_) : bool :=
  match reflect.Fields T with
  | Some fields =>
      bool_decide (NoDup (reflect.Name <$> fields))
      && forallb
           (fun field =>
              match reflect.Fields (reflect.Typ field) with
              | Some nested => bool_decide (NoDup (reflect.Name <$> nested))
              | None => true
              end)
           fields
  | None => false
  end.

(** where the report puts a violation that is reported alone *)
Definition origin `{GoLib} (parser : requestParser) (e : FieldError)
  : option (string * string) :=
  match formatValidationError (ValidationErrors [e]) parser with
  | Ok (Some (ve :: _)) => Some (Field ve, SourceType ve)
  | _ => None
  end.

Definition message (e : FieldError) : string :=
  "failed validation: " +:+ fe_Tag e.

(** the loop of [formatValidationError] that groups the messages *)
Definition groupErrors (cls : FieldError -> string * string)
    (l : list FieldError) (m : gmap (string * string) (list string))
  : gmap (string * string) (list string) :=
  fold_left
    (fun m e =>
       let key := cls e in
       <[key := default [] (m !! key)
                  ++ ["failed validation: " +:+ fe_Tag e]]> m)
    l m.

Definition toValidationError (kv : string * string * list string)
  : ValidationError :=
  {| Field := kv.1.1; SourceType := kv.1.2; Errors := kv.2 |}.

(** the method and the path of the registrations of a program, in order *)
Fixpoint routesOf `{GoLib} (ops : list Op) : list (string * string) :=
  match ops with
  | [] => []
  | OpRegisterHandlerRoute _ _ _ method path _ _ :: ops' =>
      (method, path) :: routesOf ops'
  | _ :: ops' => routesOf ops'
  end.

(** the summary, the description and the tags that the calls of an
    options function leave: those of the last call of each kind *)
Definition summaryOf `{GoLib} (calls : list handler.EndpointOptions)
  : string :=
  default ""
    (last (omap (fun o => match o with
                          | handler.SetSummary summary => Some summary
                          | _ => None
                          end) calls)).

Definition descriptionOf `{GoLib} (calls : list handler.EndpointOptions)
  : string :=
  default ""
    (last (omap (fun o => match o with
                          | handler.SetDescription description =>
                              Some description
                          | _ => None
                          end) calls)).

Definition tagsOf `{GoLib} (calls : list handler.EndpointOptions)
  : list string :=
  default []
    (last (omap (fun o => match o with
                          | handler.SetTags tags => Some tags
                          | _ => None
                          end) calls)).

(** the call on the endpoint that a method of [EndpointBuilder] makes *)
Definition forwarded `{GoLib} (o : handler.EndpointOptions) : EndpointCall :=
  match o with
  | handler.SetSummary summary => CallSetSummary summary
  | handler.SetDescription description => CallSetDescription description
  | handler.SetTags tags => CallSetTags tags
  | handler.Use middleware => CallUse middleware
  end.

(** the parameter that [generateOperation] makes of the tag [source] of a
    field *)
Definition tagParameter `{GoLib} (source : string)
    (field : reflect.StructField) : openapi.Parameter_ :=
  {| openapi.Name := reflect.Get (reflect.Tag field) source;
     openapi.In := if bool_decide (source = "route") then "path" else source;
     openapi.Description := reflect.Get (reflect.Tag field) "doc";
     openapi.Required_ :=
       bool_decide (source = "route") || openapi.isRequired field;
     openapi.Schema_ := openapi.reflectTypeToSchema (reflect.Typ field) |}.

(** the parameters that [generateOperation] makes of a field: of its tags
    header, route and query, in this order *)
Definition tagParameters `{GoLib} (field : reflect.StructField)
  : list openapi.Parameter_ :=
  (fun source => tagParameter source field)
    <$> filter (fun source => reflect.Get (reflect.Tag field) source <> "")
          ["header"; "route"; "query"].

(** the JSON request body that [generateOperation] makes of a field with
    the tag body *)
Definition jsonBody `{GoLib} (field : reflect.StructField)
  : openapi.RequestBody :=
  {| openapi.rb_Description := reflect.Get (reflect.Tag field) "doc";
     openapi.rb_Required := openapi.isRequired field;
     openapi.rb_Content :=
       [("application/json", openapi.structToSchema (reflect.Typ field))] |}.

Definition formTag (field : reflect.StructField) : string :=
  reflect.Get (reflect.Tag field) "form".

(** what the rounds of the struct loops keep: the schema is an object
    without items, no property is listed twice and every required name is
    the name of a property *)
Definition objectOK `{GoLib} (schema : openapi.Schema) : Prop :=
  openapi.Type_ schema = "object"
  /\ openapi.Items schema = None
  /\ NoDup (openapi.Properties schema).*1
  /\ forall name, name ∈ openapi.Required schema ->
       name ∈ (openapi.Properties schema).*1.

(** a schema that an OpenAPI reader accepts: items on arrays and only
    there, no property listed twice, every required name a property *)
Definition schemaOK `{GoLib} (schema : openapi.Schema) : Prop :=
  (is_Some (openapi.Items schema) <-> openapi.Type_ schema = "array")
  /\ NoDup (openapi.Properties schema).*1
  /\ forall name, name ∈ openapi.Required schema ->
       name ∈ (openapi.Properties schema).*1.

(* ===================================================================== *)
(** ** More inputs *)
(* ===================================================================== *)

Module cases.

(** the file part of a multipart request *)
Definition avatarPart : FileHeader :=
  {| fh_Filename := "me.png"; fh_Size := 3; fh_Open := inl "PNG" |}.

(** a multipart request that carries the file part avatar *)
Definition fileRequest `{GoLib} : Request :=
  {| Header_Get := fun _ => "";
     PathValue := fun _ => "";
     URL_Query := fun _ => [];
     Body := None;
     ParseMultipartForm := None;
     MultipartForm_File :=
       fun name => if bool_decide (name = "avatar") then [avatarPart]
                   else [] |}.

Definition Caption : reflect.StructField :=
  example.exported "Caption" example.string_ [("json", "caption")].

(** an upload with a text field beside the file *)
Definition CaptionedUploadRequest : reflect.Type_ :=
  reflect.StructOf "main.CaptionedUploadRequest" []
    [example.exported "Form" (example.group [example.Avatar; Caption]) []].

Definition Accept : reflect.StructField :=
  example.exported "Accept" (reflect.SliceOf example.string_)
    [("json", "Accept")].

(** a request type with a list in its Header group *)
Definition AcceptRequest : reflect.Type_ :=
  reflect.StructOf "main.AcceptRequest" []
    [example.exported "Header" (example.group [Accept]) []].

(** [UploadAvatarRequest] as the README writes it, with a tag on every
    field *)
Definition TaggedUploadAvatarRequest : reflect.Type_ :=
  reflect.StructOf "main.UploadAvatarRequest" []
    [example.exported "UserID" example.string_
       [("route", "id"); ("validate", "required")];
     example.exported "APIKey" example.string_
       [("header", "X-API-Key"); ("validate", "required")];
     example.exported "Avatar" FileFieldType
       [("form", "avatar"); ("validate", "required");
        ("doc", "Avatar image file")]].

(** [UpdateUserRequest] as the README writes it *)
Definition TaggedUpdateUserRequest : reflect.Type_ :=
  reflect.StructOf "main.UpdateUserRequest" []
    [example.exported "UserID" example.string_
       [("route", "id"); ("validate", "required")];
     example.exported "Body"
       (example.group
          [example.exported "Name" example.string_
             [("json", "name,omitempty");
              ("validate", "omitempty,min=3,max=50")];
           example.exported "Email" example.string_
             [("json", "email,omitempty"); ("validate", "omitempty,email")];
           example.exported "Age" example.int_
             [("json", "age,omitempty");
              ("validate", "omitempty,min=18,max=120")]])
       [("body", ""); ("validate", "required")]].

(** the endpoint that [CreateEndpoint] makes of a request type and a
    response type, with the handler that accepts *)
Definition endpointOf `{GoLib} (method path : string)
    (TReq TResp : reflect.Type_) : EndpointSpec :=
  {| Method := method; RelativePath := path; FullPath := "";
     Summary := ""; Description := ""; Tags := [];
     RequestType := TReq; ResponseType := reflect.TypeOfZero TResp;
     Middlewares := nilSlice; AllMiddlewares := nilSlice;
     handlerPrepFn := fun validator_Struct =>
       createTypeSafeHandler validator_Struct TResp example.accept
         (example.planOf TReq) |}.

(** the group /api after it was given a third middleware: its list has
    room for one more *)
Definition roomyWorld `{GoLib} : World :=
  Group_Use 0 [tracing "C"] example.apiWorld.

(** what the validator says when the path value of the user is missing *)
Definition userRequired : FieldError :=
  {| fe_Tag := "required";
     fe_StructNamespace := "UploadAvatarRequest.Route.UserID";
     fe_Field := "UserID" |}.

(** the string of the given bytes *)
Definition ofBytes (l : list N) : string :=
  string_of_list_ascii (ascii_of_N <$> l).

(** a validator that wants the avatar of [UploadAvatarRequest] and
    nothing else *)
Definition wantsAvatar `{GoLib} (v : ReqValue) : ValidatorResult :=
  match Field_ v (2%nat, Some 0%nat) with
  | VZero => ValidationErrors [example.avatarRequired]
  | _ => Valid
  end.

End cases.

(* ===================================================================== *)
(** * Properties *)
(* ===================================================================== *)

Import framework.

(** ** The JSON scanner *)

Section Fuel.

Import json.

Lemma fits_inr {A : Type} (l : list N) (e : ScanError) :
  e <> OutOfFuel -> fits (A := A) l (inr e).
Proof. intros He. split; [congruence|discriminate]. Qed.

Ltac fits_err H := apply fits_inr; intros ->; exact (H eq_refl).

Lemma fits_inl {A : Type} (l : list N) (a : A) (rest : list N) :
  (length rest <= length l)%nat -> fits l (inl (a, rest)).
Proof. intros Hle. split; [discriminate|]. intros ? ? [= _ <-]. exact Hle. Qed.

Lemma fits_le {A : Type} (l l' : list N) (r : Scan A) :
  (length l <= length l')%nat -> fits l r -> fits l' r.
Proof.
  intros Hle [Hf Hrest]. split; [exact Hf|].
  intros a rest E. specialize (Hrest a rest E). lia.
Qed.

Lemma fits_push (l : list N) (pre : list N) (r : Scan (list N)) :
  fits l r -> fits l (push pre r).
Proof.
  intros [Hf Hrest]. destruct r as [[s rest]|e]; simpl.
  - apply fits_inl. eapply Hrest. reflexivity.
  - fits_err Hf.
Qed.

Lemma skip_length (l : list N) : (length (skip l) <= length l)%nat.
Proof.
  induction l as [|b l IH]; simpl; [lia|].
  destruct (isSpace b); simpl; lia.
Qed.

Lemma scanString_fits (l : list N) : fits l (scanString l).
Proof.
  remember (length l) as n eqn:Hn. revert l Hn.
  induction n as [n IH] using lt_wf_ind. intros l ->.
  assert (IH' : forall l', (length l' < length l)%nat ->
                           fits l (scanString l')).
  { intros l' Hl'. eapply fits_le; [|eapply IH; [exact Hl'|reflexivity]]. lia. }
  clear IH.
  destruct l as [|b r]; simpl; [apply fits_inr; discriminate|].
  destruct (b =? 34)%N; [apply fits_inl; simpl; lia|].
  destruct (b =? 92)%N.
  - destruct r as [|e r1]; [apply fits_inr; discriminate|].
    destruct (e =? 117)%N.
    + destruct r1 as [|h1 [|h2 [|h3 [|h4 r2]]]];
        try (destruct (forallb isHex _); apply fits_inr; discriminate).
      destruct (isHex h1 && isHex h2 && isHex h3 && isHex h4);
        [|apply fits_inr; discriminate].
      apply fits_push, IH'. simpl. lia.
    + destruct (isEscape e); [|apply fits_inr; discriminate].
      apply fits_push, IH'. simpl. lia.
  - destruct (b <? 32)%N; [apply fits_inr; discriminate|].
    apply fits_push, IH'. simpl. lia.
Qed.

Lemma digits_length (l : list N) : (length (digits l).2 <= length l)%nat.
Proof.
  induction l as [|b l IH]; simpl; [lia|].
  destruct (isDigit b); simpl; [|lia].
  destruct (digits l) as [ds r']. simpl in *. lia.
Qed.

Lemma digits_fits (l : list N) : fits l (inl (digits l)).
Proof.
  pose proof (digits_length l). destruct (digits l) as [ds r].
  apply fits_inl. assumption.
Qed.

Lemma digits1_fits (l : list N) : fits l (digits1 l).
Proof.
  destruct l as [|b r]; simpl; [apply fits_inr; discriminate|].
  destruct (isDigit b) eqn:E; [|apply fits_inr; discriminate].
  pose proof (digits_fits (b :: r)) as Hd. simpl in Hd. rewrite E in Hd.
  exact Hd.
Qed.

Lemma scanInt_fits (l : list N) : fits l (scanInt l).
Proof.
  destruct l as [|b r]; simpl; [apply fits_inr; discriminate|].
  destruct (b =? 48)%N; [apply fits_inl; simpl; lia|].
  destruct (isDigit b) eqn:E; [|apply fits_inr; discriminate].
  pose proof (digits_fits (b :: r)) as Hd. simpl in Hd. rewrite E in Hd.
  exact Hd.
Qed.

Lemma scanFrac_fits (l : list N) : fits l (scanFrac l).
Proof.
  destruct l as [|b r]; simpl; [apply fits_inl; simpl; lia|].
  destruct (b =? 46)%N; [|apply fits_inl; simpl; lia].
  apply fits_push. eapply fits_le; [|apply digits1_fits]. simpl. lia.
Qed.

Lemma scanExp_fits (l : list N) : fits l (scanExp l).
Proof.
  destruct l as [|e r]; simpl; [apply fits_inl; simpl; lia|].
  destruct ((e =? 101) || (e =? 69))%N; [|apply fits_inl; simpl; lia].
  destruct r as [|s r']; [apply fits_inr; discriminate|].
  destruct ((s =? 43) || (s =? 45))%N; apply fits_push;
    (eapply fits_le; [|apply digits1_fits]); simpl; lia.
Qed.

Lemma scanNumber_fits (l : list N) : fits l (scanNumber l).
Proof.
  unfold scanNumber.
  assert (Hsign : exists sign l1,
    match l with
    | b :: r => if (b =? 45)%N then ([45%N], r) else ([], l)
    | [] => ([], l)
    end = (sign, l1) /\ (length l1 <= length l)%nat).
  { destruct l as [|b r]; [eauto|].
    destruct (b =? 45)%N; eexists _, _; (split; [reflexivity|]); simpl; lia. }
  destruct Hsign as (sign & l1 & -> & Hl1).
  destruct (scanInt_fits l1) as [Hi Hirest].
  destruct (scanInt l1) as [[i l2]|e]; [|fits_err Hi].
  specialize (Hirest i l2 eq_refl).
  destruct (scanFrac_fits l2) as [Hf Hfrest].
  destruct (scanFrac l2) as [[f l3]|e]; [|fits_err Hf].
  specialize (Hfrest f l3 eq_refl).
  apply fits_push. eapply fits_le; [|apply scanExp_fits]. lia.
Qed.

Lemma scanLiteral_fits (name l : list N) : fits l (scanLiteral name l).
Proof.
  revert l. induction name as [|c name IH]; intros l; simpl.
  - destruct l; apply fits_inl; lia.
  - destruct l as [|b r]; [apply fits_inr; discriminate|].
    destruct (b =? c)%N; [|apply fits_inr; discriminate].
    eapply fits_le; [|apply IH]. simpl. lia.
Qed.

Lemma literal_fits (name : list N) (v : Value) (l : list N) :
  fits l (literal name v l).
Proof.
  unfold literal. destruct (scanLiteral_fits name l) as [Hf Hrest].
  destruct (scanLiteral name l) as [[[] r]|e].
  - apply fits_inl. eapply Hrest. reflexivity.
  - fits_err Hf.
Qed.

(** With twice the length of the input as fuel, the scanner never stops
    for lack of fuel, and what it leaves is a suffix of its input. *)
Lemma scan_fits (fuel : nat) :
  (forall l, (2 * length l < fuel)%nat -> fits l (scanValue fuel l))
  /\ (forall l acc, (2 * length l + 1 < fuel)%nat ->
        fits l (scanMembers fuel l acc))
  /\ (forall l acc, (2 * length l + 1 < fuel)%nat ->
        fits l (scanElements fuel l acc)).
Proof.
  induction fuel as [|fuel (IHV & IHM & IHE)];
    [repeat split; intros; lia|].
  split; [|split].
  - intros l Hl. simpl. pose proof (skip_length l) as Hs.
    destruct (skip l) as [|b r]; [apply fits_inr; discriminate|].
    simpl in Hs.
    destruct (b =? 123)%N.
    { pose proof (skip_length r) as Hs'.
      assert (HM : fits l (scanMembers fuel r [])).
      { eapply fits_le; [|apply IHM]; lia. }
      destruct (skip r) as [|c r']; [exact HM|].
      destruct (c =? 125)%N; [|exact HM].
      apply fits_inl. simpl in Hs'. lia. }
    destruct (b =? 91)%N.
    { pose proof (skip_length r) as Hs'.
      assert (HE : fits l (scanElements fuel r [])).
      { eapply fits_le; [|apply IHE]; lia. }
      destruct (skip r) as [|c r']; [exact HE|].
      destruct (c =? 93)%N; [|exact HE].
      apply fits_inl. simpl in Hs'. lia. }
    destruct (b =? 34)%N.
    { destruct (scanString_fits r) as [Hf Hrest].
      destruct (scanString r) as [[s r']|e].
      - apply fits_inl. specialize (Hrest s r' eq_refl). lia.
      - fits_err Hf. }
    destruct (b =? 116)%N;
      [eapply fits_le; [|apply literal_fits]; lia|].
    destruct (b =? 102)%N;
      [eapply fits_le; [|apply literal_fits]; lia|].
    destruct (b =? 110)%N;
      [eapply fits_le; [|apply literal_fits]; lia|].
    destruct (isDigit b || (b =? 45)%N); [|apply fits_inr; discriminate].
    destruct (scanNumber_fits (b :: r)) as [Hf Hrest].
    destruct (scanNumber (b :: r)) as [[n r']|e].
    + apply fits_inl. specialize (Hrest n r' eq_refl). simpl in Hrest. lia.
    + fits_err Hf.
  - intros l acc Hl. simpl. pose proof (skip_length l) as Hs.
    destruct (skip l) as [|q r]; [apply fits_inr; discriminate|].
    simpl in Hs.
    destruct (negb (q =? 34)%N); [apply fits_inr; discriminate|].
    destruct (scanString_fits r) as [Hf Hrest].
    destruct (scanString r) as [[k r1]|e]; [|fits_err Hf].
    specialize (Hrest k r1 eq_refl).
    pose proof (skip_length r1) as Hs1.
    destruct (skip r1) as [|c r2]; [apply fits_inr; discriminate|].
    simpl in Hs1.
    destruct (negb (c =? 58)%N); [apply fits_inr; discriminate|].
    destruct (IHV r2) as [Hv Hvrest]; [lia|].
    destruct (scanValue fuel r2) as [[v r3]|e];
      [|fits_err Hv].
    specialize (Hvrest v r3 eq_refl).
    pose proof (skip_length r3) as Hs3.
    destruct (skip r3) as [|d r4]; [apply fits_inr; discriminate|].
    simpl in Hs3.
    destruct (d =? 44)%N; [eapply fits_le; [|apply IHM]; lia|].
    destruct (d =? 125)%N; [apply fits_inl; lia|].
    apply fits_inr; discriminate.
  - intros l acc Hl. simpl.
    destruct (IHV l) as [Hv Hvrest]; [lia|].
    destruct (scanValue fuel l) as [[v r1]|e];
      [|fits_err Hv].
    specialize (Hvrest v r1 eq_refl).
    pose proof (skip_length r1) as Hs1.
    destruct (skip r1) as [|d r2]; [apply fits_inr; discriminate|].
    simpl in Hs1.
    destruct (d =? 44)%N; [eapply fits_le; [|apply IHE]; lia|].
    destruct (d =? 93)%N; [apply fits_inl; lia|].
    apply fits_inr; discriminate.
Qed.

(** [readValue] never reports a lack of fuel: its errors are those of
    the decoder. *)
Lemma readValue_fuel (body : list N) :
  readValue body <> inr OutOfFuel.
Proof.
  unfold readValue. destruct (skip body); [discriminate|].
  apply (proj1 (scan_fits (S (2 * length body)))). lia.
Qed.

End Fuel.

(** ** The models of the library on examples *)

Example Sscanf_d_42 : fmt.Sscanf_d_int64 "42" = Some 42.
Proof. reflexivity. Qed.
Example Sscanf_d_neg : fmt.Sscanf_d_int64 "  -7" = Some (-7).
Proof. reflexivity. Qed.
Example Sscanf_d_abc : fmt.Sscanf_d_int64 "abc" = None.
Proof. reflexivity. Qed.
Example Sscanf_d_prefix : fmt.Sscanf_d_int64 "12abc" = Some 12.
Proof. reflexivity. Qed.
Example Sscanf_d_range : fmt.Sscanf_d_int64 "9223372036854775808" = None.
Proof. reflexivity. Qed.
Example Sscanf_d_uint_neg : fmt.Sscanf_d_uint64 "-1" = None.
Proof. reflexivity. Qed.
Example Sprint_d_12 : fmt.Sprint_d 12 = "12".
Proof. reflexivity. Qed.

Example readValue_object :
  json.readValue
    (fmt.bytes ("{" +:+ quoted "a" +:+ ": [1, true], " +:+ quoted "b"
                +:+ ": null} x"))
  = inl (json.JObject
           [(fmt.bytes "a",
             json.JArray [json.JNumber [49%N]; json.JBool true]);
            (fmt.bytes "b", json.JNull)],
         fmt.bytes " x").
Proof. reflexivity. Qed.
Example readValue_open_arrays :
  json.readValue (fmt.bytes "[[[[") = inr json.UnexpectedEOF.
Proof. reflexivity. Qed.
Example readValue_comma :
  json.readValue (fmt.bytes "[1,]") = inr (json.SyntaxError (fmt.bytes "]")).
Proof. reflexivity. Qed.
Example readValue_blank : json.readValue (fmt.bytes "  ") = inr json.EOF.
Proof. reflexivity. Qed.

Example Contains_required :
  strings.Contains "omitempty,required" "required" = true.
Proof. reflexivity. Qed.
Example Split_rules :
  strings.Split "min=3,max=50" ","%char = ["min=3"; "max=50"].
Proof. reflexivity. Qed.
Example TrimSpace_min : strings.TrimSpace "  min " = "min".
Proof. reflexivity. Qed.

(** ** The response writer *)


Lemma type_eqb_eq (a b : reflect.Type_) : type_eqb a b = true <-> a = b.
Proof.
  revert b. induction a using Type_induction; intros b; destruct b;
    simpl; try (split; [discriminate | discriminate]).
  - rewrite bool_decide_eq_true. naive_solver.
  - rewrite bool_decide_eq_true. naive_solver.
  - rewrite IHa. naive_solver.
  - rewrite andb_true_iff, bool_decide_eq_true, IHa. naive_solver.
  - rewrite IHa. naive_solver.
  - rewrite andb_true_iff, IHa1, IHa2. naive_solver.
  - rewrite !andb_true_iff, !bool_decide_eq_true.
    assert (Hfs : forall fs',
      (fix fields_eqb (l l' : list reflect.StructField) {struct l} : bool :=
         match l, l' with
         | [], [] => true
         | f :: l, f' :: l' => field_eqb f f' && fields_eqb l l'
         | _, _ => false
         end) fs fs' = true <-> fs = fs').
    { induction H as [|f fs Hf Hfs IH]; intros [|f' fs']; simpl;
        try (split; discriminate); [tauto|].
      rewrite andb_true_iff, IH.
      destruct f as [n0 p0 t0 tag0], f' as [n1 p1 t1 tag1]; simpl in *.
      rewrite !andb_true_iff, !bool_decide_eq_true, Hf. naive_solver. }
    rewrite Hfs. naive_solver.
Qed.

Section ResponseWriter.

Context `{GoLib}.

Lemma StatusResponse_neq (Resp : reflect.Type_) : StatusResponse Resp <> Resp.
Proof.
  induction Resp using Type_induction; try discriminate.
  intros E. pose proof E as E'. unfold StatusResponse in E'.
  injection E' as _ _ Efs.
  rewrite <- Efs in H0.
  apply Forall_cons in H0 as [_ [HBody _]%Forall_cons].
  apply HBody. exact E.
Qed.

Lemma asStatusResponse_own_type (Resp : reflect.Type_) (Code : Z)
    (Body : RespValue) :
  asStatusResponse (StatusResponse Resp) (RStatus Resp Code Body) = None.
Proof.
  unfold asStatusResponse.
  destruct (type_eqb _ _) eqn:E; [|reflexivity].
  apply type_eqb_eq in E. injection E as E.
  symmetry in E. exfalso. exact (StatusResponse_neq Resp E).
Qed.

Lemma asResponder_status (Resp : reflect.Type_) (Code : Z) (Body : RespValue) :
  asResponder (RStatus Resp Code Body) = None.
Proof. reflexivity. Qed.

(** C1.  The response writer tests, in this order, whether the value is
    a Responder, whether its dynamic type is [StatusResponse[Resp]] for the
    response type [Resp] of the handler, and otherwise writes 200 and the
    whole value.  A handler declared to return [StatusResponse[T]] has
    [Resp = StatusResponse[T]], so the second test compares the dynamic type
    [StatusResponse[T]] with [StatusResponse[StatusResponse[T]]] and fails:
    for every such value the writer writes status 200 and encodes the
    whole wrapper, not the wrapper's code and its inner body. *)
Theorem writeResponse_status_wrapper_written_as_plain_value
    (Resp : reflect.Type_) (Code : Z) (Body : RespValue) (w : Trace) :
  writeResponse (StatusResponse Resp) (RStatus Resp Code Body) w
  = w ++ [HeaderSet "Content-Type" "application/json";
          WriteHeader 200;
          Encode (Response (DStatusResponse Code (toData Body)))].
Proof.
  unfold writeResponse.
  rewrite asResponder_status, asStatusResponse_own_type. reflexivity.
Qed.

(** (a) a Responder writes itself, and nothing else is written *)
Lemma writeResponse_responder (Resp t : reflect.Type_) (d : Data)
    (WriteResponse : Trace -> Trace) (w : Trace) :
  reflect.Implements t Responder = true ->
  writeResponse Resp (RValue t d WriteResponse) w = WriteResponse w.
Proof.
  intros Hi. unfold writeResponse, asResponder. rewrite Hi. reflexivity.
Qed.

(** (b) is taken by a value of type [StatusResponse[Resp]] itself, which a
    handler can only return when [Resp] is an interface type *)
Lemma writeResponse_wrapper_of_declared_type (Resp : reflect.Type_) (Code : Z)
    (Body : RespValue) (w : Trace) :
  writeResponse Resp (RStatus Resp Code Body) w
  = w ++ [HeaderSet "Content-Type" "application/json";
          WriteHeader Code;
          Encode (Response (toData Body))].
Proof.
  unfold writeResponse, asResponder, asStatusResponse.
  assert (E : type_eqb (StatusResponse Resp) (StatusResponse Resp) = true)
    by (apply type_eqb_eq; reflexivity).
  rewrite E. reflexivity.
Qed.

(** (c) any other value is written whole, with status 200 *)
Lemma writeResponse_plain (Resp t : reflect.Type_) (d : Data)
    (WriteResponse : Trace -> Trace) (w : Trace) :
  reflect.Implements t Responder = false ->
  writeResponse Resp (RValue t d WriteResponse) w
  = w ++ [HeaderSet "Content-Type" "application/json";
          WriteHeader 200;
          Encode (Response d)].
Proof.
  intros Hi. unfold writeResponse, asResponder. rewrite Hi. reflexivity.
Qed.

End ResponseWriter.

(** ** The converters *)

Section Converters.

Context `{GoLib}.

(** C9.  The boolean converter never fails: on a boolean field it stores
    true exactly when the input is "true" or "1" and false for every
    other input, and on no field does it return an error. *)
Theorem bool_setter_total (value : string) :
  createFieldSetter reflect.Bool reflect.Bool value
  = Ok (VBool (bool_decide (value = "true" \/ value = "1")))
  /\ (forall field e, createFieldSetter reflect.Bool field value <> Err e).
Proof.
  split.
  - simpl. unfold parseBool. rewrite bool_decide_or. reflexivity.
  - intros field e. simpl. destruct field; discriminate.
Qed.

End Converters.

(** ** The registration helpers *)

Section RegistrationHelpers.

Context `{GoLib}.

Lemma applyOption_Method (calls : list handler.EndpointOptions)
    (st : list (list (option Middleware)) * EndpointSpec) :
  Method (fold_left handler.applyOption calls st).2 = Method st.2
  /\ RelativePath (fold_left handler.applyOption calls st).2
     = RelativePath st.2.
Proof.
  revert st. induction calls as [|o calls IH]; intros st;
    [split; reflexivity|].
  simpl. destruct (IH (handler.applyOption st o)) as [-> ->].
  destruct o; try (split; reflexivity).
  unfold handler.applyOption, EndpointSpec_Use.
  destruct (append _ _ _ _) as [arrays' s]. split; reflexivity.
Qed.

Lemma RegisterEndpoint_endpoints (router : Router) (route : EndpointSpec)
    (w w' : World) :
  RegisterEndpoint router route w = Ok w' ->
  exists e h,
    endpoints w' = endpoints w ++ [e]
    /\ Method e = Method route
    /\ RelativePath e = RelativePath route
    /\ FullPath e = getPrefix w router +:+ RelativePath route
    /\ mux w' = mux w ++ [(Method e +:+ " " +:+ FullPath e, h)].
Proof.
  unfold RegisterEndpoint.
  destruct (append _ _ _ _) as [arrays' all].
  destruct (applyMiddlewares _ _ _) as [finalHandler|]; [|discriminate].
  destruct (mux_rejects _ _); [discriminate|].
  intros [= <-]. simpl. eauto 10.
Qed.

Lemma configureAndRegister_method (Req Resp : reflect.Type_) (r : Router)
    (method path : string) (h : ReqValue -> RespValue * option error)
    (optFn : option (list handler.EndpointOptions)) (w w' : World) :
  handler.configureAndRegister r (CreateEndpoint Req Resp method path h)
    optFn w = Ok w' ->
  exists e fh,
    endpoints w' = endpoints w ++ [e] /\ Method e = method
    /\ mux w' = mux w ++ [(method +:+ " " +:+ getPrefix w r +:+ path, fh)].
Proof.
  unfold handler.configureAndRegister, CreateEndpoint.
  destruct (buildRequestParser Req) as [parser|]; [|discriminate].
  destruct optFn as [calls|]; [|discriminate].
  match goal with
  | |- context [fold_left handler.applyOption calls ?st] =>
      destruct (applyOption_Method calls st) as [Hm' Hrel'];
      destruct (fold_left handler.applyOption calls st) as [arrays' route]
  end.
  intros Hreg. apply RegisterEndpoint_endpoints in Hreg
    as (e & fh & He & Hm & Hrel & Hfull & Hmux).
  cbn in Hm', Hrel', He, Hfull, Hmux.
  rewrite Hm' in Hm. rewrite Hrel' in Hfull.
  exists e, fh. split; [exact He|]. split; [exact Hm|].
  rewrite Hmux, Hfull, Hm. reflexivity.
Qed.

(** C10.  Each registration helper is meant to register an endpoint whose
    method is the helper's name.  [PATCH] does not: whenever it registers
    an endpoint, the method of the endpoint record is "PATH" and the
    pattern handed to the mux starts with "PATH ", so the route answers no
    PATCH request. *)
Theorem PATCH_registers_method_PATH (Req Resp : reflect.Type_) (r : Router)
    (path : string) (h : ReqValue -> RespValue * option error)
    (optFn : option (list handler.EndpointOptions)) (w w' : World) :
  handler.PATCH Req Resp r path h optFn w = Ok w' ->
  exists e fh,
    endpoints w' = endpoints w ++ [e] /\ Method e = "PATH"
    /\ mux w' = mux w ++ [("PATH " +:+ getPrefix w r +:+ path, fh)].
Proof. intros E. apply configureAndRegister_method in E. exact E. Qed.

(** X18.  The helpers [GET], [POST], [PUT] and [DELETE] register one
    endpoint under their own name: the method of the endpoint is the name
    of the helper, and the pattern handed to the mux is that name, a
    space, the prefix of the router and the path. *)
Lemma helpers_register_their_method (Req Resp : reflect.Type_) (r : Router)
    (path : string) (h : ReqValue -> RespValue * option error)
    (optFn : option (list handler.EndpointOptions)) (w w' : World)
    (method : string) :
  (method = "GET" /\ handler.GET Req Resp r path h optFn w = Ok w')
  \/ (method = "POST" /\ handler.POST Req Resp r path h optFn w = Ok w')
  \/ (method = "PUT" /\ handler.PUT Req Resp r path h optFn w = Ok w')
  \/ (method = "DELETE" /\ handler.DELETE Req Resp r path h optFn w = Ok w') ->
  exists e fh,
    endpoints w' = endpoints w ++ [e] /\ Method e = method
    /\ mux w' = mux w ++ [(method +:+ " " +:+ getPrefix w r +:+ path, fh)].
Proof.
  intros [[-> E]|[[-> E]|[[-> E]|[-> E]]]];
    apply configureAndRegister_method in E; exact E.
Qed.

End RegistrationHelpers.

Section RegistrationExamples.
#[local] Existing Instance exampleLib.

(** witness of C10: PATCH on the path /users/{id} of a new framework *)
Lemma PATCH_registers_method_PATH_witness :
  exists w',
    handler.PATCH example.CreateUserRequest example.User RFramework
      "/users/{id}" example.accept (Some []) (New (fun _ => Valid)) = Ok w'
    /\ exists e fh,
         endpoints w' = [e] /\ Method e = "PATH"
         /\ mux w' = [("PATH /users/{id}", fh)].
Proof.
  eexists. split; [reflexivity|].
  apply (PATCH_registers_method_PATH example.CreateUserRequest example.User
           RFramework "/users/{id}" example.accept (Some [])
           (New (fun _ => Valid))).
  reflexivity.
Defined.

(** the siblings on the same input *)
Example helpers_example :
  (fun register =>
     match register example.CreateUserRequest example.User RFramework
             "/users/{id}" example.accept (Some [])
             (New (fun _ => Valid)) with
     | Ok w' => fst <$> mux w'
     | _ => []
     end)
    <$> [handler.GET; handler.POST; handler.PUT; handler.PATCH;
         handler.DELETE]
  = [["GET /users/{id}"]; ["POST /users/{id}"]; ["PUT /users/{id}"];
     ["PATH /users/{id}"]; ["DELETE /users/{id}"]].
Proof. reflexivity. Qed.

End RegistrationExamples.

(** ** The schema generator *)

Section Schema.

Context `{GoLib}.

Lemma generateOperation_step_path_required (st : openapi.loopState)
    (field : reflect.StructField) :
  Forall (fun p => openapi.In p = "path" -> openapi.Required_ p = true)
    (openapi.parameters st) ->
  Forall (fun p => openapi.In p = "path" -> openapi.Required_ p = true)
    (openapi.parameters (openapi.generateOperation_step st field)).
Proof.
  intros Hst. unfold openapi.generateOperation_step. simpl.
  repeat case_bool_decide; repeat rewrite Forall_app;
    repeat split; try assumption;
    apply Forall_singleton; simpl; intros; congruence.
Qed.

Lemma path_parameters_are_required (endpoint : EndpointSpec)
    (op : openapi.Operation) (p : openapi.Parameter_) :
  openapi.generateOperation endpoint = Ok op ->
  p ∈ openapi.Parameters op ->
  openapi.In p = "path" -> openapi.Required_ p = true.
Proof.
  unfold openapi.generateOperation.
  destruct (ResponseType endpoint) as [responseType|]; [|discriminate].
  destruct (reflect.Fields (RequestType endpoint)) as [fields|];
    [|discriminate].
  intros [= <-]. simpl.
  assert (Hall : forall st,
    Forall (fun p => openapi.In p = "path" -> openapi.Required_ p = true)
      (openapi.parameters st) ->
    Forall (fun p => openapi.In p = "path" -> openapi.Required_ p = true)
      (openapi.parameters
         (fold_left openapi.generateOperation_step fields st))).
  { induction fields as [|f fields IH]; intros st Hst; [exact Hst|].
    simpl. apply IH, generateOperation_step_path_required, Hst. }
  intros Hin. eapply Forall_forall in Hall; [exact Hall| |exact Hin].
  apply Forall_nil. exact I.
Qed.

(** C3.  The parameters of the generated operation are meant to mirror
    the route, header and query bindings that the walker finds in the
    Route, Header and Query groups.  The generator reads the tags [header],
    [route] and [query] of the top-level fields instead, which the groups
    do not carry: for [GetUserRequest] of the example application the
    walker finds three bindings and the generated operation has no
    parameter at all. *)
Theorem generateOperation_misses_group_bindings
    (h : ReqValue -> RespValue * option error) :
  exists endpoint parser op,
    CreateEndpoint example.GetUserRequest example.User "GET" "/{id}" h
    = Ok endpoint
    /\ buildRequestParser example.GetUserRequest = Some parser
    /\ (fun fp => (sourceType fp, sourceName fp)) <$> fieldParsers parser
       = [("route", "id"); ("header", "X-API-Key");
          ("query", "include_details")]
    /\ openapi.generateOperation endpoint = Ok op
    /\ openapi.Parameters op = [].
Proof.
  eexists. eexists. eexists.
  split; [reflexivity|]. split; [reflexivity|]. split; [reflexivity|].
  split; reflexivity.
Qed.

Example generateOperation_reads_field_tags
    (h : ReqValue -> RespValue * option error) :
  exists endpoint parser op,
    CreateEndpoint example.TaggedGetUserRequest example.User "GET" "/{id}" h
    = Ok endpoint
    /\ buildRequestParser example.TaggedGetUserRequest = Some parser
    /\ fieldParsers parser = []
    /\ openapi.generateOperation endpoint = Ok op
    /\ (fun p => (openapi.In p, openapi.Name p, openapi.Required_ p))
         <$> openapi.Parameters op
       = [("path", "id", true); ("header", "X-API-Key", true)].
Proof.
  eexists. eexists. eexists.
  split; [reflexivity|]. split; [reflexivity|]. split; [reflexivity|].
  split; reflexivity.
Qed.

End Schema.

(** ** The executor *)

Section Executor.

Context `{GoLib}.

Lemma bindFields_app (r : Request) (pre post : list fieldParser)
    (reqValue : ReqValue) :
  bindFields r (pre ++ post) reqValue
  = match bindFields r pre reqValue with
    | Ok reqValue' => bindFields r post reqValue'
    | Err e => Err e
    | Panic why => Panic why
    end.
Proof.
  revert reqValue. induction pre as [|fp pre IH]; intros reqValue; simpl.
  - reflexivity.
  - destruct (bindField r fp reqValue); [apply IH|reflexivity|reflexivity].
Qed.

Lemma parseWithPlan_bind_error (validator_Struct : ReqValue -> ValidatorResult)
    (r : Request) (reqValue : ReqValue) (parser : requestParser) (e : error)
    (w : Trace) :
  bindFields r (fieldParsers parser) reqValue = Err e ->
  parseWithPlan validator_Struct r reqValue parser w = (Err e, w).
Proof. intros E. unfold parseWithPlan, bind, lift. rewrite E. reflexivity. Qed.

Lemma parseWithPlan_body_error (validator_Struct : ReqValue -> ValidatorResult)
    (r : Request) (reqValue reqValue' : ReqValue) (parser : requestParser)
    (e : error) (w : Trace) :
  bindFields r (fieldParsers parser) reqValue = Ok reqValue' ->
  bindBody r parser reqValue' = Err e ->
  parseWithPlan validator_Struct r reqValue parser w = (Err e, w).
Proof.
  intros E1 E2. unfold parseWithPlan, bind, lift. rewrite E1, E2. reflexivity.
Qed.

Lemma parseWithPlan_validation_error
    (validator_Struct : ReqValue -> ValidatorResult)
    (r : Request) (reqValue reqValue1 reqValue2 : ReqValue)
    (parser : requestParser) (l : list FieldError)
    (ves : list ValidationError) (w : Trace) :
  bindFields r (fieldParsers parser) reqValue = Ok reqValue1 ->
  bindBody r parser reqValue1 = Ok reqValue2 ->
  validator_Struct reqValue2 = ValidationErrors l ->
  formatValidationError (ValidationErrors l) parser = Ok (Some ves) ->
  parseWithPlan validator_Struct r reqValue parser w
  = (Err (validationErrorWrapper ves), w ++ [ValidatorStruct reqValue2]).
Proof.
  intros E1 E2 E3 E4. unfold parseWithPlan, bind, lift, emit.
  rewrite E1, E2, E3, E4. reflexivity.
Qed.

Lemma parseWithPlan_valid (validator_Struct : ReqValue -> ValidatorResult)
    (r : Request) (reqValue reqValue1 reqValue2 : ReqValue)
    (parser : requestParser) (w : Trace) :
  bindFields r (fieldParsers parser) reqValue = Ok reqValue1 ->
  bindBody r parser reqValue1 = Ok reqValue2 ->
  validator_Struct reqValue2 = Valid ->
  parseWithPlan validator_Struct r reqValue parser w
  = (Ok reqValue2, w ++ [ValidatorStruct reqValue2]).
Proof.
  intros E1 E2 E3. unfold parseWithPlan, bind, lift, emit, ret.
  rewrite E1, E2, E3. reflexivity.
Qed.

(** a request that fails before validation is answered with status 400
    and the text of the error; the handler is not called *)
Lemma createTypeSafeHandler_bad_request
    (validator_Struct : ReqValue -> ValidatorResult) (Resp : reflect.Type_)
    (h : ReqValue -> RespValue * option error) (parser : requestParser)
    (r : Request) (w w' : Trace) (msg : string) (err : error) :
  parseWithPlan validator_Struct r ∅ parser w = (Err (wrapError msg err), w') ->
  createTypeSafeHandler validator_Struct Resp h parser r w
  = (Ok tt, w' ++ [HeaderSet "Content-Type" "application/json";
                   WriteHeader 400;
                   Encode (ErrorResponse (msg +:+ Error err) [])]).
Proof. intros E. unfold createTypeSafeHandler. rewrite E. reflexivity. Qed.

Lemma createTypeSafeHandler_validation_failed
    (validator_Struct : ReqValue -> ValidatorResult) (Resp : reflect.Type_)
    (h : ReqValue -> RespValue * option error) (parser : requestParser)
    (r : Request) (w w' : Trace) (ves : list ValidationError) :
  parseWithPlan validator_Struct r ∅ parser w
  = (Err (validationErrorWrapper ves), w') ->
  createTypeSafeHandler validator_Struct Resp h parser r w
  = (Ok tt, w' ++ [HeaderSet "Content-Type" "application/json";
                   WriteHeader 400;
                   Encode (ValidationErrorResponse "validation failed" ves)]).
Proof. intros E. unfold createTypeSafeHandler. rewrite E. reflexivity. Qed.

Lemma append_assoc_string (a b c : string) : (a +:+ b) +:+ c = a +:+ b +:+ c.
Proof.
  induction a as [|x a IH]; [reflexivity|].
  change (String x ((a +:+ b) +:+ c) = String x (a +:+ b +:+ c)).
  rewrite IH. reflexivity.
Qed.

Lemma nestedFieldParser_int (j i : nat) (category : string)
    (field : reflect.StructField) (k : reflect.Kind)
    (scan : string -> option Z) (reason : string) :
  reflect.Typ field = reflect.Basic k ->
  integerScan k = Some (scan, reason) ->
  nestedFieldParser j i category field
  = {| fieldIndex := i; nestedFieldIndex := j; isNested := true;
       fieldType := reflect.Basic k; fieldKind := k;
       sourceType := category; sourceName := jsonTagOrName field;
       setter := Some (createFieldSetter k);
       isSlice := false; isFileField := false |}.
Proof.
  intros Ht Hk. unfold nestedFieldParser. rewrite Ht. simpl.
  destruct k; try discriminate Hk; reflexivity.
Qed.

Lemma createFieldSetter_int_error (k : reflect.Kind)
    (scan : string -> option Z) (reason value : string) :
  integerScan k = Some (scan, reason) -> scan value = None ->
  createFieldSetter k k value = Err (errorString reason).
Proof.
  intros Hk Hv.
  destruct k; try discriminate Hk; injection Hk as <- <-; simpl;
    rewrite Hv; reflexivity.
Qed.

Lemma bytes_app (a b : string) :
  fmt.bytes (a +:+ b) = fmt.bytes a ++ fmt.bytes b.
Proof.
  unfold fmt.bytes. induction a as [|c a IH]; [reflexivity|].
  change (String c a +:+ b) with (String c (a +:+ b)).
  cbn [list_ascii_of_string List.map app]. rewrite IH. reflexivity.
Qed.

Lemma SkipSpace_digit (b : N) (l : list N) :
  fmt.isDigit b = true -> fmt.SkipSpace (b :: l) = Some (b :: l).
Proof.
  unfold fmt.isDigit. intros Hb. apply andb_true_iff in Hb as [Hlo Hhi].
  apply N.leb_le in Hlo, Hhi.
  assert (Hcases : (b = 48 \/ b = 49 \/ b = 50 \/ b = 51 \/ b = 52 \/ b = 53
                    \/ b = 54 \/ b = 55 \/ b = 56 \/ b = 57)%N) by lia.
  destruct Hcases as [->|[->|[->|[->|[->|[->|[->|[->|[->| ->]]]]]]]]];
    reflexivity.
Qed.

Lemma digits_app (ds rest : list N) :
  forallb fmt.isDigit ds = true ->
  match rest with b :: _ => fmt.isDigit b | [] => false end = false ->
  fmt.digits (ds ++ rest) = ds.
Proof.
  intros Hds Hrest. induction ds as [|d ds IH].
  - destruct rest as [|b rest]; [reflexivity|]. simpl. rewrite Hrest.
    reflexivity.
  - simpl in Hds. apply andb_true_iff in Hds as [Hd Hds].
    cbn [app fmt.digits]. rewrite Hd, (IH Hds). reflexivity.
Qed.

(** the scan of an integer reads the digits at the head of the input and
    leaves what follows them *)
Lemma scan_reads_a_prefix (k : reflect.Kind) (scan : string -> option Z)
    (reason digits rest : string) :
  integerScan k = Some (scan, reason) ->
  isDigits digits = true -> startsWithDigit rest = false ->
  scan (digits +:+ rest) = scan digits.
Proof.
  unfold isDigits, startsWithDigit. intros Hk Hds Hrest.
  apply andb_true_iff in Hds as [Hne Hds].
  assert (Hshape : exists b ds, fmt.bytes digits = b :: ds
                                /\ fmt.isDigit b = true).
  { destruct digits as [|c digits]; [discriminate Hne|].
    unfold fmt.bytes in *. cbn [list_ascii_of_string List.map] in *.
    cbn [forallb] in Hds. apply andb_true_iff in Hds as [Hb _]. eauto. }
  destruct Hshape as (b & ds & Hbytes & Hb).
  assert (Hsign : (b =? 45)%N = false /\ (b =? 43)%N = false).
  { unfold fmt.isDigit in Hb. apply andb_true_iff in Hb as [Hlo _].
    apply N.leb_le in Hlo. split; apply N.eqb_neq; lia. }
  destruct Hsign as [Hminus Hplus].
  assert (Hall : fmt.digits (fmt.bytes digits ++ fmt.bytes rest)
                 = fmt.bytes digits) by (apply digits_app; assumption).
  assert (Hself : fmt.digits (fmt.bytes digits) = fmt.bytes digits).
  { rewrite <- (app_nil_r (fmt.bytes digits)) at 1.
    apply digits_app; [assumption|reflexivity]. }
  assert (Hint : fmt.Sscanf_d_int64 (digits +:+ rest)
                 = fmt.Sscanf_d_int64 digits).
  { unfold fmt.Sscanf_d_int64, fmt.scanInt. rewrite bytes_app.
    rewrite Hbytes in *. cbn [app].
    rewrite !(SkipSpace_digit b) by exact Hb. cbn [mbind option_bind].
    rewrite Hminus, Hplus. cbn [app] in Hall. rewrite Hall, Hself.
    reflexivity. }
  assert (Huint : fmt.Sscanf_d_uint64 (digits +:+ rest)
                  = fmt.Sscanf_d_uint64 digits).
  { unfold fmt.Sscanf_d_uint64, fmt.scanUint. rewrite bytes_app.
    rewrite Hbytes in *. cbn [app].
    rewrite !(SkipSpace_digit b) by exact Hb. cbn [mbind option_bind].
    cbn [app] in Hall. rewrite Hall, Hself. reflexivity. }
  destruct k; try discriminate Hk; injection Hk as <- _; assumption.
Qed.

Lemma createFieldSetter_int_ok (k : reflect.Kind)
    (scan : string -> option Z) (reason value : string) (n bits : Z) :
  integerScan k = Some (scan, reason) -> scan value = Some n ->
  (intBits k = Some bits ->
   createFieldSetter k k value = Ok (VInt (wrapSigned bits n)))
  /\ (uintBits k = Some bits ->
      createFieldSetter k k value = Ok (VUint (wrapUnsigned bits n))).
Proof.
  intros Hk Hv.
  destruct k; try discriminate Hk; injection Hk as <- <-;
    (split; intros Hbits; try discriminate Hbits; injection Hbits as <-;
     simpl; rewrite Hv; reflexivity).
Qed.

(** C6, amended.  For an integer-kind scalar binding of a route, header
    or query group with a non-empty input value.  When the scan of the
    integer fails (after leading blanks there is no run of decimal digits,
    signed for the signed kinds, that fits 64 bits, as for "abc"), parsing
    aborts at once: the error reads "<category> '<name>': <reason>" with
    the reason "invalid integer value" or "invalid unsigned integer
    value", the validator is not run (the trace is unchanged), and the
    request is answered with status 400 without calling the handler.  When
    the scan gives an integer, the binding does not fail: the field is set
    to the integer reduced to the width of its kind, and parsing goes on
    with the next binding.  The scan reads a prefix: digits followed by
    text that does not go on with a digit are scanned as the digits
    alone. *)
Theorem integer_conversion_failure_aborts
    (validator_Struct : ReqValue -> ValidatorResult) (Resp : reflect.Type_)
    (h : ReqValue -> RespValue * option error) (parser : requestParser)
    (r : Request) (pre post : list fieldParser) (j i : nat)
    (category : string) (field : reflect.StructField) (k : reflect.Kind)
    (scan : string -> option Z) (reason : string)
    (reqValue : ReqValue) (w : Trace) :
  reflect.Typ field = reflect.Basic k ->
  integerScan k = Some (scan, reason) ->
  category ∈ ["route"; "header"; "query"] ->
  fieldParsers parser = pre ++ nestedFieldParser j i category field :: post ->
  bindFields r pre ∅ = Ok reqValue ->
  sourceValue r (nestedFieldParser j i category field) <> "" ->
  let fp := nestedFieldParser j i category field in
  let message :=
    category +:+ " '" +:+ jsonTagOrName field +:+ "': " +:+ reason in
  (scan (sourceValue r fp) = None ->
   exists err,
     parseWithPlan validator_Struct r ∅ parser w = (Err err, w)
     /\ Error err = message
     /\ createTypeSafeHandler validator_Struct Resp h parser r w
        = (Ok tt, w ++ [HeaderSet "Content-Type" "application/json";
                        WriteHeader 400;
                        Encode (ErrorResponse message [])]))
  /\ (forall n bits,
        scan (sourceValue r fp) = Some n ->
        forall stored,
          (intBits k = Some bits /\ stored = VInt (wrapSigned bits n))
          \/ (uintBits k = Some bits /\ stored = VUint (wrapUnsigned bits n)) ->
          bindField r fp reqValue = Ok (<[fieldAddr fp := stored]> reqValue)
          /\ bindFields r (fieldParsers parser) ∅
             = bindFields r post (<[fieldAddr fp := stored]> reqValue))
  /\ (forall digits rest,
        isDigits digits = true -> startsWithDigit rest = false ->
        scan (digits +:+ rest) = scan digits).
Proof.
  intros Ht Hk Hcat Hplan Hpre Hne fp message. subst fp.
  rewrite (nestedFieldParser_int j i category field k scan reason Ht Hk) in *.
  set (fp := {| fieldIndex := i; nestedFieldIndex := j; isNested := true;
       fieldType := reflect.Basic k; fieldKind := k;
       sourceType := category; sourceName := jsonTagOrName field;
       setter := Some (createFieldSetter k);
       isSlice := false; isFileField := false |}) in *.
  split; [|split].
  - intros Hscan.
    assert (Hbind : bindField r fp reqValue
      = Err (wrapError (sourcePrefix category (jsonTagOrName field))
               (errorString reason))).
    { unfold bindField. simpl.
      rewrite andb_false_r. simpl.
      rewrite (bool_decide_eq_false_2 _ Hne). simpl.
      rewrite (createFieldSetter_int_error k scan reason _ Hk Hscan).
      reflexivity. }
    assert (Hall : bindFields r (fieldParsers parser) ∅
      = Err (wrapError (sourcePrefix category (jsonTagOrName field))
               (errorString reason))).
    { rewrite Hplan, bindFields_app, Hpre. simpl. rewrite Hbind.
      reflexivity. }
    assert (Hmsg : sourcePrefix category (jsonTagOrName field) +:+ reason
                   = message).
    { unfold sourcePrefix, message. rewrite !append_assoc_string.
      reflexivity. }
    eexists. split; [apply parseWithPlan_bind_error, Hall|].
    split; [exact Hmsg|].
    erewrite createTypeSafeHandler_bad_request
      by (apply parseWithPlan_bind_error, Hall).
    simpl. rewrite Hmsg. reflexivity.
  - intros n bits Hscan stored Hstored.
    destruct (createFieldSetter_int_ok k scan reason _ n bits Hk Hscan)
      as [Hint Huint].
    assert (Hset : createFieldSetter k k (sourceValue r fp) = Ok stored).
    { destruct Hstored as [[Hbits ->]|[Hbits ->]]; auto. }
    assert (Hbind : bindField r fp reqValue
                    = Ok (<[fieldAddr fp := stored]> reqValue)).
    { unfold bindField. simpl.
      rewrite andb_false_r. simpl.
      rewrite (bool_decide_eq_false_2 _ Hne). simpl.
      rewrite Hset. reflexivity. }
    split; [exact Hbind|].
    rewrite Hplan, bindFields_app, Hpre. simpl. rewrite Hbind. reflexivity.
  - intros digits rest. apply (scan_reads_a_prefix k scan reason), Hk.
Qed.


Lemma createFieldSetter_same_kind (k : reflect.Kind) (value : string) :
  (exists x, createFieldSetter k k value = Ok x)
  \/ (exists e, createFieldSetter k k value = Err e).
Proof.
  destruct k; simpl; unfold SetInt, SetUint, SetFloat; simpl;
    repeat match goal with
           | |- context [match ?x with _ => _ end] => destruct x
           end; eauto.
Qed.

Lemma setSliceField_loop_ok (k : reflect.Kind) (set : Setter) (i : nat)
    (values : list string) (xs : list Value) :
  Forall2 (fun val x => set k val = Ok x) values xs ->
  setSliceField_loop k set i values = Ok xs.
Proof.
  intros Hall. revert i. induction Hall as [|val x values xs Hx _ IH];
    intros i; simpl; [reflexivity|].
  rewrite Hx, IH. reflexivity.
Qed.

Lemma setSliceField_loop_first_error (k : reflect.Kind) (set : Setter)
    (i : nat) (values : list string) :
  (forall val, val ∈ values ->
     (exists x, set k val = Ok x) \/ (exists e, set k val = Err e)) ->
  Exists (fun val => exists e, set k val = Err e) values ->
  exists n val e,
    values !! n = Some val /\ set k val = Err e
    /\ setSliceField_loop k set i values
       = Err (wrapError
                ("failed to parse element " +:+ fmt.Sprint_d (i + n) +:+ ": ")
                e).
Proof.
  revert i. induction values as [|val values IH]; intros i Htotal Hex.
  - inversion Hex.
  - simpl. destruct (Htotal val) as [[x Hx]|[e He]]; [left|..].
    + rewrite Hx.
      assert (Hex' : Exists (fun val => exists e, set k val = Err e) values).
      { inversion Hex as [? ? [e He]|]; subst; [congruence|assumption]. }
      destruct (IH (S i)) as (n & val' & e & Hn & He & Hloop);
        [intros v Hv; apply Htotal; right; exact Hv|exact Hex'|].
      exists (S n), val', e. split; [exact Hn|]. split; [exact He|].
      rewrite Hloop. replace (i + S n)%nat with (S i + n)%nat by lia.
      reflexivity.
    + exists 0%nat, val, e. split; [reflexivity|]. split; [exact He|].
      rewrite He. replace (i + 0)%nat with i by lia. reflexivity.
Qed.

Lemma nestedFieldParser_slice (j i : nat) (category : string)
    (field : reflect.StructField) (elem : reflect.Type_) :
  reflect.Typ field = reflect.SliceOf elem ->
  nestedFieldParser j i category field
  = {| fieldIndex := i; nestedFieldIndex := j; isNested := true;
       fieldType := reflect.SliceOf elem; fieldKind := reflect.KindOf elem;
       sourceType := category; sourceName := jsonTagOrName field;
       setter := Some (createFieldSetter (reflect.KindOf elem));
       isSlice := true; isFileField := false |}.
Proof. intros Ht. unfold nestedFieldParser. rewrite Ht. reflexivity. Qed.

(** C4.  For a slice-typed query binding: a key that is not sent leaves
    the field untouched (the empty sequence) without error; a key sent K
    times, K >= 1, whose values all convert, stores the K converted
    elements in request order; and if some element fails to convert, the
    binding fails with an error naming the element, so that the whole
    request fails with status 400 before validation and the handler. *)
Theorem slice_query_binding (r : Request) (j i : nat)
    (field : reflect.StructField) (elem : reflect.Type_) :
  reflect.Typ field = reflect.SliceOf elem ->
  let fp := nestedFieldParser j i "query" field in
  let name := jsonTagOrName field in
  let values := URL_Query r name in
  let convert :=
    createFieldSetter (reflect.KindOf elem) (reflect.KindOf elem) in
  (values = [] ->
     (forall reqValue, bindField r fp reqValue = Ok reqValue)
     /\ elements (Field_ ∅ (i, Some j)) = [])
  /\ (forall xs,
        values <> [] ->
        Forall2 (fun val x => convert val = Ok x) values xs ->
        forall reqValue,
          bindField r fp reqValue = Ok (<[(i, Some j) := VSlice xs]> reqValue)
          /\ elements (Field_ (<[(i, Some j) := VSlice xs]> reqValue)
                         (i, Some j)) = xs
          /\ length xs = length values)
  /\ (Exists (fun val => exists e, convert val = Err e) values ->
      exists n val e,
        values !! n = Some val /\ convert val = Err e
        /\ let err :=
             wrapError (sourcePrefix "query" name)
               (wrapError
                  ("failed to parse element " +:+ fmt.Sprint_d n +:+ ": ") e) in
           (forall reqValue, bindField r fp reqValue = Err err)
           /\ forall validator_Struct Resp h parser pre post reqValue w,
               fieldParsers parser = pre ++ fp :: post ->
               bindFields r pre ∅ = Ok reqValue ->
               parseWithPlan validator_Struct r ∅ parser w = (Err err, w)
               /\ createTypeSafeHandler validator_Struct Resp h parser r w
                  = (Ok tt,
                     w ++ [HeaderSet "Content-Type" "application/json";
                           WriteHeader 400;
                           Encode (ErrorResponse (Error err) [])])).
Proof.
  intros Ht fp name values convert. subst fp.
  rewrite (nestedFieldParser_slice j i "query" field elem Ht).
  set (fp := {| fieldIndex := i; nestedFieldIndex := j; isNested := true;
       fieldType := reflect.SliceOf elem; fieldKind := reflect.KindOf elem;
       sourceType := "query"; sourceName := jsonTagOrName field;
       setter := Some (createFieldSetter (reflect.KindOf elem));
       isSlice := true; isFileField := false |}).
  assert (Hstep : forall reqValue,
    bindField r fp reqValue
    = if (0 <? length values)%nat then
        match setSliceField_loop (reflect.KindOf elem)
                (createFieldSetter (reflect.KindOf elem)) 0 values with
        | Ok vs => Ok (<[(i, Some j) := VSlice vs]> reqValue)
        | Err err => Err (wrapError (sourcePrefix "query" name) err)
        | Panic why => Panic why
        end
      else Ok reqValue).
  { intros reqValue. unfold bindField. simpl. fold name. fold values.
    destruct (0 <? length values)%nat; [|reflexivity].
    destruct (setSliceField_loop _ _ _ _); reflexivity. }
  split; [|split].
  - intros Hnil. split; [|reflexivity].
    intros reqValue. rewrite Hstep, Hnil. reflexivity.
  - intros xs Hne Hall reqValue.
    rewrite Hstep. destruct values as [|v values']; [congruence|].
    simpl (0 <? _)%nat.
    rewrite (setSliceField_loop_ok _ _ _ _ _ Hall).
    split; [reflexivity|]. split.
    + unfold Field_, ReqValue, Addr. rewrite lookup_insert_eq. reflexivity.
    + symmetry. eapply Forall2_length, Hall.
  - intros Hex.
    destruct (setSliceField_loop_first_error (reflect.KindOf elem)
                (createFieldSetter (reflect.KindOf elem)) 0 values)
      as (n & val & e & Hn & He & Hloop);
      [intros; apply createFieldSetter_same_kind|exact Hex|].
    exists n, val, e. split; [exact Hn|]. split; [exact He|].
    assert (Hbind : forall reqValue,
      bindField r fp reqValue
      = Err (wrapError (sourcePrefix "query" name)
               (wrapError
                  ("failed to parse element " +:+ fmt.Sprint_d n +:+ ": ") e))).
    { intros reqValue. rewrite Hstep, Hloop.
      destruct values; [inversion Hex|]. reflexivity. }
    split; [exact Hbind|].
    intros validator_Struct Resp h parser pre post reqValue w Hplan Hpre.
    assert (Hall : bindFields r (fieldParsers parser) ∅
      = Err (wrapError (sourcePrefix "query" name)
               (wrapError
                  ("failed to parse element " +:+ fmt.Sprint_d n +:+ ": ") e))).
    { rewrite Hplan, bindFields_app, Hpre. simpl. rewrite Hbind.
      reflexivity. }
    split; [apply parseWithPlan_bind_error, Hall|].
    erewrite createTypeSafeHandler_bad_request
      by (apply parseWithPlan_bind_error, Hall).
    reflexivity.
Qed.


Lemma bindField_missing_file (r : Request) (fp : fieldParser)
    (reqValue : ReqValue) :
  sourceType fp = "form" -> isFileField fp = true ->
  ParseMultipartForm r = None ->
  MultipartForm_File r (sourceName fp) = [] ->
  bindField r fp reqValue = Ok reqValue.
Proof.
  intros Hform Hfile Hparsed Habsent.
  unfold bindField, parseFileField, FormFile.
  rewrite Hform, Hfile, Hparsed, Habsent. reflexivity.
Qed.


Lemma flat_map_not_nil {A B : Type} (f : A -> list B) (l : list A) (x : A) :
  x ∈ l -> f x <> [] -> List.flat_map f l <> [].
Proof.
  intros Hin Hx. induction Hin as [x l|x y l _ IH]; simpl.
  - destruct (f x); [congruence|discriminate].
  - intros E. apply app_eq_nil in E as [_ E]. exact (IH Hx E).
Qed.

Lemma store_undeclared (t : reflect.Type_) (v : json.Value) :
  hasUndeclared t v = true ->
  json.store unquote foldName storeScalar true t v <> [].
Proof.
  revert t. induction v as [| | | |elems IH|members IH] using Value_induction;
    intros t; simpl; try discriminate.
  - destruct (json.indirect t); try discriminate.
    intros [v [Hin Hv]]%existsb_exists. apply list_elem_of_In in Hin.
    apply (flat_map_not_nil _ _ v Hin).
    eapply Forall_forall in IH; [apply IH, Hv|exact Hin].
  - destruct (json.indirect t); try discriminate.
    + intros [[k v] [Hin Hv]]%existsb_exists. apply list_elem_of_In in Hin.
      apply (flat_map_not_nil _ _ (k, v) Hin).
      eapply Forall_forall in IH; [|exact Hin]. simpl in IH.
      intros E. apply app_eq_nil in E as [_ E]. exact (IH _ Hv E).
    + intros [[k v] [Hin Hv]]%existsb_exists. apply list_elem_of_In in Hin.
      apply (flat_map_not_nil _ _ (k, v) Hin).
      destruct (json.lookupField _ _ _) as [f|]; [|discriminate].
      eapply Forall_forall in IH; [|exact Hin]. exact (IH _ Hv).
Qed.

(** C8, amended.  The executor decodes the first JSON value of the body
    strictly: if that value is malformed, or if it has a property that the
    body shape does not declare, parsing the body fails with a decode
    error "invalid JSON: ...", the request is answered with status 400 and
    the text "body: invalid JSON: ...", and neither the validator nor the
    handler is called.  The bytes that follow the first value are not
    examined: two bodies with the same first value are treated alike. *)
Theorem body_is_decoded_strictly (r : Request) (body : string)
    (t : reflect.Type_) :
  Body r = Some body ->
  (forall e,
     json.readValue (fmt.bytes body) = inr e ->
     parseBody r t
     = Err (wrapError "invalid JSON: " (jsonError (json.ScanFailed e))))
  /\ (forall v rest,
        json.readValue (fmt.bytes body) = inl (v, rest) ->
        hasUndeclared t v = true ->
        exists e, parseBody r t = Err (wrapError "invalid JSON: " (jsonError e)))
  /\ (forall e validator_Struct Resp h parser reqValue w bodyField,
        parseBody r t = Err e ->
        hasBodyField parser = true ->
        FieldAt (requestType parser) (bodyFieldIdx parser) = Ok bodyField ->
        reflect.Typ bodyField = t ->
        bindFields r (fieldParsers parser) ∅ = Ok reqValue ->
        parseWithPlan validator_Struct r ∅ parser w
        = (Err (wrapError "body: " e), w)
        /\ createTypeSafeHandler validator_Struct Resp h parser r w
           = (Ok tt,
              w ++ [HeaderSet "Content-Type" "application/json";
                    WriteHeader 400;
                    Encode (ErrorResponse ("body: " +:+ Error e) [])]))
  /\ (forall r' body' v rest rest',
        Body r' = Some body' ->
        json.readValue (fmt.bytes body) = inl (v, rest) ->
        json.readValue (fmt.bytes body') = inl (v, rest') ->
        parseBody r' t = parseBody r t).
Proof.
  intros Hbody. split; [|split; [|split]].
  - intros e Hscan. unfold parseBody, json.Decode.
    rewrite Hbody, Hscan. reflexivity.
  - intros v rest Hscan Hund. unfold parseBody, json.Decode.
    rewrite Hbody, Hscan.
    pose proof (store_undeclared t v Hund) as Hne.
    destruct (json.store _ _ _ _ _ _) as [|e errs]; [congruence|].
    exists e. reflexivity.
  - intros e validator_Struct Resp h parser reqValue w bodyField
      Herr Hhas Hfield Htyp Hfields.
    assert (Hb : bindBody r parser reqValue = Err (wrapError "body: " e)).
    { unfold bindBody. rewrite Hhas, Hfield, Htyp, Herr. reflexivity. }
    pose proof (parseWithPlan_body_error validator_Struct r ∅ reqValue parser
                  _ w Hfields Hb) as Hparse.
    split; [exact Hparse|].
    apply createTypeSafeHandler_bad_request, Hparse.
  - intros r' body' v rest rest' Hbody' Hscan Hscan'.
    unfold parseBody, json.Decode.
    rewrite Hbody, Hbody', Hscan, Hscan'. reflexivity.
Qed.

End Executor.

Section ExecutorExamples.

#[local] Existing Instance exampleLib.

(** C1 on a request: a handler declared to return
    [StatusResponse[User]] answers with the code 201; the client receives
    the status 200 and the wrapper as the body. *)
Example status_wrapper_of_a_typed_handler :
  createTypeSafeHandler (fun _ => Valid) (StatusResponse example.User)
    (fun _ =>
       (RStatus example.User 201 (RValue example.User (DValue "user") id),
        None))
    (example.planOf example.GetUserRequest) example.emptyRequest []
  = (Ok tt, [ValidatorStruct ∅; HandlerCall ∅;
             HeaderSet "Content-Type" "application/json";
             WriteHeader 200;
             Encode (Response (DStatusResponse 201 (DValue "user")))]).
Proof. reflexivity. Qed.

(** witness of C6: "abc" sent as the page of [ListUsersRequest] *)
Lemma integer_conversion_failure_aborts_witness :
  exists err,
    parseWithPlan (fun _ => Valid) (example.queryRequest "page" ["abc"]) ∅
      (example.planOf example.ListUsersRequest) [] = (Err err, [])
    /\ Error err = "query 'page': invalid integer value"
    /\ createTypeSafeHandler (fun _ => Valid) example.User example.accept
         (example.planOf example.ListUsersRequest)
         (example.queryRequest "page" ["abc"]) []
       = (Ok tt, [HeaderSet "Content-Type" "application/json";
                  WriteHeader 400;
                  Encode (ErrorResponse
                            "query 'page': invalid integer value" [])]).
Proof.
  refine (proj1 (integer_conversion_failure_aborts (fun _ => Valid)
           example.User example.accept
           (example.planOf example.ListUsersRequest)
           (example.queryRequest "page" ["abc"])
           [nestedFieldParser 0 0 "header" example.APIKey]
           [nestedFieldParser 1 1 "query" example.PageSize;
            nestedFieldParser 2 1 "query" example.SortBy;
            nestedFieldParser 3 1 "query" example.Order;
            nestedFieldParser 4 1 "query" example.Tags]
           0%nat 1%nat "query" example.Page reflect.Int
           fmt.Sscanf_d_int64 "invalid integer value" ∅ []
           _ _ _ _ _ _) _).
  - reflexivity.
  - reflexivity.
  - vm_compute. do 2 right. left.
  - reflexivity.
  - reflexivity.
  - vm_compute. discriminate.
  - reflexivity.
Defined.

(** C6 as stated fails: "12abc" is not a decimal integer, yet a request
    for the list of users with the query page=12abc is bound with the
    page 12, the validator runs and the handler is called. *)
Lemma integer_binding_accepts_numeric_prefix :
  let r :=
    example.withHeader "X-API-Key" "secret"
      (example.queryRequest "page" ["12abc"]) in
  let req : ReqValue :=
    {[ (0%nat, Some 0%nat) := VString "secret";
       (1%nat, Some 0%nat) := VInt 12 ]} in
  isDecimalInteger "12abc" = false
  /\ parseWithPlan (fun _ => Valid) r ∅
       (example.planOf example.ListUsersRequest) []
     = (Ok req, [ValidatorStruct req])
  /\ createTypeSafeHandler (fun _ => Valid) example.User example.accept
       (example.planOf example.ListUsersRequest) r []
     = (Ok tt, [ValidatorStruct req;
                HandlerCall req;
                HeaderSet "Content-Type" "application/json";
                WriteHeader 200;
                Encode (Response DNil)]).
Proof. split; [reflexivity|]. split; vm_compute; reflexivity. Qed.


(** witness of C4: tags=admin&tags=premium *)
Lemma slice_query_binding_witness :
  bindField (example.queryRequest "tags" ["admin"; "premium"])
    (nestedFieldParser 4 1 "query" example.Tags) ∅
  = Ok {[ (1%nat, Some 4%nat) := VSlice [VString "admin"; VString "premium"] ]}.
Proof.
  destruct (slice_query_binding
              (example.queryRequest "tags" ["admin"; "premium"])
              4 1 example.Tags example.string_ eq_refl)
    as (_ & Hall & _).
  apply (Hall [VString "admin"; VString "premium"]).
  - discriminate.
  - repeat constructor.
Defined.

(** witness of C8: a body with the undeclared property "role" *)
Lemma body_is_decoded_strictly_witness :
  exists e,
    parseBody
      (example.bodyRequest example.bodyWithRole) example.CreateUserBody
    = Err (wrapError "invalid JSON: " (jsonError e)).
Proof.
  destruct (body_is_decoded_strictly
              (example.bodyRequest example.bodyWithRole)
              example.bodyWithRole
              example.CreateUserBody eq_refl)
    as (_ & Hund & _).
  eapply Hund; [vm_compute; reflexivity|vm_compute; reflexivity].
Defined.

(** C8 as stated fails: a body that is not a JSON document, because bytes
    follow its first value, is decoded without error as that value, and
    the handler is called. *)
Lemma body_with_trailing_bytes_is_accepted :
  let r :=
    example.withHeader "X-API-Key" "secret"
      (example.withHeader "Content-Type" "application/json"
         (example.bodyRequest example.bodyWithTrailingBytes)) in
  isJSONDocument example.bodyWithTrailingBytes = false
  /\ exists j,
      json.readValue (fmt.bytes example.bodyWithTrailingBytes)
      = inl (j, fmt.bytes " trailing")
      /\ parseBody r example.CreateUserBody
         = Ok (VBody example.CreateUserBody j)
      /\ let req : ReqValue :=
           {[ (0%nat, Some 0%nat) := VString "secret";
              (0%nat, Some 1%nat) := VString "application/json";
              (1%nat, None) := VBody example.CreateUserBody j ]} in
         createTypeSafeHandler (fun _ => Valid) example.User example.accept
           (example.planOf example.CreateUserRequest) r []
         = (Ok tt, [ValidatorStruct req;
                    HandlerCall req;
                    HeaderSet "Content-Type" "application/json";
                    WriteHeader 200;
                    Encode (Response DNil)]).
Proof.
  split; [vm_compute; reflexivity|].
  eexists. split; [vm_compute; reflexivity|].
  split; vm_compute; reflexivity.
Qed.

End ExecutorExamples.

(** ** Slices *)

Section SliceFacts.

Context `{GoLib} {A : Type}.

Implicit Types (arrays : list (list A)) (s : slice) (xs : list A).

Lemma read_nil arrays s : cap s = 0%nat -> sliceOK arrays s -> read arrays s = [].
Proof.
  intros Hcap [Hlen _]. unfold read.
  replace (len s) with 0%nat by lia. reflexivity.
Qed.

Lemma read_length arrays s : sliceOK arrays s -> length (read arrays s) = len s.
Proof.
  intros [Hlen Harr]. unfold read.
  destruct (decide (cap s = 0%nat)) as [Hz|Hnz].
  - replace (len s) with 0%nat by lia. reflexivity.
  - destruct Harr as (a & Ha & Hla); [lia|].
    rewrite Ha. simpl. rewrite length_take. lia.
Qed.

Lemma append_nil (zero : A) arrays s : append zero arrays s [] = (arrays, s).
Proof. reflexivity. Qed.

Lemma append_cons (zero : A) arrays s xs :
  xs <> [] ->
  append zero arrays s xs
  = if (len s + length xs <=? cap s)%nat then
      (alter (fun a => take (len s) a ++ xs ++ drop (len s + length xs) a)
         (array s) arrays,
       {| array := array s; len := len s + length xs; cap := cap s |})
    else
      (arrays ++ [read arrays s ++ xs
                  ++ replicate (len s + length xs
                                + growslice (cap s) (len s + length xs)
                                - (len s + length xs)) zero],
       {| array := length arrays; len := len s + length xs;
          cap := len s + length xs
                 + growslice (cap s) (len s + length xs) |}).
Proof. intros Hne. destruct xs; [congruence|reflexivity]. Qed.

(** what [append] returns: the elements, and a sound slice *)
Lemma append_read (zero : A) arrays s xs arrays' s' :
  sliceOK arrays s ->
  append zero arrays s xs = (arrays', s') ->
  read arrays' s' = read arrays s ++ xs
  /\ sliceOK arrays' s'
  /\ (length arrays <= length arrays')%nat
  /\ (s' = s
      \/ (array s' = array s /\ cap s' = cap s /\ (0 < cap s)%nat)
      \/ array s' = length arrays).
Proof.
  intros Hok. pose proof Hok as [Hlen Harr].
  destruct (decide (xs = [])) as [->|Hne].
  { rewrite append_nil. intros [= <- <-]. rewrite app_nil_r. auto. }
  assert (Hxs : (0 < length xs)%nat) by (destruct xs; [congruence|simpl; lia]).
  rewrite (append_cons _ _ _ _ Hne).
  destruct (len s + length xs <=? cap s)%nat eqn:Hfit.
  - apply Nat.leb_le in Hfit.
    destruct Harr as (a & Ha & Hla); [lia|].
    intros [= <- <-]. unfold read, sliceOK. cbn [array len cap].
    rewrite list_lookup_alter_eq, Ha. simpl.
    split; [|split; [|split]].
    + rewrite (app_assoc (take _ _)).
      rewrite take_app_length'; [reflexivity|].
      rewrite length_app, length_take. lia.
    + split; [lia|]. intros _. eexists. split; [reflexivity|].
      rewrite !length_app, length_take, length_drop. lia.
    + rewrite length_alter. lia.
    + right. left. split; [reflexivity|]. split; [reflexivity|lia].
  - intros [= <- <-].
    pose proof (read_length arrays s Hok) as Hrl.
    unfold sliceOK. cbn [array len cap].
    split; [|split; [|split]].
    + unfold read at 1. cbn [array len cap].
      rewrite lookup_app_r, Nat.sub_diag by lia. simpl.
      rewrite (app_assoc (read arrays s)).
      rewrite take_app_length'; [reflexivity|].
      rewrite length_app. lia.
    + split; [lia|]. intros _. eexists. split.
      * rewrite lookup_app_r, Nat.sub_diag by lia. reflexivity.
      * rewrite !length_app, length_replicate. lia.
    + rewrite length_app. simpl. lia.
    + right. right. reflexivity.
Qed.

(** what [append] leaves alone: any other sound slice, if it is not a
    longer window on the array that is written *)
Lemma append_frame (zero : A) arrays s xs arrays' s' s2 :
  sliceOK arrays s -> sliceOK arrays s2 ->
  ((0 < cap s2)%nat -> (0 < cap s)%nat -> array s2 = array s ->
   (len s2 <= len s)%nat) ->
  append zero arrays s xs = (arrays', s') ->
  read arrays' s2 = read arrays s2 /\ sliceOK arrays' s2.
Proof.
  intros Hok Hok2 Hprefix. pose proof Hok as [Hlen Harr].
  pose proof Hok2 as [Hlen2 Harr2].
  destruct (decide (xs = [])) as [->|Hne].
  { rewrite append_nil. intros [= <- <-]. auto. }
  assert (Hxs : (0 < length xs)%nat) by (destruct xs; [congruence|simpl; lia]).
  rewrite (append_cons _ _ _ _ Hne).
  destruct (decide (cap s2 = 0%nat)) as [Hz2|Hnz2].
  { intros _. split.
    - unfold read. replace (len s2) with 0%nat by lia. reflexivity.
    - split; [lia|]. intros; lia. }
  destruct Harr2 as (a2 & Ha2 & Hla2); [lia|].
  destruct (len s + length xs <=? cap s)%nat eqn:Hfit.
  - apply Nat.leb_le in Hfit.
    destruct Harr as (a & Ha & Hla); [lia|].
    intros [= <- <-].
    destruct (decide (array s2 = array s)) as [Heq|Hne'].
    + assert (Hl : (len s2 <= len s)%nat)
        by (apply Hprefix; [lia|lia|exact Heq]).
      assert (a2 = a) by congruence. subst a2.
      split.
      * unfold read. rewrite Heq, list_lookup_alter_eq, Ha. simpl.
        rewrite take_app_le by (rewrite length_take; lia).
        rewrite take_take. f_equal. lia.
      * split; [lia|]. intros _. eexists. split.
        -- rewrite Heq, list_lookup_alter_eq, Ha. reflexivity.
        -- rewrite !length_app, length_take, length_drop. lia.
    + split.
      * unfold read. rewrite list_lookup_alter_ne by congruence. reflexivity.
      * split; [lia|]. intros _. exists a2.
        rewrite list_lookup_alter_ne by congruence. auto.
  - intros [= <- <-].
    assert (Hlt : (array s2 < length arrays)%nat)
      by (eapply lookup_lt_Some, Ha2).
    split.
    + unfold read. rewrite lookup_app_l by exact Hlt. reflexivity.
    + split; [lia|]. intros _. exists a2.
      rewrite lookup_app_l by exact Hlt. auto.
Qed.

End SliceFacts.

(** ** Groups and registration *)

Section Registration.

Context `{GoLib}.

Lemma sliceOK_nil {A : Type} (arrays : list (list A)) (a : nat) :
  sliceOK arrays {| array := a; len := 0; cap := 0 |}.
Proof. split; simpl; [lia|]. intros; lia. Qed.

(** the loop of [RegisterEndpoint] nests the handler in the middleware,
    the first one outermost *)
Lemma applyMiddlewares_fold (pre post : list Middleware) (h : http_Handler) :
  applyMiddlewares (Some <$> (pre ++ post)) (length pre) h
  = Some (fold_right (fun m acc => m acc) h pre).
Proof.
  revert post h. induction pre as [|m pre IH] using rev_ind; intros post h.
  - reflexivity.
  - rewrite length_app. simpl. rewrite Nat.add_1_r. simpl.
    rewrite <- app_assoc. simpl.
    rewrite list_lookup_fmap, lookup_app_r, Nat.sub_diag by lia. simpl.
    rewrite IH, fold_right_app. reflexivity.
Qed.

Lemma applyMiddlewares_all (ms : list Middleware) (h : http_Handler) :
  applyMiddlewares (Some <$> ms) (length ms) h
  = Some (fold_right (fun m acc => m acc) h ms).
Proof.
  pose proof (applyMiddlewares_fold ms [] h) as E.
  rewrite app_nil_r in E. exact E.
Qed.

Lemma getMiddlewares_ok (w : World) (router : Router) :
  worldOK w ->
  sliceOK (arrays w) (getMiddlewares w router)
  /\ exists gs : list Middleware, middlewaresOf w router = Some <$> gs.
Proof.
  intros [Hgr _]. unfold middlewaresOf.
  destruct router as [|g]; simpl.
  - split; [apply sliceOK_nil|]. exists []. reflexivity.
  - destruct (groups w !! g) as [gr|] eqn:E; simpl.
    + apply (Hgr g gr E).
    + split; [apply sliceOK_nil|]. exists []. reflexivity.
Qed.

(** appending to the slice of a router, or to a slice that shares no
    array with a group, keeps the groups as they are *)
Lemma heapOK_append_router (w : World) (router : Router)
    (xs : list (option Middleware))
    (arrays' : list (list (option Middleware))) (s' : slice) :
  worldOK w ->
  append None (arrays w) (getMiddlewares w router) xs = (arrays', s') ->
  heapOK arrays' (groups w)
  /\ forall g gr, groups w !! g = Some gr ->
       read arrays' (middlewares gr) = read (arrays w) (middlewares gr).
Proof.
  intros Hw Happ. pose proof Hw as [Hgr Hdist].
  destruct (getMiddlewares_ok w router Hw) as [Hs _].
  assert (Hframe : forall g gr, groups w !! g = Some gr ->
    read arrays' (middlewares gr) = read (arrays w) (middlewares gr)
    /\ sliceOK arrays' (middlewares gr)).
  { intros g gr Hg. destruct (Hgr g gr Hg) as [Hok _].
    eapply append_frame; [exact Hs|exact Hok| |exact Happ].
    intros Hc2 Hc Harr. destruct router as [|g0]; simpl in *; [lia|].
    destruct (groups w !! g0) as [gr0|] eqn:Hg0; simpl in *; [|lia].
    destruct (decide (g = g0)) as [->|Hne].
    - assert (gr = gr0) by congruence. subst. lia.
    - exfalso. exact (Hdist g g0 gr gr0 Hne Hg Hg0 Hc2 Hc Harr). }
  split; [split|].
  - intros g gr Hg. destruct (Hframe g gr Hg) as [Hr Hok].
    split; [exact Hok|]. rewrite Hr. apply (Hgr g gr Hg).
  - exact Hdist.
  - intros g gr Hg. apply (Hframe g gr Hg).
Qed.

Lemma RegisterEndpoint_ok (router : Router) (route : EndpointSpec)
    (w : World) (gs es : list Middleware) :
  worldOK w ->
  middlewaresOf w router = Some <$> gs ->
  read (arrays w) (Middlewares route) = Some <$> es ->
  exists w' e,
    RegisterEndpoint router route w
    = (if mux_rejects (mux w).*1
            (Method route +:+ " " +:+ getPrefix w router
             +:+ RelativePath route)
       then Panic "http: the pattern is invalid or conflicts with another"
       else Ok w')
    /\ endpoints w' = endpoints w ++ [e]
    /\ Method e = Method route
    /\ FullPath e = getPrefix w router +:+ RelativePath route
    /\ read (arrays w') (AllMiddlewares e) = Some <$> (gs ++ es)
    /\ mux w'
       = mux w ++ [(Method route +:+ " " +:+ FullPath e,
                    fold_right (fun m acc => m acc)
                      (handlerPrepFn route (validator w)) (gs ++ es))]
    /\ groups w' = groups w
    /\ validator w' = validator w
    /\ worldOK w'
    /\ forall router', middlewaresOf w' router' = middlewaresOf w router'.
Proof.
  intros Hw Hgs Hes. unfold RegisterEndpoint.
  destruct (getMiddlewares_ok w router Hw) as [Hs _].
  destruct (append None (arrays w) (getMiddlewares w router)
              (read (arrays w) (Middlewares route))) as [arrays' all] eqn:Happ.
  destruct (append_read _ _ _ _ _ _ Hs Happ) as (Hread & Hok' & _ & _).
  destruct (heapOK_append_router w router _ _ _ Hw Happ) as [Hheap Hsame].
  unfold middlewaresOf in Hgs. rewrite Hgs, Hes, <- fmap_app in Hread.
  assert (Hlen : len all = length (gs ++ es)).
  { rewrite <- (read_length arrays' all Hok'), Hread, length_fmap.
    reflexivity. }
  cbn [handlerPrepFn].
  rewrite Hread, Hlen, applyMiddlewares_all.
  eexists. eexists. split; [reflexivity|]. cbn.
  split; [reflexivity|]. split; [reflexivity|]. split; [reflexivity|].
  split; [exact Hread|]. split; [reflexivity|]. split; [reflexivity|].
  split; [reflexivity|]. split; [exact Hheap|].
  intros [|g]; unfold middlewaresOf; cbn.
  - unfold read. reflexivity.
  - destruct (groups w !! g) as [gr|] eqn:Hg; cbn.
    + apply (Hsame g gr Hg).
    + unfold read. reflexivity.
Qed.


Lemma middlewaresOf_group (w : World) (g : nat) (gr : Group) :
  groups w !! g = Some gr ->
  middlewaresOf w (RGroup g) = read (arrays w) (middlewares gr).
Proof. intros Hg. unfold middlewaresOf. simpl. rewrite Hg. reflexivity. Qed.

Lemma middlewaresOf_framework (w : World) : middlewaresOf w RFramework = [].
Proof. reflexivity. Qed.

Lemma Group_Use_ok (g : nat) (middleware : list Middleware) (w : World) :
  worldOK w -> (g < length (groups w))%nat ->
  worldOK (Group_Use g middleware w)
  /\ length (groups (Group_Use g middleware w)) = length (groups w)
  /\ middlewaresOf (Group_Use g middleware w) (RGroup g)
     = middlewaresOf w (RGroup g) ++ (Some <$> middleware)
  /\ forall g', g' <> g ->
       middlewaresOf (Group_Use g middleware w) (RGroup g')
       = middlewaresOf w (RGroup g').
Proof.
  intros Hw Hg. pose proof Hw as [Hgr Hdist]. unfold Group_Use.
  destruct (lookup_lt_is_Some_2 _ _ Hg) as [gr Hgr0]. rewrite Hgr0.
  destruct (Hgr g gr Hgr0) as [Hs [ms Hms]].
  destruct (append None (arrays w) (middlewares gr) (Some <$> middleware))
    as [arrays' s'] eqn:Happ.
  destruct (append_read _ _ _ _ _ _ Hs Happ) as (Hread & Hok' & Hmono & Hwhere).
  pose proof (heapOK_append_router w (RGroup g) (Some <$> middleware)
                arrays' s') as Hframe.
  simpl in Hframe. rewrite Hgr0 in Hframe. simpl in Hframe.
  destruct (Hframe Hw Happ) as [[Hgr' Hdist'] Hsame].
  set (gr' := {| prefix := prefix gr; middlewares := s' |}).
  assert (Hlook : forall g1 gr1,
    (<[g := gr']> (groups w)) !! g1 = Some gr1 ->
    (g1 = g /\ gr1 = gr') \/ (g1 <> g /\ groups w !! g1 = Some gr1)).
  { intros g1 gr1. destruct (decide (g1 = g)) as [->|Hne].
    - rewrite list_lookup_insert_eq by exact Hg. intros [= <-]. auto.
    - rewrite list_lookup_insert_ne by congruence. auto. }
  split; [split|split; [|split]].
  - intros g1 gr1 Hg1. cbn [arrays groups withArraysGroups] in *.
    destruct (Hlook g1 gr1 Hg1) as [[-> ->]|[Hne Hold]].
    + split; [exact Hok'|]. exists (ms ++ middleware). cbn.
      rewrite Hread, Hms, fmap_app. reflexivity.
    + apply (Hgr' g1 gr1 Hold).
  - intros g1 g2 gr1 gr2 Hne Hg1 Hg2 Hc1 Hc2.
    cbn [arrays groups withArraysGroups] in *.
    assert (Hold_lt : forall g3 gr3, groups w !! g3 = Some gr3 ->
      (0 < cap (middlewares gr3))%nat ->
      (array (middlewares gr3) < length (arrays w))%nat).
    { intros g3 gr3 Hg3 Hc3. destruct (Hgr g3 gr3 Hg3) as [[_ Harr] _].
      destruct (Harr Hc3) as (a & Ha & _). eapply lookup_lt_Some, Ha. }
    assert (Hnew : forall g3 gr3, g3 <> g -> groups w !! g3 = Some gr3 ->
      (0 < cap s')%nat -> (0 < cap (middlewares gr3))%nat ->
      array s' <> array (middlewares gr3)).
    { intros g3 gr3 Hne3 Hg3 Hcs Hc3.
      destruct Hwhere as [->|[(Harr & Hcap & Hpos)|Hfresh]].
      - apply (Hdist g g3 gr gr3); auto.
      - rewrite Harr. apply (Hdist g g3 gr gr3); auto.
      - rewrite Hfresh. pose proof (Hold_lt g3 gr3 Hg3 Hc3). lia. }
    destruct (Hlook g1 gr1 Hg1) as [[-> ->]|[Hne1 Hold1]];
      destruct (Hlook g2 gr2 Hg2) as [[-> ->]|[Hne2 Hold2]].
    + congruence.
    + apply (Hnew g2 gr2); auto.
    + intros E. symmetry in E. revert E. apply (Hnew g1 gr1); auto.
    + apply (Hdist g1 g2 gr1 gr2); auto.
  - cbn. apply length_insert.
  - unfold middlewaresOf. cbn.
    rewrite list_lookup_insert_eq by exact Hg. cbn.
    rewrite Hgr0. cbn. exact Hread.
  - intros g' Hne. unfold middlewaresOf. cbn.
    rewrite list_lookup_insert_ne by congruence.
    destruct (groups w !! g') as [gr1|] eqn:Hg1; cbn.
    + apply (Hsame g' gr1 Hg1).
    + reflexivity.
Qed.

Lemma Group_Use_invalid (g : nat) (middleware : list Middleware) (w : World) :
  (length (groups w) <= g)%nat -> Group_Use g middleware w = w.
Proof.
  intros Hg. unfold Group_Use. rewrite lookup_ge_None_2 by exact Hg.
  reflexivity.
Qed.

(** a new group whose slice is the result of appending to the empty
    slice literal *)
Lemma heapOK_new_group (w : World) (xs : list Middleware) (prefix' : string)
    (arrays' : list (list (option Middleware))) (s' : slice) :
  worldOK w ->
  append None (arrays w) {| array := 0; len := 0; cap := 0 |} (Some <$> xs)
  = (arrays', s') ->
  let w' := withArraysGroups w arrays'
              (groups w ++ [{| prefix := prefix'; middlewares := s' |}]) in
  worldOK w'
  /\ middlewaresOf w' (RGroup (length (groups w))) = Some <$> xs
  /\ forall g, (g < length (groups w))%nat ->
       middlewaresOf w' (RGroup g) = middlewaresOf w (RGroup g).
Proof.
  intros Hw Happ w'. pose proof Hw as [Hgr Hdist].
  pose proof (sliceOK_nil (arrays w) 0) as Hs0.
  destruct (append_read _ _ _ _ _ _ Hs0 Happ) as (Hread & Hok' & Hmono & Hwhere).
  assert (Hread' : read arrays' s' = Some <$> xs).
  { rewrite Hread. unfold read. reflexivity. }
  pose proof (heapOK_append_router w RFramework (Some <$> xs) arrays' s' Hw
                Happ) as [[Hgr' Hdist'] Hsame].
  assert (Hlook : forall g1 gr1,
    (groups w ++ [{| prefix := prefix'; middlewares := s' |}]) !! g1 = Some gr1 ->
    (g1 = length (groups w)
     /\ gr1 = {| prefix := prefix'; middlewares := s' |})
    \/ ((g1 < length (groups w))%nat /\ groups w !! g1 = Some gr1)).
  { intros g1 gr1 Hg1. destruct (decide (g1 < length (groups w))%nat) as [Hlt|Hge].
    - rewrite lookup_app_l in Hg1 by exact Hlt. auto.
    - rewrite lookup_app_r in Hg1 by lia.
      destruct (g1 - length (groups w))%nat eqn:E; simpl in Hg1;
        [|discriminate].
      injection Hg1 as <-. left. split; [lia|reflexivity]. }
  assert (Hnew : forall g3 gr3, groups w !! g3 = Some gr3 ->
    (0 < cap s')%nat -> (0 < cap (middlewares gr3))%nat ->
    array s' <> array (middlewares gr3)).
  { intros g3 gr3 Hg3 Hcs Hc3.
    destruct Hwhere as [->|[(_ & _ & Hpos)|Hfresh]];
      [simpl in Hcs; lia|simpl in Hpos; lia|].
    rewrite Hfresh. destruct (Hgr g3 gr3 Hg3) as [[_ Harr] _].
    destruct (Harr Hc3) as (a & Ha & _).
    apply lookup_lt_Some in Ha. lia. }
  split; [split|split].
  - intros g1 gr1 Hg1. cbn in Hg1 |- *.
    destruct (Hlook g1 gr1 Hg1) as [[-> ->]|[Hlt Hold]].
    + split; [exact Hok'|]. exists xs. exact Hread'.
    + apply (Hgr' g1 gr1 Hold).
  - intros g1 g2 gr1 gr2 Hne Hg1 Hg2 Hc1 Hc2. cbn in Hg1, Hg2.
    destruct (Hlook g1 gr1 Hg1) as [[-> ->]|[Hlt1 Hold1]];
      destruct (Hlook g2 gr2 Hg2) as [[-> ->]|[Hlt2 Hold2]].
    + congruence.
    + apply (Hnew g2 gr2); auto.
    + intros E. symmetry in E. revert E. apply (Hnew g1 gr1); auto.
    + apply (Hdist g1 g2 gr1 gr2); auto.
  - unfold middlewaresOf. cbn.
    rewrite lookup_app_r, Nat.sub_diag by lia. cbn. exact Hread'.
  - intros g Hlt. unfold middlewaresOf. cbn.
    rewrite lookup_app_l by exact Hlt.
    destruct (lookup_lt_is_Some_2 _ _ Hlt) as [gr1 Hg1]. rewrite Hg1. cbn.
    apply (Hsame g gr1 Hg1).
Qed.

Lemma Framework_Group_ok (prefix' : string) (w : World) :
  worldOK w ->
  worldOK (Framework_Group prefix' w).2
  /\ (Framework_Group prefix' w).1 = length (groups w)
  /\ length (groups (Framework_Group prefix' w).2) = S (length (groups w))
  /\ middlewaresOf (Framework_Group prefix' w).2 (RGroup (length (groups w)))
     = []
  /\ forall g, (g < length (groups w))%nat ->
       middlewaresOf (Framework_Group prefix' w).2 (RGroup g)
       = middlewaresOf w (RGroup g).
Proof.
  intros Hw.
  destruct (heapOK_new_group w [] prefix' (arrays w)
              {| array := 0; len := 0; cap := 0 |} Hw eq_refl)
    as (Hok & Hnew & Hold).
  unfold Framework_Group. cbn [fst snd].
  split; [exact Hok|]. split; [reflexivity|].
  split; [cbn; rewrite length_app; simpl; lia|].
  split; [exact Hnew|exact Hold].
Qed.

Lemma Group_Group_ok (p : nat) (prefix' : string) (w : World) :
  worldOK w -> (p < length (groups w))%nat ->
  worldOK (Group_Group p prefix' w).2
  /\ (Group_Group p prefix' w).1 = length (groups w)
  /\ length (groups (Group_Group p prefix' w).2) = S (length (groups w))
  /\ middlewaresOf (Group_Group p prefix' w).2 (RGroup (length (groups w)))
     = middlewaresOf w (RGroup p)
  /\ forall g, (g < length (groups w))%nat ->
       middlewaresOf (Group_Group p prefix' w).2 (RGroup g)
       = middlewaresOf w (RGroup g).
Proof.
  intros Hw Hp. pose proof Hw as [Hgr _]. unfold Group_Group.
  destruct (lookup_lt_is_Some_2 _ _ Hp) as [gr Hgr0]. rewrite Hgr0.
  destruct (Hgr p gr Hgr0) as [_ [ms Hms]].
  rewrite Hms.
  destruct (append None (arrays w) {| array := 0; len := 0; cap := 0 |}
              (Some <$> ms)) as [arrays' s'] eqn:Happ.
  destruct (heapOK_new_group w ms (prefix gr +:+ prefix') arrays' s' Hw Happ)
    as (Hok & Hnew & Hold).
  cbn [fst snd].
  split; [exact Hok|]. split; [reflexivity|].
  split; [cbn; rewrite length_app; simpl; lia|].
  split; [|exact Hold].
  rewrite Hnew, (middlewaresOf_group w p gr Hgr0), Hms. reflexivity.
Qed.


Lemma heapOK_append_private (arrays : list (list (option Middleware)))
    (groups : list Group) (s : slice) (xs : list (option Middleware))
    (arrays' : list (list (option Middleware))) (s' : slice) :
  heapOK arrays groups -> sliceOK arrays s -> private groups s ->
  append None arrays s xs = (arrays', s') ->
  heapOK arrays' groups
  /\ (forall g gr, groups !! g = Some gr ->
        read arrays' (middlewares gr) = read arrays (middlewares gr))
  /\ sliceOK arrays' s'
  /\ private groups s'
  /\ read arrays' s' = read arrays s ++ xs.
Proof.
  intros [Hgr Hdist] Hs Hpriv Happ.
  destruct (append_read _ _ _ _ _ _ Hs Happ) as (Hread & Hok' & Hmono & Hwhere).
  assert (Hframe : forall g gr, groups !! g = Some gr ->
    read arrays' (middlewares gr) = read arrays (middlewares gr)
    /\ sliceOK arrays' (middlewares gr)).
  { intros g gr Hg. destruct (Hgr g gr Hg) as [Hok _].
    eapply append_frame; [exact Hs|exact Hok| |exact Happ].
    intros Hc2 Hc Harr. exfalso. exact (Hpriv g gr Hg Hc2 Hc Harr). }
  split; [split|split; [|split; [|split]]].
  - intros g gr Hg. destruct (Hframe g gr Hg) as [Hr Hok].
    split; [exact Hok|]. rewrite Hr. apply (Hgr g gr Hg).
  - exact Hdist.
  - intros g gr Hg. apply (Hframe g gr Hg).
  - exact Hok'.
  - intros g gr Hg Hc Hc'.
    destruct Hwhere as [->|[(Harr & Hcap & Hpos)|Hfresh]].
    + apply (Hpriv g gr Hg Hc Hc').
    + rewrite Harr. apply (Hpriv g gr Hg Hc Hpos).
    + rewrite Hfresh. destruct (Hgr g gr Hg) as [[_ Harr] _].
      destruct (Harr Hc) as (a & Ha & _). apply lookup_lt_Some in Ha. lia.
  - exact Hread.
Qed.

Lemma applyCalls_ok (groups : list Group) (callBackFn : list EndpointCall) :
  forall (arrays0 : list (list (option Middleware))) (ep0 : EndpointSpec)
         (es0 : list Middleware),
    heapOK arrays0 groups ->
    sliceOK arrays0 (Middlewares ep0) ->
    private groups (Middlewares ep0) ->
    read arrays0 (Middlewares ep0) = Some <$> es0 ->
    let st := fold_left applyCall callBackFn (arrays0, ep0) in
    heapOK st.1 groups
    /\ (forall g gr, groups !! g = Some gr ->
          read st.1 (middlewares gr) = read arrays0 (middlewares gr))
    /\ read st.1 (Middlewares st.2) = Some <$> (es0 ++ usesOfCalls callBackFn)
    /\ Method st.2 = Method ep0
    /\ RelativePath st.2 = RelativePath ep0
    /\ handlerPrepFn st.2 = handlerPrepFn ep0.
Proof.
  induction callBackFn as [|c cb IH]; intros arrays0 ep0 es0 Hheap Hs Hpriv Hes.
  - simpl. rewrite app_nil_r. auto 10.
  - cbn [fold_left].
    destruct c as [summary|description|middleware|tags];
      cbn [applyCall fst snd usesOfCalls].
    + apply (IH arrays0 (SetSummary summary ep0) es0); assumption.
    + apply (IH arrays0 (SetDescription description ep0) es0); assumption.
    + unfold EndpointSpec_Use.
      destruct (append None arrays0 (Middlewares ep0) (Some <$> middleware))
        as [arrays1 s1] eqn:Happ.
      destruct (heapOK_append_private _ _ _ _ _ _ Hheap Hs Hpriv Happ)
        as (Hheap1 & Hsame1 & Hs1 & Hpriv1 & Hread1).
      rewrite Hes, <- fmap_app in Hread1.
      match goal with
      | |- context [fold_left applyCall cb (arrays1, ?ep)] =>
          destruct (IH arrays1 ep (es0 ++ middleware) Hheap1 Hs1 Hpriv1 Hread1)
            as (Ha & Hb & Hc & Hd & He & Hf)
      end.
      cbn [Method RelativePath handlerPrepFn Middlewares] in *.
      split; [exact Ha|]. split.
      { intros g gr Hg. rewrite (Hb g gr Hg). apply (Hsame1 g gr Hg). }
      rewrite app_assoc. auto.
    + apply (IH arrays0 (SetTags tags ep0) es0); assumption.
Qed.

Lemma private_nilSlice (groups : list Group) : private groups nilSlice.
Proof. intros g gr _ _ Hc. simpl in Hc. lia. Qed.

Lemma RegisterHandlerRoute_ok (TReq TResp : reflect.Type_) (router : Router)
    (method path : string) (handler : ReqValue -> RespValue * option error)
    (callBackFn : list EndpointCall) (w : World) (parser : requestParser)
    (gs : list Middleware) :
  worldOK w ->
  buildRequestParser TReq = Some parser ->
  middlewaresOf w router = Some <$> gs ->
  exists w' e,
    RegisterHandlerRoute TReq TResp router method path handler callBackFn w
    = (if mux_rejects (mux w).*1
            (method +:+ " " +:+ getPrefix w router +:+ path)
       then Panic "http: the pattern is invalid or conflicts with another"
       else Ok w')
    /\ endpoints w' = endpoints w ++ [e]
    /\ Method e = method
    /\ FullPath e = getPrefix w router +:+ path
    /\ read (arrays w') (AllMiddlewares e)
       = Some <$> (gs ++ usesOfCalls callBackFn)
    /\ mux w'
       = mux w ++ [(method +:+ " " +:+ getPrefix w router +:+ path,
                    fold_right (fun m acc => m acc)
                      (createTypeSafeHandler (validator w) TResp handler
                         parser)
                      (gs ++ usesOfCalls callBackFn))]
    /\ groups w' = groups w
    /\ validator w' = validator w
    /\ worldOK w'
    /\ forall router', middlewaresOf w' router' = middlewaresOf w router'.
Proof.
  intros Hw Hparser Hgs. unfold RegisterHandlerRoute, CreateEndpoint.
  rewrite Hparser.
  match goal with
  | |- context [fold_left applyCall callBackFn (arrays w, ?ep)] =>
      pose proof (applyCalls_ok (groups w) callBackFn (arrays w) ep [] Hw
                    (sliceOK_nil _ 0) (private_nilSlice _) eq_refl) as Hcalls;
      destruct (fold_left applyCall callBackFn (arrays w, ep))
        as [arrays1 ep1] eqn:Hfold
  end.
  cbn [fst snd Method RelativePath handlerPrepFn] in Hcalls.
  destruct Hcalls as (Hheap1 & Hsame1 & Hread1 & HM & HR & HF).
  set (w1 := {| arrays := arrays1; groups := groups w;
                validator := validator w; endpoints := endpoints w;
                mux := mux w |}).
  assert (Hmw : forall router', middlewaresOf w1 router' = middlewaresOf w router').
  { intros [|g]; unfold middlewaresOf; cbn.
    - unfold read. reflexivity.
    - destruct (groups w !! g) as [gr|] eqn:Hg; cbn.
      + apply (Hsame1 g gr Hg).
      + unfold read. reflexivity. }
  destruct (RegisterEndpoint_ok router ep1 w1 gs (usesOfCalls callBackFn))
    as (w' & e & Hreg & Hends & HMe & HFe & Hall & Hmux & Hgroups & Hval
        & Hok & Hmw').
  - exact Hheap1.
  - rewrite Hmw. exact Hgs.
  - exact Hread1.
  - exists w', e. split; [rewrite Hreg, HM, HR; reflexivity|].
    split; [exact Hends|].
    split; [congruence|]. split; [rewrite HFe, HR; reflexivity|].
    split; [exact Hall|]. split.
    { rewrite Hmux, HFe, HM, HR, HF. reflexivity. }
    split; [exact Hgroups|]. split; [exact Hval|]. split; [exact Hok|].
    intros router'. rewrite Hmw'. apply Hmw.
Qed.

Lemma worldOK_New (v : ReqValue -> ValidatorResult) : worldOK (New v).
Proof.
  split.
  - intros g gr Hg. cbn in Hg. rewrite lookup_nil in Hg. discriminate.
  - intros g g' gr gr' _ Hg. cbn in Hg. rewrite lookup_nil in Hg.
    discriminate.
Qed.

(** a step keeps the invariant and the groups that exist, whose lists
    grow by what the step adds with [Use] *)
Lemma step_ok (op : Op) (w w' : World) :
  worldOK w -> step op w = Ok w' ->
  worldOK w'
  /\ (length (groups w) <= length (groups w'))%nat
  /\ validator w' = validator w
  /\ forall g, (g < length (groups w))%nat ->
       middlewaresOf w' (RGroup g)
       = middlewaresOf w (RGroup g) ++ (Some <$> usesOf g [op]).
Proof.
  intros Hw Hstep.
  destruct op as [prefix'|g0 middleware|g0 prefix'
                 |TReq TResp router method path handler cb];
    cbn [step usesOf] in *.
  - injection Hstep as <-.
    destruct (Framework_Group_ok prefix' w Hw) as (Hok & _ & Hlen & _ & Hold).
    unfold Framework_Group in *. cbn [fst snd] in *.
    split; [exact Hok|]. split; [lia|]. split; [reflexivity|].
    intros g Hg. rewrite app_nil_r. apply (Hold g Hg).
  - injection Hstep as <-.
    destruct (decide (g0 < length (groups w))%nat) as [Hlt|Hge].
    + destruct (Group_Use_ok g0 middleware w Hw Hlt)
        as (Hok & Hlen & Hown & Hother).
      split; [exact Hok|]. split; [lia|].
      split; [unfold Group_Use; destruct (groups w !! g0);
              [destruct (append _ _ _ _)|]; reflexivity|].
      intros g Hg. case_bool_decide as Hcase.
      * subst g0. rewrite app_nil_r. exact Hown.
      * rewrite app_nil_r. apply Hother. congruence.
    + rewrite Group_Use_invalid by lia.
      split; [exact Hw|]. split; [lia|]. split; [reflexivity|].
      intros g Hg. case_bool_decide as Hcase; [lia|].
      rewrite app_nil_r. reflexivity.
  - injection Hstep as <-.
    destruct (decide (g0 < length (groups w))%nat) as [Hlt|Hge].
    + destruct (Group_Group_ok g0 prefix' w Hw Hlt)
        as (Hok & _ & Hlen & _ & Hold).
      split; [exact Hok|]. split; [lia|].
      split; [unfold Group_Group; destruct (groups w !! g0);
              [destruct (append _ _ _ _)|]; reflexivity|].
      intros g Hg. rewrite app_nil_r. apply (Hold g Hg).
    + unfold Group_Group. rewrite lookup_ge_None_2 by lia. cbn.
      split; [exact Hw|]. split; [lia|]. split; [reflexivity|].
      intros g Hg. rewrite app_nil_r. reflexivity.
  - destruct (buildRequestParser TReq) as [parser|] eqn:Hparser.
    + destruct (getMiddlewares_ok w router Hw) as [_ [gs Hgs]].
      destruct (RegisterHandlerRoute_ok TReq TResp router method path handler
                  cb w parser gs Hw Hparser Hgs)
        as (w1 & e & Hreg & _ & _ & _ & _ & _ & Hgroups & Hval & Hok & Hmw).
      rewrite Hreg in Hstep.
      destruct (mux_rejects _ _); [discriminate|]. injection Hstep as <-.
      split; [exact Hok|]. split; [rewrite Hgroups; lia|].
      split; [exact Hval|].
      intros g Hg. rewrite app_nil_r. apply Hmw.
    + unfold RegisterHandlerRoute, CreateEndpoint in Hstep.
      rewrite Hparser in Hstep. discriminate.
Qed.

Lemma usesOf_app (g : nat) (ops1 ops2 : list Op) :
  usesOf g (ops1 ++ ops2) = usesOf g ops1 ++ usesOf g ops2.
Proof.
  induction ops1 as [|op ops1 IH]; [reflexivity|].
  destruct op; simpl; try exact IH.
  case_bool_decide; [rewrite IH, app_assoc|]; auto.
Qed.

Lemma run_ok (ops : list Op) :
  forall w w' : World,
    worldOK w -> run ops w = Ok w' ->
    worldOK w'
    /\ (length (groups w) <= length (groups w'))%nat
    /\ validator w' = validator w
    /\ forall g, (g < length (groups w))%nat ->
         middlewaresOf w' (RGroup g)
         = middlewaresOf w (RGroup g) ++ (Some <$> usesOf g ops).
Proof.
  induction ops as [|op ops IH]; intros w w' Hw Hrun.
  - injection Hrun as <-. split; [exact Hw|]. split; [lia|].
    split; [reflexivity|]. intros g _. rewrite app_nil_r. reflexivity.
  - cbn [run] in Hrun. destruct (step op w) as [w1|e|why] eqn:Hstep;
      try discriminate.
    destruct (step_ok op w w1 Hw Hstep) as (Hw1 & Hlen1 & Hval1 & Hmw1).
    destruct (IH w1 w' Hw1 Hrun) as (Hw' & Hlen' & Hval' & Hmw').
    split; [exact Hw'|]. split; [lia|]. split; [congruence|].
    intros g Hg. rewrite Hmw' by lia. rewrite Hmw1 by exact Hg.
    change (op :: ops) with ([op] ++ ops).
    rewrite usesOf_app, fmap_app, app_assoc. reflexivity.
Qed.

Lemma run_app (ops1 ops2 : list Op) (w : World) :
  run (ops1 ++ ops2) w
  = match run ops1 w with
    | Ok w1 => run ops2 w1
    | Err e => Err e
    | Panic why => Panic why
    end.
Proof.
  revert w. induction ops1 as [|op ops1 IH]; intros w; [reflexivity|].
  cbn [run app]. destruct (step op w); auto.
Qed.

(** what a request observes through a chain of tracing middleware *)
Lemma tracing_chain (names : list string) (h : http_Handler) (r : Request) :
  forall tr,
    fold_right (fun m acc => m acc) h (tracing <$> names) r tr
    = match h r (tr ++ entries names) with
      | (Ok tt, tr') => (Ok tt, tr' ++ exits names)
      | other => other
      end.
Proof.
  unfold entries, exits.
  induction names as [|n names IH]; intros tr; simpl.
  - rewrite app_nil_r. destruct (h r tr) as [[[]|e|why] tr'];
      rewrite ?app_nil_r; reflexivity.
  - unfold tracing at 1. rewrite IH. rewrite <- app_assoc. simpl.
    destruct (h r _) as [[[]|e|why] tr']; try reflexivity.
    rewrite fmap_app, <- app_assoc. reflexivity.
Qed.

(** C2.  An endpoint registered on a router whose middleware list is [gs],
    with a callback that adds the middleware [es] to the endpoint, is
    stored with the chain [gs ++ es] and served by [gs ++ es] nested
    around the typed handler with the first one outermost.  With
    middleware that leave notes, a request makes the notes of entry in
    the order of [gs ++ es] before the typed handler runs, and the notes
    of exit in the reverse order after it has returned: for group
    middleware A, B and endpoint middleware C, enter A, enter B, enter C,
    the handler, exit C, exit B, exit A. *)
Theorem registered_chain_is_group_then_endpoint_middleware
    (v : ReqValue -> ValidatorResult) (ops : list Op) (w : World)
    (TReq TResp : reflect.Type_) (router : Router) (method path : string)
    (handler : ReqValue -> RespValue * option error)
    (callBackFn : list EndpointCall) (parser : requestParser)
    (gs : list Middleware) :
  run ops (New v) = Ok w ->
  buildRequestParser TReq = Some parser ->
  mux_rejects (mux w).*1 (method +:+ " " +:+ getPrefix w router +:+ path)
  = false ->
  middlewaresOf w router = Some <$> gs ->
  exists (w' : World) (e : EndpointSpec) (h : http_Handler),
    RegisterHandlerRoute TReq TResp router method path handler callBackFn w
    = Ok w'
    /\ endpoints w' = endpoints w ++ [e]
    /\ read (arrays w') (AllMiddlewares e)
       = Some <$> (gs ++ usesOfCalls callBackFn)
    /\ mux w' = mux w ++ [(method +:+ " " +:+ getPrefix w router +:+ path, h)]
    /\ h = fold_right (fun m acc => m acc)
             (createTypeSafeHandler v TResp handler parser)
             (gs ++ usesOfCalls callBackFn)
    /\ forall gnames enames : list string,
         gs = tracing <$> gnames ->
         usesOfCalls callBackFn = tracing <$> enames ->
         forall (r : Request) (tr : Trace),
           h r tr
           = match createTypeSafeHandler v TResp handler parser r
                     (tr ++ entries (gnames ++ enames)) with
             | (Ok tt, tr') => (Ok tt, tr' ++ exits (gnames ++ enames))
             | other => other
             end.
Proof.
  intros Hrun Hparser Hmux Hgs.
  destruct (run_ok ops (New v) w (worldOK_New v) Hrun) as (Hw & _ & Hval & _).
  destruct (RegisterHandlerRoute_ok TReq TResp router method path handler
              callBackFn w parser gs Hw Hparser Hgs)
    as (w' & e & Hreg & Hends & _ & _ & Hall & Hmux' & _).
  cbn in Hval. rewrite Hval in Hmux'. rewrite Hmux in Hreg.
  eexists w', e, _. split; [exact Hreg|]. split; [exact Hends|].
  split; [exact Hall|]. split; [exact Hmux'|]. split; [reflexivity|].
  intros gnames enames -> -> r tr.
  rewrite <- fmap_app. apply tracing_chain.
Qed.

(** C7.  A group created from a parent whose list is [ms] at that moment
    has, after any further set-up, the list [ms] followed by what was
    added to the child itself, and the parent has [ms] followed by what
    was added to the parent: what one of them is given after the creation
    does not reach the other.  An endpoint registered on the child
    afterwards is served by the snapshot, the additions to the child and
    the middleware of the endpoint, in this order. *)
Theorem child_group_takes_a_snapshot
    (v : ReqValue -> ValidatorResult) (ops1 ops2 : list Op) (w w2 : World)
    (p : nat) (prefix' : string) :
  run ops1 (New v) = Ok w ->
  (p < length (groups w))%nat ->
  run ops2 (Group_Group p prefix' w).2 = Ok w2 ->
  let c := (Group_Group p prefix' w).1 in
  exists ms : list Middleware,
    middlewaresOf w (RGroup p) = Some <$> ms
    /\ middlewaresOf w2 (RGroup c) = Some <$> (ms ++ usesOf c ops2)
    /\ middlewaresOf w2 (RGroup p) = Some <$> (ms ++ usesOf p ops2)
    /\ forall (TReq TResp : reflect.Type_) (method path : string)
              (handler : ReqValue -> RespValue * option error)
              (callBackFn : list EndpointCall) (parser : requestParser),
         buildRequestParser TReq = Some parser ->
         mux_rejects (mux w2).*1
           (method +:+ " " +:+ getPrefix w2 (RGroup c) +:+ path) = false ->
         exists w3 : World,
           RegisterHandlerRoute TReq TResp (RGroup c) method path handler
             callBackFn w2 = Ok w3
           /\ mux w3
              = mux w2
                ++ [(method +:+ " " +:+ getPrefix w2 (RGroup c) +:+ path,
                     fold_right (fun m acc => m acc)
                       (createTypeSafeHandler v TResp handler parser)
                       (ms ++ usesOf c ops2 ++ usesOfCalls callBackFn))].
Proof.
  intros Hrun1 Hp Hrun2 c.
  destruct (run_ok ops1 (New v) w (worldOK_New v) Hrun1)
    as (Hw & _ & Hval & _).
  destruct (getMiddlewares_ok w (RGroup p) Hw) as [_ [ms Hms]].
  destruct (Group_Group_ok p prefix' w Hw Hp)
    as (Hw1 & Hc & Hlen1 & Hchild & Hold).
  destruct (run_ok ops2 _ w2 Hw1 Hrun2) as (Hw2 & _ & Hval2 & Hmw2).
  assert (Hvalc : validator (Group_Group p prefix' w).2 = validator w).
  { unfold Group_Group. destruct (groups w !! p);
      [destruct (append _ _ _ _)|]; reflexivity. }
  assert (Hchild2 : middlewaresOf w2 (RGroup c) = Some <$> (ms ++ usesOf c ops2)).
  { subst c. rewrite Hc, Hmw2 by lia. rewrite Hchild, Hms, fmap_app.
    reflexivity. }
  exists ms. split; [exact Hms|]. split; [exact Hchild2|]. split.
  - rewrite Hmw2 by lia. rewrite (Hold p Hp), Hms, fmap_app. reflexivity.
  - intros TReq TResp method path handler callBackFn parser Hparser Hpattern.
    destruct (RegisterHandlerRoute_ok TReq TResp (RGroup c) method path
                handler callBackFn w2 parser (ms ++ usesOf c ops2) Hw2
                Hparser Hchild2)
      as (w3 & e & Hreg & _ & _ & _ & _ & Hmux & _).
    rewrite Hpattern in Hreg.
    exists w3. split; [exact Hreg|].
    rewrite Hmux, Hval2, Hvalc, Hval, <- app_assoc. reflexivity.
Qed.

End Registration.

Section ChainExamples.

#[local] Existing Instance exampleLib.

(** witness of C2: the group /api uses A and B, the endpoint uses C *)
Lemma registered_chain_is_group_then_endpoint_middleware_witness :
  exists (w' : World) (h : http_Handler),
    RegisterHandlerRoute example.GetUserRequest example.User (RGroup 0)
      "GET" "/users/{id}" example.accept [CallUse [tracing "C"]] example.apiWorld
    = Ok w'
    /\ mux w' = [("GET /api/users/{id}", h)]
    /\ h example.emptyRequest []
       = (Ok tt,
          [Note "enter A"; Note "enter B"; Note "enter C";
           ValidatorStruct ∅; HandlerCall ∅;
           HeaderSet "Content-Type" "application/json";
           WriteHeader 200; Encode (Response DNil);
           Note "exit C"; Note "exit B"; Note "exit A"]).
Proof.
  destruct (registered_chain_is_group_then_endpoint_middleware
              (fun _ => Valid)
              [OpFrameworkGroup "/api";
               OpGroupUse 0 [tracing "A"; tracing "B"]]
              example.apiWorld example.GetUserRequest example.User (RGroup 0)
              "GET" "/users/{id}" example.accept [CallUse [tracing "C"]]
              (example.planOf example.GetUserRequest)
              [tracing "A"; tracing "B"])
    as (w' & e & h & Hreg & _ & _ & Hmux & _ & Hobs);
    [reflexivity|reflexivity|vm_compute; reflexivity|reflexivity|].
  exists w', h. split; [exact Hreg|]. split; [exact Hmux|].
  rewrite (Hobs ["A"; "B"] ["C"] eq_refl eq_refl).
  reflexivity.
Defined.

(** witness of C7: after the group /api/v1 is created, /api is given C and
    /api/v1 is given D *)
Lemma child_group_takes_a_snapshot_witness :
  let w := example.apiWorld in
  let w2 := Group_Use 1 [tracing "D"]
              (Group_Use 0 [tracing "C"] (Group_Group 0 "/v1" w).2) in
  middlewaresOf w (RGroup 0) = Some <$> [tracing "A"; tracing "B"]
  /\ middlewaresOf w2 (RGroup 1)
     = Some <$> [tracing "A"; tracing "B"; tracing "D"]
  /\ middlewaresOf w2 (RGroup 0)
     = Some <$> [tracing "A"; tracing "B"; tracing "C"].
Proof.
  intros w w2.
  destruct (child_group_takes_a_snapshot (fun _ => Valid)
              [OpFrameworkGroup "/api";
               OpGroupUse 0 [tracing "A"; tracing "B"]]
              [OpGroupUse 0 [tracing "C"]; OpGroupUse 1 [tracing "D"]]
              w w2 0 "/v1" eq_refl)
    as (ms & Hms & Hchild & Hparent & _).
  - simpl. lia.
  - reflexivity.
  - assert (ms = [tracing "A"; tracing "B"]) as ->.
    { apply (inj (fmap Some)). rewrite <- Hms. reflexivity. }
    split; [reflexivity|]. split; [exact Hchild|exact Hparent].
Defined.

End ChainExamples.

(* ===================================================================== *)
(** ** More of the parse plan and the executor, the validation report,
    the registry, the helpers and the schema generator *)
(* ===================================================================== *)

(** ** The parse plan *)

Section PlanFacts.

Context `{GoLib}.

Lemma parseNestedStruct_elem (fields : list reflect.StructField) (j0 i : nat)
    (category : string) (fp : fieldParser) :
  fp ∈ parseNestedStruct fields j0 i category
  <-> exists k nestedField,
        fields !! k = Some nestedField
        /\ reflect.IsExported nestedField = true
        /\ fp = nestedFieldParser (j0 + k) i category nestedField.
Proof.
  revert j0. induction fields as [|f fields IH]; intros j0; simpl.
  - split; [intros Hin; inversion Hin|].
    intros (k & nf & Hk & _). rewrite lookup_nil in Hk. discriminate.
  - destruct (reflect.IsExported f) eqn:Hex; simpl.
    + rewrite elem_of_cons, IH. split.
      * intros [->|(k & nf & Hk & Hnf & ->)].
        -- exists 0%nat, f. rewrite Nat.add_0_r. auto.
        -- exists (S k), nf. rewrite Nat.add_succ_r. auto.
      * intros ([|k] & nf & Hk & Hnf & ->); simpl in Hk.
        -- injection Hk as ->. left. rewrite Nat.add_0_r. reflexivity.
        -- right. exists k, nf. rewrite Nat.add_succ_r. auto.
    + rewrite IH. split.
      * intros (k & nf & Hk & Hnf & ->).
        exists (S k), nf. rewrite Nat.add_succ_r. auto.
      * intros ([|k] & nf & Hk & Hnf & ->); simpl in Hk.
        -- injection Hk as ->. congruence.
        -- exists k, nf. rewrite Nat.add_succ_r. auto.
Qed.

Lemma parseNestedStructForForm_elem (fields : list reflect.StructField)
    (j0 i : nat) (fp : fieldParser) :
  fp ∈ parseNestedStructForForm fields j0 i
  <-> exists k nestedField,
        fields !! k = Some nestedField
        /\ reflect.IsExported nestedField = true
        /\ fp = formFieldParser (j0 + k) i nestedField.
Proof.
  revert j0. induction fields as [|f fields IH]; intros j0; simpl.
  - split; [intros Hin; inversion Hin|].
    intros (k & nf & Hk & _). rewrite lookup_nil in Hk. discriminate.
  - destruct (reflect.IsExported f) eqn:Hex; simpl.
    + rewrite elem_of_cons, IH. split.
      * intros [->|(k & nf & Hk & Hnf & ->)].
        -- exists 0%nat, f. rewrite Nat.add_0_r. auto.
        -- exists (S k), nf. rewrite Nat.add_succ_r. auto.
      * intros ([|k] & nf & Hk & Hnf & ->); simpl in Hk.
        -- injection Hk as ->. left. rewrite Nat.add_0_r. reflexivity.
        -- right. exists k, nf. rewrite Nat.add_succ_r. auto.
    + rewrite IH. split.
      * intros (k & nf & Hk & Hnf & ->).
        exists (S k), nf. rewrite Nat.add_succ_r. auto.
      * intros ([|k] & nf & Hk & Hnf & ->); simpl in Hk.
        -- injection Hk as ->. congruence.
        -- exists k, nf. rewrite Nat.add_succ_r. auto.
Qed.

Lemma buildRequestParser_step_fieldParsers (parser : requestParser) (i : nat)
    (field : reflect.StructField) :
  fieldParsers (buildRequestParser_step parser i field)
  = fieldParsers parser ++ bindingsOf i field
  /\ requestType (buildRequestParser_step parser i field)
     = requestType parser.
Proof.
  unfold buildRequestParser_step, bindingsOf.
  destruct (negb (reflect.IsExported field));
    [rewrite app_nil_r; auto|].
  destruct (reflect.Typ field); try (rewrite app_nil_r; auto).
  repeat case_bool_decide; simpl; rewrite ?app_nil_r; auto.
Qed.

Lemma buildRequestParser_loop_fieldParsers
    (fields : list reflect.StructField) :
  forall (parser : requestParser) (i0 : nat),
    fieldParsers (buildRequestParser_loop parser i0 fields)
    = fieldParsers parser
      ++ mjoin (imap (fun k => bindingsOf (i0 + k)) fields)
    /\ requestType (buildRequestParser_loop parser i0 fields)
       = requestType parser.
Proof.
  induction fields as [|f fields IH]; intros parser i0; simpl.
  - rewrite app_nil_r. auto.
  - destruct (IH (buildRequestParser_step parser i0 f) (S i0)) as [-> ->].
    destruct (buildRequestParser_step_fieldParsers parser i0 f) as [-> ->].
    rewrite Nat.add_0_r, <- app_assoc. split; [|reflexivity].
    do 3 f_equal. apply imap_ext. intros k x _. simpl.
    rewrite Nat.add_succ_r. reflexivity.
Qed.

(** the plan lists the bindings of the groups, in the order of the
    fields *)
Lemma buildRequestParser_fieldParsers (T : reflect.Type_)
    (parser : requestParser) :
  buildRequestParser T = Some parser ->
  exists fields,
    reflect.Fields T = Some fields
    /\ fieldParsers parser = mjoin (imap bindingsOf fields)
    /\ requestType parser = T.
Proof.
  unfold buildRequestParser. destruct (reflect.Fields T) as [fields|];
    [|discriminate].
  simpl. intros [= <-]. exists fields. split; [reflexivity|].
  destruct (buildRequestParser_loop_fieldParsers fields
              {| requestType := T; fieldParsers := [];
                 hasBodyField := false; bodyFieldIdx := 0 |} 0) as [-> ->].
  auto.
Qed.

Lemma bindingsOf_elem (i : nat) (field : reflect.StructField)
    (fp : fieldParser) :
  fp ∈ bindingsOf i field
  <-> reflect.IsExported field = true
      /\ exists name methods nested j nestedField,
           reflect.Typ field = reflect.StructOf name methods nested
           /\ nested !! j = Some nestedField
           /\ reflect.IsExported nestedField = true
           /\ ((reflect.Name field = "Route"
                /\ fp = nestedFieldParser j i "route" nestedField)
               \/ (reflect.Name field = "Header"
                   /\ fp = nestedFieldParser j i "header" nestedField)
               \/ (reflect.Name field = "Query"
                   /\ fp = nestedFieldParser j i "query" nestedField)
               \/ (reflect.Name field = "Form"
                   /\ fp = formFieldParser j i nestedField)).
Proof.
  unfold bindingsOf. destruct (reflect.IsExported field); simpl.
  2: { split; [intros Hin; inversion Hin|intros [? _]; discriminate]. }
  destruct (reflect.Typ field) as [| | | | | |name methods nested] eqn:Ht;
    try (split; [intros Hin; inversion Hin|
                 intros (_ & ? & ? & ? & ? & ? & ? & _); discriminate]).
  repeat case_bool_decide.
  all: rewrite ?parseNestedStruct_elem, ?parseNestedStructForForm_elem.
  all: split.
  all: try (intros (k & nf & Hk & Hnf & ->); split; [reflexivity|];
            exists name, methods, nested, k, nf; naive_solver).
  all: try (match goal with
            | |- _ ∈ [] -> _ => intros Hin; inversion Hin
            end).
  all: intros (_ & name' & methods' & nested' & j & nf & [= <- <- <-]
               & Hj & Hnf & Hcase).
  all: destruct Hcase as [[Hn ->]|[[Hn ->]|[[Hn ->]|[Hn ->]]]];
    try congruence.
  all: exists j, nf; auto.
Qed.

Lemma buildRequestParser_elem (T : reflect.Type_) (parser : requestParser)
    (fp : fieldParser) :
  buildRequestParser T = Some parser ->
  fp ∈ fieldParsers parser -> isBinding T fp.
Proof.
  intros Hplan.
  destruct (buildRequestParser_fieldParsers T parser Hplan)
    as (fields & Hfields & -> & _).
  rewrite list_elem_of_join. unfold isBinding.
  intros (l & Hfp & Hl). apply elem_of_lookup_imap in Hl
    as (i & field & -> & Hi).
  apply bindingsOf_elem in Hfp
    as (Hex & name & methods & nested & j & nf & Ht & Hj & Hnf & Hcase).
  exists fields, i, field, name, methods, nested, j, nf. auto 10.
Qed.

(** X1.  The plan that [buildRequestParser] makes of a request type lists
    exactly the bindings of its groups: an entry is in the plan if and only
    if it is the entry of an exported field of an exported field of struct
    type named Route, Header, Query or Form, in the category route,
    header, query or form of that group. *)
Theorem plan_lists_the_bindings_of_the_groups (T : reflect.Type_)
    (parser : requestParser) (fp : fieldParser) :
  buildRequestParser T = Some parser ->
  fp ∈ fieldParsers parser <-> isBinding T fp.
Proof.
  intros Hplan. split; [apply buildRequestParser_elem, Hplan|].
  destruct (buildRequestParser_fieldParsers T parser Hplan)
    as (fields & Hfields & -> & _).
  rewrite list_elem_of_join.
  intros (fields' & i & field & name & methods & nested & j & nf
          & Hfields' & Hi & Hex & Ht & Hj & Hnf & Hcase).
  assert (fields' = fields) as -> by congruence.
  exists (bindingsOf i field). split.
  - apply bindingsOf_elem. split; [exact Hex|].
    exists name, methods, nested, j, nf. auto.
  - apply elem_of_lookup_imap. exists i, field. auto.
Qed.

Lemma parseNestedStruct_NoDup (fields : list reflect.StructField)
    (j0 i : nat) (category : string) :
  NoDup (fieldAddr <$> parseNestedStruct fields j0 i category).
Proof.
  revert j0. induction fields as [|f fields IH]; intros j0; simpl;
    [constructor|].
  destruct (reflect.IsExported f); simpl; [|apply IH].
  constructor; [|apply IH].
  rewrite list_elem_of_fmap. intros (fp & Haddr & Hfp).
  apply parseNestedStruct_elem in Hfp as (k & nf & _ & _ & ->).
  unfold fieldAddr in Haddr. simpl in Haddr. injection Haddr as Hj. lia.
Qed.

Lemma parseNestedStructForForm_NoDup (fields : list reflect.StructField)
    (j0 i : nat) :
  NoDup (fieldAddr <$> parseNestedStructForForm fields j0 i).
Proof.
  revert j0. induction fields as [|f fields IH]; intros j0; simpl;
    [constructor|].
  destruct (reflect.IsExported f); simpl; [|apply IH].
  constructor; [|apply IH].
  rewrite list_elem_of_fmap. intros (fp & Haddr & Hfp).
  apply parseNestedStructForForm_elem in Hfp as (k & nf & _ & _ & ->).
  unfold fieldAddr in Haddr. simpl in Haddr. injection Haddr as Hj. lia.
Qed.

Lemma bindingsOf_NoDup (i : nat) (field : reflect.StructField) :
  NoDup (fieldAddr <$> bindingsOf i field).
Proof.
  unfold bindingsOf. destruct (negb (reflect.IsExported field));
    [constructor|].
  destruct (reflect.Typ field); try constructor.
  repeat case_bool_decide;
    first [apply parseNestedStruct_NoDup
          |apply parseNestedStructForForm_NoDup|constructor].
Qed.

Lemma bindingsOf_fieldIndex (i : nat) (field : reflect.StructField)
    (fp : fieldParser) :
  fp ∈ bindingsOf i field -> exists j, fieldAddr fp = (i, Some j).
Proof.
  intros Hfp. apply bindingsOf_elem in Hfp
    as (_ & name & methods & nested & j & nf & _ & _ & _ & Hcase).
  exists j. destruct Hcase as [[_ ->]|[[_ ->]|[[_ ->]|[_ ->]]]]; reflexivity.
Qed.

Lemma imap_bindingsOf_NoDup (fields : list reflect.StructField) (i0 : nat) :
  NoDup (fieldAddr
           <$> mjoin (imap (fun k => bindingsOf (i0 + k)) fields)).
Proof.
  revert i0. induction fields as [|f fields IH]; intros i0; simpl;
    [constructor|].
  rewrite fmap_app. apply NoDup_app. split; [|split].
  - rewrite Nat.add_0_r. apply bindingsOf_NoDup.
  - intros a Ha Hb.
    apply list_elem_of_fmap in Ha as (fp & -> & Hfp).
    apply bindingsOf_fieldIndex in Hfp as (j & Hj).
    apply list_elem_of_fmap in Hb as (fp' & Heq & Hfp').
    apply list_elem_of_join in Hfp' as (l & Hfp' & Hl).
    apply elem_of_lookup_imap in Hl as (k & field & -> & _).
    apply bindingsOf_fieldIndex in Hfp' as (j' & Hj').
    rewrite Hj, Hj' in Heq. injection Heq as Hi _. simpl in Hi. lia.
  - erewrite imap_ext; [apply (IH (S i0))|].
    intros k x _. simpl. rewrite Nat.add_succ_r. reflexivity.
Qed.

(** X2.  No two entries of a plan write the same field of the request
    struct, and every entry addresses a field of a group: the branch of the
    executor for entries that are not nested is never taken. *)
Theorem plan_addresses_are_distinct (T : reflect.Type_)
    (parser : requestParser) :
  buildRequestParser T = Some parser ->
  NoDup (fieldAddr <$> fieldParsers parser)
  /\ Forall (fun fp => isNested fp = true) (fieldParsers parser).
Proof.
  intros Hplan.
  destruct (buildRequestParser_fieldParsers T parser Hplan)
    as (fields & Hfields & Heq & _).
  split.
  - rewrite Heq. apply (imap_bindingsOf_NoDup fields 0).
  - apply Forall_forall. intros fp Hfp.
    apply (buildRequestParser_elem T parser fp Hplan) in Hfp
      as (? & ? & ? & ? & ? & ? & ? & ? & _ & _ & _ & _ & _ & _ & Hcase).
    destruct Hcase as [[_ ->]|[[_ ->]|[[_ ->]|[_ ->]]]]; reflexivity.
Qed.

Lemma buildRequestParser_step_body (parser : requestParser) (i : nat)
    (field : reflect.StructField) :
  let parser' := buildRequestParser_step parser i field in
  if isBodyGroup field
  then hasBodyField parser' = true /\ bodyFieldIdx parser' = i
  else hasBodyField parser' = hasBodyField parser
       /\ bodyFieldIdx parser' = bodyFieldIdx parser.
Proof.
  unfold buildRequestParser_step, isBodyGroup.
  destruct (reflect.IsExported field); simpl; [|auto].
  destruct (reflect.Typ field) eqn:Ht; simpl; auto.
  repeat case_bool_decide; simpl; auto; congruence.
Qed.

Lemma buildRequestParser_loop_body (fields : list reflect.StructField) :
  forall (parser : requestParser) (i0 : nat),
    let parser' := buildRequestParser_loop parser i0 fields in
    hasBodyField parser' = hasBodyField parser || existsb isBodyGroup fields
    /\ (hasBodyField parser' = true ->
        (exists k f, fields !! k = Some f /\ isBodyGroup f = true
                     /\ bodyFieldIdx parser' = (i0 + k)%nat)
        \/ (hasBodyField parser = true
            /\ bodyFieldIdx parser' = bodyFieldIdx parser)).
Proof.
  induction fields as [|f fields IH]; intros parser i0; simpl.
  - rewrite orb_false_r. auto.
  - destruct (IH (buildRequestParser_step parser i0 f) (S i0)) as [Hhas Hidx].
    pose proof (buildRequestParser_step_body parser i0 f) as Hstep.
    simpl in Hstep.
    destruct (isBodyGroup f) eqn:Hf; destruct Hstep as [Hs1 Hs2];
      (split;
       [rewrite Hhas, Hs1; simpl; rewrite ?orb_true_r; reflexivity|]);
      intros Htrue;
      destruct (Hidx Htrue) as [(k & f' & Hk & Hf' & Hi)|[Hp Hi]].
    + left. exists (S k), f'. rewrite Hi. split; [exact Hk|].
      split; [exact Hf'|]. lia.
    + left. exists 0%nat, f. rewrite Hi, Hs2. split; [reflexivity|].
      split; [exact Hf|]. lia.
    + left. exists (S k), f'. rewrite Hi. split; [exact Hk|].
      split; [exact Hf'|]. lia.
    + right. split; [congruence|]. rewrite Hi, Hs2. reflexivity.
Qed.

(** the body target of a compiled plan is a field of the request type *)
Lemma buildRequestParser_body (T : reflect.Type_) (parser : requestParser) :
  buildRequestParser T = Some parser ->
  exists fields,
    reflect.Fields T = Some fields
    /\ hasBodyField parser = existsb isBodyGroup fields
    /\ (hasBodyField parser = true ->
        exists f, fields !! bodyFieldIdx parser = Some f
                  /\ isBodyGroup f = true).
Proof.
  unfold buildRequestParser. destruct (reflect.Fields T) as [fields|];
    [|discriminate].
  simpl. intros [= <-]. exists fields. split; [reflexivity|].
  destruct (buildRequestParser_loop_body fields
              {| requestType := T; fieldParsers := [];
                 hasBodyField := false; bodyFieldIdx := 0 |} 0)
    as [Hhas Hidx].
  simpl in Hhas, Hidx. split; [exact Hhas|].
  intros Htrue. destruct (Hidx Htrue) as [(k & f & Hk & Hf & ->)|[? _]];
    [|discriminate].
  exists f. auto.
Qed.

End PlanFacts.

(** ** The executor: what cannot panic *)

Section ExecutorSafety.

Context `{GoLib}.

Lemma setSliceField_loop_total (k : reflect.Kind) (i : nat)
    (values : list string) :
  isPanic (setSliceField_loop k (createFieldSetter k) i values) = false.
Proof.
  revert i. induction values as [|val values IH]; intros i; simpl;
    [reflexivity|].
  destruct (createFieldSetter_same_kind k val) as [[x ->]|[e ->]];
    [|reflexivity].
  specialize (IH (S i)).
  destruct (setSliceField_loop k (createFieldSetter k) (S i) values);
    [reflexivity|reflexivity|discriminate].
Qed.

Lemma nestedFieldParser_scalar (j i : nat) (category : string)
    (nestedField : reflect.StructField) :
  isSlice (nestedFieldParser j i category nestedField) = false ->
  fieldKind (nestedFieldParser j i category nestedField)
  = reflect.KindOf (reflect.Typ nestedField).
Proof.
  unfold nestedFieldParser. simpl.
  destruct (reflect.Typ nestedField); simpl; try reflexivity.
  discriminate.
Qed.

Lemma bindField_nested_safe (r : Request) (j i : nat) (category : string)
    (nestedField : reflect.StructField) (reqValue : ReqValue) :
  safeBinding (nestedFieldParser j i category nestedField) = true ->
  isPanic (bindField r (nestedFieldParser j i category nestedField) reqValue)
  = false.
Proof.
  intros Hsafe. unfold bindField.
  pose proof (nestedFieldParser_scalar j i category nestedField) as Hscalar.
  assert (Hsetter : setter (nestedFieldParser j i category nestedField)
                    = Some (createFieldSetter
                              (fieldKind (nestedFieldParser j i category
                                            nestedField)))) by reflexivity.
  assert (Hkind : forall elem,
    fieldType (nestedFieldParser j i category nestedField)
    = reflect.SliceOf elem ->
    fieldKind (nestedFieldParser j i category nestedField)
    = reflect.KindOf elem).
  { unfold nestedFieldParser. simpl. intros elem ->. reflexivity. }
  assert (Hty : fieldType (nestedFieldParser j i category nestedField)
                = reflect.Typ nestedField) by reflexivity.
  assert (Hfile : isFileField (nestedFieldParser j i category nestedField)
                  = false) by reflexivity.
  rewrite <- Hty in Hscalar. clear Hty.
  generalize dependent (nestedFieldParser j i category nestedField).
  intros fp. intros.
  rewrite Hfile, andb_false_r.
  unfold safeBinding in Hsafe. rewrite Hfile, andb_true_r in Hsafe.
  cbn [negb orb] in Hsafe.
  destruct (isSlice fp) eqn:Hslice; cbn [negb orb andb] in *.
  - apply andb_true_iff in Hsafe as [Hq Ht]. rewrite Hq.
    destruct (0 <? length (URL_Query r (sourceName fp)))%nat;
      [|reflexivity].
    destruct (fieldType fp) as [| |elem| | | |] eqn:Hft; try discriminate.
    rewrite Hsetter, (Hkind elem eq_refl). unfold setSliceField.
    pose proof (setSliceField_loop_total (reflect.KindOf elem) 0
                  (URL_Query r (sourceName fp))) as Hloop.
    destruct (setSliceField_loop _ _ _ _); [reflexivity|reflexivity|].
    discriminate.
  - destruct (_ && _); [|reflexivity].
    rewrite Hsetter, (Hscalar eq_refl).
    destruct (createFieldSetter_same_kind (reflect.KindOf (fieldType fp))
                (sourceValue r fp)) as [[x ->]|[e ->]]; reflexivity.
Qed.

Lemma sourceValue_form (r : Request) (fp : fieldParser) :
  sourceType fp = "form" -> sourceValue r fp = "".
Proof. intros Hf. unfold sourceValue. rewrite Hf. reflexivity. Qed.

Lemma bindField_form_safe (r : Request) (j i : nat)
    (nestedField : reflect.StructField) (reqValue : ReqValue) :
  safeBinding (formFieldParser j i nestedField) = true ->
  isPanic (bindField r (formFieldParser j i nestedField) reqValue) = false.
Proof.
  intros Hsafe. unfold bindField.
  assert (Hform : sourceType (formFieldParser j i nestedField) = "form")
    by reflexivity.
  assert (Hslice : isSlice (formFieldParser j i nestedField) = false)
    by reflexivity.
  generalize dependent (formFieldParser j i nestedField).
  intros fp. intros.
  rewrite Hslice, (bool_decide_eq_true_2 _ Hform). cbn [andb].
  unfold safeBinding in Hsafe. rewrite Hslice in Hsafe.
  cbn [negb orb andb] in Hsafe.
  destruct (isFileField fp) eqn:Hfile; cbn [negb orb] in Hsafe.
  - unfold parseFileField. destruct (ParseMultipartForm r); [reflexivity|].
    destruct (FormFile r (sourceName fp)) as [[file header]|[|err]];
      try reflexivity.
    rewrite Hsafe. reflexivity.
  - rewrite (sourceValue_form r fp Hform). reflexivity.
Qed.

Lemma bindField_safe (T : reflect.Type_) (r : Request) (fp : fieldParser)
    (reqValue : ReqValue) :
  isBinding T fp -> safeBinding fp = true ->
  isPanic (bindField r fp reqValue) = false.
Proof.
  intros (? & ? & ? & ? & ? & ? & j & nf & _ & _ & _ & _ & _ & _ & Hcase)
    Hsafe.
  destruct Hcase as [[_ ->]|[[_ ->]|[[_ ->]|[_ ->]]]].
  - apply bindField_nested_safe. exact Hsafe.
  - apply bindField_nested_safe. exact Hsafe.
  - apply bindField_nested_safe. exact Hsafe.
  - apply bindField_form_safe. exact Hsafe.
Qed.

Lemma bindFields_safe (T : reflect.Type_) (r : Request)
    (fps : list fieldParser) :
  Forall (isBinding T) fps -> forallb safeBinding fps = true ->
  forall reqValue, isPanic (bindFields r fps reqValue) = false.
Proof.
  induction 1 as [|fp fps Hfp _ IH]; intros Hsafe reqValue; simpl;
    [reflexivity|].
  simpl in Hsafe. apply andb_true_iff in Hsafe as [Hs Hrest].
  pose proof (bindField_safe T r fp reqValue Hfp Hs) as Hone.
  destruct (bindField r fp reqValue); [apply IH, Hrest|reflexivity|].
  discriminate.
Qed.

Lemma FieldAt_lookup (T : reflect.Type_) (fields : list reflect.StructField)
    (i : nat) (f : reflect.StructField) :
  reflect.Fields T = Some fields -> fields !! i = Some f ->
  FieldAt T i = Ok f.
Proof. intros HT Hi. unfold FieldAt. rewrite HT, Hi. reflexivity. Qed.

Lemma bindBody_safe (T : reflect.Type_) (parser : requestParser)
    (r : Request) (reqValue : ReqValue) :
  buildRequestParser T = Some parser ->
  isPanic (bindBody r parser reqValue) = false.
Proof.
  intros Hplan. unfold bindBody.
  destruct (buildRequestParser_body T parser Hplan)
    as (fields & HT & _ & Hidx).
  destruct (buildRequestParser_fieldParsers T parser Hplan)
    as (fields' & HT' & _ & Hty).
  destruct (hasBodyField parser); [|reflexivity].
  destruct (Hidx eq_refl) as (f & Hf & _).
  rewrite Hty, (FieldAt_lookup T fields _ f HT Hf).
  unfold parseBody. destruct (Body r); [|reflexivity].
  destruct (json.Decode _ _ _ _ _ _); reflexivity.
Qed.

Lemma fieldTagMap_loop_ok (T : reflect.Type_) (fps : list fieldParser) :
  Forall (isBinding T) fps ->
  forall m, exists m', fieldTagMap_loop T fps m = Ok m'.
Proof.
  induction 1 as [|fp fps Hfp _ IH]; intros m; simpl; [eauto|].
  destruct Hfp as (fields & i & field & name & methods & nested & j & nf
                   & HT & Hi & _ & Hty & Hj & _ & Hcase).
  assert (Hidx : fieldIndex fp = i /\ nestedFieldIndex fp = j
                 /\ isNested fp = true).
  { destruct Hcase as [[_ ->]|[[_ ->]|[[_ ->]|[_ ->]]]]; auto. }
  destruct Hidx as (-> & -> & ->).
  rewrite (FieldAt_lookup T fields _ field HT Hi).
  erewrite (FieldAt_lookup (reflect.Typ field) nested _ nf);
    [apply IH|rewrite Hty; reflexivity|exact Hj].
Qed.

Lemma formatValidationError_ok (T : reflect.Type_) (parser : requestParser)
    (err : ValidatorResult) :
  buildRequestParser T = Some parser ->
  exists ves, formatValidationError err parser = Ok ves.
Proof.
  intros Hplan. unfold formatValidationError.
  destruct err as [|l|msg]; [eauto| |eauto].
  destruct (buildRequestParser_body T parser Hplan)
    as (fields & HT & _ & Hidx).
  destruct (buildRequestParser_fieldParsers T parser Hplan)
    as (fields' & HT' & _ & Hty).
  rewrite Hty.
  destruct (fieldTagMap_loop_ok T (fieldParsers parser)) with (m := (∅ : gmap string (string * string)))
    as [m' ->].
  { apply Forall_forall. intros fp Hfp.
    apply (buildRequestParser_elem T parser fp Hplan), Hfp. }
  destruct (hasBodyField parser); [|eauto].
  destruct (Hidx eq_refl) as (f & Hf & _).
  rewrite (FieldAt_lookup T fields _ f HT Hf). eauto.
Qed.

End ExecutorSafety.

(** ** The executor: requests and outcomes *)

Section ExecutorCases.

Context `{GoLib}.

(** X4.  When every slice of a plan is bound from the query and every file
    field can hold a [FileField], the executor never panics, whatever the
    request and the validator say: [parseWithPlan] returns a value or an
    error, and the typed handler returns normally. *)
Theorem safe_plans_never_panic (T : reflect.Type_) (parser : requestParser)
    (validator_Struct : ReqValue -> ValidatorResult) (Resp : reflect.Type_)
    (h : ReqValue -> RespValue * option error) (r : Request) (w : Trace) :
  buildRequestParser T = Some parser ->
  forallb safeBinding (fieldParsers parser) = true ->
  isPanic (parseWithPlan validator_Struct r ∅ parser w).1 = false
  /\ (createTypeSafeHandler validator_Struct Resp h parser r w).1 = Ok tt.
Proof.
  intros Hplan Hsafe.
  assert (Hparse :
    isPanic (parseWithPlan validator_Struct r ∅ parser w).1 = false).
  { unfold parseWithPlan, bind, lift, emit, ret.
    pose proof (bindFields_safe T r (fieldParsers parser)) as Hfields.
    specialize (Hfields
      (proj2 (Forall_forall _ _)
         (fun fp => buildRequestParser_elem T parser fp Hplan)) Hsafe ∅).
    destruct (bindFields r (fieldParsers parser) ∅) as [v1|e|why];
      [|reflexivity|discriminate].
    pose proof (bindBody_safe T parser r v1 Hplan) as Hbody.
    destruct (bindBody r parser v1) as [v2|e|why];
      [|reflexivity|discriminate].
    destruct (validator_Struct v2) as [|l|msg] eqn:Hv; [reflexivity| |].
    - destruct (formatValidationError_ok T parser (ValidationErrors l) Hplan)
        as [ves ->].
      destruct ves; reflexivity.
    - destruct (formatValidationError_ok T parser
                  (InvalidValidationError msg) Hplan) as [ves ->].
      destruct ves; reflexivity. }
  split; [exact Hparse|].
  unfold createTypeSafeHandler.
  destruct (parseWithPlan validator_Struct r ∅ parser w) as [[v|e|why] w'];
    [| |discriminate].
  - destruct (h v) as [response [err|]]; reflexivity.
  - destruct e; reflexivity.
Qed.

(** a missing value is no binding error *)
Lemma bindField_nothing (T : reflect.Type_) (r : Request) (fp : fieldParser)
    (reqValue : ReqValue) :
  isBinding T fp -> carriesNothing r ->
  (isFileField fp = true -> ParseMultipartForm r = None
                            /\ MultipartForm_File r (sourceName fp) = []) ->
  bindField r fp reqValue = Ok reqValue.
Proof.
  intros (? & ? & ? & ? & ? & ? & j & nf & _ & _ & _ & _ & _ & _ & Hcase)
    (Hh & Hp & Hq) Hfile.
  assert (Hvalue : sourceValue r fp = "").
  { unfold sourceValue. repeat case_bool_decide; auto.
    unfold Query_Get. rewrite Hq. reflexivity. }
  unfold bindField. rewrite Hvalue, Hq.
  destruct Hcase as [[_ ->]|[[_ ->]|[[_ ->]|[_ ->]]]];
    try (cbn [nestedFieldParser sourceType isFileField isSlice andb];
         rewrite andb_false_r; destruct (_ && _); reflexivity).
  cbn [formFieldParser sourceType isFileField isSlice andb] in *.
  rewrite bool_decide_eq_true_2 by reflexivity. cbn [andb].
  destruct (reflect.Implements (reflect.Typ nf) FileUpload); [|reflexivity].
  destruct (Hfile eq_refl) as [Hparsed Hnone].
  unfold parseFileField, FormFile. cbn [sourceName] in *.
  rewrite Hparsed, Hnone. reflexivity.
Qed.

Lemma bindFields_nothing (T : reflect.Type_) (r : Request)
    (fps : list fieldParser) (reqValue : ReqValue) :
  Forall (isBinding T) fps -> carriesNothing r ->
  (forall fp, fp ∈ fps -> isFileField fp = true ->
     ParseMultipartForm r = None
     /\ MultipartForm_File r (sourceName fp) = []) ->
  bindFields r fps reqValue = Ok reqValue.
Proof.
  induction 1 as [|fp fps Hfp _ IH]; intros Hr Hfiles; simpl; [reflexivity|].
  rewrite (bindField_nothing T r fp reqValue Hfp Hr)
    by (apply Hfiles; left).
  apply IH; [exact Hr|]. intros fp' Hin. apply Hfiles. right. exact Hin.
Qed.

(** X5.  A request without header, path and query values and without file
    parts binds nothing and is no error: the request struct keeps its zero
    values, and when the plan has no body and the validator accepts the
    struct, [parseWithPlan] succeeds after the one call of the validator. *)
Theorem empty_request_binds_nothing (T : reflect.Type_)
    (parser : requestParser) (r : Request)
    (validator_Struct : ReqValue -> ValidatorResult) (w : Trace) :
  buildRequestParser T = Some parser ->
  carriesNothing r ->
  (forall fp, fp ∈ fieldParsers parser -> isFileField fp = true ->
     ParseMultipartForm r = None
     /\ MultipartForm_File r (sourceName fp) = []) ->
  bindFields r (fieldParsers parser) ∅ = Ok ∅
  /\ (hasBodyField parser = false ->
      validator_Struct ∅ = Valid ->
      parseWithPlan validator_Struct r ∅ parser w
      = (Ok ∅, w ++ [ValidatorStruct ∅])).
Proof.
  intros Hplan Hr Hfiles.
  assert (Hbind : bindFields r (fieldParsers parser) ∅ = Ok ∅).
  { apply (bindFields_nothing T); [|exact Hr|exact Hfiles].
    apply Forall_forall. intros fp. apply buildRequestParser_elem, Hplan. }
  split; [exact Hbind|]. intros Hbody Hvalid.
  apply (parseWithPlan_valid validator_Struct r ∅ ∅ ∅ parser w Hbind);
    [|exact Hvalid].
  unfold bindBody. rewrite Hbody. reflexivity.
Qed.

Lemma bindField_file (r : Request) (j i : nat)
    (nestedField : reflect.StructField) (reqValue : ReqValue) :
  reflect.Implements (reflect.Typ nestedField) FileUpload = true ->
  bindField r (formFieldParser j i nestedField) reqValue
  = match parseFileField r (reflect.Typ nestedField)
            (jsonTagOrName nestedField) with
    | Err err =>
        Err (wrapError (sourcePrefix "form" (jsonTagOrName nestedField)) err)
    | Panic why => Panic why
    | Ok None => Ok reqValue
    | Ok (Some v) => Ok (<[(i, Some j) := v]> reqValue)
    end.
Proof.
  intros Himpl. unfold bindField.
  cbn [formFieldParser sourceType isFileField isSlice andb fieldType
       sourceName].
  rewrite Himpl. rewrite bool_decide_eq_true_2 by reflexivity. reflexivity.
Qed.

(** X7.  On a multipart request that carries a part under the name of a
    field of type [FileField], the field receives the filename, the size
    and the header of the first part with its opened content; when the
    part cannot be opened the binding fails with the words failed to get
    form file behind the name of the form field. *)
Theorem uploaded_file_is_bound (r : Request) (j i : nat)
    (nestedField : reflect.StructField) (reqValue : ReqValue)
    (fh : FileHeader) (rest : list FileHeader) :
  reflect.Typ nestedField = FileFieldType ->
  ParseMultipartForm r = None ->
  MultipartForm_File r (jsonTagOrName nestedField) = fh :: rest ->
  match fh_Open fh with
  | inl content =>
      bindField r (formFieldParser j i nestedField) reqValue
      = Ok (<[(i, Some j) :=
               VFile {| Filename := fh_Filename fh; Size := fh_Size fh;
                        Header := fh; Content := content |}]> reqValue)
  | inr err =>
      bindField r (formFieldParser j i nestedField) reqValue
      = Err (wrapError (sourcePrefix "form" (jsonTagOrName nestedField))
               (wrapError "failed to get form file: " err))
  end.
Proof.
  intros Hty Hparsed Hfiles.
  rewrite bindField_file by (rewrite Hty; reflexivity).
  unfold parseFileField, FormFile. rewrite Hparsed, Hfiles, Hty.
  destruct (fh_Open fh); reflexivity.
Qed.

(** X8.  A plan with a file field needs a multipart request.  When the form
    cannot be parsed and the bindings before the file field succeed, the
    typed handler answers 400 with the error of the parser behind the
    name of the form field, and calls neither the validator nor the
    handler. *)
Theorem file_binding_needs_a_multipart_request
    (validator_Struct : ReqValue -> ValidatorResult) (Resp : reflect.Type_)
    (h : ReqValue -> RespValue * option error) (parser : requestParser)
    (r : Request) (pre post : list fieldParser) (j i : nat)
    (nestedField : reflect.StructField) (reqValue : ReqValue) (err : error)
    (w : Trace) :
  reflect.Implements (reflect.Typ nestedField) FileUpload = true ->
  fieldParsers parser = pre ++ formFieldParser j i nestedField :: post ->
  bindFields r pre ∅ = Ok reqValue ->
  ParseMultipartForm r = Some err ->
  let message :=
    "form '" +:+ jsonTagOrName nestedField
    +:+ "': failed to parse multipart form: " +:+ Error err in
  createTypeSafeHandler validator_Struct Resp h parser r w
  = (Ok tt, w ++ [HeaderSet "Content-Type" "application/json";
                  WriteHeader 400;
                  Encode (ErrorResponse message [])]).
Proof.
  intros Himpl Hplan Hpre Hnot message.
  assert (Hbind : bindFields r (fieldParsers parser) ∅
    = Err (wrapError (sourcePrefix "form" (jsonTagOrName nestedField))
             (wrapError "failed to parse multipart form: " err))).
  { rewrite Hplan, bindFields_app, Hpre. simpl.
    rewrite bindField_file by exact Himpl.
    unfold parseFileField. rewrite Hnot. reflexivity. }
  erewrite createTypeSafeHandler_bad_request
    by (apply parseWithPlan_bind_error, Hbind).
  do 5 f_equal. unfold message, sourcePrefix. simpl.
  rewrite !append_assoc_string. reflexivity.
Qed.

Lemma createFieldSetter_on_slice (k : reflect.Kind) (value : string)
    (v : Value) :
  createFieldSetter k reflect.Slice value <> Ok v.
Proof.
  destruct k; simpl; try discriminate;
    repeat match goal with
           | |- context [match ?x with _ => _ end] => destruct x
           end; discriminate.
Qed.

(** X9.  A slice in a Route or Header group is never bound.  The plan gives
    it the setter of its element kind, and outside the query the executor
    calls that setter on the slice itself: with a value present the
    binding fails or panics, and for a slice of strings the typed handler
    panics in [SetString]. *)
Theorem slice_outside_the_query_is_never_bound
    (validator_Struct : ReqValue -> ValidatorResult) (Resp : reflect.Type_)
    (h : ReqValue -> RespValue * option error) (parser : requestParser)
    (r : Request) (pre post : list fieldParser) (j i : nat)
    (category : string) (nestedField : reflect.StructField)
    (elem : reflect.Type_) (reqValue : ReqValue) (w : Trace) :
  category ∈ ["route"; "header"] ->
  reflect.Typ nestedField = reflect.SliceOf elem ->
  sourceValue r (nestedFieldParser j i category nestedField) <> "" ->
  (forall v,
     bindField r (nestedFieldParser j i category nestedField) reqValue
     <> Ok v)
  /\ (reflect.KindOf elem = reflect.String ->
      fieldParsers parser
      = pre ++ nestedFieldParser j i category nestedField :: post ->
      bindFields r pre ∅ = Ok reqValue ->
      exists why,
        createTypeSafeHandler validator_Struct Resp h parser r w
        = (Panic why, w)).
Proof.
  intros Hcat Hty Hne.
  rewrite (nestedFieldParser_slice j i category nestedField elem Hty) in *.
  set (fp := {| fieldIndex := i; nestedFieldIndex := j; isNested := true;
       fieldType := reflect.SliceOf elem; fieldKind := reflect.KindOf elem;
       sourceType := category; sourceName := jsonTagOrName nestedField;
       setter := Some (createFieldSetter (reflect.KindOf elem));
       isSlice := true; isFileField := false |}) in *.
  assert (Hq : bool_decide (category = "query") = false).
  { apply bool_decide_eq_false_2. intros ->. set_solver. }
  assert (Hstep : forall reqValue,
    bindField r fp reqValue
    = match createFieldSetter (reflect.KindOf elem) reflect.Slice
              (sourceValue r fp) with
      | Err err =>
          Err (wrapError (sourcePrefix category (jsonTagOrName nestedField))
                 err)
      | Panic why => Panic why
      | Ok v => Ok (<[(i, Some j) := v]> reqValue)
      end).
  { intros reqValue'. unfold bindField.
    cbn [fp sourceType isFileField isSlice andb setter fieldType sourceName].
    rewrite andb_false_r, Hq. cbn [andb].
    rewrite (bool_decide_eq_false_2 _ Hne). reflexivity. }
  split.
  - intros v. rewrite Hstep.
    pose proof (createFieldSetter_on_slice (reflect.KindOf elem)
                  (sourceValue r fp)) as Hno.
    destruct (createFieldSetter _ _ _) as [x|e|why];
      [exfalso; exact (Hno x eq_refl)|discriminate|discriminate].
  - intros Hstring Hplan Hpre.
    assert (Hbind : bindFields r (fieldParsers parser) ∅
      = Panic "reflect: call of reflect.Value.SetString on non-string Value").
    { rewrite Hplan, bindFields_app, Hpre. simpl.
      rewrite Hstep, Hstring. reflexivity. }
    eexists. unfold createTypeSafeHandler, parseWithPlan, bind, lift.
    rewrite Hbind. reflexivity.
Qed.

(** X10.  The integer setters do not check the range of the field.  The
    value that [Sscanf] scans is stored modulo two to the number of bits
    of the field's kind, as [SetInt] and [SetUint] do; a value within the
    range of the kind is stored as it is. *)
Theorem integer_setter_wraps (k : reflect.Kind) (bits : Z) (value : string)
    (n : Z) :
  (intBits k = Some bits -> fmt.Sscanf_d_int64 value = Some n ->
   createFieldSetter k k value = Ok (VInt (wrapSigned bits n))
   /\ (- 2 ^ (bits - 1) <= n < 2 ^ (bits - 1) -> wrapSigned bits n = n))
  /\ (uintBits k = Some bits -> k <> reflect.Uintptr ->
      fmt.Sscanf_d_uint64 value = Some n ->
      createFieldSetter k k value = Ok (VUint (wrapUnsigned bits n))
      /\ (0 <= n < 2 ^ bits -> wrapUnsigned bits n = n)).
Proof.
  split.
  - intros Hk Hscan. split.
    + destruct k; try discriminate Hk; simpl; rewrite Hscan; simpl;
        injection Hk as <-; reflexivity.
    + intros Hrange. unfold wrapSigned.
      assert (Hb : 0 < bits) by (destruct k; try discriminate Hk;
                                  injection Hk as <-; lia).
      assert (Hpow : 2 ^ bits = 2 * 2 ^ (bits - 1)).
      { rewrite <- Z.pow_succ_r by lia. f_equal. lia. }
      rewrite Z.mod_small by lia. lia.
  - intros Hk Hptr Hscan. split.
    + destruct k; try discriminate Hk; try congruence; simpl;
        rewrite Hscan; simpl; injection Hk as <-; reflexivity.
    + intros Hrange. unfold wrapUnsigned. apply Z.mod_small. exact Hrange.
Qed.

(** what [parseWithPlan] can return, and the trace it leaves *)
Lemma parseWithPlan_cases (validator_Struct : ReqValue -> ValidatorResult)
    (r : Request) (parser : requestParser) (w : Trace) :
  (exists v, parseWithPlan validator_Struct r ∅ parser w
             = (Ok v, w ++ [ValidatorStruct v])
             /\ validator_Struct v = Valid)
  \/ (exists res, parseWithPlan validator_Struct r ∅ parser w = (res, w)
                  /\ forall v, res <> Ok v)
  \/ (exists res v, parseWithPlan validator_Struct r ∅ parser w
                    = (res, w ++ [ValidatorStruct v])
                    /\ validator_Struct v <> Valid
                    /\ forall v', res <> Ok v').
Proof.
  unfold parseWithPlan, bind, lift, emit, ret.
  destruct (bindFields r (fieldParsers parser) ∅) as [v1|e|why];
    [|right; left; eexists; split; [reflexivity|discriminate]..].
  destruct (bindBody r parser v1) as [v2|e|why];
    [|right; left; eexists; split; [reflexivity|discriminate]..].
  destruct (validator_Struct v2) as [|l|msg] eqn:Hv.
  - left. exists v2. auto.
  - right. right.
    destruct (formatValidationError (ValidationErrors l) parser)
      as [[ves|]|e|why]; eexists _, v2;
      (split; [reflexivity|]); rewrite Hv; split; discriminate.
  - right. right.
    destruct (formatValidationError (InvalidValidationError msg) parser)
      as [[ves|]|e|why]; eexists _, v2;
      (split; [reflexivity|]); rewrite Hv; split; discriminate.
Qed.

(** X11.  The outcomes of the typed handler.  Either the validator accepted
    the request value, the handler was called on that value right after
    the one call of the validator, and its response or the status 500 is
    written; or the status 400 is written and the handler was not called;
    or the executor panicked.  The validator is called at most once. *)
Theorem handler_runs_only_on_validated_requests
    (validator_Struct : ReqValue -> ValidatorResult) (Resp : reflect.Type_)
    (h : ReqValue -> RespValue * option error) (parser : requestParser)
    (r : Request) (w : Trace) :
  let outcome := createTypeSafeHandler validator_Struct Resp h parser r w in
  (exists v,
     validator_Struct v = Valid
     /\ parseWithPlan validator_Struct r ∅ parser w
        = (Ok v, w ++ [ValidatorStruct v])
     /\ outcome
        = (Ok tt,
           match h v with
           | (_, Some err) =>
               writeError 500 (Error err) []
                 (w ++ [ValidatorStruct v; HandlerCall v])
           | (response, None) =>
               writeResponse Resp response
                 (w ++ [ValidatorStruct v; HandlerCall v])
           end))
  \/ (exists tr payload,
        outcome
        = (Ok tt, tr ++ [HeaderSet "Content-Type" "application/json";
                         WriteHeader 400; Encode payload])
        /\ (tr = w
            \/ exists v, tr = w ++ [ValidatorStruct v]
                         /\ validator_Struct v <> Valid))
  \/ (exists why tr,
        outcome = (Panic why, tr)
        /\ (tr = w \/ exists v, tr = w ++ [ValidatorStruct v])).
Proof.
  intros outcome. subst outcome. unfold createTypeSafeHandler.
  destruct (parseWithPlan_cases validator_Struct r parser w)
    as [(v & -> & Hv)|[(res & -> & Hres)|(res & v & -> & Hv & Hres)]].
  - left. exists v. split; [exact Hv|]. split; [reflexivity|].
    rewrite <- app_assoc. simpl.
    destruct (h v) as [response [err|]]; reflexivity.
  - destruct res as [v|e|why]; [exfalso; exact (Hres v eq_refl)| |].
    + right. left. destruct e; eexists w, _; (split; [reflexivity|auto]).
    + right. right. exists why, w. auto.
  - destruct res as [v'|e|why]; [exfalso; exact (Hres v' eq_refl)| |].
    + right. left.
      destruct e; eexists (w ++ [ValidatorStruct v]), _;
        (split; [reflexivity|eauto]).
    + right. right. exists why, (w ++ [ValidatorStruct v]). eauto.
Qed.

(** X3.  The walker takes the exported field of struct type named Body for
    the body, and only it: a plan has a body target exactly when the
    request type has such a field, the target is that field, and the
    executor decodes the body into it with the decoder's errors put
    behind the word body.  Without such a field the body is not read. *)
Theorem body_is_decoded_into_the_body_group (T : reflect.Type_)
    (parser : requestParser) :
  buildRequestParser T = Some parser ->
  exists fields,
    reflect.Fields T = Some fields
    /\ hasBodyField parser = existsb isBodyGroup fields
    /\ (hasBodyField parser = false ->
        forall r reqValue, bindBody r parser reqValue = Ok reqValue)
    /\ (hasBodyField parser = true ->
        exists field,
          fields !! bodyFieldIdx parser = Some field
          /\ isBodyGroup field = true
          /\ forall r reqValue,
               bindBody r parser reqValue
               = match parseBody r (reflect.Typ field) with
                 | Ok v => Ok (<[(bodyFieldIdx parser, None) := v]> reqValue)
                 | Err err => Err (wrapError "body: " err)
                 | Panic why => Panic why
                 end).
Proof.
  intros Hplan.
  destruct (buildRequestParser_body T parser Hplan)
    as (fields & Hfields & Hhas & Hidx).
  destruct (buildRequestParser_fieldParsers T parser Hplan)
    as (fields' & Hfields' & _ & Hreq).
  exists fields. split; [exact Hfields|]. split; [exact Hhas|]. split.
  - intros Hno r reqValue. unfold bindBody. rewrite Hno. reflexivity.
  - intros Hyes. destruct (Hidx Hyes) as (field & Hfield & Hgroup).
    exists field. split; [exact Hfield|]. split; [exact Hgroup|].
    intros r reqValue. unfold bindBody. rewrite Hyes, Hreq.
    rewrite (FieldAt_lookup T fields _ field Hfields Hfield).
    destruct (parseBody r (reflect.Typ field)); reflexivity.
Qed.

End ExecutorCases.

(** ** The executor: fields that stay as they are *)

Section ExecutorFrame.

Context `{GoLib}.

Lemma buildRequestParser_NoDup (T : reflect.Type_) (parser : requestParser) :
  buildRequestParser T = Some parser ->
  NoDup (fieldAddr <$> fieldParsers parser).
Proof.
  intros Hplan.
  destruct (buildRequestParser_fieldParsers T parser Hplan)
    as (fields & Hfields & Heq & _).
  rewrite Heq. apply (imap_bindingsOf_NoDup fields 0).
Qed.

Lemma bindField_frame (r : Request) (fp : fieldParser) (v v' : ReqValue) :
  bindField r fp v = Ok v' ->
  v' = v \/ exists x, v' = <[fieldAddr fp := x]> v.
Proof.
  unfold bindField.
  repeat match goal with
         | |- context [match ?x with _ => _ end] => destruct x
         end; intros [= <-]; eauto.
Qed.

Lemma bindFields_frame (r : Request) (a : Addr) (fps : list fieldParser) :
  forall v v',
    (forall fp u u', fp ∈ fps -> fieldAddr fp = a ->
       bindField r fp u = Ok u' -> u' = u) ->
    bindFields r fps v = Ok v' ->
    v' !! a = v !! a.
Proof.
  induction fps as [|fp fps IH]; intros v v' Hidle; cbn [bindFields].
  - intros [= <-]. reflexivity.
  - destruct (bindField r fp v) as [v1| |] eqn:Hfp; try discriminate.
    intros Hrest.
    rewrite (IH v1 v')
      by (try exact Hrest; intros fp' u u' Hin; apply Hidle; right;
          exact Hin).
    destruct (decide (fieldAddr fp = a)) as [Ha|Ha].
    + rewrite (Hidle fp v v1); [reflexivity|left|exact Ha|exact Hfp].
    + destruct (bindField_frame r fp v v1 Hfp) as [->|[x ->]];
        [reflexivity|].
      unfold ReqValue in *. rewrite lookup_insert_ne by exact Ha.
      reflexivity.
Qed.

(** X6.  A field of a Form group that is no file is never filled in.  The
    plan lists it, but the executor has no source for it: after the
    bindings of any request it still holds the zero value. *)
Theorem form_text_fields_keep_their_zero_value (T : reflect.Type_)
    (parser : requestParser) (r : Request) (j i : nat)
    (nestedField : reflect.StructField) (reqValue : ReqValue) :
  buildRequestParser T = Some parser ->
  formFieldParser j i nestedField ∈ fieldParsers parser ->
  reflect.Implements (reflect.Typ nestedField) FileUpload = false ->
  bindFields r (fieldParsers parser) ∅ = Ok reqValue ->
  Field_ reqValue (i, Some j) = VZero.
Proof.
  intros Hplan Hin Himpl Hbind.
  unfold Field_.
  erewrite (bindFields_frame r _ (fieldParsers parser) ∅ reqValue);
    [reflexivity| |exact Hbind].
  intros fp u u' Hfp Haddr Hu.
  assert (fp = formFieldParser j i nestedField) as ->.
  { pose proof (buildRequestParser_NoDup T parser Hplan) as Hnd.
    apply list_elem_of_lookup in Hfp as [k Hk].
    apply list_elem_of_lookup in Hin as [k' Hk'].
    assert (k = k') as ->.
    { apply (NoDup_lookup _ k k' (i, Some j) Hnd);
        rewrite list_lookup_fmap; [rewrite Hk|rewrite Hk']; cbn;
        [rewrite Haddr|]; reflexivity. }
    congruence. }
  unfold bindField in Hu.
  cbn [formFieldParser sourceType isFileField isSlice andb] in Hu.
  rewrite Himpl, andb_false_r in Hu. cbn [andb] in Hu.
  rewrite sourceValue_form in Hu by reflexivity.
  rewrite (bool_decide_eq_true_2 ("" = "")) in Hu by reflexivity.
  cbn [negb andb] in Hu. congruence.
Qed.

End ExecutorFrame.

(** ** The validation report: paths *)

Section FieldPaths.

Ltac divmod := zify; Z.to_euclidean_division_equations; lia.

Ltac decide_tests :=
  repeat match goal with
         | |- context [(?a <? ?b)%N] =>
             destruct (N.ltb_spec a b); try lia
         | |- context [(?a <=? ?b)%N] =>
             destruct (N.leb_spec a b); try lia
         | |- context [(?a =? ?b)%N] =>
             destruct (N.eqb_spec a b); try lia
         end.

Ltac tests_in H :=
  repeat match type of H with
         | context [(?a <? ?b)%N] => destruct (N.ltb_spec a b)
         | context [(?a <=? ?b)%N] => destruct (N.leb_spec a b)
         | context [(?a =? ?b)%N] => destruct (N.eqb_spec a b)
         end; cbn in H; try discriminate H.

Lemma encode_two (b0 b1 : N) :
  (194 <= b0 <= 223)%N -> utf8.continuation b1 = true ->
  utf8.encode ((b0 - 192) * 64 + (b1 - 128)) = [b0; b1].
Proof.
  unfold utf8.continuation, utf8.encode. intros Hb0 Hb1. tests_in Hb1.
  decide_tests; cbn [orb andb]; f_equal; [|f_equal]; divmod.
Qed.

Lemma encode_three (b0 b1 b2 : N) :
  (224 <= b0 <= 239)%N -> utf8.accepts b0 b1 = true ->
  utf8.continuation b2 = true ->
  utf8.encode ((b0 - 224) * 4096 + (b1 - 128) * 64 + (b2 - 128))
  = [b0; b1; b2].
Proof.
  unfold utf8.accepts, utf8.continuation, utf8.encode.
  intros Hb0 Hb1 Hb2. tests_in Hb2. tests_in Hb1;
  decide_tests; cbn [orb andb]; try lia;
    (f_equal; [|f_equal; [|f_equal]]); divmod.
Qed.

Lemma encode_four (b0 b1 b2 b3 : N) :
  (240 <= b0 <= 244)%N -> utf8.accepts b0 b1 = true ->
  utf8.continuation b2 = true -> utf8.continuation b3 = true ->
  utf8.encode ((b0 - 240) * 262144 + (b1 - 128) * 4096
               + (b2 - 128) * 64 + (b3 - 128))
  = [b0; b1; b2; b3].
Proof.
  unfold utf8.accepts, utf8.continuation, utf8.encode.
  intros Hb0 Hb1 Hb2 Hb3. tests_in Hb3. tests_in Hb2. tests_in Hb1;
  decide_tests; cbn [orb andb]; try lia;
    (f_equal; [|f_equal; [|f_equal; [|f_equal]]]); divmod.
Qed.

Lemma DecodeRuneInString_valid (c0 : ascii) (s : string) (char : N)
    (width : nat) :
  utf8.DecodeRuneInString (String c0 s) = (char, width) ->
  ((char =? utf8.RuneError)%N && (width =? 1)%nat) = false ->
  exists enc tail,
    s = enc +:+ tail
    /\ S (String.length enc) = width
    /\ utf8.string_of_rune char = String c0 enc
    /\ (char = 46%N -> c0 = "."%char)
    /\ forall t,
         utf8.DecodeRuneInString (String c0 (enc +:+ t)) = (char, width).
Proof.
  unfold utf8.DecodeRuneInString, utf8.string_of_rune.
  pose proof (ascii_N_embedding c0) as Hc0.
  set (b0 := N_of_ascii c0) in *.
  destruct (N.ltb_spec b0 128) as [Hlt|Hge].
  { intros [= <- <-] _. exists "", s. repeat split.
    - unfold utf8.encode. rewrite (proj2 (N.ltb_lt _ _) Hlt). cbn.
      rewrite Hc0. reflexivity.
    - intros E. rewrite E in Hc0. rewrite <- Hc0. reflexivity. }
  destruct ((194 <=? b0)%N && (b0 <=? 223)%N) eqn:Htwo.
  { assert (Hr : (194 <= b0 <= 223)%N) by (tests_in Htwo; lia).
    destruct s as [|c1 s]; [intros [= <- <-]; discriminate|].
    pose proof (ascii_N_embedding c1) as Hc1.
    set (b1 := N_of_ascii c1) in *.
    destruct (utf8.continuation b1) eqn:Hb1;
      [|intros [= <- <-]; discriminate].
    intros [= <- <-] _. exists (String c1 ""), s. repeat split.
    - rewrite encode_two by assumption.
      cbn. rewrite Hc0, Hc1. reflexivity.
    - intros E. exfalso. unfold utf8.continuation in Hb1.
      tests_in Hb1. lia.
    - intros t. cbv beta iota zeta delta [String.append]. fold b1.
      rewrite Hb1. reflexivity. }
  destruct ((224 <=? b0)%N && (b0 <=? 239)%N) eqn:Hthree.
  { assert (Hr : (224 <= b0 <= 239)%N) by (tests_in Hthree; lia).
    destruct s as [|c1 [|c2 s]]; try (intros [= <- <-]; discriminate).
    pose proof (ascii_N_embedding c1) as Hc1.
    pose proof (ascii_N_embedding c2) as Hc2.
    set (b1 := N_of_ascii c1) in *. set (b2 := N_of_ascii c2) in *.
    destruct (utf8.accepts b0 b1) eqn:Hb1;
      [|intros [= <- <-]; discriminate].
    destruct (utf8.continuation b2) eqn:Hb2;
      [|intros [= <- <-]; discriminate].
    intros [= <- <-] _. exists (String c1 (String c2 "")), s. repeat split.
    - rewrite encode_three by assumption.
      cbn. rewrite Hc0, Hc1, Hc2. reflexivity.
    - intros E. exfalso. unfold utf8.accepts, utf8.continuation in Hb1.
      tests_in Hb1; lia.
    - intros t. cbv beta iota zeta delta [String.append]. fold b1 b2.
      rewrite Hb1, Hb2. reflexivity. }
  destruct ((240 <=? b0)%N && (b0 <=? 244)%N) eqn:Hfour.
  { assert (Hr : (240 <= b0 <= 244)%N) by (tests_in Hfour; lia).
    destruct s as [|c1 [|c2 [|c3 s]]]; try (intros [= <- <-]; discriminate).
    pose proof (ascii_N_embedding c1) as Hc1.
    pose proof (ascii_N_embedding c2) as Hc2.
    pose proof (ascii_N_embedding c3) as Hc3.
    set (b1 := N_of_ascii c1) in *. set (b2 := N_of_ascii c2) in *.
    set (b3 := N_of_ascii c3) in *.
    destruct (utf8.accepts b0 b1) eqn:Hb1;
      [|intros [= <- <-]; discriminate].
    destruct (utf8.continuation b2) eqn:Hb2;
      [|intros [= <- <-]; discriminate].
    destruct (utf8.continuation b3) eqn:Hb3;
      [|intros [= <- <-]; discriminate].
    intros [= <- <-] _.
    exists (String c1 (String c2 (String c3 ""))), s. repeat split.
    - rewrite encode_four by assumption.
      cbn. rewrite Hc0, Hc1, Hc2, Hc3. reflexivity.
    - intros E. exfalso. unfold utf8.accepts, utf8.continuation in Hb1.
      tests_in Hb1; lia.
    - intros t. cbv beta iota zeta delta [String.append]. fold b1 b2 b3.
      rewrite Hb1, Hb2, Hb3. reflexivity. }
  intros [= <- <-]; discriminate.
Qed.

Lemma append_empty_r (s : string) : s +:+ "" = s.
Proof.
  induction s as [|x s IH]; [reflexivity|].
  change (String x (s +:+ "") = String x s). rewrite IH. reflexivity.
Qed.

Lemma length_tail (a b : string) :
  (String.length b <= String.length (a +:+ b))%nat.
Proof.
  induction a as [|c a IH]; [reflexivity|].
  change (String c a +:+ b) with (String c (a +:+ b)).
  cbn [String.length]. lia.
Qed.

Lemma range_from_skip (a b : string) :
  utf8.range_from (String.length a) (a +:+ b) = utf8.range_from 0 b.
Proof.
  induction a as [|c a IH]; [reflexivity|].
  change (String c a +:+ b) with (String c (a +:+ b)). exact IH.
Qed.

Lemma valid_from_skip (a b : string) :
  utf8.valid_from (String.length a) (a +:+ b) = utf8.valid_from 0 b.
Proof.
  induction a as [|c a IH]; [reflexivity|].
  change (String c a +:+ b) with (String c (a +:+ b)). exact IH.
Qed.

Lemma dotFree_app (a b : string) :
  dotFree (a +:+ b) = dotFree a && dotFree b.
Proof.
  induction a as [|c a IH]; [reflexivity|].
  change (String c a +:+ b) with (String c (a +:+ b)).
  cbn [dotFree]. rewrite IH, andb_assoc. reflexivity.
Qed.

(** a name of valid UTF-8 without a dot goes through the loop as it is *)
Lemma splitFieldPath_loop_name (n : nat) :
  forall (name rest : string) (parts : list string) (current : string),
    (String.length name <= n)%nat ->
    dotFree name = true -> utf8.ValidString name = true ->
    splitFieldPath_loop (utf8.range (name +:+ rest)) parts current
    = splitFieldPath_loop (utf8.range rest) parts (current +:+ name).
Proof.
  induction n as [|n IH]; intros name rest parts current Hlen Hfree Hvalid.
  - destruct name; [|cbn in Hlen; lia].
    rewrite append_empty_r. reflexivity.
  - destruct name as [|c0 s]; [rewrite append_empty_r; reflexivity|].
    unfold utf8.ValidString in Hvalid. cbn [utf8.valid_from] in Hvalid.
    destruct (utf8.DecodeRuneInString (String c0 s)) as [char width]
      eqn:Hdecode.
    apply andb_true_iff in Hvalid as [Hrune Hvalid].
    apply negb_true_iff in Hrune.
    destruct (DecodeRuneInString_valid c0 s char width Hdecode Hrune)
      as (enc & tail & -> & <- & Hstring & Hdot & Hsame).
    cbn [Nat.sub] in Hvalid. rewrite Nat.sub_0_r in Hvalid.
    rewrite valid_from_skip in Hvalid.
    cbn [dotFree] in Hfree. apply andb_true_iff in Hfree as [Hc0 Hfree].
    rewrite dotFree_app in Hfree. apply andb_true_iff in Hfree as [_ Hfree].
    change (String c0 (enc +:+ tail) +:+ rest)
      with (String c0 ((enc +:+ tail) +:+ rest)).
    rewrite append_assoc_string.
    unfold utf8.range. cbn [utf8.range_from].
    rewrite (Hsame (tail +:+ rest)).
    cbn [Nat.sub]. rewrite Nat.sub_0_r, range_from_skip.
    cbn [splitFieldPath_loop].
    assert (Hchar : (char =? 46)%N = false).
    { apply N.eqb_neq. intros E. apply Hdot in E. subst c0.
      discriminate Hc0. }
    rewrite Hchar, Hstring.
    fold (utf8.range (tail +:+ rest)).
    rewrite IH; [|cbn [String.length] in Hlen;
                  pose proof (length_tail enc tail); lia
                 |exact Hfree|exact Hvalid].
    f_equal. rewrite append_assoc_string. reflexivity.
Qed.

Lemma splitFieldPath_loop_dot (rest : string) (parts : list string)
    (current : string) :
  current <> "" ->
  splitFieldPath_loop (utf8.range (String "." rest)) parts current
  = splitFieldPath_loop (utf8.range rest) (parts ++ [current]) "".
Proof.
  intros Hne. unfold utf8.range. cbn [utf8.range_from].
  change (utf8.DecodeRuneInString (String "." rest)) with (46%N, 1%nat).
  cbn [Nat.sub splitFieldPath_loop N.eqb Pos.eqb].
  rewrite (bool_decide_eq_false_2 _ Hne). reflexivity.
Qed.

Lemma splitFieldPath_loop_concat (names : list string) :
  Forall (fun name => name <> "" /\ dotFree name = true
                      /\ utf8.ValidString name = true) names ->
  forall parts,
    splitFieldPath_loop (utf8.range (String.concat "." names)) parts ""
    = parts ++ names.
Proof.
  induction 1 as [|name names (Hne & Hfree & Hvalid) Hall IH]; intros parts.
  - simpl. rewrite app_nil_r. reflexivity.
  - destruct names as [|name' names].
    + simpl String.concat.
      rewrite <- (append_empty_r name) at 1.
      rewrite (splitFieldPath_loop_name (String.length name))
        by (try exact Hfree; try exact Hvalid; lia).
      simpl. change ("" +:+ name) with name.
      rewrite bool_decide_eq_false_2 by exact Hne. reflexivity.
    + change (String.concat "." (name :: name' :: names))
        with (name +:+ "." +:+ String.concat "." (name' :: names)).
      rewrite (splitFieldPath_loop_name (String.length name))
        by (try exact Hfree; try exact Hvalid; lia).
      change ("" +:+ name) with name.
      change ("." +:+ String.concat "." (name' :: names))
        with (String "." (String.concat "." (name' :: names))).
      rewrite splitFieldPath_loop_dot by exact Hne.
      rewrite IH, <- app_assoc. reflexivity.
Qed.

(** X12.  [splitFieldPath] undoes the joining of names with dots: the path
    made of names that are not empty, are valid UTF-8 and contain no dot
    splits into these names.  The loop ranges over the runes of the path
    and appends each rune in its encoding, which gives back the bytes of
    a valid name; a byte that is not valid UTF-8 would come out as the
    encoding of U+FFFD. *)
Theorem splitFieldPath_of_joined_names (names : list string) :
  Forall (fun name => name <> "" /\ dotFree name = true
                      /\ utf8.ValidString name = true) names ->
  splitFieldPath (String.concat "." names) = names.
Proof. intros Hall. apply (splitFieldPath_loop_concat names Hall []). Qed.

End FieldPaths.

(** ** The validation report: the map of the bindings *)

Section TagMap.

Context `{GoLib}.

Lemma isBinding_fields (T : reflect.Type_) (fp : fieldParser) :
  isBinding T fp ->
  exists fields i field name methods nested j nestedField,
    reflect.Fields T = Some fields
    /\ fields !! i = Some field
    /\ reflect.Typ field = reflect.StructOf name methods nested
    /\ nested !! j = Some nestedField
    /\ fieldIndex fp = i /\ nestedFieldIndex fp = j /\ isNested fp = true
    /\ sourceName fp = jsonTagOrName nestedField
    /\ ((reflect.Name field = "Route" /\ sourceType fp = "route")
        \/ (reflect.Name field = "Header" /\ sourceType fp = "header")
        \/ (reflect.Name field = "Query" /\ sourceType fp = "query")
        \/ (reflect.Name field = "Form" /\ sourceType fp = "form")).
Proof.
  intros (fields & i & field & name & methods & nested & j & nf
          & HT & Hi & _ & Hty & Hj & _ & Hcase).
  exists fields, i, field, name, methods, nested, j, nf.
  destruct Hcase as [[Hn ->]|[[Hn ->]|[[Hn ->]|[Hn ->]]]]; auto 15.
Qed.

Lemma structPath_binding (T : reflect.Type_) (fp : fieldParser) :
  isBinding T fp ->
  exists fields i field name methods nested j nestedField,
    reflect.Fields T = Some fields
    /\ fields !! i = Some field
    /\ reflect.Typ field = reflect.StructOf name methods nested
    /\ nested !! j = Some nestedField
    /\ structPath T fp
       = reflect.Name field +:+ "." +:+ reflect.Name nestedField.
Proof.
  intros Hfp. destruct (isBinding_fields T fp Hfp)
    as (fields & i & field & name & methods & nested & j & nf
        & HT & Hi & Hty & Hj & Hfi & Hnj & _).
  exists fields, i, field, name, methods, nested, j, nf.
  repeat (split; [assumption|]).
  unfold structPath. rewrite Hfi, Hnj.
  rewrite (FieldAt_lookup T fields i field HT Hi).
  rewrite (FieldAt_lookup (reflect.Typ field) nested j nf);
    [reflexivity|rewrite Hty; reflexivity|exact Hj].
Qed.

Lemma fieldTagMap_loop_step (T : reflect.Type_) (fp : fieldParser)
    (fps : list fieldParser) (m : gmap string (string * string)) :
  isBinding T fp ->
  fieldTagMap_loop T (fp :: fps) m
  = fieldTagMap_loop T fps
      (<[structPath T fp := (sourceName fp, sourceType fp)]> m).
Proof.
  intros Hfp. destruct (isBinding_fields T fp Hfp)
    as (fields & i & field & name & methods & nested & j & nf
        & HT & Hi & Hty & Hj & Hfi & Hnj & Hnested & _).
  simpl. unfold structPath. rewrite Hfi, Hnj, Hnested.
  rewrite (FieldAt_lookup T fields i field HT Hi).
  rewrite (FieldAt_lookup (reflect.Typ field) nested j nf);
    [reflexivity|rewrite Hty; reflexivity|exact Hj].
Qed.

(** the map from paths to origins, when bindings with the same path have
    the same origin *)
Lemma fieldTagMap_loop_lookup (T : reflect.Type_) (fps : list fieldParser) :
  Forall (isBinding T) fps ->
  (forall fp fp', fp ∈ fps -> fp' ∈ fps ->
     structPath T fp = structPath T fp' ->
     (sourceName fp, sourceType fp) = (sourceName fp', sourceType fp')) ->
  forall m, exists m',
    fieldTagMap_loop T fps m = Ok m'
    /\ (forall fp, fp ∈ fps ->
          m' !! structPath T fp = Some (sourceName fp, sourceType fp))
    /\ (forall path, (forall fp, fp ∈ fps -> structPath T fp <> path) ->
          m' !! path = m !! path).
Proof.
  induction 1 as [|fp fps Hfp Hall IH]; intros Hsame m.
  - exists m. split; [reflexivity|]. split; [|reflexivity].
    intros fp Hin. inversion Hin.
  - rewrite (fieldTagMap_loop_step T fp fps m Hfp).
    destruct (IH (fun a b Ha Hb => Hsame a b (list_elem_of_further _ _ _ Ha)
                                     (list_elem_of_further _ _ _ Hb))
                 (<[structPath T fp := (sourceName fp, sourceType fp)]> m))
      as (m' & -> & Hin & Hout).
    exists m'. split; [reflexivity|]. split.
    + intros fp' Hfp'. apply elem_of_cons in Hfp' as [->|Hfp'];
        [|apply Hin, Hfp'].
      destruct (decide (Exists (fun a => structPath T a = structPath T fp)
                          fps)) as [Hex|Hno].
      * apply Exists_exists in Hex as (a & Ha & Hpath).
        rewrite <- Hpath, (Hin a Ha). f_equal.
        apply Hsame; [right; exact Ha|left|exact Hpath].
      * rewrite Hout, lookup_insert_eq; [reflexivity|].
        intros a Ha Hpath. apply Hno, Exists_exists. eauto.
    + intros path Hpath. rewrite Hout.
      * rewrite lookup_insert_ne; [reflexivity|]. apply Hpath. left.
      * intros a Ha. apply Hpath. right. exact Ha.
Qed.

End TagMap.

(** ** The validation report: grouping *)

Section ReportGrouping.

Context `{GoLib}.

Lemma groupErrors_lookup (cls : FieldError -> string * string)
    (l : list FieldError) :
  forall (m : gmap (string * string) (list string)) (key : string * string),
    groupErrors cls l m !! key
    = match filter (fun e => cls e = key) l with
      | [] => m !! key
      | es => Some (default [] (m !! key) ++ (message <$> es))
      end.
Proof.
  induction l as [|e l IH]; intros m key; [reflexivity|].
  change (groupErrors cls (e :: l) m)
    with (groupErrors cls l
            (<[cls e := default [] (m !! cls e) ++ [message e]]> m)).
  rewrite IH. rewrite filter_cons.
  destruct (decide (cls e = key)) as [<-|Hne].
  - rewrite lookup_insert_eq. simpl.
    destruct (filter _ l) as [|e' es]; simpl.
    + reflexivity.
    + rewrite <- app_assoc. reflexivity.
  - rewrite lookup_insert_ne by exact Hne. reflexivity.
Qed.

Lemma formatValidationError_groups (l : list FieldError)
    (parser : requestParser) (ves : list ValidationError) :
  formatValidationError (ValidationErrors l) parser = Ok (Some ves) ->
  exists cls,
    (forall e, origin parser e = Some (cls e))
    /\ ves = toValidationError <$> map_to_list (groupErrors cls l ∅).
Proof.
  unfold origin, formatValidationError.
  destruct (fieldTagMap_loop _ _ _) as [m| |]; try discriminate.
  destruct (hasBodyField parser).
  - destruct (FieldAt _ _) as [body| |]; try discriminate.
    intros [= <-].
    exists (classify parser (Some (reflect.Name body))
              (<[reflect.Name body := (reflect.Name body, "body")]> m)).
    split; [|reflexivity].
    intros e. cbn [fold_left]. rewrite insert_empty, map_to_list_singleton.
    destruct (classify _ _ _ e) as [name source]. reflexivity.
  - intros [= <-]. exists (classify parser None m).
    split; [|reflexivity].
    intros e. cbn [fold_left]. rewrite insert_empty, map_to_list_singleton.
    destruct (classify _ _ _ e) as [name source]. reflexivity.
Qed.

(** X13.  [formatValidationError] reports every origin once, with the
    messages of the violations of that origin in the order of the
    violations; no entry is empty and no violation is lost. *)
Theorem violations_are_grouped_by_origin (l : list FieldError)
    (parser : requestParser) (ves : list ValidationError) :
  formatValidationError (ValidationErrors l) parser = Ok (Some ves) ->
  NoDup ((fun ve => (Field ve, SourceType ve)) <$> ves)
  /\ (forall ve, ve ∈ ves ->
        Errors ve
        = message
            <$> filter (fun e => origin parser e
                                 = Some (Field ve, SourceType ve)) l
        /\ Errors ve <> [])
  /\ (forall e, e ∈ l ->
        exists ve, ve ∈ ves
                   /\ origin parser e = Some (Field ve, SourceType ve)).
Proof.
  intros Hfmt.
  destruct (formatValidationError_groups l parser ves Hfmt)
    as (cls & Horigin & ->).
  assert (Hfilter : forall key,
             filter (fun e => origin parser e = Some key) l
             = filter (fun e => cls e = key) l).
  { intros key. apply list_filter_iff. intros e. rewrite Horigin.
    split; [intros [= ->]; reflexivity|intros ->; reflexivity]. }
  split; [|split].
  - rewrite <- list_fmap_compose.
    assert (Hfst : forall l' : list (string * string * list string),
               ((fun ve => (Field ve, SourceType ve)) ∘ toValidationError)
                 <$> l' = l'.*1).
    { induction l' as [|[[name source] errors] l' IH'];
        [reflexivity|]. cbn. f_equal. exact IH'. }
    rewrite Hfst. apply NoDup_fst_map_to_list.
  - intros ve Hve. apply list_elem_of_fmap in Hve as ([key errors] & -> & Hkv).
    apply elem_of_map_to_list in Hkv. rewrite groupErrors_lookup in Hkv.
    cbn [toValidationError Field SourceType Errors fst snd].
    rewrite <- surjective_pairing, Hfilter.
    destruct (filter _ l) as [|e es] eqn:Hes.
    + rewrite lookup_empty in Hkv. discriminate.
    + rewrite lookup_empty in Hkv. injection Hkv as <-.
      split; [reflexivity|discriminate].
  - intros e He.
    pose proof (groupErrors_lookup cls l ∅ (cls e)) as Hlookup.
    destruct (filter _ l) as [|e' es] eqn:Hes.
    + exfalso. assert (Hin : e ∈ filter (fun e0 => cls e0 = cls e) l)
        by (apply list_elem_of_filter; auto).
      rewrite Hes in Hin. inversion Hin.
    + rewrite lookup_empty in Hlookup.
      exists (toValidationError (cls e, [] ++ (message <$> e' :: es))).
      split.
      * apply list_elem_of_fmap. eexists. split; [reflexivity|].
        apply elem_of_map_to_list. exact Hlookup.
      * rewrite Horigin. cbn [toValidationError Field SourceType fst snd].
        rewrite <- surjective_pairing. reflexivity.
Qed.

(** the entry of the report that carries the message of a violation *)
Lemma formatValidationError_entry (l : list FieldError)
    (parser : requestParser) (ves : list ValidationError) (e : FieldError) :
  formatValidationError (ValidationErrors l) parser = Ok (Some ves) ->
  e ∈ l ->
  exists ve, ve ∈ ves
             /\ origin parser e = Some (Field ve, SourceType ve)
             /\ message e ∈ Errors ve.
Proof.
  intros Hfmt He.
  destruct (formatValidationError_groups l parser ves Hfmt)
    as (cls & Horigin & ->).
  pose proof (groupErrors_lookup cls l ∅ (cls e)) as Hlookup.
  assert (Hin : e ∈ filter (fun e0 => cls e0 = cls e) l)
    by (apply list_elem_of_filter; auto).
  destruct (filter _ l) as [|e' es] eqn:Hes; [inversion Hin|].
  rewrite lookup_empty in Hlookup.
  exists (toValidationError (cls e, [] ++ (message <$> e' :: es))).
  split; [|split].
  - apply list_elem_of_fmap. eexists. split; [reflexivity|].
    apply elem_of_map_to_list. exact Hlookup.
  - rewrite Horigin. cbn [toValidationError Field SourceType fst snd].
    rewrite <- surjective_pairing. reflexivity.
  - cbn [toValidationError Errors snd app].
    apply list_elem_of_fmap. exists e. split; [reflexivity|exact Hin].
Qed.

Lemma formatValidationError_some (l : list FieldError)
    (parser : requestParser) (res : option (list ValidationError)) :
  formatValidationError (ValidationErrors l) parser = Ok res ->
  exists ves, res = Some ves.
Proof.
  unfold formatValidationError.
  destruct (fieldTagMap_loop _ _ _) as [m| |]; try discriminate.
  destruct (hasBodyField parser).
  - destruct (FieldAt _ _) as [body| |]; try discriminate.
    intros [= <-]. eauto.
  - intros [= <-]. eauto.
Qed.

End ReportGrouping.

(** ** The validation report: origins *)

Section ReportOrigin.

Context `{GoLib}.

Lemma dotFree_no_dot (s a b : string) :
  dotFree s = true -> s <> a +:+ "." +:+ b.
Proof.
  revert s. induction a as [|c a IH]; intros [|c' s] Hs Heq;
    try discriminate.
  - injection Heq as -> _. discriminate.
  - injection Heq as -> ->. simpl in Hs.
    apply andb_prop in Hs as [_ Hs]. exact (IH _ Hs eq_refl).
Qed.

Lemma same_path_same_origin (T : reflect.Type_) (fp fp' : fieldParser) :
  distinctNames T = true ->
  isBinding T fp -> isBinding T fp' ->
  structPath T fp = structPath T fp' ->
  (sourceName fp, sourceType fp) = (sourceName fp', sourceType fp').
Proof.
  intros Hdistinct Hfp Hfp' Hpath.
  destruct (structPath_binding T fp Hfp)
    as (fields & i & field & name & methods & nested & j & nf
        & HT & Hi & Hty & Hj & Hp).
  destruct (structPath_binding T fp' Hfp')
    as (fields' & i' & field' & name' & methods' & nested' & j' & nf'
        & HT' & Hi' & Hty' & Hj' & Hp').
  rewrite HT in HT'. injection HT' as <-.
  destruct (isBinding_fields T fp Hfp)
    as (fields0 & i0 & field0 & name0 & methods0 & nested0 & j0 & nf0
        & HT0 & Hi0 & Hty0 & Hj0 & Hfi & Hnj & _ & Hname & Hsource).
  rewrite HT in HT0. injection HT0 as <-.
  destruct (isBinding_fields T fp' Hfp')
    as (fields1 & i1 & field1 & name1 & methods1 & nested1 & j1 & nf1
        & HT1 & Hi1 & Hty1 & Hj1 & Hfi' & Hnj' & _ & Hname' & Hsource').
  rewrite HT in HT1. injection HT1 as <-.
  unfold structPath in Hp, Hp'. rewrite Hfi, Hnj in Hp.
  rewrite Hfi', Hnj' in Hp'.
  rewrite (FieldAt_lookup T fields i0 field0 HT Hi0) in Hp.
  rewrite (FieldAt_lookup (reflect.Typ field0) nested0 j0 nf0) in Hp;
    [|rewrite Hty0; reflexivity|exact Hj0].
  rewrite (FieldAt_lookup T fields i1 field1 HT Hi1) in Hp'.
  rewrite (FieldAt_lookup (reflect.Typ field1) nested1 j1 nf1) in Hp';
    [|rewrite Hty1; reflexivity|exact Hj1].
  clear i field name methods nested j nf Hi Hty Hj Hp
        i' field' name' methods' nested' j' nf' Hi' Hty' Hj' Hp'.
  unfold structPath in Hpath. rewrite Hfi, Hnj, Hfi', Hnj' in Hpath.
  rewrite (FieldAt_lookup T fields i0 field0 HT Hi0) in Hpath.
  rewrite (FieldAt_lookup (reflect.Typ field0) nested0 j0 nf0) in Hpath;
    [|rewrite Hty0; reflexivity|exact Hj0].
  rewrite (FieldAt_lookup T fields i1 field1 HT Hi1) in Hpath.
  rewrite (FieldAt_lookup (reflect.Typ field1) nested1 j1 nf1) in Hpath;
    [|rewrite Hty1; reflexivity|exact Hj1].
  unfold distinctNames in Hdistinct. rewrite HT in Hdistinct.
  apply andb_prop in Hdistinct as [Hfields Hnested].
  apply bool_decide_eq_true_1 in Hfields.
  assert (Hgroup : reflect.Name field0 = reflect.Name field1
                   /\ reflect.Name nf0 = reflect.Name nf1).
  { destruct Hsource as [[Hn _]|[[Hn _]|[[Hn _]|[Hn _]]]];
      destruct Hsource' as [[Hn' _]|[[Hn' _]|[[Hn' _]|[Hn' _]]]];
      rewrite Hn, Hn' in Hpath |- *;
      cbv beta iota delta [String.append] in Hpath;
      try discriminate Hpath;
      (split; [reflexivity|congruence]). }
  destruct Hgroup as [Hgroup Hleaf].
  assert (i0 = i1) as <-.
  { apply (NoDup_lookup _ i0 i1 (reflect.Name field0) Hfields);
      rewrite list_lookup_fmap; [rewrite Hi0|rewrite Hi1, Hgroup];
      reflexivity. }
  rewrite Hi0 in Hi1. injection Hi1 as <-.
  rewrite Hty0 in Hty1. injection Hty1 as <- <- <-.
  rewrite forallb_forall in Hnested.
  assert (Hin : In field0 fields).
  { apply list_elem_of_In, list_elem_of_lookup. eauto. }
  specialize (Hnested field0 Hin). rewrite Hty0 in Hnested.
  cbn [reflect.Fields] in Hnested.
  apply bool_decide_eq_true_1 in Hnested.
  assert (j0 = j1) as <-.
  { apply (NoDup_lookup _ j0 j1 (reflect.Name nf0) Hnested);
      rewrite list_lookup_fmap; [rewrite Hj0|rewrite Hj1, Hleaf];
      reflexivity. }
  rewrite Hj0 in Hj1. injection Hj1 as <-.
  rewrite Hname, Hname'. f_equal.
  destruct Hsource as [[Hn ->]|[[Hn ->]|[[Hn ->]|[Hn ->]]]];
    destruct Hsource' as [[Hn' ->]|[[Hn' ->]|[[Hn' ->]|[Hn' ->]]]];
    try reflexivity; rewrite Hn in Hn'; discriminate Hn'.
Qed.

Lemma origin_classify (T : reflect.Type_) (parser : requestParser)
    (e : FieldError) :
  buildRequestParser T = Some parser ->
  exists m,
    fieldTagMap_loop T (fieldParsers parser) ∅ = Ok m
    /\ origin parser e
       = Some (if hasBodyField parser
               then classify parser (Some "Body")
                      (<["Body" := ("Body", "body")]> m) e
               else classify parser None m e).
Proof.
  intros Hplan.
  destruct (buildRequestParser_fieldParsers T parser Hplan)
    as (fields & HT & _ & Hreq).
  destruct (buildRequestParser_body T parser Hplan)
    as (fields' & HT' & _ & Hbody).
  rewrite HT in HT'. injection HT' as <-.
  assert (Hall : Forall (isBinding T) (fieldParsers parser)).
  { apply Forall_forall. intros fp Hfp.
    exact (buildRequestParser_elem T parser fp Hplan Hfp). }
  destruct (fieldTagMap_loop_ok T (fieldParsers parser) Hall ∅) as (m & Hm).
  exists m. split; [exact Hm|].
  unfold origin, formatValidationError. rewrite Hreq, Hm.
  destruct (hasBodyField parser).
  - destruct (Hbody eq_refl) as (f & Hf & Hgroup).
    rewrite (FieldAt_lookup T fields _ f HT Hf).
    assert (Hname : reflect.Name f = "Body").
    { unfold isBodyGroup in Hgroup.
      repeat (apply andb_prop in Hgroup as [Hgroup ?]).
      eapply bool_decide_eq_true_1. eassumption. }
    rewrite Hname. cbn [fold_left].
    rewrite insert_empty, map_to_list_singleton.
    destruct (classify _ _ _ e) as [name source]. reflexivity.
  - cbn [fold_left]. rewrite insert_empty, map_to_list_singleton.
    destruct (classify _ _ _ e) as [name source]. reflexivity.
Qed.

(** a violation on a field that the plan binds is reported under the
    name and the source of the binding *)
Lemma origin_of_binding (T : reflect.Type_) (parser : requestParser)
    (e : FieldError) (root group name : string) (more : list string)
    (fp : fieldParser) :
  buildRequestParser T = Some parser ->
  distinctNames T = true ->
  splitFieldPath (fe_StructNamespace e) = root :: group :: name :: more ->
  fp ∈ fieldParsers parser ->
  structPath T fp = group +:+ "." +:+ name ->
  origin parser e = Some (sourceName fp, sourceType fp).
Proof.
  intros Hplan Hdistinct Hsplit Hfp Hpath.
  destruct (origin_classify T parser e Hplan) as (m & Hm & ->).
  assert (Hall : Forall (isBinding T) (fieldParsers parser)).
  { apply Forall_forall. intros fp0 Hfp0.
    exact (buildRequestParser_elem T parser fp0 Hplan Hfp0). }
  destruct (fieldTagMap_loop_lookup T (fieldParsers parser) Hall) with (m := ∅ : gmap string (string * string))
    as (m' & Hm' & Hin & Hout).
  { intros fp0 fp' Hfp0 Hfp'. apply same_path_same_origin; try assumption.
    - exact (buildRequestParser_elem T parser fp0 Hplan Hfp0).
    - exact (buildRequestParser_elem T parser fp' Hplan Hfp'). }
  rewrite Hm in Hm'. injection Hm' as <-.
  assert (Hbody : "Body" <> group +:+ "." +:+ name)
    by (apply dotFree_no_dot; reflexivity).
  unfold classify. rewrite Hsplit.
  assert (Hgroup : group <> "Body").
  { intros ->.
    destruct (isBinding_fields T fp (buildRequestParser_elem T parser fp Hplan Hfp))
      as (fields0 & i0 & field0 & name0 & methods0 & nested0 & j0 & nf0
          & HT0 & Hi0 & Hty0 & Hj0 & Hfi & Hnj & _ & _ & Hsource).
    unfold structPath in Hpath. rewrite Hfi, Hnj in Hpath.
    rewrite (FieldAt_lookup T fields0 i0 field0 HT0 Hi0) in Hpath.
    rewrite (FieldAt_lookup (reflect.Typ field0) nested0 j0 nf0) in Hpath;
      [|rewrite Hty0; reflexivity|exact Hj0].
    destruct Hsource as [[Hn _]|[[Hn _]|[[Hn _]|[Hn _]]]];
      rewrite Hn in Hpath;
      cbv beta iota delta [String.append] in Hpath;
      discriminate Hpath. }
  rewrite <- Hpath in *.
  destruct (hasBodyField parser).
  - rewrite bool_decide_eq_false_2 by exact Hgroup.
    rewrite lookup_insert_ne by exact Hbody.
    rewrite (Hin fp Hfp). reflexivity.
  - rewrite (Hin fp Hfp). reflexivity.
Qed.

(** X14.  Where a violation is reported.  The validator names the field by
    its path below the request type.  A violation on a field that the plan
    binds is reported under the name and the source of the binding; one
    below the body group under the validator's field name and the source
    body; any other under the validator's field name and no source. *)
Theorem violation_is_reported_at_its_binding (T : reflect.Type_)
    (parser : requestParser) (e : FieldError)
    (root group name : string) (more : list string) :
  buildRequestParser T = Some parser ->
  distinctNames T = true ->
  splitFieldPath (fe_StructNamespace e) = root :: group :: name :: more ->
  (forall fp, fp ∈ fieldParsers parser ->
     structPath T fp = group +:+ "." +:+ name ->
     origin parser e = Some (sourceName fp, sourceType fp))
  /\ (hasBodyField parser = true -> group = "Body" ->
      origin parser e = Some (fe_Field e, "body"))
  /\ ((forall fp, fp ∈ fieldParsers parser ->
         structPath T fp <> group +:+ "." +:+ name) ->
      ~ (hasBodyField parser = true /\ group = "Body") ->
      origin parser e = Some (fe_Field e, "")).
Proof.
  intros Hplan Hdistinct Hsplit.
  split; [intros fp Hfp Hpath;
          exact (origin_of_binding T parser e root group name more fp Hplan
                   Hdistinct Hsplit Hfp Hpath)|].
  destruct (origin_classify T parser e Hplan) as (m & Hm & ->).
  assert (Hall : Forall (isBinding T) (fieldParsers parser)).
  { apply Forall_forall. intros fp Hfp.
    exact (buildRequestParser_elem T parser fp Hplan Hfp). }
  destruct (fieldTagMap_loop_lookup T (fieldParsers parser) Hall) with (m := ∅ : gmap string (string * string))
    as (m' & Hm' & Hin & Hout).
  { intros fp fp' Hfp Hfp'. apply same_path_same_origin; try assumption.
    - exact (buildRequestParser_elem T parser fp Hplan Hfp).
    - exact (buildRequestParser_elem T parser fp' Hplan Hfp'). }
  rewrite Hm in Hm'. injection Hm' as <-.
  assert (Hbody : "Body" <> group +:+ "." +:+ name)
    by (apply dotFree_no_dot; reflexivity).
  unfold classify. rewrite Hsplit.
  split.
  - intros -> ->. rewrite bool_decide_eq_true_2 by reflexivity. reflexivity.
  - intros Hno Hnot.
    assert (Hnone : m !! (group +:+ "." +:+ name) = None).
    { rewrite Hout; [apply lookup_empty|exact Hno]. }
    destruct (hasBodyField parser).
    + rewrite bool_decide_eq_false_2 by (intros ->; apply Hnot; auto).
      rewrite lookup_insert_ne by exact Hbody.
      rewrite Hnone. reflexivity.
    + rewrite Hnone. reflexivity.
Qed.

End ReportOrigin.

(** ** The executor and the report: a file part that is absent *)

Section MissingFile.

Context `{GoLib}.

Lemma plan_binding_of_address (T : reflect.Type_) (parser : requestParser)
    (fp fp' : fieldParser) :
  buildRequestParser T = Some parser ->
  fp ∈ fieldParsers parser -> fp' ∈ fieldParsers parser ->
  fieldAddr fp' = fieldAddr fp -> fp' = fp.
Proof.
  intros Hplan Hfp Hfp' Haddr.
  pose proof (buildRequestParser_NoDup T parser Hplan) as Hnd.
  apply list_elem_of_lookup in Hfp as [k Hk].
  apply list_elem_of_lookup in Hfp' as [k' Hk'].
  assert (k' = k) as ->.
  { apply (NoDup_lookup _ k' k (fieldAddr fp) Hnd);
      rewrite list_lookup_fmap; [rewrite Hk'|rewrite Hk]; cbn;
      [rewrite Haddr|]; reflexivity. }
  congruence.
Qed.

Lemma bindBody_frame (r : Request) (parser : requestParser)
    (v v' : ReqValue) (i j : nat) :
  bindBody r parser v = Ok v' ->
  Field_ v' (i, Some j) = Field_ v (i, Some j).
Proof.
  unfold bindBody, Field_. destruct (hasBodyField parser); [|congruence].
  destruct (FieldAt _ _) as [bodyField| |]; try discriminate.
  destruct (parseBody _ _) as [x| |]; try discriminate.
  intros [= <-]. unfold ReqValue in *.
  rewrite lookup_insert_ne by discriminate. reflexivity.
Qed.

(** C5, amended.  A file binding of a compiled plan whose named part is
    absent from the request.  When the multipart form of the request
    parses, the executor reports no binding error for the binding and
    leaves the field empty; once the other bindings and the body are
    bound the validator runs, and with a validator that reports the
    [required] violation of the field whenever the field is empty, the
    outcome is the validation failure, answered with status 400 and a
    report whose entry for the name of the binding, with the source
    "form", carries "failed validation: required"; no binding error
    comes with it.  When the form does not parse, as on a request that is
    not multipart, the part is absent all the same, but the executor
    reports the binding error "form '<name>': failed to parse multipart
    form: <cause>" with status 400 and the validator is not run.  So a
    binding error and a validation error never both fire. *)
Theorem missing_file_part_is_left_to_validation
    (validator_Struct : ReqValue -> ValidatorResult) (Resp : reflect.Type_)
    (h : ReqValue -> RespValue * option error) (T : reflect.Type_)
    (parser : requestParser) (r : Request) (j i : nat)
    (nestedField : reflect.StructField) (e : FieldError)
    (root group name : string) (more : list string) (w : Trace) :
  buildRequestParser T = Some parser ->
  distinctNames T = true ->
  let fp := formFieldParser j i nestedField in
  fp ∈ fieldParsers parser ->
  isFileField fp = true ->
  MultipartForm_File r (sourceName fp) = [] ->
  fe_Tag e = "required" ->
  splitFieldPath (fe_StructNamespace e) = root :: group :: name :: more ->
  structPath T fp = group +:+ "." +:+ name ->
  (forall v, Field_ v (fieldAddr fp) = VZero ->
     exists l, validator_Struct v = ValidationErrors l /\ e ∈ l) ->
  (ParseMultipartForm r = None ->
   (forall reqValue, bindField r fp reqValue = Ok reqValue)
   /\ forall reqValue reqValue',
        bindFields r (fieldParsers parser) ∅ = Ok reqValue ->
        bindBody r parser reqValue = Ok reqValue' ->
        Field_ reqValue' (fieldAddr fp) = VZero
        /\ exists ves ve,
             parseWithPlan validator_Struct r ∅ parser w
             = (Err (validationErrorWrapper ves),
                w ++ [ValidatorStruct reqValue'])
             /\ createTypeSafeHandler validator_Struct Resp h parser r w
                = (Ok tt,
                   (w ++ [ValidatorStruct reqValue'])
                     ++ [HeaderSet "Content-Type" "application/json";
                         WriteHeader 400;
                         Encode (ValidationErrorResponse "validation failed"
                                   ves)])
             /\ ve ∈ ves
             /\ Field ve = sourceName fp
             /\ SourceType ve = "form"
             /\ "failed validation: required" ∈ Errors ve)
  /\ (forall err pre post reqValue,
        ParseMultipartForm r = Some err ->
        fieldParsers parser = pre ++ fp :: post ->
        bindFields r pre ∅ = Ok reqValue ->
        let message :=
          "form '" +:+ sourceName fp
          +:+ "': failed to parse multipart form: " +:+ Error err in
        bindField r fp reqValue
        = Err (wrapError (sourcePrefix "form" (sourceName fp))
                 (wrapError "failed to parse multipart form: " err))
        /\ createTypeSafeHandler validator_Struct Resp h parser r w
           = (Ok tt, w ++ [HeaderSet "Content-Type" "application/json";
                           WriteHeader 400;
                           Encode (ErrorResponse message [])])).
Proof.
  intros Hplan Hdistinct fp Hin Hfile Habsent Htag Hsplit Hpath Hvalidator.
  assert (Himpl : reflect.Implements (reflect.Typ nestedField) FileUpload
                  = true) by exact Hfile.
  split.
  - intros Hparsed.
    assert (Hidle : forall reqValue, bindField r fp reqValue = Ok reqValue).
    { intros reqValue. apply bindField_missing_file;
        [reflexivity|exact Hfile|exact Hparsed|exact Habsent]. }
    split; [exact Hidle|].
    intros reqValue reqValue' Hfields Hbody.
    assert (Hzero : Field_ reqValue' (fieldAddr fp) = VZero).
    { change (fieldAddr fp) with (i, Some j).
      rewrite (bindBody_frame r parser reqValue reqValue' i j Hbody).
      unfold Field_.
      erewrite (bindFields_frame r _ (fieldParsers parser) ∅ reqValue);
        [reflexivity| |exact Hfields].
      intros fp' u u' Hfp' Haddr Hu.
      rewrite (plan_binding_of_address T parser fp fp' Hplan Hin Hfp' Haddr)
        in Hu.
      rewrite Hidle in Hu. congruence. }
    split; [exact Hzero|].
    destruct (Hvalidator reqValue' Hzero) as (l & Hval & He).
    destruct (formatValidationError_ok T parser (ValidationErrors l) Hplan)
      as [res Hfmt].
    destruct (formatValidationError_some l parser res Hfmt) as [ves ->].
    destruct (formatValidationError_entry l parser ves e Hfmt He)
      as (ve & Hve & Horigin & Hmsg).
    rewrite (origin_of_binding T parser e root group name more fp Hplan
               Hdistinct Hsplit Hin Hpath) in Horigin.
    injection Horigin as HField HSource.
    pose proof (parseWithPlan_validation_error validator_Struct r ∅ reqValue
                  reqValue' parser l ves w Hfields Hbody Hval Hfmt)
      as Hparse.
    exists ves, ve. split; [exact Hparse|].
    split; [apply createTypeSafeHandler_validation_failed, Hparse|].
    split; [exact Hve|]. split; [symmetry; exact HField|].
    split; [symmetry; exact HSource|].
    unfold message in Hmsg. rewrite Htag in Hmsg. exact Hmsg.
  - intros err pre post reqValue Hnot Hshape Hpre message.
    assert (Hbind : bindField r fp reqValue
      = Err (wrapError (sourcePrefix "form" (sourceName fp))
               (wrapError "failed to parse multipart form: " err))).
    { unfold fp. rewrite bindField_file by exact Himpl.
      unfold parseFileField. rewrite Hnot. reflexivity. }
    split; [exact Hbind|].
    assert (Hall : bindFields r (fieldParsers parser) ∅
      = Err (wrapError (sourcePrefix "form" (sourceName fp))
               (wrapError "failed to parse multipart form: " err))).
    { rewrite Hshape, bindFields_app, Hpre. simpl. fold fp.
      rewrite Hbind. reflexivity. }
    erewrite createTypeSafeHandler_bad_request
      by (apply parseWithPlan_bind_error, Hall).
    do 5 f_equal. unfold message, sourcePrefix. simpl.
    rewrite !append_assoc_string. reflexivity.
Qed.

End MissingFile.

(** ** The registry *)

Section RegistryShape.

Context `{GoLib}.

Lemma applyCalls_route (callBackFn : list EndpointCall) :
  forall (st : list (list (option Middleware)) * EndpointSpec),
    Method (fold_left applyCall callBackFn st).2 = Method st.2
    /\ RelativePath (fold_left applyCall callBackFn st).2
       = RelativePath st.2.
Proof.
  induction callBackFn as [|c cb IH]; intros st; [auto|].
  cbn [fold_left]. destruct (IH (applyCall st c)) as [-> ->].
  destruct st as [a ep].
  destruct c; cbn [applyCall fst snd]; auto.
  unfold EndpointSpec_Use. destruct (append _ _ _ _). auto.
Qed.

Lemma RegisterEndpoint_shape (router : Router) (route : EndpointSpec)
    (w w' : World) :
  RegisterEndpoint router route w = Ok w' ->
  exists e h,
    endpoints w' = endpoints w ++ [e]
    /\ mux w' = mux w ++ [(Method e +:+ " " +:+ FullPath e, h)]
    /\ mux_rejects (mux w).*1 (Method e +:+ " " +:+ FullPath e) = false
    /\ Method e = Method route
    /\ RelativePath e = RelativePath route
    /\ FullPath e = getPrefix w router +:+ RelativePath route
    /\ groups w' = groups w
    /\ validator w' = validator w.
Proof.
  unfold RegisterEndpoint.
  destruct (append _ _ _ _) as [arrays' all].
  destruct (applyMiddlewares _ _ _) as [h|]; [|discriminate].
  cbn [Method FullPath].
  destruct (mux_rejects _ _) eqn:Hmux; [discriminate|].
  intros [= <-]. eexists _, h.
  cbn [endpoints mux groups validator Method RelativePath FullPath].
  auto 10.
Qed.

Lemma RegisterHandlerRoute_shape (TReq TResp : reflect.Type_)
    (router : Router) (method path : string)
    (handler : ReqValue -> RespValue * option error)
    (callBackFn : list EndpointCall) (w w' : World) :
  RegisterHandlerRoute TReq TResp router method path handler callBackFn w
  = Ok w' ->
  exists e h,
    endpoints w' = endpoints w ++ [e]
    /\ mux w' = mux w ++ [(Method e +:+ " " +:+ FullPath e, h)]
    /\ mux_rejects (mux w).*1 (Method e +:+ " " +:+ FullPath e) = false
    /\ Method e = method
    /\ RelativePath e = path
    /\ FullPath e = getPrefix w router +:+ path
    /\ groups w' = groups w
    /\ validator w' = validator w.
Proof.
  unfold RegisterHandlerRoute, CreateEndpoint.
  destruct (buildRequestParser TReq) as [parser|]; [|discriminate].
  match goal with
  | |- context [fold_left applyCall callBackFn ?st] =>
      pose proof (applyCalls_route callBackFn st) as Hroute
  end.
  destruct (fold_left applyCall callBackFn _) as [arrays' ep].
  cbn [fst snd Method RelativePath] in Hroute.
  destruct Hroute as [Hmethod Hpath].
  intros Hreg. apply RegisterEndpoint_shape in Hreg
    as (e & h & Hends & Hmux & Hacc & He1 & He2 & He3 & Hgroups & Hval).
  cbn [endpoints mux groups validator] in *.
  exists e, h. rewrite He1, He2, He3 in *. rewrite Hmethod, Hpath in *.
  unfold getPrefix in *. cbn [groups] in *. auto 10.
Qed.

Lemma step_shape (op : Op) (w w' : World) :
  step op w = Ok w' ->
  exists es hs,
    endpoints w' = endpoints w ++ es
    /\ mux w' = mux w ++ hs
    /\ hs.*1 = (fun e => Method e +:+ " " +:+ FullPath e) <$> es
    /\ (fun e => (Method e, RelativePath e)) <$> es = routesOf [op]
    /\ validator w' = validator w
    /\ (length (groups w) <= length (groups w'))%nat
    /\ forall g, (g < length (groups w))%nat ->
         getPrefix w' (RGroup g) = getPrefix w (RGroup g).
Proof.
  destruct op as [p|g ms|g p|TReq TResp router method path handler cb];
    cbn [step routesOf].
  - intros [= <-]. exists [], []. cbn [Framework_Group snd withArraysGroups
      endpoints mux validator groups getPrefix].
    rewrite !app_nil_r, length_app. repeat (split; [try reflexivity; lia|]).
    intros g Hg. rewrite lookup_app_l by exact Hg. reflexivity.
  - intros [= <-]. exists [], []. unfold Group_Use.
    destruct (groups w !! g) as [gr|] eqn:Hg.
    + destruct (append _ _ _ _) as [arrays' s].
      cbn [withArraysGroups endpoints mux validator groups getPrefix].
      rewrite !app_nil_r, length_insert.
      repeat (split; [try reflexivity; lia|]).
      intros g' Hg'. destruct (decide (g = g')) as [<-|Hne].
      * rewrite list_lookup_insert_eq by exact Hg'. rewrite Hg. reflexivity.
      * rewrite list_lookup_insert_ne by exact Hne. reflexivity.
    + rewrite !app_nil_r. repeat (split; [try reflexivity; lia|]). auto.
  - intros [= <-]. exists [], []. unfold Group_Group.
    destruct (groups w !! g) as [gr|] eqn:Hg.
    + destruct (append _ _ _ _) as [arrays' s].
      cbn [snd withArraysGroups endpoints mux validator groups getPrefix].
      rewrite !app_nil_r, length_app.
      repeat (split; [try reflexivity; lia|]).
      intros g' Hg'. rewrite lookup_app_l by exact Hg'. reflexivity.
    + cbn [snd]. rewrite !app_nil_r.
      repeat (split; [try reflexivity; lia|]). auto.
  - intros Hreg. apply RegisterHandlerRoute_shape in Hreg
      as (e & h & Hends & Hmux & _ & He1 & He2 & _ & Hgroups & Hval).
    exists [e], [(Method e +:+ " " +:+ FullPath e, h)].
    split; [exact Hends|]. split; [exact Hmux|]. split; [reflexivity|].
    split; [cbn; rewrite He1, He2; reflexivity|].
    split; [exact Hval|]. unfold getPrefix. rewrite Hgroups. auto.
Qed.

Lemma routesOf_cons (op : Op) (ops : list Op) :
  routesOf (op :: ops) = routesOf [op] ++ routesOf ops.
Proof. destruct op; reflexivity. Qed.

Lemma run_shape (ops : list Op) :
  forall (w w' : World),
    run ops w = Ok w' ->
    exists es hs,
      endpoints w' = endpoints w ++ es
      /\ mux w' = mux w ++ hs
      /\ hs.*1 = (fun e => Method e +:+ " " +:+ FullPath e) <$> es
      /\ (fun e => (Method e, RelativePath e)) <$> es = routesOf ops
      /\ validator w' = validator w
      /\ (length (groups w) <= length (groups w'))%nat
      /\ forall g, (g < length (groups w))%nat ->
           getPrefix w' (RGroup g) = getPrefix w (RGroup g).
Proof.
  induction ops as [|op ops IH]; intros w w'.
  - intros [= <-]. exists [], []. rewrite !app_nil_r. auto 10.
  - cbn [run]. destruct (step op w) as [w1| |] eqn:Hstep; try discriminate.
    intros Hrun.
    destruct (step_shape op w w1 Hstep)
      as (es1 & hs1 & He1 & Hm1 & Hp1 & Hr1 & Hv1 & Hl1 & Hg1).
    destruct (IH w1 w' Hrun)
      as (es2 & hs2 & He2 & Hm2 & Hp2 & Hr2 & Hv2 & Hl2 & Hg2).
    exists (es1 ++ es2), (hs1 ++ hs2).
    rewrite He2, He1, Hm2, Hm1, <- !app_assoc, !fmap_app, Hp1, Hp2, Hr1,
      Hr2, Hv2, Hv1, (routesOf_cons op ops).
    repeat (split; [try reflexivity; lia|]).
    intros g Hg. rewrite Hg2 by lia. apply Hg1, Hg.
Qed.

(** X15.  A set-up program only adds to the registry.  The endpoints and the
    handlers that were registered before it stay as they are and keep
    their places; the program adds one endpoint per registration, in the
    order of the registrations, each served under the pattern made of its
    method and its full path.  The prefixes of the groups that existed
    and the validator are unchanged. *)
Theorem registry_is_append_only (ops : list Op) (w w' : World) :
  run ops w = Ok w' ->
  exists es hs,
    endpoints w' = endpoints w ++ es
    /\ mux w' = mux w ++ hs
    /\ hs.*1 = (fun e => Method e +:+ " " +:+ FullPath e) <$> es
    /\ (fun e => (Method e, RelativePath e)) <$> es = routesOf ops
    /\ validator w' = validator w
    /\ forall g, (g < length (groups w))%nat ->
         getPrefix w' (RGroup g) = getPrefix w (RGroup g).
Proof.
  intros Hops.
  destruct (run_shape ops w w' Hops) as (es & hs & ? & ? & ? & ? & ? & _ & ?).
  exists es, hs. auto 10.
Qed.

(** X16.  The prefix of a sub-group is the prefix of its parent followed by
    its own, and it is fixed when the sub-group is made: whatever the
    program does in between, an endpoint registered on the sub-group is
    served under the method and the three parts in a row. *)
Theorem sub_group_prefixes_concatenate (TReq TResp : reflect.Type_)
    (g : nat) (gr : Group) (prefix' method path : string)
    (handler : ReqValue -> RespValue * option error)
    (callBackFn : list EndpointCall) (ops : list Op) (w w1 w2 : World) :
  groups w !! g = Some gr ->
  run ops (Group_Group g prefix' w).2 = Ok w1 ->
  RegisterHandlerRoute TReq TResp (RGroup (Group_Group g prefix' w).1)
    method path handler callBackFn w1 = Ok w2 ->
  exists e h,
    endpoints w2 = endpoints w1 ++ [e]
    /\ FullPath e = prefix gr +:+ prefix' +:+ path
    /\ mux w2
       = mux w1 ++ [(method +:+ " " +:+ prefix gr +:+ prefix' +:+ path, h)].
Proof.
  intros Hg Hops Hreg.
  destruct (run_shape ops _ w1 Hops) as (_ & _ & _ & _ & _ & _ & _ & _ & Hpre).
  apply RegisterHandlerRoute_shape in Hreg
    as (e & h & Hends & Hmux & _ & He1 & _ & He3 & _).
  exists e, h. rewrite Hmux, He1, He3.
  assert (Hprefix : getPrefix w1 (RGroup (Group_Group g prefix' w).1)
                    = prefix gr +:+ prefix').
  { unfold Group_Group in *. rewrite Hg in *.
    destruct (append _ _ _ _) as [arrays' s].
    cbn [fst snd withArraysGroups groups] in *.
    rewrite Hpre by (rewrite length_app; simpl; lia).
    unfold getPrefix, withArraysGroups. cbn [groups].
    rewrite lookup_app_r by lia. rewrite Nat.sub_diag. reflexivity. }
  rewrite Hprefix, append_assoc_string. auto.
Qed.

End RegistryShape.

(** ** The recorded middleware lists *)

Section SliceAliasing.

Context `{GoLib}.

(** a registration with one endpoint middleware on a group whose list has
    a free cell writes the middleware into that cell *)
Lemma RegisterHandlerRoute_in_place (TReq TResp : reflect.Type_) (g : nat)
    (method path : string) (handler : ReqValue -> RespValue * option error)
    (m : Middleware) (w w' : World) (gr : Group)
    (cells : list (option Middleware)) :
  groups w !! g = Some gr ->
  arrays w !! array (middlewares gr) = Some cells ->
  (len (middlewares gr) < cap (middlewares gr))%nat ->
  RegisterHandlerRoute TReq TResp (RGroup g) method path handler
    [CallUse [m]] w = Ok w' ->
  exists e,
    endpoints w' = endpoints w ++ [e]
    /\ AllMiddlewares e
       = {| array := array (middlewares gr);
            len := S (len (middlewares gr));
            cap := cap (middlewares gr) |}
    /\ groups w' = groups w
    /\ arrays w' !! array (middlewares gr)
       = Some (take (len (middlewares gr)) cells ++ [Some m]
               ++ drop (S (len (middlewares gr))) cells).
Proof.
  intros Hg Hcells Hfree. unfold RegisterHandlerRoute, CreateEndpoint.
  destruct (buildRequestParser TReq) as [parser|]; [|discriminate].
  cbn [fold_left applyCall fst snd]. unfold EndpointSpec_Use.
  cbn [Middlewares]. change (Some <$> [m]) with [Some m].
  assert (Hnew : append None (arrays w) nilSlice [Some m]
                 = (arrays w ++ [[Some m] ++ replicate (growslice 0 1) None],
                    {| array := length (arrays w); len := 1;
                       cap := 1 + growslice 0 1 |})).
  { unfold append. cbn [nilSlice len cap length Nat.add Nat.leb].
    unfold read. cbn [len take app Nat.add].
    replace (S (growslice 0 1) - 1)%nat with (growslice 0 1) by lia.
    reflexivity. }
  rewrite Hnew. clear Hnew.
  unfold RegisterEndpoint.
  cbn [arrays groups validator endpoints mux getMiddlewares getPrefix
       Middlewares Method RelativePath FullPath Summary Description Tags
       RequestType ResponseType AllMiddlewares handlerPrepFn].
  rewrite Hg. cbn [fmap option_fmap option_map default].
  assert (Hlt : (array (middlewares gr) < length (arrays w))%nat)
    by (eapply lookup_lt_Some; eassumption).
  assert (Hread : read (arrays w
                        ++ [[Some m] ++ replicate (growslice 0 1) None])
                    {| array := length (arrays w); len := 1;
                       cap := 1 + growslice 0 1 |} = [Some m]).
  { unfold read. cbn [array len]. rewrite lookup_app_r by lia.
    rewrite Nat.sub_diag. reflexivity. }
  rewrite Hread. rewrite append_cons by discriminate.
  cbn [length]. unfold id.
  destruct (Nat.leb_spec (len (middlewares gr) + 1) (cap (middlewares gr)))
    as [_|Hgt]; [|lia].
  cbn [len].
  destruct (applyMiddlewares _ _ _) as [finalHandler|]; [|discriminate].
  destruct (mux_rejects _ _); [discriminate|].
  intros [= <-]. eexists. cbn [endpoints groups arrays AllMiddlewares].
  split; [reflexivity|]. split; [cbn [AllMiddlewares]; rewrite Nat.add_1_r; reflexivity|].
  split; [reflexivity|].
  rewrite list_lookup_alter, lookup_app_l by exact Hlt.
  rewrite Hcells. cbn [fmap option_fmap option_map].
  replace (len (middlewares gr) + 1)%nat with (S (len (middlewares gr)))
    by lia.
  rewrite decide_True by reflexivity. reflexivity.
Qed.

(** X17.  The list that an endpoint records in [AllMiddlewares] is a window
    on the array of its group when the group's list has a free cell: the
    next registration with a middleware of its own on the same group
    overwrites the cell, and the recorded list of the first endpoint then
    ends with the middleware of the second. *)
Theorem recorded_middleware_list_is_overwritten
    (TReq TResp TReq' TResp' : reflect.Type_) (g : nat)
    (method path method' path' : string)
    (handler handler' : ReqValue -> RespValue * option error)
    (a b : Middleware) (w w1 w2 : World) (gr : Group) :
  worldOK w ->
  groups w !! g = Some gr ->
  (len (middlewares gr) < cap (middlewares gr))%nat ->
  RegisterHandlerRoute TReq TResp (RGroup g) method path handler
    [CallUse [a]] w = Ok w1 ->
  RegisterHandlerRoute TReq' TResp' (RGroup g) method' path' handler'
    [CallUse [b]] w1 = Ok w2 ->
  exists first second,
    endpoints w1 = endpoints w ++ [first]
    /\ endpoints w2 = endpoints w ++ [first; second]
    /\ read (arrays w1) (AllMiddlewares first)
       = middlewaresOf w (RGroup g) ++ [Some a]
    /\ read (arrays w2) (AllMiddlewares first)
       = middlewaresOf w (RGroup g) ++ [Some b]
    /\ read (arrays w2) (AllMiddlewares second)
       = middlewaresOf w (RGroup g) ++ [Some b].
Proof.
  intros Hok Hg Hfree Hfirst Hsecond.
  destruct Hok as [Hsound _]. destruct (Hsound g gr Hg) as [[_ Hcap] _].
  destruct Hcap as (cells & Hcells & Hlen); [lia|].
  destruct (RegisterHandlerRoute_in_place _ _ _ _ _ _ _ _ _ _ _
              Hg Hcells Hfree Hfirst)
    as (first & Hends1 & Hall1 & Hgroups1 & Hcells1).
  assert (Hg1 : groups w1 !! g = Some gr) by (rewrite Hgroups1; exact Hg).
  destruct (RegisterHandlerRoute_in_place _ _ _ _ _ _ _ _ _ _ _
              Hg1 Hcells1 Hfree Hsecond)
    as (second & Hends2 & Hall2 & Hgroups2 & Hcells2).
  exists first, second.
  assert (Htake : length (take (len (middlewares gr)) cells)
                  = len (middlewares gr))
    by (rewrite length_take; lia).
  assert (Hprefix : forall (x : option Middleware) rest,
             take (S (len (middlewares gr)))
               (take (len (middlewares gr)) cells ++ [x] ++ rest)
             = take (len (middlewares gr)) cells ++ [x]).
  { intros x rest. rewrite take_app_ge by lia. rewrite Htake.
    replace (S (len (middlewares gr)) - len (middlewares gr))%nat
      with 1%nat by lia. reflexivity. }
  assert (Hgs : middlewaresOf w (RGroup g)
                = take (len (middlewares gr)) cells).
  { unfold middlewaresOf, getMiddlewares. rewrite Hg.
    cbn [fmap option_fmap option_map default]. unfold id, read.
    rewrite Hcells. reflexivity. }
  split; [exact Hends1|].
  split; [rewrite Hends2, Hends1, <- app_assoc; reflexivity|].
  rewrite Hgs. unfold read. rewrite Hall1, Hall2. cbn [array len].
  rewrite Hcells1, Hcells2. cbn [default].
  split; [apply Hprefix|].
  rewrite take_app_le by lia. rewrite take_take.
  rewrite Nat.min_id.
  split; apply Hprefix.
Qed.

End SliceAliasing.

(** ** The registration helpers on groups *)

Section HelperChain.

Context `{GoLib}.

Lemma default_last_cons {A : Type} (d x : A) (l : list A) :
  default d (last (x :: l)) = default x (last l).
Proof.
  destruct l as [|y l]; [reflexivity|].
  change (last (x :: y :: l)) with (last (y :: l)).
  destruct (last (y :: l)) eqn:Hl; [reflexivity|].
  apply last_None in Hl. discriminate.
Qed.

Lemma applyOptions_metadata (calls : list handler.EndpointOptions) :
  forall st,
    let b := st.2 in
    let b' := (fold_left handler.applyOption calls st).2 in
    Summary b'
    = default (Summary b)
        (last (omap (fun o => match o with
                              | handler.SetSummary summary => Some summary
                              | _ => None
                              end) calls))
    /\ Description b'
       = default (Description b)
           (last (omap (fun o => match o with
                                 | handler.SetDescription description =>
                                     Some description
                                 | _ => None
                                 end) calls))
    /\ Tags b'
       = default (Tags b)
           (last (omap (fun o => match o with
                                 | handler.SetTags tags => Some tags
                                 | _ => None
                                 end) calls))
    /\ RequestType b' = RequestType b
    /\ ResponseType b' = ResponseType b.
Proof.
  induction calls as [|o calls IH]; intros st; [cbn; auto 10|].
  cbn [fold_left]. cbn zeta in *.
  destruct (IH (handler.applyOption st o)) as (-> & -> & -> & -> & ->).
  destruct o; cbn [omap list_omap handler.applyOption];
    rewrite ?default_last_cons; cbn; auto 10.
  unfold EndpointSpec_Use. destruct (append _ _ _ _) as [arrays' s].
  cbn. auto 10.
Qed.

Lemma RegisterEndpoint_metadata (router : Router) (route : EndpointSpec)
    (w w' : World) :
  RegisterEndpoint router route w = Ok w' ->
  exists e,
    endpoints w' = endpoints w ++ [e]
    /\ Summary e = Summary route
    /\ Description e = Description route
    /\ Tags e = Tags route
    /\ RequestType e = RequestType route
    /\ ResponseType e = ResponseType route.
Proof.
  unfold RegisterEndpoint.
  destruct (append _ _ _ _) as [arrays' all].
  destruct (applyMiddlewares _ _ _) as [h|]; [|discriminate].
  destruct (mux_rejects _ _); [discriminate|].
  intros [= <-]. eexists. cbn. auto 10.
Qed.

(** the methods of the builder hand the calls on to the endpoint: a
    helper registers as [RegisterHandlerRoute] does with the callback
    that makes the same calls *)
Lemma configureAndRegister_forwards (Req Resp : reflect.Type_) (r : Router)
    (method path : string) (h : ReqValue -> RespValue * option error)
    (calls : list handler.EndpointOptions) (w : World) :
  handler.configureAndRegister r (CreateEndpoint Req Resp method path h)
    (Some calls) w
  = RegisterHandlerRoute Req Resp r method path h (forwarded <$> calls) w.
Proof.
  unfold handler.configureAndRegister, RegisterHandlerRoute.
  destruct (CreateEndpoint Req Resp method path h) as [ep| |];
    [|reflexivity|reflexivity].
  assert (Hfold : forall st,
             fold_left handler.applyOption calls st
             = fold_left applyCall (forwarded <$> calls) st).
  { induction calls as [|o calls IH]; intros st; [reflexivity|].
    cbn [fmap list_fmap fold_left]. rewrite IH.
    destruct o; reflexivity. }
  rewrite Hfold. reflexivity.
Qed.

Lemma configureAndRegister_ok (Req Resp : reflect.Type_) (r : Router)
    (method path : string) (h : ReqValue -> RespValue * option error)
    (calls : list handler.EndpointOptions) (w : World)
    (parser : requestParser) (gs : list Middleware) :
  worldOK w ->
  buildRequestParser Req = Some parser ->
  middlewaresOf w r = Some <$> gs ->
  exists w',
    handler.configureAndRegister r (CreateEndpoint Req Resp method path h)
      (Some calls) w
    = if mux_rejects (mux w).*1 (method +:+ " " +:+ getPrefix w r +:+ path)
      then Panic "http: the pattern is invalid or conflicts with another"
      else Ok w'.
Proof.
  intros Hw Hparser Hgs. rewrite configureAndRegister_forwards.
  destruct (RegisterHandlerRoute_ok Req Resp r method path h
              (forwarded <$> calls) w parser gs Hw Hparser Hgs)
    as (w' & _ & Hreg & _).
  exists w'. exact Hreg.
Qed.

Lemma usesOfCalls_forwarded (calls : list handler.EndpointOptions) :
  usesOfCalls (forwarded <$> calls) = handler.usesOfOptions calls.
Proof.
  induction calls as [|o calls IH]; [reflexivity|].
  destruct o; cbn [fmap list_fmap forwarded usesOfCalls
                   handler.usesOfOptions] in *; rewrite ?IH; reflexivity.
Qed.

(** X19.  An endpoint that a registration helper registers is served by the
    middleware of its router and, inside it, by the middleware that the
    options function adds with [Use], around the typed handler.  [Use] is
    no method of [EndpointOptions], but the value that the options
    function receives is the builder, on which a type assertion reaches
    it.  The options function sets the summary, the description and the
    tags, of which the last call of each kind counts.  The endpoint
    records the request type and the type of the zero value of the
    response type, which is nil for an interface.  A helper that is given
    no options function panics. *)
Theorem helper_endpoints_run_router_then_option_middleware
    (Req Resp : reflect.Type_) (r : Router) (method path : string)
    (h : ReqValue -> RespValue * option error)
    (calls : list handler.EndpointOptions) (w w' : World)
    (parser : requestParser) (gs : list Middleware) :
  worldOK w ->
  buildRequestParser Req = Some parser ->
  middlewaresOf w r = Some <$> gs ->
  handler.configureAndRegister r (CreateEndpoint Req Resp method path h)
    (Some calls) w = Ok w' ->
  (exists e,
     endpoints w' = endpoints w ++ [e]
     /\ Summary e = summaryOf calls
     /\ Description e = descriptionOf calls
     /\ Tags e = tagsOf calls
     /\ RequestType e = Req
     /\ ResponseType e = reflect.TypeOfZero Resp
     /\ read (arrays w') (AllMiddlewares e)
        = Some <$> (gs ++ handler.usesOfOptions calls))
  /\ mux w'
     = mux w ++ [(method +:+ " " +:+ getPrefix w r +:+ path,
                  fold_right (fun m acc => m acc)
                    (createTypeSafeHandler (validator w) Resp h parser)
                    (gs ++ handler.usesOfOptions calls))]
  /\ worldOK w'
  /\ isPanic
       (handler.configureAndRegister r
          (CreateEndpoint Req Resp method path h) None w)
     = true.
Proof.
  intros Hw Hparser Hgs Hreg.
  destruct (RegisterHandlerRoute_ok Req Resp r method path h
              (forwarded <$> calls) w parser gs Hw Hparser Hgs)
    as (w1 & e1 & Hreg1 & Hends1 & _ & _ & Hall1 & Hmux1 & _ & _ & Hok1 & _).
  rewrite <- configureAndRegister_forwards, Hreg in Hreg1.
  destruct (mux_rejects _ _); [discriminate|]. injection Hreg1 as <-.
  rewrite usesOfCalls_forwarded in Hall1, Hmux1.
  unfold handler.configureAndRegister, CreateEndpoint in Hreg |- *.
  rewrite Hparser in Hreg |- *.
  match type of Hreg with
  | context [fold_left handler.applyOption calls ?st] =>
      destruct (applyOptions_metadata calls st)
        as (Hs & Hd & Ht & Hreq & Hresp);
      destruct (fold_left handler.applyOption calls st) as [arrays1 route]
  end.
  cbn [fst snd Summary Description Tags RequestType ResponseType] in *.
  destruct (RegisterEndpoint_metadata r route _ w' Hreg)
    as (e & Hends & Hs' & Hd' & Ht' & Hreq' & Hresp').
  cbn [endpoints] in Hends.
  assert (e1 = e) as ->.
  { rewrite Hends in Hends1. apply app_inv_head in Hends1. congruence. }
  split; [|split; [exact Hmux1|split; [exact Hok1|reflexivity]]].
  exists e. rewrite Hs', Hd', Ht', Hreq', Hresp', Hs, Hd, Ht, Hreq, Hresp.
  auto 10.
Qed.

End HelperChain.

(** ** The schemas *)

Section SchemaShape.

Context `{GoLib}.

Lemma applyRule_shape (schema : openapi.Schema) (rule : string) :
  let schema' := openapi.applyRule schema rule in
  openapi.Type_ schema' = openapi.Type_ schema
  /\ openapi.Properties schema' = openapi.Properties schema
  /\ openapi.Required schema' = openapi.Required schema
  /\ openapi.Items schema' = openapi.Items schema
  /\ (openapi.Type_ schema <> "string" ->
      openapi.MinLength schema' = openapi.MinLength schema
      /\ openapi.MaxLength schema' = openapi.MaxLength schema)
  /\ (openapi.Type_ schema <> "number" ->
      openapi.Type_ schema <> "integer" ->
      openapi.Minimum schema' = openapi.Minimum schema
      /\ openapi.Maximum schema' = openapi.Maximum schema).
Proof.
  unfold openapi.applyRule.
  destruct (strings.Split rule "="%char) as [|name [|arg parts]];
    repeat case_bool_decide; cbn [orb];
    cbn [openapi.Type_ openapi.Properties openapi.Required openapi.Items
         openapi.MinLength openapi.MaxLength openapi.Minimum
         openapi.Maximum];
    repeat split; try reflexivity; intros; congruence.
Qed.

(** X20.  The rules of a validate tag never change the type of a schema, its
    properties, its required names or its item schema; the length bounds
    are set on strings only and the value bounds on numbers and integers
    only. *)
Theorem validation_rules_keep_the_shape (schema : openapi.Schema)
    (validateTag : string) :
  let schema' := openapi.applyValidationToSchema schema validateTag in
  openapi.Type_ schema' = openapi.Type_ schema
  /\ openapi.Properties schema' = openapi.Properties schema
  /\ openapi.Required schema' = openapi.Required schema
  /\ openapi.Items schema' = openapi.Items schema
  /\ (openapi.Type_ schema <> "string" ->
      openapi.MinLength schema' = openapi.MinLength schema
      /\ openapi.MaxLength schema' = openapi.MaxLength schema)
  /\ (openapi.Type_ schema <> "number" ->
      openapi.Type_ schema <> "integer" ->
      openapi.Minimum schema' = openapi.Minimum schema
      /\ openapi.Maximum schema' = openapi.Maximum schema).
Proof.
  unfold openapi.applyValidationToSchema.
  generalize (strings.Split validateTag ","%char). intros rules.
  revert schema. induction rules as [|rule rules IH]; intros schema.
  - cbn. auto 10.
  - cbn [fold_left]. cbn zeta in *.
    destruct (IH (openapi.applyRule schema rule))
      as (-> & -> & -> & -> & Hlen & Hval).
    destruct (applyRule_shape schema rule)
      as (Ht & -> & -> & -> & Hlen' & Hval').
    rewrite Ht in *. repeat (split; [reflexivity|]). split.
    + intros Hs. destruct (Hlen Hs) as [-> ->]. exact (Hlen' Hs).
    + intros Hn Hi. destruct (Hval Hn Hi) as [-> ->]. exact (Hval' Hn Hi).
Qed.

Lemma mapSet_keys {V : Type} (m : list (string * V)) (key : string)
    (value : V) :
  (openapi.mapSet m key value).*1
  = if bool_decide (key ∈ m.*1) then m.*1 else m.*1 ++ [key].
Proof.
  induction m as [|[k v] m IH]; [reflexivity|].
  cbn [openapi.mapSet]. destruct (decide (k = key)) as [->|Hk].
  - rewrite bool_decide_eq_true_2 by reflexivity.
    cbn [fmap list_fmap fst].
    rewrite bool_decide_eq_true_2 by left. reflexivity.
  - rewrite bool_decide_eq_false_2 by exact Hk.
    cbn [fmap list_fmap fst]. change (list_fmap _ _ fst ?l) with (l.*1).
    rewrite IH.
    destruct (decide (key ∈ m.*1)) as [Hin|Hin].
    + rewrite !bool_decide_eq_true_2; [reflexivity|right; exact Hin|exact Hin].
    + rewrite !bool_decide_eq_false_2; [reflexivity| |exact Hin].
      intros Hin'. apply elem_of_cons in Hin' as [->|?]; [apply Hk|]; auto.
Qed.

Lemma addProperty_objectOK (schema : openapi.Schema)
    (field : reflect.StructField) (fieldSchema : openapi.Schema) :
  objectOK schema -> objectOK (openapi.addProperty schema field fieldSchema).
Proof.
  intros (Ht & Hi & Hnd & Hreq). unfold openapi.addProperty.
  destruct (openapi.propertyName field) as [fieldName|]; [|repeat split; auto].
  unfold objectOK.
  cbn [openapi.Type_ openapi.Items openapi.Properties openapi.Required].
  rewrite mapSet_keys.
  split; [exact Ht|]. split; [exact Hi|]. split.
  - destruct (decide (fieldName ∈ (openapi.Properties schema).*1))
      as [Hin|Hin];
      [rewrite bool_decide_eq_true_2 by exact Hin; exact Hnd
      |rewrite bool_decide_eq_false_2 by exact Hin].
    apply NoDup_app. split; [exact Hnd|]. split.
    + intros x Hx Hx'. apply list_elem_of_singleton in Hx'. subst x.
      exact (Hin Hx).
    + apply NoDup_singleton.
  - intros name Hname.
    assert (Hcases : name ∈ openapi.Required schema \/ name = fieldName).
    { destruct (_ && _); [|auto].
      apply elem_of_app in Hname as [?|Hname]; [auto|].
      apply list_elem_of_singleton in Hname. auto. }
    clear Hname.
    destruct (decide (fieldName ∈ (openapi.Properties schema).*1))
      as [Hin|Hin];
      [rewrite bool_decide_eq_true_2 by exact Hin
      |rewrite bool_decide_eq_false_2 by exact Hin].
    + destruct Hcases as [Hr| ->]; [exact (Hreq name Hr)|exact Hin].
    + apply elem_of_app. destruct Hcases as [Hr| ->];
        [left; exact (Hreq name Hr)|].
      right. left.
Qed.

Lemma addProperty_names (schema schema' : openapi.Schema)
    (field : reflect.StructField) (fieldSchema fieldSchema' : openapi.Schema) :
  (openapi.Properties schema).*1 = (openapi.Properties schema').*1 ->
  openapi.Required schema = openapi.Required schema' ->
  (openapi.Properties (openapi.addProperty schema field fieldSchema)).*1
  = (openapi.Properties (openapi.addProperty schema' field fieldSchema')).*1
  /\ openapi.Required (openapi.addProperty schema field fieldSchema)
     = openapi.Required (openapi.addProperty schema' field fieldSchema').
Proof.
  intros Hp Hr. unfold openapi.addProperty.
  destruct (openapi.propertyName field) as [fieldName|]; [|auto].
  cbn [openapi.Properties openapi.Required].
  rewrite !mapSet_keys, Hp, Hr. auto.
Qed.

Lemma objectOK_schemaOK (schema : openapi.Schema) :
  objectOK schema -> schemaOK schema.
Proof.
  intros (Ht & Hi & Hnd & Hreq). split; [|auto].
  rewrite Ht, Hi. split; [intros [? [=]]|discriminate].
Qed.

Lemma objectOK_typed : objectOK (openapi.typed "object" "").
Proof.
  repeat split; cbn; try reflexivity; [constructor|].
  intros name Hname. inversion Hname.
Qed.

Lemma schemaOK_leaf (type format : string) (minimum : option float64) :
  type <> "array" ->
  schemaOK (openapi.mkSchema type format [] [] None minimum None None None).
Proof.
  intros Ht. split; [|split]; cbn.
  - split; [intros [? [=]]|intros; contradiction].
  - constructor.
  - intros name Hname. inversion Hname.
Qed.

Lemma schemaOK_array (items : openapi.Schema) :
  schemaOK (openapi.mkSchema "array" "" [] [] (Some items)
              None None None None).
Proof.
  split; [|split]; cbn.
  - split; [reflexivity|eauto].
  - constructor.
  - intros name Hname. inversion Hname.
Qed.

Lemma toSchema_struct_objectOK (name : string) (methods : list string)
    (fields : list reflect.StructField) :
  objectOK (openapi.toSchema true (reflect.StructOf name methods fields)).
Proof.
  cbn [openapi.toSchema].
  match goal with
  | |- objectOK (?loop fields ?init) =>
      assert (Hloop : forall schema,
                 objectOK schema -> objectOK (loop fields schema))
  end.
  { induction fields as [|f fs IH]; intros schema Hs; [exact Hs|].
    cbn. apply IH, addProperty_objectOK, Hs. }
  apply Hloop, objectOK_typed.
Qed.

Lemma toSchema_schemaOK (expanded : bool) (t : reflect.Type_) :
  schemaOK (openapi.toSchema expanded t).
Proof.
  assert (Hbasic : forall k, schemaOK (openapi.kindSchema k))
    by (intros k; destruct k; apply schemaOK_leaf; discriminate).
  assert (Hplain : forall t', schemaOK (openapi.toSchema false t')).
  { intros t'. destruct t'; cbn [openapi.toSchema];
      first [apply Hbasic|apply schemaOK_array
            |apply schemaOK_leaf; discriminate]. }
  destruct expanded; [|apply Hplain].
  destruct t as [k|ms|elem|n elem|elem|key elem|name methods fields];
    try (cbn [openapi.toSchema];
         first [apply Hbasic|apply schemaOK_array
               |apply schemaOK_leaf; discriminate]).
  - destruct elem as [k|ms|e|n e|e|key e|name methods fields].
    + exact (Hplain (reflect.Basic k)).
    + exact (Hplain (reflect.InterfaceOf ms)).
    + exact (Hplain (reflect.SliceOf e)).
    + exact (Hplain (reflect.ArrayOf n e)).
    + exact (Hplain (reflect.PtrTo e)).
    + exact (Hplain (reflect.MapOf key e)).
    + exact (objectOK_schemaOK _
               (toSchema_struct_objectOK name methods fields)).
  - apply objectOK_schemaOK, toSchema_struct_objectOK.
Qed.

Lemma structToSchema_struct_objectOK (fields : list reflect.StructField) :
  forall schema,
    objectOK schema ->
    objectOK
      (fold_left
         (fun schema field =>
            openapi.addProperty schema field
              (openapi.reflectTypeToSchema (reflect.Typ field)))
         fields schema).
Proof.
  induction fields as [|f fs IH]; intros schema Hs; [exact Hs|].
  cbn [fold_left]. apply IH, addProperty_objectOK, Hs.
Qed.

(** X21.  Every schema that the generator makes of a type is well formed: it
    has an item schema exactly when its type is array, it lists no
    property twice, and every name it requires is the name of one of its
    properties. *)
Theorem generated_schemas_are_well_formed (t : reflect.Type_) :
  schemaOK (openapi.reflectTypeToSchema t)
  /\ schemaOK (openapi.reflectTypeToSchemaExpanded t)
  /\ schemaOK (openapi.structToSchema t).
Proof.
  split; [apply toSchema_schemaOK|]. split; [apply toSchema_schemaOK|].
  unfold openapi.structToSchema.
  destruct t as [k|ms|elem|n elem|elem|key elem|name methods fields];
    try (apply toSchema_schemaOK).
  - destruct elem as [k|ms|e|n e|e|key e|name methods fields];
      try (apply toSchema_schemaOK).
    apply objectOK_schemaOK, structToSchema_struct_objectOK, objectOK_typed.
  - apply objectOK_schemaOK, structToSchema_struct_objectOK, objectOK_typed.
Qed.

Lemma addProperty_Type (schema : openapi.Schema)
    (field : reflect.StructField) (fieldSchema : openapi.Schema) :
  openapi.Type_ (openapi.addProperty schema field fieldSchema)
  = openapi.Type_ schema.
Proof.
  unfold openapi.addProperty.
  destruct (openapi.propertyName field); reflexivity.
Qed.

Lemma struct_loops_names (name : string) (methods : list string)
    (fields : list reflect.StructField) :
  let body := openapi.structToSchema (reflect.StructOf name methods fields) in
  let response :=
    openapi.toSchema true (reflect.StructOf name methods fields) in
  openapi.Type_ body = openapi.Type_ response
  /\ (openapi.Properties body).*1 = (openapi.Properties response).*1
  /\ openapi.Required body = openapi.Required response.
Proof.
  cbn [openapi.structToSchema openapi.toSchema]. cbn zeta.
  match goal with
  | |- _ = openapi.Type_ (?loop fields ?init) /\ _ =>
      assert (Hloop : forall schema schema',
                 openapi.Type_ schema = openapi.Type_ schema' ->
                 (openapi.Properties schema).*1
                 = (openapi.Properties schema').*1 ->
                 openapi.Required schema = openapi.Required schema' ->
                 let body :=
                   fold_left
                     (fun schema field =>
                        openapi.addProperty schema field
                          (openapi.reflectTypeToSchema (reflect.Typ field)))
                     fields schema in
                 openapi.Type_ body = openapi.Type_ (loop fields schema')
                 /\ (openapi.Properties body).*1
                    = (openapi.Properties (loop fields schema')).*1
                 /\ openapi.Required body
                    = openapi.Required (loop fields schema'))
  end.
  { induction fields as [|f fs IH]; intros schema schema' Ht Hp Hr;
      [cbn; auto|].
    cbn [fold_left]. cbn zeta. cbn -[openapi.addProperty openapi.toSchema].
    apply IH.
    - rewrite !addProperty_Type. exact Ht.
    - apply addProperty_names; assumption.
    - apply addProperty_names; assumption. }
  apply Hloop; reflexivity.
Qed.

(** X22.  The schema of a request body and the schema of a response list the
    same properties and require the same names for the same type; they
    differ only in the schemas of the properties, which the response
    schema expands and the body schema does not. *)
Theorem body_and_response_schemas_name_the_same_properties
    (t : reflect.Type_) :
  let body := openapi.structToSchema t in
  let response := openapi.reflectTypeToSchemaExpanded t in
  openapi.Type_ body = openapi.Type_ response
  /\ (openapi.Properties body).*1 = (openapi.Properties response).*1
  /\ openapi.Required body = openapi.Required response.
Proof.
  destruct t as [k|ms|elem|n elem|elem|key elem|name methods fields];
    try (cbn; auto; fail).
  - destruct elem as [k|ms|e|n e|e|key e|name methods fields];
      try (cbn; auto; fail).
    exact (struct_loops_names name methods fields).
  - exact (struct_loops_names name methods fields).
Qed.

End SchemaShape.

(** ** The operations *)

Section Operation.

Context `{GoLib}.

Lemma generateOperation_step_parameters (st : openapi.loopState)
    (field : reflect.StructField) :
  openapi.parameters (openapi.generateOperation_step st field)
  = openapi.parameters st ++ tagParameters field.
Proof.
  unfold openapi.generateOperation_step, tagParameters.
  cbn [openapi.parameters]. rewrite !filter_cons, filter_nil.
  destruct (decide (reflect.Get (reflect.Tag field) "header" <> ""))
    as [Hh|Hh];
    [rewrite (bool_decide_eq_false_2 _ Hh)
    |rewrite (bool_decide_eq_true_2
                (reflect.Get (reflect.Tag field) "header" = ""))
       by (destruct (decide (reflect.Get (reflect.Tag field) "header" = ""));
           [assumption|contradiction])];
    (destruct (decide (reflect.Get (reflect.Tag field) "route" <> ""))
       as [Hr|Hr];
     [rewrite (bool_decide_eq_false_2 _ Hr)
     |rewrite (bool_decide_eq_true_2
                 (reflect.Get (reflect.Tag field) "route" = ""))
        by (destruct (decide (reflect.Get (reflect.Tag field) "route" = ""));
            [assumption|contradiction])]);
    (destruct (decide (reflect.Get (reflect.Tag field) "query" <> ""))
       as [Hq|Hq];
     [rewrite (bool_decide_eq_false_2 _ Hq)
     |rewrite (bool_decide_eq_true_2
                 (reflect.Get (reflect.Tag field) "query" = ""))
        by (destruct (decide (reflect.Get (reflect.Tag field) "query" = ""));
            [assumption|contradiction])]);
    cbn [fmap list_fmap]; rewrite <- ?app_assoc, ?app_nil_r; reflexivity.
Qed.

Lemma generateOperation_loop_parameters (fields : list reflect.StructField) :
  forall st,
    openapi.parameters (fold_left openapi.generateOperation_step fields st)
    = openapi.parameters st ++ (fields ≫= tagParameters).
Proof.
  induction fields as [|f fs IH]; intros st.
  - cbn. rewrite app_nil_r. reflexivity.
  - cbn [fold_left]. rewrite IH, generateOperation_step_parameters.
    rewrite <- app_assoc. reflexivity.
Qed.

(** X23.  The parameters of an operation are made of the tags header, route
    and query of the top-level fields of the request type, and of nothing
    else: field by field in the order of the declaration, and for one
    field in the order header, route, query.  A route tag gives a required
    parameter in the path; the others are required when the validate tag
    of the field contains the word required. *)
Theorem parameters_mirror_the_field_tags (endpoint : EndpointSpec)
    (op : openapi.Operation) (fields : list reflect.StructField) :
  openapi.generateOperation endpoint = Ok op ->
  reflect.Fields (RequestType endpoint) = Some fields ->
  openapi.Parameters op = fields ≫= tagParameters.
Proof.
  unfold openapi.generateOperation. intros Hop Hfields.
  destruct (ResponseType endpoint) as [responseType|]; [|discriminate Hop].
  rewrite Hfields in Hop. injection Hop as <-.
  cbn [openapi.Parameters].
  rewrite generateOperation_loop_parameters. reflexivity.
Qed.

Lemma generateOperation_loop_body (fields : list reflect.StructField) :
  forall st,
    let st' := fold_left openapi.generateOperation_step fields st in
    openapi.requestBody st'
    = match last (filter (fun field =>
                            is_Some (reflect.Lookup (reflect.Tag field)
                                       "body")) fields) with
      | Some field => Some (jsonBody field)
      | None => openapi.requestBody st
      end
    /\ openapi.hasFormFields st'
       = existsb (fun field => negb (bool_decide (formTag field = "")))
           fields
         || openapi.hasFormFields st
    /\ openapi.formFieldsRequired st'
       = openapi.formFieldsRequired st
         ++ (formTag
               <$> filter (fun field =>
                             formTag field <> ""
                             /\ openapi.isRequired field = true) fields)
    /\ (NoDup (openapi.formFields st).*1 ->
        NoDup (openapi.formFields st').*1)
    /\ forall name,
         name ∈ (openapi.formFields st').*1
         <-> name ∈ (openapi.formFields st).*1
             \/ exists field,
                  field ∈ fields /\ formTag field = name /\ name <> "".
Proof.
  induction fields as [|f fs IH]; intros st.
  - cbn. rewrite app_nil_r.
    split; [reflexivity|]. split; [reflexivity|]. split; [reflexivity|].
    split; [auto|].
    intros name. split; [auto|]. intros [?|(field & Hin & _)]; [auto|].
    inversion Hin.
  - cbn [fold_left]. cbn zeta in *.
    destruct (IH (openapi.generateOperation_step st f))
      as (Hbody & Hhas & Hreq & Hnd & Hkeys).
    rewrite Hbody, Hhas, Hreq. clear Hbody Hhas Hreq.
    unfold openapi.generateOperation_step at 1 2 3.
    cbn [openapi.requestBody openapi.hasFormFields
         openapi.formFieldsRequired].
    fold (formTag f). rewrite filter_cons.
    split; [|split; [|split; [|split]]].
    + destruct (reflect.Lookup (reflect.Tag f) "body") as [v|] eqn:Hb.
      * rewrite decide_True by eauto.
        clear IH Hnd Hkeys.
        destruct (filter _ fs) as [|f' fs']; [reflexivity|].
        change (last (f :: f' :: fs')) with (last (f' :: fs')).
        destruct (last (f' :: fs')) eqn:Hl; [reflexivity|].
        apply last_None in Hl. discriminate.
      * rewrite decide_False by (intros [? [=]]). reflexivity.
    + cbn [existsb]. rewrite orb_assoc.
      rewrite (orb_comm (existsb _ fs)). reflexivity.
    + rewrite filter_cons.
      destruct (decide (formTag f = "")) as [Hf|Hf].
      * rewrite (bool_decide_eq_true_2 _ Hf). cbn [negb andb].
        rewrite decide_False by (intros [? _]; contradiction).
        reflexivity.
      * rewrite (bool_decide_eq_false_2 _ Hf). cbn [negb andb].
        destruct (openapi.isRequired f) eqn:Hr.
        -- rewrite decide_True by auto. cbn [fmap list_fmap].
           rewrite <- app_assoc. reflexivity.
        -- rewrite decide_False by (intros [_ [=]]). reflexivity.
    + intros Hst. apply Hnd. unfold openapi.generateOperation_step.
      cbn [openapi.formFields]. fold (formTag f).
      destruct (negb _); [|exact Hst].
      rewrite mapSet_keys.
      destruct (decide (formTag f ∈ (openapi.formFields st).*1))
        as [Hin|Hin];
        [rewrite bool_decide_eq_true_2 by exact Hin; exact Hst
        |rewrite bool_decide_eq_false_2 by exact Hin].
      apply NoDup_app. split; [exact Hst|]. split.
      * intros x Hx Hx'. apply list_elem_of_singleton in Hx'. subst x.
        exact (Hin Hx).
      * apply NoDup_singleton.
    + intros name. rewrite Hkeys. clear Hkeys Hnd IH.
      unfold openapi.generateOperation_step.
      cbn [openapi.formFields]. fold (formTag f).
      assert (Hstep : name ∈ (if negb (bool_decide (formTag f = ""))
                              then openapi.mapSet (openapi.formFields st)
                                     (formTag f)
                                     (if reflect.Implements (reflect.Typ f)
                                           FileUpload
                                      then openapi.typed "string" "binary"
                                      else openapi.reflectTypeToSchema
                                             (reflect.Typ f))
                              else openapi.formFields st).*1
                     <-> name ∈ (openapi.formFields st).*1
                         \/ (formTag f = name /\ name <> "")).
      { destruct (decide (formTag f = "")) as [Hf|Hf].
        - rewrite (bool_decide_eq_true_2 _ Hf). cbn [negb].
          split; [auto|]. intros [?|[Hn Hne]]; [auto|]. congruence.
        - rewrite (bool_decide_eq_false_2 _ Hf). cbn [negb].
          rewrite mapSet_keys.
          destruct (decide (formTag f ∈ (openapi.formFields st).*1))
            as [Hin|Hin];
            [rewrite bool_decide_eq_true_2 by exact Hin
            |rewrite bool_decide_eq_false_2 by exact Hin].
          + split; [auto|]. intros [?|[<- _]]; auto.
          + rewrite elem_of_app, list_elem_of_singleton.
            split; intros [?|Hn]; auto.
            * subst name. auto.
            * destruct Hn as [<- _]. auto. }
      rewrite Hstep. clear Hstep. split.
      * intros [[?|[Hn Hne]]|(field & Hin & Hn & Hne)]; [auto| |].
        -- right. exists f. split; [left|auto].
        -- right. exists field. split; [right; exact Hin|auto].
      * intros [?|(field & Hin & Hn & Hne)]; [auto|].
        apply elem_of_cons in Hin as [->|Hin]; [auto|].
        right. exists field. auto.
Qed.

Lemma existsb_formTag (fields : list reflect.StructField) :
  existsb (fun field => negb (bool_decide (formTag field = ""))) fields
  = bool_decide (Exists (fun field => formTag field <> "") fields).
Proof.
  induction fields as [|f fs IH].
  - cbn [existsb]. symmetry. apply bool_decide_eq_false_2.
    intros Hex. inversion Hex.
  - cbn [existsb]. rewrite IH.
    destruct (decide (formTag f = "")) as [Hf|Hf].
    + rewrite (bool_decide_eq_true_2 _ Hf). cbn [negb orb].
      apply bool_decide_ext. rewrite Exists_cons. tauto.
    + rewrite (bool_decide_eq_false_2 _ Hf). cbn [negb orb].
      symmetry. apply bool_decide_eq_true_2. left. exact Hf.
Qed.

(** X24.  When a field of the request type has a form tag, the request body
    of the operation is the multipart form and nothing else, also when
    another field has a body tag.  The form schema is an object with one
    property per form tag; it requires the form tags of the fields whose
    validate tag contains the word required, and the body is required
    when one of them is. *)
Theorem form_fields_replace_the_json_body (endpoint : EndpointSpec)
    (op : openapi.Operation) (fields : list reflect.StructField) :
  openapi.generateOperation endpoint = Ok op ->
  reflect.Fields (RequestType endpoint) = Some fields ->
  Exists (fun field => formTag field <> "") fields ->
  exists body schema,
    openapi.RequestBody_ op = Some body
    /\ openapi.rb_Description body = "Multipart form data"
    /\ openapi.rb_Content body = [("multipart/form-data", schema)]
    /\ (openapi.rb_Required body = true <-> openapi.Required schema <> [])
    /\ objectOK schema
    /\ openapi.Required schema
       = formTag
           <$> filter (fun field =>
                         formTag field <> ""
                         /\ openapi.isRequired field = true) fields
    /\ forall name,
         name ∈ (openapi.Properties schema).*1
         <-> exists field,
               field ∈ fields /\ formTag field = name /\ name <> "".
Proof.
  unfold openapi.generateOperation. intros Hop Hfields Hform.
  destruct (ResponseType endpoint) as [responseType|]; [|discriminate Hop].
  rewrite Hfields in Hop. injection Hop as <-.
  cbn [openapi.RequestBody_].
  match goal with
  | |- context [fold_left openapi.generateOperation_step fields ?st0] =>
      destruct (generateOperation_loop_body fields st0)
        as (_ & Hhas & Hreq & Hnd & Hkeys)
  end.
  cbn [openapi.hasFormFields openapi.formFieldsRequired openapi.formFields
       app] in *.
  rewrite existsb_formTag, (bool_decide_eq_true_2 _ Hform) in Hhas.
  cbn [orb] in Hhas. rewrite Hhas. eexists _, _.
  split; [reflexivity|].
  cbn [openapi.rb_Description openapi.rb_Content openapi.rb_Required
       openapi.Required openapi.Properties].
  split; [reflexivity|]. split; [reflexivity|]. split; [|split; [|split]].
  - destruct (openapi.formFieldsRequired _) as [|x l]; cbn.
    + split; [discriminate|congruence].
    + split; [discriminate|reflexivity].
  - split; [reflexivity|]. split; [reflexivity|].
    cbn [openapi.Required openapi.Properties].
    split; [apply Hnd; constructor|].
    intros name Hname. apply Hkeys. right. rewrite Hreq in Hname.
    apply list_elem_of_fmap in Hname as (field & -> & Hfield).
    apply list_elem_of_filter in Hfield as [[Hne _] Hin].
    exists field. auto.
  - exact Hreq.
  - intros name. rewrite Hkeys. split; [|auto].
    intros [Hin|?]; [inversion Hin|assumption].
Qed.

(** X25.  Without a form tag on any field, the request body of the operation
    is the JSON body of the last field that has a body tag, with the
    schema of the type of that field; without such a field the operation
    has no request body. *)
Theorem json_body_is_the_last_body_field (endpoint : EndpointSpec)
    (op : openapi.Operation) (fields : list reflect.StructField) :
  openapi.generateOperation endpoint = Ok op ->
  reflect.Fields (RequestType endpoint) = Some fields ->
  Forall (fun field => formTag field = "") fields ->
  openapi.RequestBody_ op
  = jsonBody
      <$> last (filter (fun field =>
                          is_Some (reflect.Lookup (reflect.Tag field) "body"))
                  fields).
Proof.
  unfold openapi.generateOperation. intros Hop Hfields Hform.
  destruct (ResponseType endpoint) as [responseType|]; [|discriminate Hop].
  rewrite Hfields in Hop. injection Hop as <-.
  cbn [openapi.RequestBody_].
  match goal with
  | |- context [fold_left openapi.generateOperation_step fields ?st0] =>
      destruct (generateOperation_loop_body fields st0)
        as (Hbody & Hhas & _)
  end.
  cbn [openapi.hasFormFields openapi.requestBody] in *.
  rewrite existsb_formTag in Hhas.
  rewrite bool_decide_eq_false_2 in Hhas.
  - cbn [orb] in Hhas. rewrite Hhas, Hbody.
    destruct (last _); reflexivity.
  - intros Hex. apply Exists_exists in Hex as (field & Hin & Hne).
    rewrite Forall_forall in Hform. exact (Hne (Hform field Hin)).
Qed.

(** X26.  A request type in the style that the walker reads, with groups on
    fields that carry no tag of their own, is not documented: whatever
    the plan binds, the operation has no parameter and no request body. *)
Theorem untagged_fields_are_not_documented (endpoint : EndpointSpec)
    (op : openapi.Operation) (fields : list reflect.StructField) :
  openapi.generateOperation endpoint = Ok op ->
  reflect.Fields (RequestType endpoint) = Some fields ->
  Forall (fun field => reflect.Tag field = []) fields ->
  openapi.Parameters op = [] /\ openapi.RequestBody_ op = None.
Proof.
  unfold openapi.generateOperation. intros Hop Hfields Htags.
  destruct (ResponseType endpoint) as [responseType|]; [|discriminate Hop].
  rewrite Hfields in Hop. injection Hop as <-.
  cbn [openapi.Parameters openapi.RequestBody_].
  match goal with
  | |- context [fold_left openapi.generateOperation_step fields ?st0] =>
      destruct (generateOperation_loop_body fields st0)
        as (Hbody & Hhas & _);
      pose proof (generateOperation_loop_parameters fields st0) as Hparams
  end.
  cbn [openapi.hasFormFields openapi.requestBody openapi.parameters app]
    in *.
  rewrite Hparams, Hhas, Hbody. clear Hparams Hhas Hbody Hfields.
  assert (Hnone : fields ≫= tagParameters = []
                  /\ existsb (fun field =>
                                negb (bool_decide (formTag field = "")))
                       fields = false
                  /\ filter (fun field =>
                               is_Some (reflect.Lookup (reflect.Tag field)
                                          "body")) fields = []).
  { induction Htags as [|f fs Hf Hfs IH]; [auto|].
    destruct IH as (IHp & IHf & IHb).
    destruct f as [n p ty tag]. cbn [reflect.Tag] in Hf. subst tag.
    cbn [mbind list_bind app existsb]. rewrite filter_cons.
    rewrite decide_False by (intros [? [=]]).
    rewrite IHp, IHf, IHb. auto. }
  destruct Hnone as (-> & -> & ->). auto.
Qed.

End Operation.

Section PlanExamples.

#[local] Existing Instance exampleLib.

(** witness of X1: the path value id of [GetUserRequest] *)
Lemma plan_lists_the_bindings_of_the_groups_witness :
  buildRequestParser example.GetUserRequest
  = Some (example.planOf example.GetUserRequest)
  /\ (nestedFieldParser 0 0 "route" example.UserID
      ∈ fieldParsers (example.planOf example.GetUserRequest)
      <-> isBinding example.GetUserRequest
            (nestedFieldParser 0 0 "route" example.UserID)).
Proof.
  split; [reflexivity|].
  apply (plan_lists_the_bindings_of_the_groups example.GetUserRequest
           (example.planOf example.GetUserRequest)).
  reflexivity.
Defined.

(** witness of X2: the six bindings of [ListUsersRequest] *)
Lemma plan_addresses_are_distinct_witness :
  length (fieldParsers (example.planOf example.ListUsersRequest)) = 6%nat
  /\ NoDup (fieldAddr
              <$> fieldParsers (example.planOf example.ListUsersRequest)).
Proof.
  split; [reflexivity|].
  apply (plan_addresses_are_distinct example.ListUsersRequest
           (example.planOf example.ListUsersRequest)).
  reflexivity.
Defined.

(** witness of X3: the body of [CreateUserRequest] is its second field *)
Lemma body_is_decoded_into_the_body_group_witness :
  hasBodyField (example.planOf example.CreateUserRequest) = true
  /\ bodyFieldIdx (example.planOf example.CreateUserRequest) = 1%nat
  /\ exists fields,
       reflect.Fields example.CreateUserRequest = Some fields
       /\ hasBodyField (example.planOf example.CreateUserRequest)
          = existsb isBodyGroup fields.
Proof.
  split; [reflexivity|]. split; [reflexivity|].
  destruct (body_is_decoded_into_the_body_group example.CreateUserRequest
              (example.planOf example.CreateUserRequest) eq_refl)
    as (fields & Hfields & Hhas & _).
  exists fields. split; [exact Hfields|exact Hhas].
Defined.

(** witness of X4: [ListUsersRequest] with two tags in the query *)
Lemma safe_plans_never_panic_witness :
  forallb safeBinding (fieldParsers (example.planOf example.ListUsersRequest))
  = true
  /\ (createTypeSafeHandler (fun _ => Valid) example.User example.accept
        (example.planOf example.ListUsersRequest)
        (example.queryRequest "tags" ["admin"; "premium"]) []).1
     = Ok tt.
Proof.
  split; [reflexivity|].
  apply (safe_plans_never_panic example.ListUsersRequest
           (example.planOf example.ListUsersRequest) (fun _ => Valid)
           example.User example.accept
           (example.queryRequest "tags" ["admin"; "premium"]) []);
    reflexivity.
Defined.

(** witness of X5: [UploadAvatarRequest] on a multipart request without
    parts *)
Lemma empty_request_binds_nothing_witness :
  bindFields example.emptyFormRequest
    (fieldParsers (example.planOf example.UploadAvatarRequest)) ∅
  = Ok ∅.
Proof.
  apply (empty_request_binds_nothing example.UploadAvatarRequest
           (example.planOf example.UploadAvatarRequest)
           example.emptyFormRequest (fun _ => Valid) []).
  - reflexivity.
  - repeat split; intros; reflexivity.
  - intros fp _ _. split; reflexivity.
Defined.

(** witness of X6: a request with the file and whatever caption; the file
    is bound, the caption is not *)
Lemma form_text_fields_keep_their_zero_value_witness :
  exists reqValue,
    bindFields cases.fileRequest
      (fieldParsers (example.planOf cases.CaptionedUploadRequest)) ∅
    = Ok reqValue
    /\ Field_ reqValue (0%nat, Some 0%nat)
       = VFile {| Filename := "me.png"; Size := 3;
                  Header := cases.avatarPart; Content := "PNG" |}
    /\ Field_ reqValue (0%nat, Some 1%nat) = VZero.
Proof.
  eexists. split; [reflexivity|]. split; [reflexivity|].
  apply (form_text_fields_keep_their_zero_value cases.CaptionedUploadRequest
           (example.planOf cases.CaptionedUploadRequest) cases.fileRequest
           1 0 cases.Caption).
  - reflexivity.
  - apply (list_elem_of_lookup_2 _ 1%nat). reflexivity.
  - reflexivity.
  - reflexivity.
Defined.

(** witness of X7: the file part avatar *)
Lemma uploaded_file_is_bound_witness :
  bindField cases.fileRequest (formFieldParser 0 2 example.Avatar) ∅
  = Ok (<[(2%nat, Some 0%nat) :=
           VFile {| Filename := "me.png"; Size := 3;
                    Header := cases.avatarPart; Content := "PNG" |}]> ∅).
Proof.
  exact (uploaded_file_is_bound cases.fileRequest 0 2 example.Avatar ∅
           cases.avatarPart [] eq_refl eq_refl eq_refl).
Defined.

(** witness of X8: [UploadAvatarRequest] on a request that is not
    multipart *)
Lemma file_binding_needs_a_multipart_request_witness :
  createTypeSafeHandler (fun _ => Valid) example.User example.accept
    (example.planOf example.UploadAvatarRequest) example.emptyRequest []
  = (Ok tt,
     [HeaderSet "Content-Type" "application/json"; WriteHeader 400;
      Encode
        (ErrorResponse
           ("form 'avatar': failed to parse multipart form: "
            +:+ "request Content-Type isn't multipart/form-data") [])]).
Proof.
  apply (file_binding_needs_a_multipart_request (fun _ => Valid) example.User
           example.accept (example.planOf example.UploadAvatarRequest)
           example.emptyRequest
           [nestedFieldParser 0 0 "route" example.UserID;
            nestedFieldParser 0 1 "header" example.APIKey]
           [] 0 2 example.Avatar ∅
           (errorString "request Content-Type isn't multipart/form-data")
           []);
    reflexivity.
Defined.

(** witness of X9: a header Accept for a field of type []string *)
Lemma slice_outside_the_query_is_never_bound_witness :
  exists why,
    createTypeSafeHandler (fun _ => Valid) example.User example.accept
      (example.planOf cases.AcceptRequest)
      (example.withHeader "Accept" "text/html" example.emptyRequest) []
    = (Panic why, []).
Proof.
  destruct (slice_outside_the_query_is_never_bound (fun _ => Valid)
              example.User example.accept
              (example.planOf cases.AcceptRequest)
              (example.withHeader "Accept" "text/html" example.emptyRequest)
              [] [] 0 0 "header" cases.Accept example.string_ ∅ [])
    as [_ Hpanic].
  - right. left.
  - reflexivity.
  - discriminate.
  - apply Hpanic; reflexivity.
Defined.

(** witness of X10: 300 in a field of type int8, 256 in one of type
    uint8 *)
Lemma integer_setter_wraps_witness :
  createFieldSetter reflect.Int8 reflect.Int8 "300" = Ok (VInt 44)
  /\ createFieldSetter reflect.Uint8 reflect.Uint8 "256" = Ok (VUint 0).
Proof.
  split.
  - exact (proj1 (proj1 (integer_setter_wraps reflect.Int8 8 "300" 300)
                   eq_refl eq_refl)).
  - refine (proj1 (proj2 (integer_setter_wraps reflect.Uint8 8 "256" 256)
                     eq_refl _ eq_refl)).
    discriminate.
Defined.

End PlanExamples.

Section ReportExamples.

#[local] Existing Instance exampleLib.

(** witness of X12: the path of a field of a body *)
Lemma splitFieldPath_of_joined_names_witness :
  splitFieldPath "CreateUserRequest.Body.Name"
  = ["CreateUserRequest"; "Body"; "Name"].
Proof.
  apply (splitFieldPath_of_joined_names
           ["CreateUserRequest"; "Body"; "Name"]).
  repeat (constructor; [split; [discriminate|split; reflexivity]|]).
  constructor.
Defined.

(** the runes of a path: the names "é" and "€" come back byte for byte,
    the byte 0xFF, which is no UTF-8, comes back as U+FFFD *)
Example splitFieldPath_decodes_runes :
  splitFieldPath (cases.ofBytes [195; 169; 46; 226; 130; 172]%N)
  = [cases.ofBytes [195; 169]%N; cases.ofBytes [226; 130; 172]%N].
Proof. vm_compute. reflexivity. Qed.

Example splitFieldPath_replaces_invalid_bytes :
  splitFieldPath (cases.ofBytes [65; 255; 46; 66]%N)
  = [cases.ofBytes [65; 239; 191; 189]%N; "B"]
  /\ utf8.ValidString (cases.ofBytes [65; 255]%N) = false.
Proof. split; vm_compute; reflexivity. Qed.

(** witness of C5: [UploadAvatarRequest] on a multipart request without
    the avatar part, with a validator that wants the avatar *)
Lemma missing_file_part_is_left_to_validation_witness :
  bindField example.emptyFormRequest (formFieldParser 0 2 example.Avatar) ∅
  = Ok ∅
  /\ exists ves ve,
       createTypeSafeHandler cases.wantsAvatar example.User example.accept
         (example.planOf example.UploadAvatarRequest)
         example.emptyFormRequest []
       = (Ok tt,
          [ValidatorStruct ∅;
           HeaderSet "Content-Type" "application/json";
           WriteHeader 400;
           Encode (ValidationErrorResponse "validation failed" ves)])
       /\ ve ∈ ves
       /\ Field ve = "avatar"
       /\ SourceType ve = "form"
       /\ "failed validation: required" ∈ Errors ve.
Proof.
  destruct (missing_file_part_is_left_to_validation cases.wantsAvatar
              example.User example.accept example.UploadAvatarRequest
              (example.planOf example.UploadAvatarRequest)
              example.emptyFormRequest 0 2 example.Avatar
              example.avatarRequired "UploadAvatarRequest" "Form" "Avatar"
              [] [])
    as [Hparsed _].
  - reflexivity.
  - reflexivity.
  - apply list_elem_of_lookup. exists 2%nat. reflexivity.
  - reflexivity.
  - reflexivity.
  - reflexivity.
  - vm_compute. reflexivity.
  - reflexivity.
  - intros v Hv. exists [example.avatarRequired].
    unfold cases.wantsAvatar.
    change (fieldAddr (formFieldParser 0 2 example.Avatar))
      with (2%nat, Some 0%nat) in Hv.
    rewrite Hv. split; [reflexivity|left].
  - destruct (Hparsed eq_refl) as [Hbind Hrest].
    destruct (Hrest ∅ ∅ eq_refl eq_refl)
      as (_ & ves & ve & _ & Hhandler & Hve & Hfield & Hsource & Hmsg).
    split; [apply Hbind|]. exists ves, ve.
    split; [exact Hhandler|]. split; [exact Hve|].
    split; [exact Hfield|]. split; [exact Hsource|exact Hmsg].
Defined.

(** C5 as stated fails: on a request that is not multipart the avatar
    part is absent, yet the executor reports a binding error for the
    avatar and the validator, which wants the avatar, is not run. *)
Lemma absent_part_of_unparsed_form_is_a_binding_error :
  MultipartForm_File example.emptyRequest "avatar" = []
  /\ createTypeSafeHandler cases.wantsAvatar example.User example.accept
       (example.planOf example.UploadAvatarRequest) example.emptyRequest []
     = (Ok tt,
        [HeaderSet "Content-Type" "application/json"; WriteHeader 400;
         Encode
           (ErrorResponse
              ("form 'avatar': failed to parse multipart form: "
               +:+ "request Content-Type isn't multipart/form-data") [])]).
Proof. split; [reflexivity|vm_compute; reflexivity]. Qed.

(** witness of X13: two violations of [UploadAvatarRequest] *)
Lemma violations_are_grouped_by_origin_witness :
  exists ves,
    formatValidationError
      (ValidationErrors [example.avatarRequired; cases.userRequired])
      (example.planOf example.UploadAvatarRequest)
    = Ok (Some ves)
    /\ length ves = 2%nat
    /\ NoDup ((fun ve => (Field ve, SourceType ve)) <$> ves).
Proof.
  eexists. split; [vm_compute; reflexivity|]. split; [reflexivity|].
  apply (violations_are_grouped_by_origin
           [example.avatarRequired; cases.userRequired]
           (example.planOf example.UploadAvatarRequest)).
  vm_compute. reflexivity.
Defined.

(** witness of X14: the missing avatar is reported at the form field
    avatar *)
Lemma violation_is_reported_at_its_binding_witness :
  distinctNames example.UploadAvatarRequest = true
  /\ origin (example.planOf example.UploadAvatarRequest)
       example.avatarRequired
     = Some ("avatar", "form").
Proof.
  split; [reflexivity|].
  destruct (violation_is_reported_at_its_binding example.UploadAvatarRequest
              (example.planOf example.UploadAvatarRequest)
              example.avatarRequired "UploadAvatarRequest" "Form" "Avatar" [])
    as [Hbound _]; [reflexivity|reflexivity|reflexivity|].
  apply (Hbound (formFieldParser 0 2 example.Avatar)); [|reflexivity].
  apply (list_elem_of_lookup_2 _ 2%nat). reflexivity.
Defined.

End ReportExamples.

Section RegistryExamples.

#[local] Existing Instance exampleLib.

Lemma worldOK_apiWorld : worldOK example.apiWorld.
Proof.
  apply (run_ok [OpFrameworkGroup "/api";
                 OpGroupUse 0 [tracing "A"; tracing "B"]]
           (New (fun _ => Valid)) example.apiWorld
           (worldOK_New _) eq_refl).
Qed.

Lemma worldOK_roomyWorld : worldOK cases.roomyWorld.
Proof.
  apply (run_ok [OpGroupUse 0 [tracing "C"]] example.apiWorld
           cases.roomyWorld worldOK_apiWorld eq_refl).
Qed.

(** witness of X15: a group and an endpoint on a new framework *)
Lemma registry_is_append_only_witness :
  exists w',
    run [OpFrameworkGroup "/api";
         OpRegisterHandlerRoute example.GetUserRequest example.User
           (RGroup 0) "GET" "/users/{id}" example.accept []]
      (New (fun _ => Valid))
    = Ok w'
    /\ exists es hs,
         endpoints w' = [] ++ es
         /\ mux w' = [] ++ hs
         /\ hs.*1 = (fun e => Method e +:+ " " +:+ FullPath e) <$> es
         /\ (fun e => (Method e, RelativePath e)) <$> es
            = [("GET", "/users/{id}")].
Proof.
  eexists. split; [reflexivity|].
  edestruct (registry_is_append_only
               [OpFrameworkGroup "/api";
                OpRegisterHandlerRoute example.GetUserRequest example.User
                  (RGroup 0) "GET" "/users/{id}" example.accept []]
               (New (fun _ => Valid)))
    as (es & hs & He & Hm & Hp & Hr & _); [reflexivity|].
  exists es, hs. auto.
Defined.

(** witness of X16: the group /v1 of the group /api *)
Lemma sub_group_prefixes_concatenate_witness :
  exists w2,
    RegisterHandlerRoute example.GetUserRequest example.User (RGroup 1)
      "GET" "/users/{id}" example.accept []
      (Group_Use 1 [tracing "D"] (Group_Group 0 "/v1" example.apiWorld).2)
    = Ok w2
    /\ (mux w2).*1 = ["GET /api/v1/users/{id}"].
Proof.
  eexists. split; [reflexivity|].
  edestruct (sub_group_prefixes_concatenate example.GetUserRequest
               example.User 0
               {| prefix := "/api";
                  middlewares := {| array := 0; len := 2; cap := 2 |} |}
               "/v1" "GET" "/users/{id}" example.accept []
               [OpGroupUse 1 [tracing "D"]] example.apiWorld)
    as (e & h & _ & _ & Hmux); [reflexivity|reflexivity|reflexivity|].
  exact (f_equal (fmap fst) Hmux).
Defined.

(** witness of X17: two endpoints on the group /api, whose list has a
    free cell; the first endpoint uses X, the second Y *)
Lemma recorded_middleware_list_is_overwritten_witness :
  exists w1 w2 first second,
    RegisterHandlerRoute example.GetUserRequest example.User (RGroup 0)
      "GET" "/users/{id}" example.accept [CallUse [tracing "X"]]
      cases.roomyWorld
    = Ok w1
    /\ RegisterHandlerRoute example.ListUsersRequest example.User (RGroup 0)
         "GET" "/users" example.accept [CallUse [tracing "Y"]] w1
       = Ok w2
    /\ endpoints w2 = [first; second]
    /\ read (arrays w1) (AllMiddlewares first)
       = Some <$> [tracing "A"; tracing "B"; tracing "C"; tracing "X"]
    /\ read (arrays w2) (AllMiddlewares first)
       = Some <$> [tracing "A"; tracing "B"; tracing "C"; tracing "Y"].
Proof.
  destruct (RegisterHandlerRoute_ok example.GetUserRequest example.User
              (RGroup 0) "GET" "/users/{id}" example.accept
              [CallUse [tracing "X"]] cases.roomyWorld
              (example.planOf example.GetUserRequest)
              [tracing "A"; tracing "B"; tracing "C"]
              worldOK_roomyWorld eq_refl eq_refl)
    as (w1 & e1 & Hreg1 & _ & _ & _ & _ & Hmux1 & Hgroups1 & _ & Hok1
        & Hmw1).
  match type of Hreg1 with
  | context [mux_rejects ?registered ?pattern] =>
      replace (mux_rejects registered pattern) with false in Hreg1
        by (vm_compute; reflexivity)
  end.
  destruct (RegisterHandlerRoute_ok example.ListUsersRequest example.User
              (RGroup 0) "GET" "/users" example.accept
              [CallUse [tracing "Y"]] w1
              (example.planOf example.ListUsersRequest)
              [tracing "A"; tracing "B"; tracing "C"]
              Hok1 eq_refl (Hmw1 (RGroup 0)))
    as (w2 & e2 & Hreg2 & _).
  unfold getPrefix in Hreg2. rewrite Hmux1, Hgroups1 in Hreg2.
  match type of Hreg2 with
  | context [mux_rejects ?registered ?pattern] =>
      replace (mux_rejects registered pattern) with false in Hreg2
        by (vm_compute; reflexivity)
  end.
  destruct (recorded_middleware_list_is_overwritten example.GetUserRequest
              example.User example.ListUsersRequest example.User 0
              "GET" "/users/{id}" "GET" "/users" example.accept
              example.accept (tracing "X") (tracing "Y") cases.roomyWorld
              w1 w2
              {| prefix := "/api";
                 middlewares := {| array := 1; len := 3; cap := 4 |} |}
              worldOK_roomyWorld eq_refl)
    as (first & second & _ & Hends & Hfirst & Hthen & _);
    [simpl; lia|exact Hreg1|exact Hreg2|].
  exists w1, w2, first, second.
  split; [exact Hreg1|]. split; [exact Hreg2|].
  split; [exact Hends|]. split; [exact Hfirst|exact Hthen].
Defined.

(** witness of X18: GET on the path /users/{id} of a new framework *)
Lemma helpers_register_their_method_witness :
  exists w' e fh,
    handler.GET example.GetUserRequest example.User RFramework "/users/{id}"
      example.accept (Some []) (New (fun _ => Valid))
    = Ok w'
    /\ endpoints w' = [e] /\ Method e = "GET"
    /\ mux w' = [("GET /users/{id}", fh)].
Proof.
  eexists.
  epose proof (helpers_register_their_method example.GetUserRequest
                 example.User RFramework "/users/{id}" example.accept
                 (Some []) (New (fun _ => Valid)) _ "GET") as Hhelper.
  destruct Hhelper as (e & fh & Hends & Hmethod & Hmux);
    [left; split; reflexivity|].
  exists e, fh. split; [reflexivity|].
  split; [exact Hends|]. split; [exact Hmethod|exact Hmux].
Defined.

(** witness of X19: GET on the group /api, with a summary set twice and
    a middleware of its own *)
Lemma helper_endpoints_run_router_then_option_middleware_witness :
  exists w' e h,
    handler.GET example.GetUserRequest example.User (RGroup 0) "/users/{id}"
      example.accept
      (Some [handler.SetSummary "Get a user"; handler.Use [tracing "C"];
             handler.SetTags ["users"];
             handler.SetSummary "Get user by ID"])
      example.apiWorld
    = Ok w'
    /\ endpoints w' = [e]
    /\ Summary e = "Get user by ID"
    /\ Tags e = ["users"]
    /\ mux w' = [("GET /api/users/{id}", h)]
    /\ h example.emptyRequest []
       = (Ok tt,
          [Note "enter A"; Note "enter B"; Note "enter C";
           ValidatorStruct ∅; HandlerCall ∅;
           HeaderSet "Content-Type" "application/json";
           WriteHeader 200; Encode (Response DNil);
           Note "exit C"; Note "exit B"; Note "exit A"]).
Proof.
  destruct (configureAndRegister_ok example.GetUserRequest example.User
              (RGroup 0) "GET" "/users/{id}" example.accept
              [handler.SetSummary "Get a user"; handler.Use [tracing "C"];
               handler.SetTags ["users"];
               handler.SetSummary "Get user by ID"]
              example.apiWorld (example.planOf example.GetUserRequest)
              [tracing "A"; tracing "B"] worldOK_apiWorld eq_refl eq_refl)
    as [w' Hreg].
  match type of Hreg with
  | context [mux_rejects ?a ?b] =>
      replace (mux_rejects a b) with false in Hreg by (vm_compute; reflexivity)
  end.
  destruct (helper_endpoints_run_router_then_option_middleware
              example.GetUserRequest example.User (RGroup 0) "GET"
              "/users/{id}" example.accept
              [handler.SetSummary "Get a user"; handler.Use [tracing "C"];
               handler.SetTags ["users"];
               handler.SetSummary "Get user by ID"]
              example.apiWorld w'
              (example.planOf example.GetUserRequest)
              [tracing "A"; tracing "B"] worldOK_apiWorld eq_refl eq_refl
              Hreg)
    as ((e & Hends & Hsummary & _ & Htags & _) & Hmux & _).
  exists w', e. eexists. split; [exact Hreg|].
  split; [exact Hends|]. split; [exact Hsummary|]. split; [exact Htags|].
  split; [exact Hmux|]. reflexivity.
Defined.

End RegistryExamples.

Section SchemaExamples.

#[local] Existing Instance exampleLib.

(** witness of X23: the tagged [GetUserRequest] *)
Lemma parameters_mirror_the_field_tags_witness :
  exists op,
    openapi.generateOperation
      (cases.endpointOf "GET" "/users/{id}" example.TaggedGetUserRequest
         example.User)
    = Ok op
    /\ (fun p => (openapi.In p, openapi.Name p, openapi.Required_ p))
         <$> openapi.Parameters op
       = [("path", "id", true); ("header", "X-API-Key", true)].
Proof.
  eexists. split; [reflexivity|].
  rewrite (parameters_mirror_the_field_tags
             (cases.endpointOf "GET" "/users/{id}"
                example.TaggedGetUserRequest example.User)
             _ _ eq_refl eq_refl).
  reflexivity.
Defined.

(** witness of X24: the tagged [UploadAvatarRequest] *)
Lemma form_fields_replace_the_json_body_witness :
  exists op body schema,
    openapi.generateOperation
      (cases.endpointOf "POST" "/users/{id}/avatar"
         cases.TaggedUploadAvatarRequest example.User)
    = Ok op
    /\ openapi.RequestBody_ op = Some body
    /\ openapi.rb_Content body = [("multipart/form-data", schema)]
    /\ openapi.Required schema = ["avatar"].
Proof.
  eexists.
  edestruct (form_fields_replace_the_json_body
               (cases.endpointOf "POST" "/users/{id}/avatar"
                  cases.TaggedUploadAvatarRequest example.User)
               _ _ eq_refl eq_refl)
    as (body & schema & Hbody & _ & Hcontent & _ & _ & Hrequired & _).
  - do 2 apply Exists_cons_tl. apply Exists_cons_hd. discriminate.
  - exists body, schema. split; [reflexivity|].
    split; [exact Hbody|]. split; [exact Hcontent|exact Hrequired].
Defined.

(** witness of X25: the tagged [UpdateUserRequest] *)
Lemma json_body_is_the_last_body_field_witness :
  exists op body,
    openapi.generateOperation
      (cases.endpointOf "PUT" "/users/{id}" cases.TaggedUpdateUserRequest
         example.User)
    = Ok op
    /\ openapi.RequestBody_ op = Some body
    /\ openapi.rb_Required body = true
    /\ (fun kv => (kv.1, openapi.Type_ kv.2))
         <$> concat (openapi.Properties <$> (openapi.rb_Content body).*2)
       = [("name", "string"); ("email", "string"); ("age", "integer")].
Proof.
  eexists. eexists. split; [reflexivity|].
  rewrite (json_body_is_the_last_body_field
             (cases.endpointOf "PUT" "/users/{id}"
                cases.TaggedUpdateUserRequest example.User)
             _ _ eq_refl eq_refl)
    by (repeat constructor).
  split; [reflexivity|]. split; reflexivity.
Defined.

(** witness of X26: [GetUserRequest] of the example application *)
Lemma untagged_fields_are_not_documented_witness :
  exists op,
    openapi.generateOperation
      (cases.endpointOf "GET" "/users/{id}" example.GetUserRequest
         example.User)
    = Ok op
    /\ length (fieldParsers (example.planOf example.GetUserRequest)) = 3%nat
    /\ openapi.Parameters op = []
    /\ openapi.RequestBody_ op = None.
Proof.
  eexists. split; [reflexivity|]. split; [reflexivity|].
  apply (untagged_fields_are_not_documented
           (cases.endpointOf "GET" "/users/{id}" example.GetUserRequest
              example.User)
           _ _ eq_refl eq_refl).
  repeat constructor.
Defined.

End SchemaExamples.
